(** * FunctionFS (f_fs.c): descriptor parser, ep0 state machine, event queue
      and endpoint I/O, embedded from
      [drivers/usb/gadget/function/f_fs.c].

    Conventions of the embedding.
    - C functions returning [int]/[ssize_t] return [Z] here: a negative
      value is [-errno], exactly as in the source.
    - [struct ffs_data] is a record; a C function mutating [*ffs] takes the
      record and returns the new one next to its return value.
    - Buffers coming from user space are [list byte]; the C pair
      [(data, len)] is the remaining suffix of the list ([len] is its
      length).  Buffers reach the parsers through [ffs_prepare_buffer]
      (a [kmalloc]), so lengths stay far below [2^31] and the
      [unsigned]/[int] conversions of lengths are exact.
    - What the kernel (scheduler, UDC driver, allocator, other tasks) decides
      is an explicit environment argument of the call. *)

From Stdlib Require Import List ZArith NArith Lia Bool Strings.Byte.
Import ListNotations.

Local Open Scope Z_scope.

(** ** Error numbers

    Modelled from the spec: the errno names the source returns; their values
    live in [include/uapi/asm-generic/errno.h], [errno-base.h] and [include/linux/errno.h],
    which are not part of the sources at hand (asm-generic values below). *)
Module Errno.
Definition ESRCH : Z := 3.
Definition EINTR : Z := 4.
Definition EIO : Z := 5.
Definition EAGAIN : Z := 11.
Definition ENOMEM : Z := 12.
Definition EFAULT : Z := 14.
Definition ENODEV : Z := 19.
Definition EINVAL : Z := 22.
Definition ENOSYS : Z := 38.
Definition EIDRM : Z := 43.
Definition EL2HLT : Z := 51.
Definition EBADMSG : Z := 74.
Definition EOVERFLOW : Z := 75.
Definition EBADFD : Z := 77.
Definition ESHUTDOWN : Z := 108.
Definition ERESTARTSYS : Z := 512.
Definition EIOCBQUEUED : Z := 529.
End Errno.
Import Errno.

(** ** Events and the setup sub-state *)

(** [enum usb_functionfs_event_type] (uapi/linux/usb/functionfs.h). *)
Inductive usb_functionfs_event_type : Type :=
| FUNCTIONFS_BIND
| FUNCTIONFS_UNBIND
| FUNCTIONFS_ENABLE
| FUNCTIONFS_DISABLE
| FUNCTIONFS_SETUP
| FUNCTIONFS_SUSPEND
| FUNCTIONFS_RESUME.

Definition event_type_eqb (a b : usb_functionfs_event_type) : bool :=
  match a, b with
  | FUNCTIONFS_BIND, FUNCTIONFS_BIND
  | FUNCTIONFS_UNBIND, FUNCTIONFS_UNBIND
  | FUNCTIONFS_ENABLE, FUNCTIONFS_ENABLE
  | FUNCTIONFS_DISABLE, FUNCTIONFS_DISABLE
  | FUNCTIONFS_SETUP, FUNCTIONFS_SETUP
  | FUNCTIONFS_SUSPEND, FUNCTIONFS_SUSPEND
  | FUNCTIONFS_RESUME, FUNCTIONFS_RESUME => true
  | _, _ => false
  end.

(** [enum ffs_state] and [enum ffs_setup_state] (u_fs.h). *)
Inductive ffs_state : Type :=
| FFS_READ_DESCRIPTORS
| FFS_READ_STRINGS
| FFS_ACTIVE
| FFS_DEACTIVATED
| FFS_CLOSING.

Inductive ffs_setup_state : Type :=
| FFS_NO_SETUP
| FFS_SETUP_PENDING
| FFS_SETUP_CANCELLED.

(** [struct usb_ctrlrequest]; the 16-bit fields hold the CPU-order value
    ([le16_to_cpu] already applied). *)
Record usb_ctrlrequest : Type := mk_ctrlrequest {
  bRequestType : N;
  bRequest : N;
  wValue : N;
  wIndex : N;
  wLength : N
}.

Definition USB_DIR_IN : N := 0x80.

(** One language table built by [__ffs_data_got_strings]:
    the language id and the strings kept for it. *)
Definition stringtab : Type := (N * list (list byte))%type.

(** The member [ev] of [struct ffs_data] (u_fs.h): the array [types[4]],
    [count], [can_stall] and the cached [setup] packet. *)
Record ffs_ev : Type := mk_ffs_ev {
  types : list usb_functionfs_event_type;
  count : nat;
  can_stall : bool;
  setup : usb_ctrlrequest
}.

(** [struct ffs_data] (u_fs.h), the fields the modelled functions touch.
    [eps_addrmap] is the array [eps_addrmap[]] as a list of its cells. *)
Record ffs_data : Type := mk_ffs_data {
  state : ffs_state;
  setup_state : ffs_setup_state;
  ev : ffs_ev;
  user_flags : N;
  ffs_eventfd : option Z;
  raw_descs_data : option (list byte);
  raw_descs : list byte;
  raw_descs_length : N;
  fs_descs_count : N;
  hs_descs_count : N;
  ss_descs_count : N;
  ms_os_descs_count : N;
  ms_os_descs_ext_prop_count : N;
  ms_os_descs_ext_prop_name_len : N;
  ms_os_descs_ext_prop_data_len : N;
  strings_count : N;
  interfaces_count : N;
  eps_count : N;
  eps_addrmap : list N;
  stringtabs : option (list stringtab);
  raw_strings : option (list byte)
}.

Definition set_state (s : ffs_state) (f : ffs_data) : ffs_data :=
  mk_ffs_data s (setup_state f) (ev f) (user_flags f) (ffs_eventfd f)
    (raw_descs_data f) (raw_descs f) (raw_descs_length f) (fs_descs_count f)
    (hs_descs_count f) (ss_descs_count f) (ms_os_descs_count f)
    (ms_os_descs_ext_prop_count f) (ms_os_descs_ext_prop_name_len f)
    (ms_os_descs_ext_prop_data_len f) (strings_count f) (interfaces_count f)
    (eps_count f) (eps_addrmap f) (stringtabs f) (raw_strings f).

Definition set_setup_state (s : ffs_setup_state) (f : ffs_data) : ffs_data :=
  mk_ffs_data (state f) s (ev f) (user_flags f) (ffs_eventfd f)
    (raw_descs_data f) (raw_descs f) (raw_descs_length f) (fs_descs_count f)
    (hs_descs_count f) (ss_descs_count f) (ms_os_descs_count f)
    (ms_os_descs_ext_prop_count f) (ms_os_descs_ext_prop_name_len f)
    (ms_os_descs_ext_prop_data_len f) (strings_count f) (interfaces_count f)
    (eps_count f) (eps_addrmap f) (stringtabs f) (raw_strings f).

Definition set_ev (e : ffs_ev) (f : ffs_data) : ffs_data :=
  mk_ffs_data (state f) (setup_state f) e (user_flags f) (ffs_eventfd f)
    (raw_descs_data f) (raw_descs f) (raw_descs_length f) (fs_descs_count f)
    (hs_descs_count f) (ss_descs_count f) (ms_os_descs_count f)
    (ms_os_descs_ext_prop_count f) (ms_os_descs_ext_prop_name_len f)
    (ms_os_descs_ext_prop_data_len f) (strings_count f) (interfaces_count f)
    (eps_count f) (eps_addrmap f) (stringtabs f) (raw_strings f).

(** [ffs->ev.setup = c]. *)
Definition set_ev_setup (c : usb_ctrlrequest) (f : ffs_data) : ffs_data :=
  set_ev (mk_ffs_ev (types (ev f)) (count (ev f)) (can_stall (ev f)) c) f.

(** [ffs_data_new]: a [kzalloc]ed object ([FUNCTIONFS_BIND] is the enum's
    zero), state [FFS_READ_DESCRIPTORS], [ev.can_stall = 1]. *)
Definition zero_ctrlrequest : usb_ctrlrequest := mk_ctrlrequest 0 0 0 0 0.

Definition ffs_data_new : ffs_data :=
  mk_ffs_data FFS_READ_DESCRIPTORS FFS_NO_SETUP
    (mk_ffs_ev (repeat FUNCTIONFS_BIND 4) 0 true zero_ctrlrequest)
    0%N None None [] 0%N 0%N 0%N 0%N 0%N 0%N 0%N 0%N 0%N 0%N 0%N
    (repeat 0%N 15) None None.

(** [ffs_setup_state_clear_cancelled]:
    [cmpxchg(&ffs->setup_state, FFS_SETUP_CANCELLED, FFS_NO_SETUP)];
    returns the old value. *)
Definition ffs_setup_state_clear_cancelled (f : ffs_data)
  : ffs_setup_state * ffs_data :=
  match setup_state f with
  | FFS_SETUP_CANCELLED => (FFS_SETUP_CANCELLED, set_setup_state FFS_NO_SETUP f)
  | s => (s, f)
  end.

(** *** [__ffs_event_add] *)

(** [a[i] = v] on an array held as a list.  A store past the end is not
    modelled (in C it would overwrite the neighbouring member); the results
    below show that the modelled functions never perform one. *)
Fixpoint array_set {A : Type} (a : list A) (i : nat) (v : A) : list A :=
  match a, i with
  | [], _ => []
  | _ :: t, O => v :: t
  | h :: t, S i' => h :: array_set t i' v
  end.

(** The [switch (type)]: [(rem_type1, rem_type2, neg)].  The [default:]
    branch (unknown event, warn and return) has no counterpart: the type
    has the seven enumerators only. *)
Definition event_rem_types (type : usb_functionfs_event_type)
  : usb_functionfs_event_type * usb_functionfs_event_type * bool :=
  match type with
  | FUNCTIONFS_RESUME => (FUNCTIONFS_RESUME, FUNCTIONFS_SUSPEND, false)
  | FUNCTIONFS_SUSPEND => (FUNCTIONFS_SUSPEND, FUNCTIONFS_SUSPEND, false)
  | FUNCTIONFS_SETUP => (FUNCTIONFS_SETUP, FUNCTIONFS_SETUP, false)
  | FUNCTIONFS_BIND
  | FUNCTIONFS_UNBIND
  | FUNCTIONFS_DISABLE
  | FUNCTIONFS_ENABLE => (FUNCTIONFS_SUSPEND, FUNCTIONFS_RESUME, true)
  end.

(** The test of the compaction loop: the entry [e] is copied when
    [(e == rem_type1 || e == rem_type2) == neg]. *)
Definition event_kept (rem_type1 rem_type2 : usb_functionfs_event_type)
    (neg : bool) (e : usb_functionfs_event_type) : bool :=
  Bool.eqb (event_type_eqb e rem_type1 || event_type_eqb e rem_type2) neg.

(** The compaction loop of [__ffs_event_add] over the array ([n] entries
    left to visit): [ev] and [out] are the read and write cursors as
    indices; returns the array and the final [out]. *)
Fixpoint event_purge (n : nat) (keep : usb_functionfs_event_type -> bool)
    (a : list usb_functionfs_event_type) (ev out : nat)
  : list usb_functionfs_event_type * nat :=
  match n with
  | O => (a, out)
  | S n' =>
      let e := nth ev a FUNCTIONFS_BIND in
      if keep e then event_purge n' keep (array_set a out e) (S ev) (S out)
      else event_purge n' keep a (S ev) out
  end.

Definition __ffs_event_add (f : ffs_data) (type : usb_functionfs_event_type)
  : ffs_data :=
  let f1 := match setup_state f with
            | FFS_SETUP_PENDING => set_setup_state FFS_SETUP_CANCELLED f
            | _ => f
            end in
  let '(rem_type1, rem_type2, neg) := event_rem_types type in
  let '(a, out) :=
    event_purge (count (ev f1)) (event_kept rem_type1 rem_type2 neg)
      (types (ev f1)) 0 0 in
  (* ffs->ev.types[ffs->ev.count++] = type; *)
  set_ev (mk_ffs_ev (array_set a out type) (S out) (can_stall (ev f1))
            (setup (ev f1))) f1.

(** The queue proper: [ev.types[0 .. ev.count)]. *)
Definition ev_queue (f : ffs_data) : list usb_functionfs_event_type :=
  firstn (count (ev f)) (types (ev f)).

(** [ffs_event_add] is [__ffs_event_add] under the queue lock. *)
Definition ffs_event_add := __ffs_event_add.

(** What the function driver delivers while a caller has dropped the queue
    lock: lifecycle/power events ([ffs_event_add]) and setup packets (the
    locked tail of [ffs_func_setup]: store the packet, add
    [FUNCTIONFS_SETUP]). *)
Inductive delivery : Type :=
| Deliver_event (type : usb_functionfs_event_type)
| Deliver_setup (creq : usb_ctrlrequest).

Definition deliver (f : ffs_data) (d : delivery) : ffs_data :=
  match d with
  | Deliver_event type => ffs_event_add f type
  | Deliver_setup creq => __ffs_event_add (set_ev_setup creq f) FUNCTIONFS_SETUP
  end.

Definition deliver_all (f : ffs_data) (ds : list delivery) : ffs_data :=
  fold_left deliver ds f.

Definition set_user_flags (v : N) (f : ffs_data) : ffs_data :=
  mk_ffs_data (state f) (setup_state f) (ev f) v (ffs_eventfd f)
    (raw_descs_data f) (raw_descs f) (raw_descs_length f) (fs_descs_count f)
    (hs_descs_count f) (ss_descs_count f) (ms_os_descs_count f)
    (ms_os_descs_ext_prop_count f) (ms_os_descs_ext_prop_name_len f)
    (ms_os_descs_ext_prop_data_len f) (strings_count f) (interfaces_count f)
    (eps_count f) (eps_addrmap f) (stringtabs f) (raw_strings f).

Definition set_ffs_eventfd (v : option Z) (f : ffs_data) : ffs_data :=
  mk_ffs_data (state f) (setup_state f) (ev f) (user_flags f) v
    (raw_descs_data f) (raw_descs f) (raw_descs_length f) (fs_descs_count f)
    (hs_descs_count f) (ss_descs_count f) (ms_os_descs_count f)
    (ms_os_descs_ext_prop_count f) (ms_os_descs_ext_prop_name_len f)
    (ms_os_descs_ext_prop_data_len f) (strings_count f) (interfaces_count f)
    (eps_count f) (eps_addrmap f) (stringtabs f) (raw_strings f).

Definition set_strings_count (v : N) (f : ffs_data) : ffs_data :=
  mk_ffs_data (state f) (setup_state f) (ev f) (user_flags f) (ffs_eventfd f)
    (raw_descs_data f) (raw_descs f) (raw_descs_length f) (fs_descs_count f)
    (hs_descs_count f) (ss_descs_count f) (ms_os_descs_count f)
    (ms_os_descs_ext_prop_count f) (ms_os_descs_ext_prop_name_len f)
    (ms_os_descs_ext_prop_data_len f) v (interfaces_count f) (eps_count f)
    (eps_addrmap f) (stringtabs f) (raw_strings f).

(** [ffs->eps_count = e; ffs->interfaces_count = i;] *)
Definition set_counts (e i : N) (f : ffs_data) : ffs_data :=
  mk_ffs_data (state f) (setup_state f) (ev f) (user_flags f) (ffs_eventfd f)
    (raw_descs_data f) (raw_descs f) (raw_descs_length f) (fs_descs_count f)
    (hs_descs_count f) (ss_descs_count f) (ms_os_descs_count f)
    (ms_os_descs_ext_prop_count f) (ms_os_descs_ext_prop_name_len f)
    (ms_os_descs_ext_prop_data_len f) (strings_count f) i e (eps_addrmap f)
    (stringtabs f) (raw_strings f).

Definition set_eps_addrmap (m : list N) (f : ffs_data) : ffs_data :=
  mk_ffs_data (state f) (setup_state f) (ev f) (user_flags f) (ffs_eventfd f)
    (raw_descs_data f) (raw_descs f) (raw_descs_length f) (fs_descs_count f)
    (hs_descs_count f) (ss_descs_count f) (ms_os_descs_count f)
    (ms_os_descs_ext_prop_count f) (ms_os_descs_ext_prop_name_len f)
    (ms_os_descs_ext_prop_data_len f) (strings_count f) (interfaces_count f)
    (eps_count f) m (stringtabs f) (raw_strings f).

(** [++ffs->ms_os_descs_ext_prop_count; ..._name_len += n; ..._data_len += d]
    on [unsigned] fields. *)
Definition add_ext_prop (n d : N) (f : ffs_data) : ffs_data :=
  mk_ffs_data (state f) (setup_state f) (ev f) (user_flags f) (ffs_eventfd f)
    (raw_descs_data f) (raw_descs f) (raw_descs_length f) (fs_descs_count f)
    (hs_descs_count f) (ss_descs_count f) (ms_os_descs_count f)
    ((ms_os_descs_ext_prop_count f + 1) mod 2 ^ 32)%N
    ((ms_os_descs_ext_prop_name_len f + n) mod 2 ^ 32)%N
    ((ms_os_descs_ext_prop_data_len f + d) mod 2 ^ 32)%N (strings_count f)
    (interfaces_count f) (eps_count f) (eps_addrmap f) (stringtabs f)
    (raw_strings f).

(** The assignments at the end of a successful [__ffs_data_got_descs]. *)
Definition set_raw_descs (_data raw : list byte) (rlen c0 c1 c2 os : N)
    (f : ffs_data) : ffs_data :=
  mk_ffs_data (state f) (setup_state f) (ev f) (user_flags f) (ffs_eventfd f)
    (Some _data) raw rlen c0 c1 c2 os (ms_os_descs_ext_prop_count f)
    (ms_os_descs_ext_prop_name_len f) (ms_os_descs_ext_prop_data_len f)
    (strings_count f) (interfaces_count f) (eps_count f) (eps_addrmap f)
    (stringtabs f) (raw_strings f).

(** The assignments at the end of a successful [__ffs_data_got_strings]. *)
Definition set_strings (tabs : list stringtab) (_data : list byte)
    (f : ffs_data) : ffs_data :=
  mk_ffs_data (state f) (setup_state f) (ev f) (user_flags f) (ffs_eventfd f)
    (raw_descs_data f) (raw_descs f) (raw_descs_length f) (fs_descs_count f)
    (hs_descs_count f) (ss_descs_count f) (ms_os_descs_count f)
    (ms_os_descs_ext_prop_count f) (ms_os_descs_ext_prop_name_len f)
    (ms_os_descs_ext_prop_data_len f) (strings_count f) (interfaces_count f)
    (eps_count f) (eps_addrmap f) (Some tabs) (Some _data).

(** ** Byte buffers *)

Definition u8 (b : byte) : N := Byte.to_N b.

(** [((u8 * )data)[off]]; the callers check the length first. *)
Definition byte_at (data : list byte) (off : nat) : N :=
  u8 (nth off data x00).

Definition get_unaligned_le16 (data : list byte) : N :=
  (byte_at data 0 + 2 ^ 8 * byte_at data 1)%N.

Definition get_unaligned_le32 (data : list byte) : N :=
  (byte_at data 0 + 2 ^ 8 * byte_at data 1 + 2 ^ 16 * byte_at data 2
   + 2 ^ 24 * byte_at data 3)%N.

(** [len] of the pair [(data, len)]. *)
Definition blen (data : list byte) : N := N.of_nat (length data).

(** [data += n; len -= n]. *)
Definition advance (n : N) (data : list byte) : list byte :=
  skipn (N.to_nat n) data.

Definition array_get (a : list N) (i : nat) : N := nth i a 0%N.

(** ** Descriptor constants

    Modelled from the spec: descriptor type codes and descriptor sizes of
    [include/uapi/linux/usb/ch9.h], [include/linux/hid.h] and the blob
    magics and flags of [include/uapi/linux/usb/functionfs.h]; the headers
    are not among the sources, the values are those of the USB
    specification and of the FunctionFS user ABI. *)
Module Ch9.
Local Open Scope N_scope.
Definition USB_DT_DEVICE := 0x01.
Definition USB_DT_CONFIG := 0x02.
Definition USB_DT_STRING := 0x03.
Definition USB_DT_INTERFACE := 0x04.
Definition USB_DT_ENDPOINT := 0x05.
Definition USB_DT_DEVICE_QUALIFIER := 0x06.
Definition USB_DT_OTHER_SPEED_CONFIG := 0x07.
Definition USB_DT_INTERFACE_POWER := 0x08.
Definition USB_DT_OTG := 0x09.
Definition USB_DT_DEBUG := 0x0a.
Definition USB_DT_INTERFACE_ASSOCIATION := 0x0b.
Definition USB_DT_SECURITY := 0x0c.
Definition USB_DT_CS_RADIO_CONTROL := 0x23.
Definition USB_DT_SS_ENDPOINT_COMP := 0x30.
Definition HID_DT_HID := 0x21.

Definition USB_DT_INTERFACE_SIZE := 9.
Definition USB_DT_ENDPOINT_SIZE := 7.
Definition USB_DT_ENDPOINT_AUDIO_SIZE := 9.
Definition sizeof_hid_descriptor := 9.
Definition sizeof_usb_otg_descriptor := 3.
Definition sizeof_usb_interface_assoc_descriptor := 8.
Definition sizeof_usb_ss_ep_comp_descriptor := 6.

Definition USB_ENDPOINT_NUMBER_MASK := 0x0f.

Definition FUNCTIONFS_DESCRIPTORS_MAGIC := 1.
Definition FUNCTIONFS_STRINGS_MAGIC := 2.
Definition FUNCTIONFS_DESCRIPTORS_MAGIC_V2 := 3.

Definition FUNCTIONFS_HAS_FS_DESC := 1.
Definition FUNCTIONFS_HAS_HS_DESC := 2.
Definition FUNCTIONFS_HAS_SS_DESC := 4.
Definition FUNCTIONFS_HAS_MS_OS_DESC := 8.
Definition FUNCTIONFS_VIRTUAL_ADDR := 16.
Definition FUNCTIONFS_EVENTFD := 32.

(** [struct usb_os_desc_header], [usb_ext_compat_desc],
    [usb_ext_prop_desc] are packed: 11, 24 and 10 bytes. *)
Definition sizeof_usb_os_desc_header := 11.
Definition sizeof_usb_ext_compat_desc := 24.
Definition sizeof_usb_ext_prop_desc := 10.
Definition USB_EXT_PROP_UNICODE := 1.
Definition USB_EXT_PROP_UNICODE_MULTI := 7.
End Ch9.
Import Ch9.

(** ** Descriptor walk *)

Inductive ffs_entity_type : Type :=
| FFS_DESCRIPTOR
| FFS_INTERFACE
| FFS_STRING
| FFS_ENDPOINT.

Inductive ffs_os_desc_type : Type :=
| FFS_OS_DESC
| FFS_OS_DESC_EXT_COMPAT
| FFS_OS_DESC_EXT_PROP.

(** [ffs_entity_callback]: [entity(type, valuep, desc, priv)].  The value
    behind [valuep] is passed by value (the parser's callback only reads
    it); [priv] is threaded. *)
Definition ffs_entity_callback (P : Type) : Type :=
  ffs_entity_type -> N -> list byte -> P -> Z * P.

(** [ffs_os_desc_callback]: [entity(type, h, data, len, priv)]; [h] is the
    buffer starting at the feature descriptor's header. *)
Definition ffs_os_desc_callback (P : Type) : Type :=
  ffs_os_desc_type -> list byte -> list byte -> P -> Z * P.

Section DescriptorWalk.
Context {P : Type}.
Variable entity : ffs_entity_callback P.

(** The macro [__entity(type, val)] followed by the rest [k] of the
    case: reject when [__entity_check_type(val)] is zero, call the
    callback, return its negative result. *)
Definition __entity (check : N -> bool) (type : ffs_entity_type) (val : N)
    (_ds : list byte) (priv : P) (k : P -> Z * P) : Z * P :=
  if negb (check val) then (- EINVAL, priv)
  else
    let '(ret, priv1) := entity type val _ds priv in
    if ret <? 0 then (ret, priv1) else k priv1.

Definition __entity_check_INTERFACE (val : N) : bool := true.
Definition __entity_check_STRING (val : N) : bool := negb (val =? 0)%N.
Definition __entity_check_ENDPOINT (val : N) : bool :=
  negb (N.land val USB_ENDPOINT_NUMBER_MASK =? 0)%N.

Definition ffs_do_single_desc (data : list byte) (priv : P) : Z * P :=
  let len := blen data in
  if (len <? 2)%N then (- EINVAL, priv)
  else
    let length := byte_at data 0 in
    if (len <? length)%N then (- EINVAL, priv)
    else
      let done := fun p : P => (Z.of_N length, p) in
      let inv_length := (- EINVAL, priv) in
      let bDescriptorType := byte_at data 1 in
      if (bDescriptorType =? USB_DT_DEVICE)%N
         || (bDescriptorType =? USB_DT_CONFIG)%N
         || (bDescriptorType =? USB_DT_STRING)%N
         || (bDescriptorType =? USB_DT_DEVICE_QUALIFIER)%N
      then (- EINVAL, priv)
      else if (bDescriptorType =? USB_DT_INTERFACE)%N then
        if negb (length =? USB_DT_INTERFACE_SIZE)%N then inv_length
        else
          __entity __entity_check_INTERFACE FFS_INTERFACE (byte_at data 2)
            data priv (fun p =>
          if negb (byte_at data 8 =? 0)%N then
            __entity __entity_check_STRING FFS_STRING (byte_at data 8)
              data p done
          else done p)
      else if (bDescriptorType =? USB_DT_ENDPOINT)%N then
        if negb (length =? USB_DT_ENDPOINT_SIZE)%N
           && negb (length =? USB_DT_ENDPOINT_AUDIO_SIZE)%N
        then inv_length
        else
          __entity __entity_check_ENDPOINT FFS_ENDPOINT (byte_at data 2)
            data priv done
      else if (bDescriptorType =? HID_DT_HID)%N then
        if negb (length =? sizeof_hid_descriptor)%N then inv_length
        else done priv
      else if (bDescriptorType =? USB_DT_OTG)%N then
        if negb (length =? sizeof_usb_otg_descriptor)%N then inv_length
        else done priv
      else if (bDescriptorType =? USB_DT_INTERFACE_ASSOCIATION)%N then
        if negb (length =? sizeof_usb_interface_assoc_descriptor)%N
        then inv_length
        else if negb (byte_at data 7 =? 0)%N then
          __entity __entity_check_STRING FFS_STRING (byte_at data 7)
            data priv done
        else done priv
      else if (bDescriptorType =? USB_DT_SS_ENDPOINT_COMP)%N then
        if negb (length =? sizeof_usb_ss_ep_comp_descriptor)%N
        then inv_length
        else done priv
      else
        (* USB_DT_OTHER_SPEED_CONFIG, USB_DT_INTERFACE_POWER, USB_DT_DEBUG,
           USB_DT_SECURITY, USB_DT_CS_RADIO_CONTROL and default *)
        (- EINVAL, priv).

(** [ffs_do_descs]: the [for (;;)] loop.  [consumed] is [_len - len].
    Every accepted descriptor is at least three bytes long, so the loop
    runs at most [length data] times before [ffs_do_single_desc] rejects
    an exhausted buffer; [fuel] only makes that recursion structural
    ([ffs_do_descs_fuel_enough] below). *)
Fixpoint ffs_do_descs_loop (fuel : nat) (count num : N) (data : list byte)
    (consumed : N) (priv : P) : Z * P :=
  match fuel with
  | O => (- EINVAL, priv)
  | S fuel' =>
      let at_end := (num =? count)%N in
      let '(ret, priv1) :=
        entity FFS_DESCRIPTOR num (if at_end then [] else data) priv in
      if ret <? 0 then (ret, priv1)
      else if at_end then (Z.of_N consumed, priv1)
      else
        let '(ret, priv2) := ffs_do_single_desc data priv1 in
        if ret <? 0 then (ret, priv2)
        else
          ffs_do_descs_loop fuel' count (num + 1)%N
            (advance (Z.to_N ret) data) (consumed + Z.to_N ret)%N priv2
  end.

Definition ffs_do_descs (count : N) (data : list byte) (priv : P) : Z * P :=
  ffs_do_descs_loop (S (length data)) count 0%N data 0%N priv.
End DescriptorWalk.

(** [struct ffs_desc_helper]; its [ffs] pointer is the [ffs_data] threaded
    next to it. *)
Record ffs_desc_helper : Type := mk_helper {
  helper_interfaces_count : N;
  helper_eps_count : N
}.

Definition __ffs_data_do_entity : ffs_entity_callback (ffs_desc_helper * ffs_data) :=
  fun type valuep desc priv =>
    let '(helper, ffs) := priv in
    match type with
    | FFS_DESCRIPTOR => (0, priv)
    | FFS_INTERFACE =>
        if (helper_interfaces_count helper <=? valuep)%N
        then (0, (mk_helper (valuep + 1)%N (helper_eps_count helper), ffs))
        else (0, priv)
    | FFS_STRING =>
        if (strings_count ffs <? valuep)%N
        then (0, (helper, set_strings_count valuep ffs))
        else (0, priv)
    | FFS_ENDPOINT =>
        let eps := ((helper_eps_count helper + 1) mod 2 ^ 32)%N in
        let helper1 := mk_helper (helper_interfaces_count helper) eps in
        let bEndpointAddress := byte_at desc 2 in
        if (15 <=? eps)%N then (- EINVAL, (helper1, ffs))
        else if (eps_count ffs =? 0)%N && (interfaces_count ffs =? 0)%N then
          (0, (helper1,
               set_eps_addrmap
                 (array_set (eps_addrmap ffs) (N.to_nat eps) bEndpointAddress)
                 ffs))
        else if negb (array_get (eps_addrmap ffs) (N.to_nat eps)
                      =? bEndpointAddress)%N
        then (- EINVAL, (helper1, ffs))
        else (0, (helper1, ffs))
    end.

(** *** OS descriptors *)

(** [__ffs_do_os_desc_header]: [(ret, next_type)]. *)
Definition __ffs_do_os_desc_header (desc : list byte)
  : Z * ffs_os_desc_type :=
  let bcd_version := get_unaligned_le16 (advance 5 desc) in
  let w_index := get_unaligned_le16 (advance 7 desc) in
  if negb (bcd_version =? 1)%N then (- EINVAL, FFS_OS_DESC)
  else if (w_index =? 4)%N
       then (Z.of_N sizeof_usb_os_desc_header, FFS_OS_DESC_EXT_COMPAT)
  else if (w_index =? 5)%N
       then (Z.of_N sizeof_usb_os_desc_header, FFS_OS_DESC_EXT_PROP)
  else (- EINVAL, FFS_OS_DESC).

Section OsDescriptorWalk.
Context {P : Type}.
Variable entity : ffs_os_desc_callback P.

(** [ffs_do_single_os_desc]: [while (feature_count--)]. *)
Fixpoint ffs_do_single_os_desc_loop (feature_count : nat)
    (data : list byte) (consumed : N) (type : ffs_os_desc_type)
    (h : list byte) (priv : P) : Z * P :=
  match feature_count with
  | O => (Z.of_N consumed, priv)
  | S n =>
      let '(ret, priv1) := entity type h data priv in
      if ret <? 0 then (ret, priv1)
      else
        ffs_do_single_os_desc_loop n (advance (Z.to_N ret) data)
          (consumed + Z.to_N ret)%N type h priv1
  end.

Definition ffs_do_single_os_desc (data : list byte)
    (type : ffs_os_desc_type) (feature_count : N) (h : list byte)
    (priv : P) : Z * P :=
  ffs_do_single_os_desc_loop (N.to_nat feature_count) data 0%N type h priv.

(** [ffs_do_os_descs]: [for (num = 0; num < count; ++num)]; each round
    needs an eleven-byte header, so it runs at most [length data] times
    and [fuel] is never exhausted. *)
Fixpoint ffs_do_os_descs_loop (fuel : nat) (count num : N)
    (data : list byte) (consumed : N) (priv : P) : Z * P :=
  match fuel with
  | O => (- EINVAL, priv)
  | S fuel' =>
      if negb (num <? count)%N then (Z.of_N consumed, priv)
      else
        let desc := data in
        if (blen data <? sizeof_usb_os_desc_header)%N then (- EINVAL, priv)
        else if (blen data <? get_unaligned_le32 (advance 1 desc))%N
        then (- EINVAL, priv)
        else
          let '(ret, type) := __ffs_do_os_desc_header desc in
          if ret <? 0 then (ret, priv)
          else
            let feature_count := get_unaligned_le16 (advance 9 desc) in
            if match type with FFS_OS_DESC_EXT_COMPAT => true | _ => false end
               && ((255 <? feature_count)%N
                   || negb (byte_at desc 10 =? 0)%N)
            then (- EINVAL, priv)
            else
              let data1 := advance (Z.to_N ret) data in
              let '(ret1, priv1) :=
                ffs_do_single_os_desc data1 type feature_count desc priv in
              if ret1 <? 0 then (ret1, priv1)
              else
                ffs_do_os_descs_loop fuel' count (num + 1)%N
                  (advance (Z.to_N ret1) data1)
                  (consumed + Z.to_N ret + Z.to_N ret1)%N priv1
  end.

Definition ffs_do_os_descs (count : N) (data : list byte) (priv : P)
  : Z * P :=
  ffs_do_os_descs_loop (S (length data)) count 0%N data 0%N priv.
End OsDescriptorWalk.

(** [d->Reserved2[0..5]] of [struct usb_ext_compat_desc] (offsets 18-23). *)
Definition ext_compat_reserved2 (data : list byte) : list N :=
  map (byte_at data) [18; 19; 20; 21; 22; 23]%nat.

Definition __ffs_data_do_os_desc : ffs_os_desc_callback ffs_data :=
  fun type h data ffs =>
    let len := blen data in
    match type with
    | FFS_OS_DESC_EXT_COMPAT =>
        if (len <? sizeof_usb_ext_compat_desc)%N
           || (interfaces_count ffs <=? byte_at data 0)%N
           || negb (byte_at data 1 =? 1)%N
        then (- EINVAL, ffs)
        else if existsb (fun r => negb (r =? 0)%N) (ext_compat_reserved2 data)
        then (- EINVAL, ffs)
        else (Z.of_N sizeof_usb_ext_compat_desc, ffs)
    | FFS_OS_DESC_EXT_PROP =>
        if (len <? sizeof_usb_ext_prop_desc)%N
           || (interfaces_count ffs <=? byte_at h 0)%N
        then (- EINVAL, ffs)
        else
          (* [u8 length = le32_to_cpu(d->dwSize)] *)
          let length := (get_unaligned_le32 data mod 2 ^ 8)%N in
          if (len <? length)%N then (- EINVAL, ffs)
          else
            let type := get_unaligned_le32 (advance 4 data) in
            if (type <? USB_EXT_PROP_UNICODE)%N
               || (USB_EXT_PROP_UNICODE_MULTI <? type)%N
            then (- EINVAL, ffs)
            else
              let pnl := get_unaligned_le16 (advance 8 data) in
              if (length <? 14 + pnl)%N then (- EINVAL, ffs)
              else
                let pdl := get_unaligned_le32 (advance (10 + pnl) data) in
                if negb (length =? (14 + pnl + pdl) mod 2 ^ 32)%N
                then (- EINVAL, ffs)
                else (Z.of_N length, add_ext_prop (pnl * 2) pdl ffs)
    | FFS_OS_DESC => (- EINVAL, ffs)
    end.

(** *** [__ffs_data_got_descs] *)

(** [(int)] of a 32-bit value. *)
Definition to_int (v : N) : Z :=
  if (v <? 2 ^ 31)%N then Z.of_N v else Z.of_N v - 2 ^ 32.

(** The loop reading [fs_count], [hs_count], [ss_count]: for the tier bits
    [bits] of [flags], [(ok, counts, data)]. *)
Fixpoint read_counts (flags : N) (bits : list N) (data : list byte)
  : bool * list N * list byte :=
  match bits with
  | [] => (true, [], data)
  | b :: bits' =>
      if (N.land flags b =? 0)%N then
        let '(ok, cs, d) := read_counts flags bits' data in (ok, 0%N :: cs, d)
      else if (blen data <? 4)%N then (false, [], data)
      else
        let '(ok, cs, d) := read_counts flags bits' (advance 4 data) in
        (ok, get_unaligned_le32 data :: cs, d)
  end.

(** The loop "Read descriptors" over [counts[0..2]]:
    [(ret, data, ffs)], [ret < 0] on the [goto error] paths. *)
Fixpoint read_descs (counts : list N) (data : list byte) (ffs : ffs_data)
  : Z * list byte * ffs_data :=
  match counts with
  | [] => (0, data, ffs)
  | c :: counts' =>
      if (c =? 0)%N then read_descs counts' data ffs
      else
        let '(ret, (helper, ffs1)) :=
          ffs_do_descs __ffs_data_do_entity c data (mk_helper 0 0, ffs) in
        if ret <? 0 then (ret, data, ffs1)
        else if (eps_count ffs1 =? 0)%N && (interfaces_count ffs1 =? 0)%N then
          read_descs counts' (advance (Z.to_N ret) data)
            (set_counts (helper_eps_count helper)
               (helper_interfaces_count helper) ffs1)
        else if negb (eps_count ffs1 =? helper_eps_count helper)%N
        then (- EINVAL, data, ffs1)
        else if negb (interfaces_count ffs1 =? helper_interfaces_count helper)%N
        then (- EINVAL, data, ffs1)
        else read_descs counts' (advance (Z.to_N ret) data) ffs1
  end.

Definition descs_flags_mask : N :=
  N.lor FUNCTIONFS_HAS_FS_DESC
    (N.lor FUNCTIONFS_HAS_HS_DESC
       (N.lor FUNCTIONFS_HAS_SS_DESC
          (N.lor FUNCTIONFS_HAS_MS_OS_DESC
             (N.lor FUNCTIONFS_VIRTUAL_ADDR FUNCTIONFS_EVENTFD)))).

(** Everything after the magic [switch]: [data] is the buffer past the
    header. *)
Definition got_descs_body (eventfd_ctx_fdget : Z -> Z) (ffs : ffs_data)
    (_data : list byte) (flags : N) (data : list byte) : Z * ffs_data :=
  (* if (flags & FUNCTIONFS_EVENTFD) *)
  let '(ret0, data, ffs) :=
    if negb (N.land flags FUNCTIONFS_EVENTFD =? 0)%N then
      if (blen data <? 4)%N then (- EINVAL, data, ffs)
      else
        let ctx := eventfd_ctx_fdget (to_int (get_unaligned_le32 data)) in
        if ctx <? 0 then (ctx, data, set_ffs_eventfd None ffs)
        else (0, advance 4 data, set_ffs_eventfd (Some ctx) ffs)
    else (0, data, ffs) in
  if ret0 <? 0 then (ret0, ffs)
  else
    let '(ok, counts, data) :=
      read_counts flags
        [FUNCTIONFS_HAS_FS_DESC; FUNCTIONFS_HAS_HS_DESC; FUNCTIONFS_HAS_SS_DESC]
        data in
    if negb ok then (- EINVAL, ffs)
    else
      let has_os := negb (N.land flags FUNCTIONFS_HAS_MS_OS_DESC =? 0)%N in
      if has_os && (blen data <? 4)%N then (- EINVAL, ffs)
      else
        let os_descs_count := if has_os then get_unaligned_le32 data else 0%N in
        let data := if has_os then advance 4 data else data in
        let raw_descs := data in
        let '(ret, data, ffs) := read_descs counts data ffs in
        if ret <? 0 then (ret, ffs)
        else
          let '(ret, data, ffs) :=
            if negb (os_descs_count =? 0)%N then
              let '(r, ffs1) :=
                ffs_do_os_descs __ffs_data_do_os_desc os_descs_count data ffs in
              if r <? 0 then (r, data, ffs1)
              else (r, advance (Z.to_N r) data, ffs1)
            else (ret, data, ffs) in
          if ret <? 0 then (ret, ffs)
          else if (length raw_descs =? length data)%nat
                  || negb (blen data =? 0)%N
          then (- EINVAL, ffs)
          else
            (0, set_raw_descs _data raw_descs
                  (blen raw_descs - blen data)%N
                  (nth 0 counts 0%N) (nth 1 counts 0%N) (nth 2 counts 0%N)
                  os_descs_count ffs).

(** [__ffs_data_got_descs(ffs, _data, len)] with [len = length _data];
    [eventfd_ctx_fdget] is the kernel's lookup of an eventfd context
    (negative: [IS_ERR]).  On every error path the buffer is freed and the
    negative [ret] returned; the record returned is [*ffs] as the call left
    it. *)
Definition __ffs_data_got_descs (eventfd_ctx_fdget : Z -> Z) (ffs : ffs_data)
    (_data : list byte) : Z * ffs_data :=
  let len := blen _data in
  if negb (get_unaligned_le32 (advance 4 _data) =? len)%N then (- EINVAL, ffs)
  else
    let magic := get_unaligned_le32 _data in
    if (magic =? FUNCTIONFS_DESCRIPTORS_MAGIC)%N then
      got_descs_body eventfd_ctx_fdget ffs _data
        (N.lor FUNCTIONFS_HAS_FS_DESC FUNCTIONFS_HAS_HS_DESC)
        (advance 8 _data)
    else if (magic =? FUNCTIONFS_DESCRIPTORS_MAGIC_V2)%N then
      let flags := get_unaligned_le32 (advance 8 _data) in
      let ffs1 := set_user_flags flags ffs in
      if negb (N.ldiff flags descs_flags_mask =? 0)%N then (- ENOSYS, ffs1)
      else got_descs_body eventfd_ctx_fdget ffs1 _data flags (advance 12 _data)
    else (- EINVAL, ffs).

(** *** [__ffs_data_got_strings] *)

(** [strnlen(data, len)]. *)
Fixpoint strnlen (data : list byte) : nat :=
  match data with
  | [] => O
  | b :: t => if (u8 b =? 0)%N then O else S (strnlen t)
  end.

(** The inner [do { ... } while (--str_count)] over the strings of one
    language; [str_count] is a [u32].  Result:
    [Some (str_count, data, kept strings)] or [None] for [goto error_free].
    Each round consumes at least one byte, so at most [length data] rounds
    run before [strnlen] hits the end of the buffer. *)
Fixpoint strings_loop (fuel : nat) (str_count needed : N) (data : list byte)
    (kept : list (list byte)) : option (N * list byte * list (list byte)) :=
  match fuel with
  | O => None
  | S fuel' =>
      let length := strnlen data in
      if (length =? List.length data)%nat then None
      else
        let kept1 :=
          if negb (needed =? 0)%N then kept ++ [firstn length data] else kept in
        let needed1 := if negb (needed =? 0)%N then (needed - 1)%N else needed in
        let data1 := skipn (S length) data in
        let str_count1 := ((str_count + (2 ^ 32 - 1)) mod 2 ^ 32)%N in
        if (str_count1 =? 0)%N then Some (str_count1, data1, kept1)
        else strings_loop fuel' str_count1 needed1 data1 kept1
  end.

(** The outer [do { ... } while (--lang_count)]. *)
Fixpoint langs_loop (fuel : nat) (lang_count str_count needed_count : N)
    (data : list byte) (tabs : list stringtab)
  : option (list byte * list stringtab) :=
  match fuel with
  | O => None
  | S fuel' =>
      if (blen data <? 3)%N then None
      else
        let language := get_unaligned_le16 data in
        let data1 := advance 2 data in
        match strings_loop (S (List.length data1)) str_count needed_count
                data1 [] with
        | None => None
        | Some (str_count1, data2, kept) =>
            let tabs1 := tabs ++ [(language, kept)] in
            let lang_count1 := ((lang_count + (2 ^ 32 - 1)) mod 2 ^ 32)%N in
            if (lang_count1 =? 0)%N then Some (data2, tabs1)
            else langs_loop fuel' lang_count1 str_count1 needed_count data2
                   tabs1
        end
  end.

(** [__ffs_data_got_strings(ffs, _data, len)]; [vla_alloc_ok] tells whether
    the [kmalloc] of the string tables succeeds. *)
Definition __ffs_data_got_strings (vla_alloc_ok : bool) (ffs : ffs_data)
    (_data : list byte) : Z * ffs_data :=
  let len := blen _data in
  if (len <? 16)%N
     || negb (get_unaligned_le32 _data =? FUNCTIONFS_STRINGS_MAGIC)%N
     || negb (get_unaligned_le32 (advance 4 _data) =? len)%N
  then (- EINVAL, ffs)
  else
    let str_count := get_unaligned_le32 (advance 8 _data) in
    let lang_count := get_unaligned_le32 (advance 12 _data) in
    if negb (Bool.eqb (str_count =? 0)%N (lang_count =? 0)%N)
    then (- EINVAL, ffs)
    else
      let needed_count := strings_count ffs in
      if (str_count <? needed_count)%N then (- EINVAL, ffs)
      else if (needed_count =? 0)%N then (0, ffs)
      else if negb vla_alloc_ok then (- ENOMEM, ffs)
      else
        let data := advance 16 _data in
        match langs_loop (S (length data)) lang_count str_count needed_count
                data [] with
        | None => (- EINVAL, ffs)
        | Some (data1, tabs) =>
            if negb (blen data1 =? 0)%N then (- EINVAL, ffs)
            else (0, set_strings tabs _data ffs)
        end.

(** ** The control file (ep0) *)

(** What a call on ep0 does to the outside: UDC requests on [gadget->ep0]
    and copies to the caller. *)
Inductive ep0_action : Type :=
| Usb_ep_queue (length : N) (zero : bool)
| Usb_ep_dequeue
| Usb_ep_set_halt
| Copy_events (events : list (usb_functionfs_event_type * option usb_ctrlrequest))
| Copy_to_user (len : N).

(** How a sleep on [ffs->ev.waitq] for [ffs->ev.count] ends: a signal, or
    events delivered by the function driver. *)
Inductive ev_wait : Type :=
| Ev_interrupted
| Ev_delivered (d : delivery) (ds : list delivery).

(** The kernel's side of one ep0 call. *)
Record ep0_env : Type := mk_ep0_env {
  inst_exist : bool;               (* ffs_inst_exist_check() == 0 *)
  mutex_trylock_ok : bool;         (* mutex_trylock(&ffs->mutex) *)
  mutex_lock_interrupted : bool;   (* mutex_lock_interruptible() == -EINTR *)
  kmalloc_ok : bool;
  copy_from_user_ok : bool;
  copy_to_user_ok : bool;
  eventfd_ctx_fdget : Z -> Z;
  vla_alloc_ok : bool;
  ffs_epfiles_create_ret : Z;
  ffs_ready_ret : Z;
  delivered_unlocked : list delivery; (* while the queue lock is dropped to
                                         prepare the buffer *)
  usb_ep_queue_ret : Z;
  delivered_waiting : list delivery;  (* while waiting for ep0req_completion *)
  completion_interrupted : bool;
  req_status : Z;
  req_actual : N;
  ev_waitq : ev_wait
}.

Definition ffs_inst_exist_check (env : ep0_env) : Z :=
  if inst_exist env then 0 else - ENODEV.

Definition ffs_mutex_lock (env : ep0_env) (nonblock : bool) : Z :=
  if nonblock then (if mutex_trylock_ok env then 0 else - EAGAIN)
  else (if mutex_lock_interrupted env then - EINTR else 0).

(** [ffs_prepare_buffer(buf, len)]: [0] (the buffer, or [NULL] for
    [len == 0]) or the [PTR_ERR]. *)
Definition ffs_prepare_buffer (env : ep0_env) (len : N) : Z :=
  if (len =? 0)%N then 0
  else if negb (kmalloc_ok env) then - ENOMEM
  else if negb (copy_from_user_ok env) then - EFAULT
  else 0.

(** Result of an ep0 call: return value, [*ffs] afterwards, actions in
    program order. *)
Definition ep0_result : Type := (Z * ffs_data * list ep0_action)%type.

Definition __ffs_ep0_queue_wait (env : ep0_env) (ffs : ffs_data) (len : N)
  : ep0_result :=
  let queue := Usb_ep_queue len (len <? wLength (setup (ev ffs)))%N in
  if usb_ep_queue_ret env <? 0 then (usb_ep_queue_ret env, ffs, [queue])
  else
    let ffs1 := deliver_all ffs (delivered_waiting env) in
    if completion_interrupted env
    then (- EINTR, ffs1, [queue; Usb_ep_dequeue])
    else
      (if req_status env =? 0 then Z.of_N (req_actual env) else req_status env,
       set_setup_state FFS_NO_SETUP ffs1, [queue]).

Definition __ffs_ep0_stall (ffs : ffs_data) : ep0_result :=
  if can_stall (ev ffs)
  then (- EL2HLT, set_setup_state FFS_NO_SETUP ffs, [Usb_ep_set_halt])
  else (- ESRCH, ffs, []).

Definition ffs_ep0_write (env : ep0_env) (ffs : ffs_data) (nonblock : bool)
    (buf : list byte) : ep0_result :=
  let len := blen buf in
  if ffs_inst_exist_check env <? 0 then (ffs_inst_exist_check env, ffs, [])
  else
    (* Fast check if setup was canceled *)
    match ffs_setup_state_clear_cancelled ffs with
    | (FFS_SETUP_CANCELLED, ffs1) => (- EIDRM, ffs1, [])
    | (_, ffs1) =>
        if ffs_mutex_lock env nonblock <? 0
        then (ffs_mutex_lock env nonblock, ffs1, [])
        else
          match state ffs1 with
          | FFS_READ_DESCRIPTORS | FFS_READ_STRINGS =>
              if (len <? 16)%N then (- EINVAL, ffs1, [])
              else if ffs_prepare_buffer env len <? 0
              then (ffs_prepare_buffer env len, ffs1, [])
              else
                match state ffs1 with
                | FFS_READ_DESCRIPTORS =>
                    let '(ret, ffs2) :=
                      __ffs_data_got_descs (eventfd_ctx_fdget env) ffs1 buf in
                    if ret <? 0 then (ret, ffs2, [])
                    else (Z.of_N len, set_state FFS_READ_STRINGS ffs2, [])
                | _ =>
                    let '(ret, ffs2) :=
                      __ffs_data_got_strings (vla_alloc_ok env) ffs1 buf in
                    if ret <? 0 then (ret, ffs2, [])
                    else if negb (ffs_epfiles_create_ret env =? 0)
                    then (ffs_epfiles_create_ret env,
                          set_state FFS_CLOSING ffs2, [])
                    else if ffs_ready_ret env <? 0
                    then (ffs_ready_ret env, set_state FFS_CLOSING ffs2, [])
                    else (Z.of_N len, set_state FFS_ACTIVE ffs2, [])
                end
          | FFS_ACTIVE =>
              match ffs_setup_state_clear_cancelled ffs1 with
              | (FFS_SETUP_CANCELLED, ffs2) => (- EIDRM, ffs2, [])
              | (FFS_NO_SETUP, ffs2) => (- ESRCH, ffs2, [])
              | (FFS_SETUP_PENDING, ffs2) =>
                  if (N.land (bRequestType (setup (ev ffs2))) USB_DIR_IN =? 0)%N
                  then __ffs_ep0_stall ffs2
                  else
                    let len := N.min len (wLength (setup (ev ffs2))) in
                    if ffs_prepare_buffer env len <? 0
                    then (ffs_prepare_buffer env len, ffs2, [])
                    else
                      let ffs3 := deliver_all ffs2 (delivered_unlocked env) in
                      match ffs_setup_state_clear_cancelled ffs3 with
                      | (FFS_SETUP_CANCELLED, ffs4) => (- EIDRM, ffs4, [])
                      | (_, ffs4) => __ffs_ep0_queue_wait env ffs4 len
                      end
              end
          | _ => (- EBADFD, ffs1, [])
          end
    end.

(** [ffs->ev.count]. *)
Definition blen_events (ffs : ffs_data) : N := N.of_nat (count (ev ffs)).

(** [sizeof(struct usb_functionfs_event)] (packed: 8 + 1 + 3). *)
Definition sizeof_usb_functionfs_event : N := 12.

(** [__ffs_ep0_read_events(ffs, buf, n)], [0 < n <= ev.count]: the first
    [n] types are copied out (a setup event with the cached packet, and it
    makes the setup pending), then [count -= n] and the [memmove] of the
    remaining [count] entries to the front. *)
Definition __ffs_ep0_read_events (env : ep0_env) (ffs : ffs_data) (n : N)
  : ep0_result :=
  let n := N.to_nat n in
  let taken := firstn n (types (ev ffs)) in
  let events :=
    map (fun t =>
           (t, match t with
               | FUNCTIONFS_SETUP => Some (setup (ev ffs))
               | _ => None
               end)) taken in
  let ffs1 :=
    if existsb (event_type_eqb FUNCTIONFS_SETUP) taken
    then set_setup_state FFS_SETUP_PENDING ffs else ffs in
  let count1 := (count (ev ffs1) - n)%nat in
  let types1 :=
    firstn count1 (skipn n (types (ev ffs1))) ++ skipn count1 (types (ev ffs1)) in
  let ffs2 :=
    set_ev (mk_ffs_ev types1 count1 (can_stall (ev ffs1)) (setup (ev ffs1)))
      ffs1 in
  let size := (N.of_nat n * sizeof_usb_functionfs_event)%N in
  if copy_to_user_ok env then (Z.of_N size, ffs2, [Copy_events events])
  else (- EFAULT, ffs2, []).

Definition ffs_ep0_read (env : ep0_env) (ffs : ffs_data) (nonblock : bool)
    (len : N) : ep0_result :=
  if ffs_inst_exist_check env <? 0 then (ffs_inst_exist_check env, ffs, [])
  else
    (* Fast check if setup was canceled *)
    match ffs_setup_state_clear_cancelled ffs with
    | (FFS_SETUP_CANCELLED, ffs1) => (- EIDRM, ffs1, [])
    | (_, ffs1) =>
        if ffs_mutex_lock env nonblock <? 0
        then (ffs_mutex_lock env nonblock, ffs1, [])
        else
          match state ffs1 with
          | FFS_ACTIVE =>
              match ffs_setup_state_clear_cancelled ffs1 with
              | (FFS_SETUP_CANCELLED, ffs2) => (- EIDRM, ffs2, [])
              | (FFS_NO_SETUP, ffs2) =>
                  let n := (len / sizeof_usb_functionfs_event)%N in
                  if (n =? 0)%N then (- EINVAL, ffs2, [])
                  else if nonblock && (blen_events ffs2 =? 0)%N
                  then (- EAGAIN, ffs2, [])
                  else if negb (blen_events ffs2 =? 0)%N
                  then __ffs_ep0_read_events env ffs2
                         (N.min n (blen_events ffs2))
                  else
                    match ev_waitq env with
                    | Ev_interrupted => (- EINTR, ffs2, [])
                    | Ev_delivered d ds =>
                        let ffs3 := deliver_all ffs2 (d :: ds) in
                        __ffs_ep0_read_events env ffs3
                          (N.min n (blen_events ffs3))
                    end
              | (FFS_SETUP_PENDING, ffs2) =>
                  if negb (N.land (bRequestType (setup (ev ffs2))) USB_DIR_IN
                           =? 0)%N
                  then __ffs_ep0_stall ffs2
                  else
                    let len := N.min len (wLength (setup (ev ffs2))) in
                    if negb (len =? 0)%N && negb (kmalloc_ok env)
                    then (- ENOMEM, ffs2, [])
                    else
                      let ffs3 := deliver_all ffs2 (delivered_unlocked env) in
                      match ffs_setup_state_clear_cancelled ffs3 with
                      | (FFS_SETUP_CANCELLED, ffs4) => (- EIDRM, ffs4, [])
                      | (_, ffs4) =>
                          let '(ret, ffs5, acts) :=
                            __ffs_ep0_queue_wait env ffs4 len in
                          if 0 <? ret then
                            if copy_to_user_ok env
                            then (ret, ffs5, acts ++ [Copy_to_user len])
                            else (- EFAULT, ffs5, acts)
                          else (ret, ffs5, acts)
                      end
              end
          | _ => (- EBADFD, ffs1, [])
          end
    end.

(** ** Endpoint files *)

Module Epfile.

(** [struct ffs_epfile]: the fields [ffs_epfile_io] reads.  [ep] is the
    pointer [epfile->ep] ([None] is [NULL]; a number names the
    [struct ffs_ep] it points to). *)
Record ffs_epfile : Type := mk_epfile {
  error : bool;     (* atomic_read(&epfile->error) != 0 *)
  ep : option N;
  in_ : bool;       (* epfile->in *)
  isoc : bool       (* epfile->isoc *)
}.

(** What the call and the completion callback share besides the epfile:
    the global [first_read_done] and [ep->is_busy]. *)
Record io_state : Type := mk_io_state {
  epfile : ffs_epfile;
  first_read_done : bool;
  is_busy : bool
}.

(** [struct ffs_io_data] and [file->f_flags & O_NONBLOCK];
    [count] is [iov_iter_count(&io_data->data)]. *)
Record io_call : Type := mk_io_call {
  nonblock : bool;
  read : bool;
  aio : bool;
  count : N
}.

(** One evaluation of the wait condition [(ep = epfile->ep)] of
    [wait_event_interruptible(epfile->wait, ...)]: the epfile as it is at
    that moment and whether a signal is pending. *)
Record wake : Type := mk_wake {
  wk_epfile : ffs_epfile;
  wk_signal : bool
}.

(** The kernel's side of one pass from the label [retry] to a return or
    to [goto retry]. *)
Record io_env : Type := mk_io_env {
  ffs_active : bool;               (* epfile->ffs->state == FFS_ACTIVE *)
  error_at_wait : bool;            (* second atomic_read(&epfile->error) *)
  wakeups : list wake;
  ep_usb_present : bool;           (* ep->ep != NULL *)
  ep_at_alloc : option N;          (* epfile->ep under eps_lock, 1st time *)
  usb_ep_align_maybe : N -> N;
  kmalloc_ok : bool;
  copy_from_iter_ok : bool;        (* copied == data_len *)
  mutex_trylock_ok : bool;
  mutex_lock_interrupted : bool;
  ep_at_fire : option N;           (* epfile->ep under eps_lock, 2nd time *)
  alloc_request_ok : bool;
  usb_ep_queue_ret : Z;
  completion_interrupted : bool;
  ep_at_complete : option N;       (* epfile->ep after the wait *)
  ep_status : Z;                   (* ep->status set by the completion *)
  copy_to_iter : N -> N -> N       (* bytes -> iov_iter_count -> copied *)
}.

Inductive io_action : Type :=
| Sleep_on_epfile_wait
| Usb_ep_set_halt
| Usb_ep_queue (length : N)
| Usb_ep_dequeue
| Copy_to_iter (bytes : N).

(** A call either returns or is still asleep (or still retrying) when the
    script of the environment ends. *)
Inductive io_outcome : Type :=
| Io_return (ret : Z)
| Io_blocked.

Definition io_result : Type := (io_outcome * io_state * list io_action)%type.

(** Modelled from the spec: the macro [wait_event_interruptible(wq, cond)]
    of [include/linux/wait.h], which is not among the sources.  As the
    concurrency section has it, a blocking wait is interruptible and
    re-validates the condition it waits for after waking: the condition,
    here [(ep = epfile->ep)] as written at the call site, is evaluated at
    entry and after every wake-up; the wait ends with [0] when it holds and
    with [-ERESTARTSYS] when it does not and a signal is pending.  Result:
    [None] while asleep at the end of [wakeups]. *)
Fixpoint wait_event_interruptible (wakeups : list wake)
  : option (Z * ffs_epfile) :=
  match wakeups with
  | [] => None
  | w :: rest =>
      match ep (wk_epfile w) with
      | Some _ => Some (0, wk_epfile w)
      | None =>
          if wk_signal w then Some (- ERESTARTSYS, wk_epfile w)
          else wait_event_interruptible rest
      end
  end.

(** The endpoint file as the last evaluation of the wait condition found
    it: what [*epfile] holds while the call is still asleep at the end of
    [wakeups]; [e] when the condition was never evaluated. *)
Definition last_seen (wakeups : list wake) (e : ffs_epfile) : ffs_epfile :=
  wk_epfile (last wakeups (mk_wake e false)).

Definition ffs_mutex_lock (env : io_env) (nonblock : bool) : Z :=
  if nonblock then (if mutex_trylock_ok env then 0 else - EAGAIN)
  else (if mutex_lock_interrupted env then - EINTR else 0).

Definition set_epfile (e : ffs_epfile) (st : io_state) : io_state :=
  mk_io_state e (first_read_done st) (is_busy st).

Definition set_error (b : bool) (st : io_state) : io_state :=
  mk_io_state (mk_epfile b (ep (epfile st)) (in_ (epfile st))
                 (isoc (epfile st)))
    (first_read_done st) (is_busy st).

Definition option_N_eqb (a b : option N) : bool :=
  match a, b with
  | Some x, Some y => (x =? y)%N
  | None, None => true
  | _, _ => false
  end.

(** The part of [ffs_epfile_io] below "Do we halt?", with [ep] the
    non-NULL handle the call holds.  [inr] is [goto retry]: the state
    ([epfile->error] cleared, [epfile->ep] as last seen under the lock)
    and the actions so far.  The sanity check [data_len == -EINVAL]
    cannot fire once [halt] is false and is left out. *)
Definition ffs_epfile_io_fire (env : io_env) (st : io_state)
    (call : io_call) (ep0 : N) (acts : list io_action)
  : io_result + (io_state * list io_action) :=
  let halt := Bool.eqb (negb (read call)) (negb (in_ (epfile st))) in
  if halt && isoc (epfile st) then inl (Io_return (- EINVAL), st, acts)
  else
    (* Allocate & copy *)
    let data_len :=
      if read call then usb_ep_align_maybe env (count call)
      else count call in
    if negb halt && negb (option_N_eqb (ep_at_alloc env) (Some ep0))
    then inl (Io_return (- ESHUTDOWN), st, acts)
    else if negb halt && negb (kmalloc_ok env)
    then inl (Io_return (- ENOMEM), st, acts)
    else if negb halt && negb (read call) && negb (copy_from_iter_ok env)
    then inl (Io_return (- EFAULT), st, acts)
    (* We will be using request *)
    else if negb (ffs_mutex_lock env (nonblock call) =? 0)
    then inl (Io_return (ffs_mutex_lock env (nonblock call)), st, acts)
    else if negb (option_N_eqb (ep_at_fire env) (Some ep0))
    then inl (Io_return (- ESHUTDOWN), st, acts)
    else if halt then
      inl (Io_return (- EBADMSG), st,
           acts ++ (if ep_usb_present env then [Usb_ep_set_halt] else []))
    else if aio call then
      if negb (alloc_request_ok env)
      then inl (Io_return 0, st, acts)   (* ret of ffs_mutex_lock *)
      else if negb (usb_ep_queue_ret env =? 0)
      then inl (Io_return (usb_ep_queue_ret env), st,
                acts ++ [Usb_ep_queue data_len])
      else inl (Io_return (- EIOCBQUEUED), st,
                acts ++ [Usb_ep_queue data_len])
    else
      (* Don't queue another read request if previous is still busy. *)
      let queued := negb (read call && is_busy st) in
      let ret := if queued then usb_ep_queue_ret env else 0 in
      let acts1 := if queued then acts ++ [Usb_ep_queue data_len] else acts in
      let st1 := mk_io_state (epfile st) (first_read_done st)
                   (if queued then true else is_busy st) in
      if ret <? 0 then
        inl (Io_return (- EIO),
             mk_io_state (epfile st) (first_read_done st) false, acts1)
      else if completion_interrupted env then
        inl (Io_return (- EINTR), st1,
             acts1 ++ (if option_N_eqb (ep_at_complete env) (Some ep0)
                       then [Usb_ep_dequeue] else []))
      else
        let same := option_N_eqb (ep_at_complete env) (Some ep0) in
        let ret := if same then ep_status env else - ENODEV in
        let frd := if same && (0 <=? ret) then true
                   else first_read_done st in
        let st2 := mk_io_state (epfile st) frd false in
        (* do wait again if func eps are not enabled *)
        if read call && negb frd && (ret <? 0)
        then inr (set_epfile
                    (mk_epfile false (ep_at_complete env)
                       (in_ (epfile st)) (isoc (epfile st))) st2, acts1)
        else if read call && (0 <? ret) then
          if Z.of_N data_len <? ret
          then inl (Io_return (- EOVERFLOW), st2, acts1)
          else
            let copied := copy_to_iter env (Z.to_N ret) (count call) in
            if (copied =? 0)%N
            then inl (Io_return (- EFAULT), st2, acts1)
            else inl (Io_return (Z.of_N copied), st2,
                      acts1 ++ [Copy_to_iter copied])
        else inl (Io_return ret, st2, acts1).

(** One pass from [retry:] on. *)
Definition ffs_epfile_io_pass (env : io_env) (st : io_state)
    (call : io_call) : io_result + (io_state * list io_action) :=
  if error (epfile st) then inl (Io_return (- ENODEV), st, [])
  (* Are we still active? *)
  else if negb (ffs_active env) then inl (Io_return (- ENODEV), st, [])
  else
    (* Wait for endpoint to be enabled *)
    match ep (epfile st) with
    | Some ep0 => ffs_epfile_io_fire env st call ep0 []
    | None =>
        if nonblock call then inl (Io_return (- EAGAIN), st, [])
        (* Don't wait on write if device is offline *)
        else if negb (read call) then inl (Io_return (- EINTR), st, [])
        else if negb (error_at_wait env) then
          match wait_event_interruptible (wakeups env) with
          | None =>
              inl (Io_blocked,
                   set_epfile (last_seen (wakeups env) (epfile st)) st,
                   [Sleep_on_epfile_wait])
          | Some (ret, e) =>
              let st1 := set_epfile e st in
              if ret <? 0
              then inl (Io_return ret, st1, [Sleep_on_epfile_wait])
              else
                match ep e with
                | Some ep0 =>
                    ffs_epfile_io_fire env st1 call ep0
                      [Sleep_on_epfile_wait]
                | None =>
                    inl (Io_return (- ENODEV), st1, [Sleep_on_epfile_wait])
                end
          end
        else inl (Io_return (- ENODEV), set_error true st, [])
    end.

(** [ffs_epfile_io]: [envs] scripts the passes, one entry per pass
    through [retry:]. *)
Fixpoint ffs_epfile_io_retry (envs : list io_env) (st : io_state)
    (call : io_call) (acts : list io_action) : io_result :=
  match envs with
  | [] => (Io_blocked, st, acts)
  | env :: envs' =>
      match ffs_epfile_io_pass env st call with
      | inl (out, st1, acts1) => (out, st1, acts ++ acts1)
      | inr (st1, acts1) =>
          ffs_epfile_io_retry envs' st1 call (acts ++ acts1)
      end
  end.

Definition ffs_epfile_io (inst_exist : bool) (envs : list io_env)
    (st : io_state) (call : io_call) : io_result :=
  if negb inst_exist then (Io_return (- ENODEV), st, [])
  else ffs_epfile_io_retry envs st call [].

End Epfile.

(** ** Specification-side definitions *)

(** Operations on the event queue seen from outside: the function driver
    enqueues, the reader of ep0 consumes up to [n] events
    ([__ffs_ep0_read_events] is entered with [min(n, ev.count)] once the
    queue is not empty). *)
Inductive queue_op : Type :=
| Enqueue (type : usb_functionfs_event_type)
| Enqueue_setup (creq : usb_ctrlrequest)
| Consume (n : N) (env : ep0_env).

Definition queue_step (f : ffs_data) (op : queue_op) : ffs_data :=
  match op with
  | Enqueue type => ffs_event_add f type
  | Enqueue_setup creq => deliver f (Deliver_setup creq)
  | Consume n env =>
      if (n =? 0)%N || (blen_events f =? 0)%N then f
      else snd (fst (__ffs_ep0_read_events env f (N.min n (blen_events f))))
  end.

Definition queue_run (ops : list queue_op) : ffs_data :=
  fold_left queue_step ops ffs_data_new.

(** The four categories of events the purge rules distinguish. *)
Definition is_setup (e : usb_functionfs_event_type) : bool :=
  event_type_eqb e FUNCTIONFS_SETUP.
Definition is_suspend (e : usb_functionfs_event_type) : bool :=
  event_type_eqb e FUNCTIONFS_SUSPEND.
Definition is_resume (e : usb_functionfs_event_type) : bool :=
  event_type_eqb e FUNCTIONFS_RESUME.
Definition is_lifecycle (e : usb_functionfs_event_type) : bool :=
  match e with
  | FUNCTIONFS_BIND | FUNCTIONFS_UNBIND
  | FUNCTIONFS_ENABLE | FUNCTIONFS_DISABLE => true
  | _ => false
  end.

(** The supersede rules as the code implements them, in the words of the
    event-queue section with the last rule turned around: [Resume] purges
    queued [Suspend] and [Resume]; [Suspend] and [Setup] purge earlier
    instances of themselves; [Bind]/[Unbind]/[Disable]/[Enable] purge
    everything that is not [Suspend] or [Resume]. *)
Definition superseded_by (type e : usb_functionfs_event_type) : bool :=
  match type with
  | FUNCTIONFS_RESUME => is_suspend e || is_resume e
  | FUNCTIONFS_SUSPEND => is_suspend e
  | FUNCTIONFS_SETUP => is_setup e
  | FUNCTIONFS_BIND | FUNCTIONFS_UNBIND
  | FUNCTIONFS_DISABLE | FUNCTIONFS_ENABLE => negb (is_suspend e || is_resume e)
  end.

(** Number of entries of a queue in a category. *)
Definition countb (p : usb_functionfs_event_type -> bool)
    (q : list usb_functionfs_event_type) : nat :=
  length (filter p q).

(** The invariant behind the four-slot array: the array has four cells,
    [count] indexes into it, and each category occurs at most once in the
    queue. *)
Definition ev_inv (f : ffs_data) : Prop :=
  length (types (ev f)) = 4%nat /\
  (count (ev f) <= 4)%nat /\
  (countb is_setup (ev_queue f) <= 1)%nat /\
  (countb is_suspend (ev_queue f) <= 1)%nat /\
  (countb is_resume (ev_queue f) <= 1)%nat /\
  (countb is_lifecycle (ev_queue f) <= 1)%nat.

(** A session that is active with the setup packet [creq] pending: the
    state after the reader of ep0 has consumed a [FUNCTIONFS_SETUP]
    event. *)
Definition ffs_setup_pending (creq : usb_ctrlrequest) : ffs_data :=
  set_setup_state FFS_SETUP_PENDING
    (set_ev_setup creq (set_state FFS_ACTIVE ffs_data_new)).

(** An environment in which nothing goes wrong and nothing else happens:
    locks are free, allocations and copies succeed, the UDC accepts the
    request and completes it with [actual] bytes. *)
Definition ep0_env_quiet (actual : N) : ep0_env :=
  mk_ep0_env true true false true true true (fun fd => fd) true 0 0 [] 0 []
    false 0 actual Ev_interrupted.

(** *** Concrete blobs *)

Definition b (n : N) : byte :=
  match Byte.of_N n with Some x => x | None => x00 end.

Definition bytes (l : list N) : list byte := map b l.

Definition le32 (n : N) : list byte :=
  bytes [n mod 256; (n / 256) mod 256; (n / 65536) mod 256;
         (n / 16777216) mod 256]%N.

(** A nine-byte interface descriptor (vendor class, no endpoints listed). *)
Definition interface_desc (bInterfaceNumber iInterface : N) : list byte :=
  bytes [9; 4; bInterfaceNumber; 0; 0; 0xff; 0; 0; iInterface]%N.

(** A seven-byte bulk endpoint descriptor, 512-byte packets. *)
Definition endpoint_desc (bEndpointAddress : N) : list byte :=
  bytes [7; 5; bEndpointAddress; 2; 0; 2; 0]%N.

(** A three-byte OTG descriptor. *)
Definition otg_desc : list byte := bytes [3; 9; 0]%N.

(** A blob in the legacy format: magic, total length, [fs_count],
    [hs_count], then the descriptors of both tiers. *)
Definition legacy_descs_blob (fs_count hs_count : N) (descs : list byte)
  : list byte :=
  le32 FUNCTIONFS_DESCRIPTORS_MAGIC ++ le32 (16 + blen descs)
  ++ le32 fs_count ++ le32 hs_count ++ descs.

(** [n] bulk-IN endpoint descriptors with addresses [0x81], [0x82], ... *)
Definition endpoint_descs (n : nat) : list byte :=
  concat (map (fun i => endpoint_desc (0x80 + N.of_nat i)) (seq 1 n)).

(** Full speed: an OTG descriptor only; high speed: one interface. *)
Definition blob_tiers_differ : list byte :=
  legacy_descs_blob 1 1 (otg_desc ++ interface_desc 0 0).

(** Full speed: one interface (string 5) and one endpoint; high speed: a
    descriptor of type DEVICE, which a function may not declare. *)
Definition blob_bad_second_tier : list byte :=
  legacy_descs_blob 2 1
    (interface_desc 0 5 ++ endpoint_desc 0x81 ++ bytes [2; 1]%N).

(** A well-formed blob: full speed only, one interface, two endpoints. *)
Definition blob_two_endpoints : list byte :=
  legacy_descs_blob 3 0
    (interface_desc 0 0 ++ endpoint_desc 0x81 ++ endpoint_desc 0x02).

(** The counts a tier yields when walked on its own: the helper after
    [ffs_do_descs] from a zeroed helper, as [(interfaces, endpoints)]. *)
Definition tier_counts (ffs : ffs_data) (count : N) (data : list byte)
  : N * N :=
  let h := fst (snd (ffs_do_descs __ffs_data_do_entity count data
                       (mk_helper 0 0, ffs))) in
  (helper_interfaces_count h, helper_eps_count h).

(** *** Endpoint-file scenarios *)

(** [usb_ep_align_maybe] on a controller that wants OUT buffers rounded up
    to the 512-byte packet size. *)
Definition round_up_512 (len : N) : N := ((len + 511) / 512 * 512)%N.

(** An environment in which nothing goes wrong: the session is active,
    the endpoint (number 1) stays enabled, locks are free, allocations and
    copies succeed, the request is accepted and completes with [status];
    [copy_to_iter] copies what fits. *)
Definition io_env_quiet (align : N -> N) (status : Z)
    (wakeups : list Epfile.wake) : Epfile.io_env :=
  Epfile.mk_io_env true false wakeups true (Some 1%N) align true true true
    false (Some 1%N) true 0 false (Some 1%N) status N.min.

(** An enabled bulk-OUT endpoint file after its first successful read. *)
Definition epfile_out_enabled : Epfile.io_state :=
  Epfile.mk_io_state (Epfile.mk_epfile false (Some 1%N) false false)
    true false.

(** A bulk-OUT endpoint file whose endpoint is not enabled. *)
Definition epfile_out_disabled : Epfile.io_state :=
  Epfile.mk_io_state (Epfile.mk_epfile false None false false) false false.

(** A wake-up at which the endpoint file has been torn down: error flag
    set, no handle, no signal. *)
Definition wake_torn_down : Epfile.wake :=
  Epfile.mk_wake (Epfile.mk_epfile true None false false) false.

(** A wake-up at which endpoint 1 (bulk OUT) has been enabled. *)
Definition wake_enabled : Epfile.wake :=
  Epfile.mk_wake (Epfile.mk_epfile false (Some 1%N) false false) false.

(** A blocking synchronous read of [n] bytes. *)
Definition sync_read (n : N) : Epfile.io_call :=
  Epfile.mk_io_call false true false n.

(** The counts of the tiers [read_descs] walks, in order, up to the first
    tier it refuses: [(interfaces, endpoints)] of each helper. *)
Fixpoint walked_tiers (counts : list N) (data : list byte) (ffs : ffs_data)
  : list (N * N) :=
  match counts with
  | [] => []
  | c :: counts' =>
      if (c =? 0)%N then walked_tiers counts' data ffs
      else
        let '(ret, (helper, ffs1)) :=
          ffs_do_descs __ffs_data_do_entity c data (mk_helper 0 0, ffs) in
        if ret <? 0 then []
        else
          (helper_interfaces_count helper, helper_eps_count helper)
          :: walked_tiers counts' (advance (Z.to_N ret) data)
               (if (eps_count ffs1 =? 0)%N && (interfaces_count ffs1 =? 0)%N
                then set_counts (helper_eps_count helper)
                       (helper_interfaces_count helper) ffs1
                else ffs1)
  end.

(** *** Frames: what the parser leaves alone *)

(** The shape of what the walk lemmas establish: [W] holds of the state
    the walk returns, and [I] too when the walk succeeded. *)
Definition walk_post {P : Type} (I W : P -> Prop) (r : Z * P) : Prop :=
  W (snd r) /\ (0 <= fst r -> I (snd r)).

(** The part of the session no descriptor walk writes: everything except
    [strings_count] and [eps_addrmap]. *)
Definition walk_frame (f0 f : ffs_data) : Prop :=
  state f = state f0 /\ setup_state f = setup_state f0 /\ ev f = ev f0 /\
  eps_count f = eps_count f0 /\ interfaces_count f = interfaces_count f0 /\
  stringtabs f = stringtabs f0 /\ raw_strings f = raw_strings f0.

Definition helper_frame (f0 : ffs_data) (p : ffs_desc_helper * ffs_data)
  : Prop :=
  walk_frame f0 (snd p).

Definition helper_ok (f0 : ffs_data) (p : ffs_desc_helper * ffs_data)
  : Prop :=
  walk_frame f0 (snd p) /\ (helper_eps_count (fst p) <= 14)%N.

(** The part of the session [__ffs_data_got_descs] never writes. *)
Definition descs_frame (f0 f : ffs_data) : Prop :=
  state f = state f0 /\ setup_state f = setup_state f0 /\ ev f = ev f0 /\
  stringtabs f = stringtabs f0 /\ raw_strings f = raw_strings f0.

Definition os_frame (f0 f : ffs_data) : Prop :=
  descs_frame f0 f /\ eps_count f = eps_count f0.

(** The fields a successful [__ffs_data_got_descs] sets at its end. *)
Definition raw_part (f : ffs_data)
  : option (list byte) * list byte * N * N * N * N * N :=
  (raw_descs_data f, raw_descs f, raw_descs_length f, fs_descs_count f,
   hs_descs_count f, ss_descs_count f, ms_os_descs_count f).

(** *** String blobs *)

(** Rounds the loop [do ... while (--str_count)] runs before it ends when
    entered with [str_count] (a [u32]): entered with zero, the counter
    wraps and the loop goes round [2^32] times. *)
Definition strings_rounds (str_count : N) : N :=
  if (str_count =? 0)%N then (2 ^ 32)%N else str_count.

Definition le16 (n : N) : list byte := bytes [n mod 256; (n / 256) mod 256]%N.

(** The strings of one language as they lie in a blob: each followed by
    its NUL. *)
Definition strings_body (strs : list (list byte)) : list byte :=
  concat (map (fun s => s ++ [x00]) strs).

(** A strings blob with one language: magic, total length, [str_count],
    [lang_count = 1], the language code and the strings. *)
Definition strings_blob (lang : N) (strs : list (list byte)) : list byte :=
  le32 FUNCTIONFS_STRINGS_MAGIC
  ++ le32 (18 + blen (strings_body strs))
  ++ le32 (N.of_nat (length strs)) ++ le32 1
  ++ le16 lang ++ strings_body strs.

Definition nul_free (s : list byte) : Prop := Forall (fun c => c <> x00) s.

(** A strings blob with two languages of one string each. *)
Definition blob_two_languages : list byte :=
  le32 FUNCTIONFS_STRINGS_MAGIC ++ le32 24 ++ le32 1 ++ le32 2
  ++ le16 0x0409 ++ bytes [0x61; 0]%N ++ le16 0x0407 ++ bytes [0x62; 0]%N.

(** *** Descriptor blob headers *)

(** Number of 32-bit words a header holds for the flags [bits]: one for
    each that is set. *)
Definition flag_words (flags : N) (bits : list N) : nat :=
  length (filter (fun b => negb (N.land flags b =? 0)%N) bits).

(** Size of the header of a descriptor blob: magic, length and the two
    counts in the legacy format; magic, length, flags and one word for each
    of the flags that announce one in the second format. *)
Definition descs_header_size (blob : list byte) : nat :=
  if (get_unaligned_le32 blob =? FUNCTIONFS_DESCRIPTORS_MAGIC)%N then 16
  else
    12 + 4 * flag_words (get_unaligned_le32 (advance 8 blob))
               [FUNCTIONFS_EVENTFD; FUNCTIONFS_HAS_FS_DESC;
                FUNCTIONFS_HAS_HS_DESC; FUNCTIONFS_HAS_SS_DESC;
                FUNCTIONFS_HAS_MS_OS_DESC].

(** A result that is an error only as [-EINVAL]. *)
Definition einval_only {P : Type} (r : Z * P) : Prop :=
  fst r < 0 -> fst r = - EINVAL.

(** *** Event reads *)

(** What [__ffs_ep0_read_events] hands to [copy_to_user] for the queued
    types [q]: each type, a setup event with the cached packet. *)
Definition events_of (f : ffs_data) (q : list usb_functionfs_event_type)
  : list (usb_functionfs_event_type * option usb_ctrlrequest) :=
  map (fun t => (t, match t with
                    | FUNCTIONFS_SETUP => Some (setup (ev f))
                    | _ => None
                    end)) q.

(** An active session with [FUNCTIONFS_ENABLE] and a setup packet
    queued. *)
Definition ffs_active_two_events (creq : usb_ctrlrequest) : ffs_data :=
  deliver_all (set_state FFS_ACTIVE ffs_data_new)
    [Deliver_event FUNCTIONFS_ENABLE; Deliver_setup creq].

(** ** Polling ep0 *)

(** Modelled from the spec: the readiness bits the poll operation reports;
    their values live in [include/uapi/asm-generic/poll.h], which is not
    among the sources (asm-generic values below). *)
Module Poll.
Local Open Scope N_scope.
Definition POLLIN := 0x0001.
Definition POLLOUT := 0x0004.
Definition POLLERR := 0x0008.
Definition POLLWRNORM := 0x0100.
End Poll.
Import Poll.

(** [ffs_ep0_poll]: the mask is an [unsigned int]; the early
    [return ret] converts the negative [int]. *)
Definition ffs_ep0_poll (env : ep0_env) (ffs : ffs_data) (nonblock : bool)
  : N :=
  let mask := POLLWRNORM in
  if ffs_inst_exist_check env <? 0
  then Z.to_N (ffs_inst_exist_check env mod 2 ^ 32)
  else if ffs_mutex_lock env nonblock <? 0 then mask
  else
    match state ffs with
    | FFS_READ_DESCRIPTORS | FFS_READ_STRINGS => N.lor mask POLLOUT
    | FFS_ACTIVE =>
        match setup_state ffs with
        | FFS_NO_SETUP =>
            if negb (blen_events ffs =? 0)%N then N.lor mask POLLIN else mask
        | FFS_SETUP_PENDING | FFS_SETUP_CANCELLED =>
            N.lor mask (N.lor POLLIN POLLOUT)
        end
    | FFS_CLOSING => mask
    | FFS_DEACTIVATED => mask
    end.

(** ** The function driver's side *)

(** Modelled from the spec: further errno values
    ([include/uapi/asm-generic/errno-base.h] and [errno.h], not among the
    sources). *)
Module ErrnoMore.
Definition ENOENT : Z := 2.
Definition EBUSY : Z := 16.
Definition ENOTTY : Z := 25.
Definition EDOM : Z := 33.
Definition EOPNOTSUPP : Z := 95.
End ErrnoMore.
Import ErrnoMore.

(** Modelled from the spec: the recipient field of [bRequestType]
    ([include/uapi/linux/usb/ch9.h]) and [USB_GADGET_DELAYED_STATUS]
    ([include/linux/usb/composite.h]); the headers are not among the
    sources. *)
Module Ch9Request.
Definition USB_RECIP_MASK : N := 0x1f.
Definition USB_RECIP_INTERFACE : N := 0x01.
Definition USB_RECIP_ENDPOINT : N := 0x02.
Definition USB_GADGET_DELAYED_STATUS : Z := 0x7fff.
End Ch9Request.
Import Ch9Request.

(** [struct ffs_ep]: the controller's endpoint [ep] ([None] is [NULL], a
    number names it) and [descs[3]], the endpoint's descriptors for full,
    high and super speed as their bytes. *)
Record ffs_ep : Type := mk_ffs_ep {
  usb_ep : option N;
  descs : list (option (list byte))
}.

(** [struct ffs_function]: the array [eps] (one cell for each endpoint of
    the session), [eps_revmap[16]] ([u8]) and the array [interfaces_nums]
    ([short], one cell for each interface of the session, [-1] while
    unassigned). *)
Record ffs_function : Type := mk_function {
  eps : list ffs_ep;
  eps_revmap : list N;
  interfaces_nums : list Z
}.

(** [ffs_func_revmap_ep(func, num)], [num] a [u8]. *)
Definition ffs_func_revmap_ep (func : ffs_function) (num : N) : Z :=
  let num := array_get (eps_revmap func) (N.to_nat (N.land num USB_ENDPOINT_NUMBER_MASK)) in
  if negb (num =? 0)%N then Z.of_N num else - EDOM.

(** The loop of [ffs_func_revmap_intf]:
    [for (; count; --count, ++nums)], [i] is [nums - func->interfaces_nums].
    A cell past the end of the array is not modelled (it reads as
    unassigned); the array has [interfaces_count] cells. *)
Fixpoint revmap_intf_loop (nums : list Z) (count : nat) (i : nat) (intf : N)
  : Z :=
  match count with
  | O => - EDOM
  | S count' =>
      let n := nth i nums (-1) in
      if (0 <=? n) && (n =? Z.of_N intf) then Z.of_nat i
      else revmap_intf_loop nums count' (S i) intf
  end.

(** [ffs_func_revmap_intf(func, intf)], [intf] a [u8]. *)
Definition ffs_func_revmap_intf (func : ffs_function) (ffs : ffs_data)
    (intf : N) : Z :=
  revmap_intf_loop (interfaces_nums func) (N.to_nat (interfaces_count ffs))
    0 intf.

(** The loop of [ffs_ep_addr2idx] from [i] on, [n] cells left. *)
Fixpoint addr2idx_loop (map : list N) (n : nat) (i : nat)
    (endpoint_address : N) : Z :=
  match n with
  | O => - ENOENT
  | S n' =>
      if (array_get map i =? endpoint_address)%N then Z.of_nat i
      else addr2idx_loop map n' (S i) endpoint_address
  end.

(** [ffs_ep_addr2idx(ffs, endpoint_address)]:
    [for (i = 1; i < ARRAY_SIZE(ffs->eps_addrmap); ++i)]. *)
Definition ffs_ep_addr2idx (ffs : ffs_data) (endpoint_address : N) : Z :=
  addr2idx_loop (eps_addrmap ffs) (length (eps_addrmap ffs) - 1) 1
    endpoint_address.

(** [(u8)v] of a 16-bit value. *)
Definition to_u8 (v : N) : N := (v mod 2 ^ 8)%N.

(** [ffs->ev.setup = *creq; ffs->ev.setup.wIndex = cpu_to_le16(ret)]. *)
Definition with_wIndex (creq : usb_ctrlrequest) (ret : Z) : usb_ctrlrequest :=
  mk_ctrlrequest (bRequestType creq) (bRequest creq) (wValue creq)
    (Z.to_N ret mod 2 ^ 16)%N (wLength creq).

(** [ffs_func_setup(f, creq)]: the return value and the session.  A read
    of [eps_addrmap] past its end is not modelled; [eps_revmap] holds
    indices of the map. *)
Definition ffs_func_setup (func : ffs_function) (ffs : ffs_data)
    (creq : usb_ctrlrequest) : Z * ffs_data :=
  match state ffs with
  | FFS_ACTIVE =>
      let recip := N.land (bRequestType creq) USB_RECIP_MASK in
      let ret :=
        if (recip =? USB_RECIP_INTERFACE)%N then
          ffs_func_revmap_intf func ffs (to_u8 (wIndex creq))
        else if (recip =? USB_RECIP_ENDPOINT)%N then
          let ret := ffs_func_revmap_ep func (to_u8 (wIndex creq)) in
          if ret <? 0 then ret
          else if negb (N.land (user_flags ffs) FUNCTIONFS_VIRTUAL_ADDR =? 0)%N
               then Z.of_N (array_get (eps_addrmap ffs) (Z.to_nat ret))
               else ret
        else - EOPNOTSUPP in
      if ret <? 0 then (ret, ffs)
      else
        (if (wLength creq =? 0)%N then USB_GADGET_DELAYED_STATUS else 0,
         __ffs_event_add (set_ev_setup (with_wIndex creq ret) ffs)
           FUNCTIONFS_SETUP)
  | _ => (- ENODEV, ffs)
  end.

(** [ffs_func_suspend] and [ffs_func_resume]. *)
Definition ffs_func_suspend (ffs : ffs_data) : ffs_data :=
  ffs_event_add ffs FUNCTIONFS_SUSPEND.

Definition ffs_func_resume (ffs : ffs_data) : ffs_data :=
  ffs_event_add ffs FUNCTIONFS_RESUME.

(** A function with two interfaces, numbered 2 and 3 by the
    configuration, and endpoint 1 (bulk IN, full and high speed) at
    hardware number 3. *)
Definition function_two_interfaces : ffs_function :=
  mk_function
    [mk_ffs_ep (Some 3%N)
       [Some (endpoint_desc 0x83); Some (endpoint_desc 0x83); None]]
    [0; 0; 0; 1; 0; 0; 0; 0; 0; 0; 0; 0; 0; 0; 0; 0]%N [2; 3].

(** An active session with two interfaces and one endpoint at address
    [0x81]. *)
Definition ffs_active_two_interfaces : ffs_data :=
  set_eps_addrmap (array_set (repeat 0%N 15) 1 0x81%N)
    (set_counts 1 2 (set_state FFS_ACTIVE ffs_data_new)).

(** ** Sessions and their files *)

Module Session.
Import Epfile.

(** One cell of the array [ffs->epfiles]: the fields of
    [struct ffs_epfile] that [ffs_epfile_io] reads, and [opened] (an
    [atomic_t] that only ever holds 0 or 1). *)
Record epfile_node : Type := mk_node {
  file : ffs_epfile;
  node_opened : bool
}.

(** [struct ffs_data] as the lifecycle functions see it: the parser's and
    the queue's fields ([data]), the counters [ref] and [opened],
    [no_disconnect], [flags], the array [epfiles] ([None] is [NULL]) and
    [func] ([None] is [NULL]). *)
Record ffs_session : Type := mk_session {
  data : ffs_data;
  ref : Z;
  opened : Z;
  no_disconnect : bool;
  flags : N;
  epfiles : option (list epfile_node);
  func : option ffs_function
}.

(** What a lifecycle call does to the outside. *)
Inductive session_action : Type :=
| Ep0_set_halt
| Ffs_epfiles_destroy
| Usb_ep_disable (ep : N)
| Usb_ep_enable (ep : N)
| Wake_up_epfile (i : nat)
| Schedule_reset_work
| Usb_gadget_autopm_put_async
| Usb_gadget_autopm_get_async.

Definition set_data (d : ffs_data) (s : ffs_session) : ffs_session :=
  mk_session d (ref s) (opened s) (no_disconnect s) (flags s) (epfiles s)
    (func s).

Definition set_epfiles (e : option (list epfile_node)) (s : ffs_session)
  : ffs_session :=
  mk_session (data s) (ref s) (opened s) (no_disconnect s) (flags s) e
    (func s).

Definition set_func (f : option ffs_function) (s : ffs_session)
  : ffs_session :=
  mk_session (data s) (ref s) (opened s) (no_disconnect s) (flags s)
    (epfiles s) f.

(** The assignments of [ffs_data_reset] to the parser's and the queue's
    fields.  [user_flags], [ffs_eventfd], [ms_os_descs_count],
    [eps_addrmap] and the cells of [ev.types] are not assigned. *)
Definition reset_data (f : ffs_data) : ffs_data :=
  mk_ffs_data FFS_READ_DESCRIPTORS FFS_NO_SETUP
    (mk_ffs_ev (types (ev f)) 0 (can_stall (ev f)) (setup (ev f)))
    (user_flags f) (ffs_eventfd f) None [] 0 0 0 0 (ms_os_descs_count f)
    0 0 0 0 0 0 (eps_addrmap f) None None.

Section Lifecycle.
(** What [ffs_closed(ffs)] leaves of the session: it clears a bit of
    [flags] and runs callbacks of the device-management code and of the
    composite framework, which are not among the sources. *)
Variable ffs_closed : ffs_session -> ffs_session.

(** [ffs_data_reset]: [ffs_data_clear] calls [ffs_closed] and releases the
    endpoint files, the eventfd context and the three buffers; then the
    assignments. *)
Definition ffs_data_reset (s : ffs_session) : ffs_session :=
  let s1 := ffs_closed s in
  mk_session (reset_data (data s1)) (ref s1) (opened s1) (no_disconnect s1)
    0%N None (func s1).

(** [ffs_data_get]. *)
Definition ffs_data_get (s : ffs_session) : ffs_session :=
  mk_session (data s) (ref s + 1) (opened s) (no_disconnect s) (flags s)
    (epfiles s) (func s).

(** [ffs_data_opened]. *)
Definition ffs_data_opened (s : ffs_session) : ffs_session :=
  let s1 :=
    mk_session (data s) (ref s + 1) (opened s + 1) (no_disconnect s)
      (flags s) (epfiles s) (func s) in
  match opened s1 =? 1, state (data s1) with
  | true, FFS_DEACTIVATED =>
      ffs_data_reset (set_data (set_state FFS_CLOSING (data s1)) s1)
  | _, _ => s1
  end.

(** [ffs_data_put]: [None] once the last reference is dropped and the
    session is cleared and freed. *)
Definition ffs_data_put (s : ffs_session) : option ffs_session :=
  if ref s - 1 =? 0 then None
  else Some (mk_session (data s) (ref s - 1) (opened s) (no_disconnect s)
               (flags s) (epfiles s) (func s)).

(** [ffs_data_closed]. *)
Definition ffs_data_closed (s : ffs_session)
  : option ffs_session * list session_action :=
  let s1 :=
    mk_session (data s) (ref s) (opened s - 1) (no_disconnect s) (flags s)
      (epfiles s) (func s) in
  let '(s2, acts) :=
    if opened s1 =? 0 then
      if no_disconnect s1 then
        let s2 := set_data (set_state FFS_DEACTIVATED (data s1)) s1 in
        let '(s3, acts) :=
          match epfiles s2 with
          | Some _ => (set_epfiles None s2, [Ffs_epfiles_destroy])
          | None => (s2, [])
          end in
        match setup_state (data s3) with
        | FFS_SETUP_PENDING =>
            let '(_, d, a) := __ffs_ep0_stall (data s3) in
            (set_data d s3,
             acts ++ match a with [] => [] | _ => [Ep0_set_halt] end)
        | _ => (s3, acts)
        end
      else
        (ffs_data_reset (set_data (set_state FFS_CLOSING (data s1)) s1), [])
    else (s1, []) in
  let s3 :=
    if opened s2 <? 0
    then ffs_data_reset (set_data (set_state FFS_CLOSING (data s2)) s2)
    else s2 in
  (ffs_data_put s3, acts).

(** [ffs_ep0_open]. *)
Definition ffs_ep0_open (inst_exist : bool) (s : ffs_session)
  : Z * ffs_session :=
  if negb inst_exist then (- ENODEV, s)
  else
    match state (data s) with
    | FFS_CLOSING => (- EBUSY, s)
    | _ =>
        if negb (opened s =? 0) then (- EBUSY, s)
        else (0, ffs_data_opened s)
    end.

(** [ffs_ep0_release]. *)
Definition ffs_ep0_release (s : ffs_session)
  : Z * option ffs_session * list session_action :=
  let '(s1, acts) := ffs_data_closed s in (0, s1, acts).

(** The endpoint file [i] of the array [ffs->epfiles], which is what
    [inode->i_private] points to; [None] when the array is gone (the
    pointer dangles). *)
Definition get_node (s : ffs_session) (i : nat) : option epfile_node :=
  match epfiles s with
  | Some l => nth_error l i
  | None => None
  end.

(** [epfile->field = v] on that endpoint file. *)
Definition set_node (i : nat) (n : epfile_node) (s : ffs_session)
  : ffs_session :=
  match epfiles s with
  | Some l => set_epfiles (Some (array_set l i n)) s
  | None => s
  end.

Definition set_node_opened (b : bool) (n : epfile_node) : epfile_node :=
  mk_node (file n) b.

Definition set_node_error (b : bool) (n : epfile_node) : epfile_node :=
  mk_node (mk_epfile b (ep (file n)) (in_ (file n)) (isoc (file n)))
    (node_opened n).

(** [ffs_epfile_open] on the endpoint file [i]: return value, session, and
    the global [first_read_done]; [None] when the function follows a
    dangling pointer. *)
Definition ffs_epfile_open (inst_exist : bool) (s : ffs_session) (i : nat)
    (first_read_done : bool) : option (Z * ffs_session * bool) :=
  if negb inst_exist then Some (- ENODEV, s, first_read_done)
  else
    match state (data s) with
    | FFS_ACTIVE =>
        match get_node s i with
        | None => None
        | Some n =>
            if node_opened n then Some (- EBUSY, s, first_read_done)
            else
              let s1 :=
                ffs_data_opened (set_node i (set_node_opened true n) s) in
              match get_node s1 i with
              | None => None
              | Some n1 =>
                  Some (0, set_node i (set_node_error false n1) s1, false)
              end
        end
    | _ => Some (- ENODEV, s, first_read_done)
    end.

(** [ffs_epfile_release] on the endpoint file [i]. *)
Definition ffs_epfile_release (s : ffs_session) (i : nat)
  : option (Z * option ffs_session * list session_action) :=
  match get_node s i with
  | None => None
  | Some n =>
      let s1 :=
        set_node i (set_node_error true (set_node_opened false n)) s in
      let '(s2, acts) := ffs_data_closed s1 in Some (0, s2, acts)
  end.

End Lifecycle.

(** *** Enabling and disabling the endpoints *)

(** [--count] on an [unsigned]. *)
Definition pre_decrement (count : N) : N :=
  ((count + (2 ^ 32 - 1)) mod 2 ^ 32)%N.

(** The loop [do { ... } while (--count)] of [ffs_func_eps_disable]; [i]
    is the distance of [ep] from [func->eps] (and of [epfile] from
    [ffs->epfiles]).  [None]: the loop has left [func->eps] or the array
    of endpoint files, which C does not define.  Each round moves [i] on,
    so [fuel] beyond the length of [eps] is never used up. *)
Fixpoint eps_disable_loop (fuel : nat) (eps : list ffs_ep)
    (epfiles : option (list epfile_node)) (count : N) (i : nat)
    (acts : list session_action)
  : option (option (list epfile_node) * list session_action) :=
  match fuel with
  | O => None
  | S fuel' =>
      match nth_error eps i with
      | None => None
      | Some ep0 =>
          (* pending requests get nuked *)
          let acts1 :=
            match usb_ep ep0 with
            | Some e => acts ++ [Usb_ep_disable e]
            | None => acts
            end in
          let epfiles1 :=
            match epfiles with
            | None => Some None
            | Some l =>
                match nth_error l i with
                | None => None
                | Some n =>
                    Some (Some (array_set l i
                                  (mk_node
                                     (mk_epfile true None (in_ (file n))
                                        (isoc (file n)))
                                     (node_opened n))))
                end
            end in
          match epfiles1 with
          | None => None
          | Some e1 =>
              if (pre_decrement count =? 0)%N then Some (e1, acts1)
              else eps_disable_loop fuel' eps e1 (pre_decrement count) (S i)
                     acts1
          end
      end
  end.

(** [ffs_func_eps_disable(func)]. *)
Definition ffs_func_eps_disable (func : ffs_function) (s : ffs_session)
  : option (ffs_session * list session_action) :=
  match eps_disable_loop (S (length (eps func))) (eps func) (epfiles s)
          (eps_count (data s)) 0 [] with
  | None => None
  | Some (e, acts) => Some (set_epfiles e s, acts)
  end.

(** The controller's side of [ffs_func_eps_enable]: the speed of the
    gadget as the index into [descs], and the results of
    [config_ep_by_speed] and [usb_ep_enable] for each endpoint. *)
Record enable_env : Type := mk_enable_env {
  speed_idx : nat;
  config_ep_by_speed : N -> Z;
  usb_ep_enable : N -> Z
}.

(** "fall-back to lower speed if desc missing for current speed":
    [do { ds = ep->descs[desc_idx]; } while (!ds && --desc_idx >= 0)]. *)
Fixpoint pick_desc (descs : list (option (list byte))) (desc_idx : nat)
  : option (list byte) :=
  match nth desc_idx descs None with
  | Some ds => Some ds
  | None =>
      match desc_idx with
      | O => None
      | S d => pick_desc descs d
      end
  end.

(** [usb_endpoint_dir_in] and [usb_endpoint_xfer_isoc] (ch9.h) on the
    bytes of an endpoint descriptor. *)
Definition usb_endpoint_dir_in (ds : list byte) : bool :=
  negb (N.land (byte_at ds 2) 0x80 =? 0)%N.

Definition usb_endpoint_xfer_isoc (ds : list byte) : bool :=
  (N.land (byte_at ds 3) 0x03 =? 1)%N.

(** The loop of [ffs_func_eps_enable]; as for the other loop, [None] when
    it leaves an array or follows a [NULL] [ep->ep] or [ffs->epfiles]. *)
Fixpoint eps_enable_loop (fuel : nat) (env : enable_env) (eps : list ffs_ep)
    (epfiles : option (list epfile_node)) (count : N) (i : nat)
    (acts : list session_action)
  : option (Z * option (list epfile_node) * list session_action) :=
  match fuel with
  | O => None
  | S fuel' =>
      match nth_error eps i with
      | None => None
      | Some ep0 =>
          match pick_desc (descs ep0) (speed_idx env) with
          | None => Some (- EINVAL, epfiles, acts)
          | Some ds =>
              match usb_ep ep0 with
              | None => None
              | Some e =>
                  if negb (config_ep_by_speed env e =? 0)
                  then Some (config_ep_by_speed env e, epfiles, acts)
                  else if negb (usb_ep_enable env e =? 0)
                  then Some (usb_ep_enable env e, epfiles,
                             acts ++ [Usb_ep_enable e])
                  else
                    match epfiles with
                    | None => None
                    | Some l =>
                        match nth_error l i with
                        | None => None
                        | Some n =>
                            let epfiles1 :=
                              Some (array_set l i
                                      (mk_node
                                         (mk_epfile (error (file n))
                                            (Some (N.of_nat i))
                                            (usb_endpoint_dir_in ds)
                                            (usb_endpoint_xfer_isoc ds))
                                         (node_opened n))) in
                            let acts1 :=
                              acts ++ [Usb_ep_enable e; Wake_up_epfile i] in
                            if (pre_decrement count =? 0)%N
                            then Some (0, epfiles1, acts1)
                            else eps_enable_loop fuel' env eps epfiles1
                                   (pre_decrement count) (S i) acts1
                        end
                    end
              end
          end
      end
  end.

(** [ffs_func_eps_enable(func)]. *)
Definition ffs_func_eps_enable (env : enable_env) (func : ffs_function)
    (s : ffs_session) : option (Z * ffs_session * list session_action) :=
  match eps_enable_loop (S (length (eps func))) env (eps func) (epfiles s)
          (eps_count (data s)) 0 [] with
  | None => None
  | Some (ret, e, acts) => Some (ret, set_epfiles e s, acts)
  end.

(** [ffs_func_set_alt(f, interface, alt)], [interface] and [alt]
    [unsigned]; [None] when one of the loops above leaves its arrays.  The
    reset that [schedule_work] defers is not part of the call. *)
Definition ffs_func_set_alt (env : enable_env) (func0 : ffs_function)
    (s : ffs_session) (interface alt : N)
  : option (Z * ffs_session * list session_action) :=
  let intf :=
    if negb (alt =? 2 ^ 32 - 1)%N
    then ffs_func_revmap_intf func0 (data s) (to_u8 interface)
    else 0 in
  if intf <? 0 then Some (intf, s, [])
  else
    let disabled :=
      match func s with
      | Some f =>
          match ffs_func_eps_disable f s with
          | None => None
          | Some (s1, acts) =>
              Some (set_func None s1, acts ++ [Usb_gadget_autopm_put_async])
          end
      | None => Some (s, [])
      end in
    match disabled with
    | None => None
    | Some (s1, acts) =>
        match state (data s1) with
        | FFS_DEACTIVATED =>
            Some (- ENODEV, set_data (set_state FFS_CLOSING (data s1)) s1,
                  acts ++ [Schedule_reset_work])
        | FFS_ACTIVE =>
            if (alt =? 2 ^ 32 - 1)%N then
              Some (0,
                    set_data (ffs_event_add (data s1) FUNCTIONFS_DISABLE)
                      (set_func None s1),
                    acts)
            else
              let s2 := set_func (Some func0) s1 in
              match ffs_func_eps_enable env func0 s2 with
              | None => None
              | Some (ret, s3, acts1) =>
                  if 0 <=? ret then
                    Some (ret,
                          set_data (ffs_event_add (data s3) FUNCTIONFS_ENABLE)
                            s3,
                          acts ++ acts1 ++ [Usb_gadget_autopm_get_async])
                  else Some (ret, s3, acts ++ acts1)
              end
        | _ => Some (- ENODEV, s1, acts)
        end
    end.

(** [ffs_func_disable(f)]. *)
Definition ffs_func_disable (env : enable_env) (func0 : ffs_function)
    (s : ffs_session) : option (Z * ffs_session * list session_action) :=
  ffs_func_set_alt env func0 s 0 (2 ^ 32 - 1).

(** What [ffs_func_eps_disable] makes of an endpoint file, and the calls
    it makes for the endpoints [eps]. *)
Definition disabled_node (n : epfile_node) : epfile_node :=
  mk_node (mk_epfile true None (in_ (file n)) (isoc (file n))) (node_opened n).

Definition disable_calls (eps : list ffs_ep) : list session_action :=
  flat_map (fun e => match usb_ep e with
                     | Some x => [Usb_ep_disable x]
                     | None => []
                     end) eps.

(** The state [ffs_epfile_io] works on for the endpoint file [n]. *)
Definition io_state_of (n : epfile_node) (first_read_done is_busy : bool)
  : io_state :=
  mk_io_state (file n) first_read_done is_busy.

(** A session that has just been reset: what the assignments of
    [ffs_data_reset] establish. *)
Definition is_reset (s : ffs_session) : Prop :=
  state (data s) = FFS_READ_DESCRIPTORS /\
  setup_state (data s) = FFS_NO_SETUP /\
  blen_events (data s) = 0%N /\
  raw_descs_data (data s) = None /\
  raw_descs_length (data s) = 0%N /\
  stringtabs (data s) = None /\
  raw_strings (data s) = None /\
  strings_count (data s) = 0%N /\
  interfaces_count (data s) = 0%N /\
  eps_count (data s) = 0%N /\
  epfiles s = None /\
  flags s = 0%N.

(** The session a last close leaves when it is to survive
    ([no_disconnect]). *)
Definition deactivated (s : ffs_session) : ffs_session :=
  let stall :=
    match setup_state (data s) with
    | FFS_SETUP_PENDING => can_stall (ev (data s))
    | _ => false
    end in
  mk_session
    ((if stall then set_setup_state FFS_NO_SETUP else fun d => d)
       (set_state FFS_DEACTIVATED (data s)))
    (ref s - 1) 0 true (flags s) None (func s).

(** *** A session with its files open *)

(** The hook of a session nobody else looks after: [ffs_closed] finds no
    device and returns. *)
Definition ffs_closed_nobody (s : ffs_session) : ffs_session := s.

(** An active session with one bulk-OUT endpoint, enabled, ep0 and the
    endpoint file both open: two opens and the references of the mount
    and of the two files. *)
Definition session_one_endpoint : ffs_session :=
  mk_session
    (set_eps_addrmap (array_set (repeat 0%N 15) 1 0x01%N)
       (set_counts 1 1 (set_state FFS_ACTIVE ffs_data_new)))
    3 2 false 0
    (Some [mk_node (mk_epfile false (Some 0%N) false false) true])
    (Some (mk_function
             [mk_ffs_ep (Some 1%N) [Some (endpoint_desc 0x01); None; None]]
             [0; 1; 0; 0; 0; 0; 0; 0; 0; 0; 0; 0; 0; 0; 0; 0]%N [0])).

Definition function_one_endpoint : ffs_function :=
  mk_function
    [mk_ffs_ep (Some 1%N) [Some (endpoint_desc 0x01); None; None]]
    [0; 1; 0; 0; 0; 0; 0; 0; 0; 0; 0; 0; 0; 0; 0; 0]%N [0].

(** A controller at full speed on which every call succeeds. *)
Definition enable_env_quiet : enable_env :=
  mk_enable_env 0 (fun _ => 0) (fun _ => 0).

End Session.

(** ** Mount options *)

From Stdlib Require Ascii String.

Module Mount.
Import Ascii String.

(** A number from its octal digits, as the source writes its modes. *)
Definition octal (digits : list N) : N :=
  fold_left (fun a d => 8 * a + d)%N digits 0%N.

(** Modelled from the spec: the file-type bits of a mode
    ([include/uapi/linux/stat.h], not among the sources). *)
Definition S_IFDIR : N := octal [0; 4; 0; 0; 0; 0]%N.
Definition S_IFREG : N := octal [1; 0; 0; 0; 0; 0]%N.

(** [struct ffs_file_perms] and [struct ffs_sb_fill_data] (the fields the
    parser writes); a [kuid_t]/[kgid_t] is its number. *)
Record ffs_file_perms : Type := mk_perms {
  mode : N;
  uid : N;
  gid : N
}.

Record ffs_sb_fill_data : Type := mk_sb_fill_data {
  perms : ffs_file_perms;
  root_mode : N;
  no_disconnect : bool
}.

(** The initializer of [data] in [ffs_fs_mount]. *)
Definition sb_fill_data_default : ffs_sb_fill_data :=
  mk_sb_fill_data (mk_perms (N.lor S_IFREG (octal [6; 0; 0]%N)) 0 0) (N.lor S_IFDIR (octal [5; 0; 0]%N))
    false.

(** [p = strchr(s, c); if (p) *p = 0;]: the string up to [c] and the one
    behind it ([p + 1]), when [c] occurs. *)
Fixpoint strchr_cut (c : ascii) (s : string) : option (string * string) :=
  match s with
  | EmptyString => None
  | String a rest =>
      if Ascii.eqb a c then Some (EmptyString, rest)
      else
        match strchr_cut c rest with
        | Some (h, t) => Some (String a h, t)
        | None => None
        end
  end.

Section ParseOpts.
(** [kstrtoul(s, 0, &value)] ([None]: an error) and
    [make_kuid(current_user_ns(), v)], [make_kgid] as functions on numbers;
    they belong to the kernel's library and to the user namespaces. *)
Variable kstrtoul : string -> option N.
Variable make_kuid : N -> N.
Variable make_kgid : N -> N.

(** [uid_valid], [gid_valid]: not [(uid_t)-1]. *)
Definition id_valid (k : N) : bool := negb (k =? 2 ^ 32 - 1)%N.

(** "Interpret option": [switch (eq - opts)] with the [memcmp]s; the
    return value ([0]: go on) and [*data]. *)
Definition interpret_option (data : ffs_sb_fill_data) (name : string)
    (value : N) : Z * ffs_sb_fill_data :=
  let invalid := (- EINVAL, data) in
  match String.length name with
  | 13%nat =>
      if String.eqb name "no_disconnect"%string
      then (0, mk_sb_fill_data (perms data) (root_mode data)
                 (negb (value =? 0)%N))
      else invalid
  | 5%nat =>
      if String.eqb name "rmode"%string
      then (0, mk_sb_fill_data (perms data)
                 (N.lor (N.land value (octal [5; 5; 5]%N)) S_IFDIR) (no_disconnect data))
      else if String.eqb name "fmode"%string
      then (0, mk_sb_fill_data
                 (mk_perms (N.lor (N.land value (octal [6; 6; 6]%N)) S_IFREG)
                    (uid (perms data)) (gid (perms data)))
                 (root_mode data) (no_disconnect data))
      else invalid
  | 4%nat =>
      if String.eqb name "mode"%string
      then (0, mk_sb_fill_data
                 (mk_perms (N.lor (N.land value (octal [6; 6; 6]%N)) S_IFREG)
                    (uid (perms data)) (gid (perms data)))
                 (N.lor (N.land value (octal [5; 5; 5]%N)) S_IFDIR) (no_disconnect data))
      else invalid
  | 3%nat =>
      if String.eqb name "uid"%string then
        let k := make_kuid (value mod 2 ^ 32)%N in
        let data1 :=
          mk_sb_fill_data
            (mk_perms (mode (perms data)) k (gid (perms data)))
            (root_mode data) (no_disconnect data) in
        if negb (id_valid k) then (- EINVAL, data1) else (0, data1)
      else if String.eqb name "gid"%string then
        let k := make_kgid (value mod 2 ^ 32)%N in
        let data1 :=
          mk_sb_fill_data
            (mk_perms (mode (perms data)) (uid (perms data)) k)
            (root_mode data) (no_disconnect data) in
        if negb (id_valid k) then (- EINVAL, data1) else (0, data1)
      else invalid
  | _ => invalid
  end.

(** The loop [for (;;)] of [ffs_fs_parse_opts].  Each round leaves a
    string shorter than the one it got, so [fuel] beyond the length of
    [opts] is never used up. *)
Fixpoint parse_opts_loop (fuel : nat) (data : ffs_sb_fill_data)
    (opts : string) : Z * ffs_sb_fill_data :=
  match fuel with
  | O => (- EINVAL, data)
  | S fuel' =>
      (* Option limit *)
      let '(opt, next) :=
        match strchr_cut ","%char opts with
        | Some (h, t) => (h, Some t)
        | None => (opts, None)
        end in
      (* Value limit *)
      match strchr_cut "="%char opt with
      | None => (- EINVAL, data)
      | Some (name, val) =>
          (* Parse value *)
          match kstrtoul val with
          | None => (- EINVAL, data)
          | Some value =>
              let '(ret, data1) := interpret_option data name value in
              if ret <? 0 then (ret, data1)
              else
                (* Next iteration *)
                match next with
                | None => (0, data1)
                | Some t => parse_opts_loop fuel' data1 t
                end
          end
      end
  end.

(** [ffs_fs_parse_opts(data, opts)]; [None] is a [NULL] [opts]. *)
Definition ffs_fs_parse_opts (data : ffs_sb_fill_data) (opts : option string)
  : Z * ffs_sb_fill_data :=
  match opts with
  | None => (0, data)
  | Some EmptyString => (0, data)
  | Some s => parse_opts_loop (S (String.length s)) data s
  end.

End ParseOpts.

(** A [kstrtoul] for the examples: decimal digits only. *)
Fixpoint decimal (acc : N) (s : string) : option N :=
  match s with
  | EmptyString => Some acc
  | String a rest =>
      let d := N_of_ascii a in
      if (48 <=? d)%N && (d <=? 57)%N
      then decimal (10 * acc + (d - 48))%N rest
      else None
  end.

Definition kstrtoul_decimal (s : string) : option N :=
  match s with
  | EmptyString => None
  | _ => decimal 0 s
  end.

(** The modes an accepted option string can leave: the type bit and
    permission bits within [0555] for the root directory, within [0666]
    for the files. *)
Definition modes_ok (data : ffs_sb_fill_data) : Prop :=
  (exists v, root_mode data = N.lor (N.land v (octal [5; 5; 5]%N)) S_IFDIR) /\
  (exists v, mode (perms data) = N.lor (N.land v (octal [6; 6; 6]%N)) S_IFREG).

End Mount.


(** ** Writes to an endpoint file *)

(** The actions only a read performs: sleeping on [epfile->wait] and
    copying to the caller. *)
Definition read_only_action (a : Epfile.io_action) : bool :=
  match a with
  | Epfile.Sleep_on_epfile_wait | Epfile.Copy_to_iter _ => true
  | _ => false
  end.

(** Every request queued is for [n] bytes. *)
Definition queues_only (n : N) (acts : list Epfile.io_action) : Prop :=
  forall m, In (Epfile.Usb_ep_queue m) acts -> m = n.

(** A blocking synchronous write of [n] bytes. *)
Definition sync_write (n : N) : Epfile.io_call :=
  Epfile.mk_io_call false false false n.

(** An enabled bulk-IN endpoint file. *)
Definition epfile_in_enabled : Epfile.io_state :=
  Epfile.mk_io_state (Epfile.mk_epfile false (Some 1%N) true false)
    false false.

(** ** Disconnect *)

(** [ffs_reset_work(work)], the work item [ffs_func_set_alt] schedules. *)
Definition ffs_reset_work (ffs_closed : Session.ffs_session -> Session.ffs_session)
    (s : Session.ffs_session) : Session.ffs_session :=
  Session.ffs_data_reset ffs_closed s.

(** ** Descriptors of a tier *)

(** Specification side: a descriptor the walker accepts is one of six
    kinds, as long as its [bLength] says and of the length of its kind; an
    endpoint descriptor has a non-zero endpoint number. *)
Definition well_formed_desc (d : list byte) : bool :=
  let bLength := byte_at d 0 in
  let bDescriptorType := byte_at d 1 in
  (blen d =? bLength)%N &&
  (if (bDescriptorType =? USB_DT_INTERFACE)%N
   then (bLength =? USB_DT_INTERFACE_SIZE)%N
   else if (bDescriptorType =? USB_DT_ENDPOINT)%N
   then ((bLength =? USB_DT_ENDPOINT_SIZE)%N
         || (bLength =? USB_DT_ENDPOINT_AUDIO_SIZE)%N)
        && negb (N.land (byte_at d 2) USB_ENDPOINT_NUMBER_MASK =? 0)%N
   else if (bDescriptorType =? HID_DT_HID)%N
   then (bLength =? sizeof_hid_descriptor)%N
   else if (bDescriptorType =? USB_DT_OTG)%N
   then (bLength =? sizeof_usb_otg_descriptor)%N
   else if (bDescriptorType =? USB_DT_INTERFACE_ASSOCIATION)%N
   then (bLength =? sizeof_usb_interface_assoc_descriptor)%N
   else if (bDescriptorType =? USB_DT_SS_ENDPOINT_COMP)%N
   then (bLength =? sizeof_usb_ss_ep_comp_descriptor)%N
   else false).


(** The endpoint descriptors of a list of descriptors and the addresses
    ([bEndpointAddress]) they carry, in order. *)
Definition is_endpoint_desc (d : list byte) : bool :=
  (byte_at d 1 =? USB_DT_ENDPOINT)%N.

Definition endpoint_addresses (ds : list (list byte)) : list N :=
  map (fun d => byte_at d 2) (filter is_endpoint_desc ds).

(** What a descriptor asks of the counts: an interface descriptor needs
    [bInterfaceNumber + 1] interfaces; an interface descriptor and an
    interface association name a string ([iInterface], [iFunction]). *)
Definition interface_need (d : list byte) : N :=
  if (byte_at d 1 =? USB_DT_INTERFACE)%N then (byte_at d 2 + 1)%N else 0%N.

Definition string_need (d : list byte) : N :=
  if (byte_at d 1 =? USB_DT_INTERFACE)%N then byte_at d 8
  else if (byte_at d 1 =? USB_DT_INTERFACE_ASSOCIATION)%N then byte_at d 7
  else 0%N.

(** The highest need over a list of descriptors. *)
Definition interfaces_needed (ds : list (list byte)) : N :=
  fold_right (fun d m => N.max (interface_need d) m) 0%N ds.

Definition strings_needed (ds : list (list byte)) : N :=
  fold_right (fun d m => N.max (string_need d) m) 0%N ds.

(** The stores [eps_addrmap[e + 1] = a] for the addresses [addrs] in
    turn, from [e] endpoints already counted. *)
Fixpoint store_addresses (m : list N) (e : nat) (addrs : list N) : list N :=
  match addrs with
  | [] => m
  | a :: rest => store_addresses (array_set m (S e) a) (S e) rest
  end.


(** A tier of one interface (string 5), a bulk-IN endpoint 1 and a
    bulk-OUT endpoint 2. *)
Definition tier_two_endpoints : list (list byte) :=
  [interface_desc 0 5; endpoint_desc 0x81; endpoint_desc 0x02].

(** ** Sessions the parser cannot tell apart *)

(** Two results of a walk started on related states: the same return
    value and, when it is not an error, related states again; or each
    walk, where it has not failed, in a state [Doom] from which its tier is
    refused. *)
Definition sim_post {P : Type} (Rel : P -> P -> Prop) (Doom : P -> Prop)
    (r1 r2 : Z * P) : Prop :=
  (fst r1 = fst r2 /\ (0 <= fst r1 -> Rel (snd r1) (snd r2))) \/
  ((0 <= fst r1 -> Doom (snd r1)) /\ (0 <= fst r2 -> Doom (snd r2))).

(** The fields of a session the descriptor parser reads or leaves, apart
    from [eps_addrmap]: everything but [ev], [user_flags], [ffs_eventfd]
    and [ms_os_descs_count]. *)
Definition parser_fields (f : ffs_data) :=
  (state f, setup_state f,
   (raw_descs_data f, raw_descs f, raw_descs_length f),
   (fs_descs_count f, hs_descs_count f, ss_descs_count f),
   (ms_os_descs_ext_prop_count f, ms_os_descs_ext_prop_name_len f,
    ms_os_descs_ext_prop_data_len f),
   (strings_count f, interfaces_count f, eps_count f),
   (stringtabs f, raw_strings f)).

(** The cells 1 to [n] of [eps_addrmap] agree. *)
Definition same_cells (n : nat) (f g : ffs_data) : Prop :=
  length (eps_addrmap f) = length (eps_addrmap g) /\
  forall i, (1 <= i <= n)%nat ->
    array_get (eps_addrmap f) i = array_get (eps_addrmap g) i.

(** "Descriptors for no speed were parsed yet": the test of
    [__ffs_data_do_entity] and of [__ffs_data_got_descs]. *)
Definition first_tier (f : ffs_data) : bool :=
  (eps_count f =? 0)%N && (interfaces_count f =? 0)%N.

(** Two sessions the parser cannot tell apart: the same fields and the
    same endpoint addresses for the endpoints counted. *)
Definition parse_agree (f g : ffs_data) : Prop :=
  parser_fields f = parser_fields g /\
  same_cells (N.to_nat (eps_count f)) f g.

(** The same, in the middle of a tier: the same helper, and the cells
    agree as far as the tier has stored them (first tier) or as far as
    [eps_count] goes (later tiers). *)
Definition walk_agree (p q : ffs_desc_helper * ffs_data) : Prop :=
  fst p = fst q /\
  parser_fields (snd p) = parser_fields (snd q) /\
  (helper_eps_count (fst p) <= 14)%N /\
  same_cells
    (N.to_nat (if first_tier (snd p) then helper_eps_count (fst p)
               else eps_count (snd p)))
    (snd p) (snd q).

(** A later tier that has counted more endpoints than [eps_count]: it
    cannot be accepted any more. *)
Definition walk_doomed (p : ffs_desc_helper * ffs_data) : Prop :=
  first_tier (snd p) = false /\
  (eps_count (snd p) < helper_eps_count (fst p) <= 14)%N.

(** A legacy blob, full speed only: one interface and the bulk-OUT
    endpoint 2. *)
Definition blob_other_endpoint : list byte :=
  legacy_descs_blob 2 0 (interface_desc 0 0 ++ endpoint_desc 0x02).

(** ** Asynchronous calls on an endpoint file *)

(** The actions only a synchronous call performs: taking the request back
    and copying to the caller. *)
Definition sync_only_action (a : Epfile.io_action) : bool :=
  match a with
  | Epfile.Usb_ep_dequeue | Epfile.Copy_to_iter _ => true
  | _ => false
  end.

(** A request has been queued. *)
Definition queued (acts : list Epfile.io_action) : Prop :=
  exists m, In (Epfile.Usb_ep_queue m) acts.

(** What an asynchronous call returns and does, below "Do we halt?". *)
Definition aio_post (env : Epfile.io_env) (ret : Z)
    (acts : list Epfile.io_action) : Prop :=
  existsb sync_only_action acts = false /\
  (queued acts ->
   ret = if Epfile.usb_ep_queue_ret env =? 0 then - EIOCBQUEUED
         else Epfile.usb_ep_queue_ret env) /\
  (ret = - EIOCBQUEUED -> queued acts).

(** An asynchronous read of [n] bytes. *)
Definition aio_read (n : N) : Epfile.io_call :=
  Epfile.mk_io_call false true true n.

(** ** Selecting the interface *)

Module Select.
Import Epfile Session.




End Select.

(** ** Endpoint descriptors of a tier *)

(** Specification side: the number of descriptors of type ENDPOINT among
    the first [count] descriptors laid out in [data], each as long as its
    [bLength] says. *)
Fixpoint count_endpoints (count : nat) (data : list byte) : nat :=
  match count with
  | O => O
  | S c =>
      ((if (byte_at data 1 =? USB_DT_ENDPOINT)%N then 1 else 0)
       + count_endpoints c (advance (byte_at data 0) data))%nat
  end.

(** [data] past its first [count] descriptors. *)
Fixpoint skip_descs (count : nat) (data : list byte) : list byte :=
  match count with
  | O => data
  | S c => skip_descs c (advance (byte_at data 0) data)
  end.

(** The numbers of endpoint descriptors of the tiers that follow one
    another in [data], [counts] giving the number of descriptors of
    each. *)
Fixpoint tiers_endpoints (counts : list N) (data : list byte) : list nat :=
  match counts with
  | [] => []
  | c :: rest =>
      count_endpoints (N.to_nat c) data
      :: tiers_endpoints rest (skip_descs (N.to_nat c) data)
  end.
(** * Results *)

(** ** Arrays as lists *)

Lemma array_set_length {A : Type} (a : list A) (i : nat) (v : A) :
  length (array_set a i v) = length a.
Proof.
  revert i; induction a as [|h t IH]; intros [|i]; simpl; auto.
Qed.

Lemma firstn_array_set_le {A : Type} (a : list A) (i k : nat) (v : A) :
  (k <= i)%nat -> firstn k (array_set a i v) = firstn k a.
Proof.
  revert i k; induction a as [|h t IH]; intros [|i] [|k] Hk; simpl; auto;
    try lia.
  f_equal. apply IH. lia.
Qed.

Lemma firstn_array_set_S {A : Type} (a : list A) (i : nat) (v : A) :
  (i < length a)%nat -> firstn (S i) (array_set a i v) = firstn i a ++ [v].
Proof.
  revert i; induction a as [|h t IH]; intros [|i] Hi; simpl in *; try lia.
  - reflexivity.
  - f_equal. apply IH. lia.
Qed.

Lemma skipn_array_set {A : Type} (a : list A) (i k : nat) (v : A) :
  (i < k)%nat -> skipn k (array_set a i v) = skipn k a.
Proof.
  revert i k; induction a as [|h t IH]; intros [|i] [|k] Hk; simpl; auto;
    try lia.
  apply IH. lia.
Qed.

Lemma firstn_S_skipn {A : Type} (a : list A) (i n : nat) (d : A) :
  (i < length a)%nat ->
  firstn (S n) (skipn i a) = nth i a d :: firstn n (skipn (S i) a).
Proof.
  revert i; induction a as [|h t IH]; intros [|i] Hi; simpl in *; try lia.
  - reflexivity.
  - rewrite <- IH by lia. reflexivity.
Qed.

(** ** The compaction loop is a filter *)

Lemma event_purge_filter (n : nat) keep a ev out :
  (out <= ev)%nat -> (ev + n <= length a)%nat ->
  let '(a', out') := event_purge n keep a ev out in
  firstn out' a' = firstn out a ++ filter keep (firstn n (skipn ev a)) /\
  length a' = length a /\
  (out' <= ev + n)%nat /\
  out' = (out + length (filter keep (firstn n (skipn ev a))))%nat.
Proof.
  revert a ev out; induction n as [|n IH]; intros a ev out Hout Hlen.
  - simpl. rewrite app_nil_r. repeat split; lia.
  - cbn [event_purge].
    rewrite (firstn_S_skipn a ev n FUNCTIONFS_BIND) by lia.
    cbn [filter].
    destruct (keep (nth ev a FUNCTIONFS_BIND)) eqn:Hk.
    + specialize (IH (array_set a out (nth ev a FUNCTIONFS_BIND)) (S ev) (S out)).
      rewrite array_set_length in IH.
      destruct (event_purge n keep _ (S ev) (S out)) as [a' out'].
      destruct IH as (H1 & H2 & H3 & H4); try lia.
      rewrite skipn_array_set in H1, H4 by lia.
      rewrite firstn_array_set_S in H1 by lia.
      rewrite <- app_assoc in H1. simpl in H1.
      repeat split; auto; cbn [length]; lia.
    + specialize (IH a (S ev) out).
      destruct (event_purge n keep a (S ev) out) as [a' out'].
      destruct IH as (H1 & H2 & H3 & H4); try lia.
      repeat split; auto; try lia.
Qed.

Lemma countb_app p q1 q2 : countb p (q1 ++ q2) = (countb p q1 + countb p q2)%nat.
Proof. unfold countb. rewrite filter_app, length_app. reflexivity. Qed.

Lemma countb_filter_le p k q : (countb p (filter k q) <= countb p q)%nat.
Proof.
  unfold countb. induction q as [|x q IH]; simpl; auto.
  destruct (k x); simpl; destruct (p x); simpl; lia.
Qed.

Lemma countb_filter_none p k q :
  (forall x, p x = true -> k x = false) -> countb p (filter k q) = 0%nat.
Proof.
  intros H. unfold countb. induction q as [|x q IH]; simpl; auto.
  destruct (k x) eqn:Hk; simpl; auto.
  destruct (p x) eqn:Hp; simpl; auto.
  rewrite (H x Hp) in Hk. discriminate.
Qed.

Lemma countb_firstn_le p n q : (countb p (firstn n q) <= countb p q)%nat.
Proof.
  unfold countb. revert n; induction q as [|x q IH]; intros [|n]; simpl; auto;
    try lia.
  specialize (IH n). destruct (p x); simpl; lia.
Qed.

Lemma countb_skipn_le p n q : (countb p (skipn n q) <= countb p q)%nat.
Proof.
  unfold countb. revert n; induction q as [|x q IH]; intros [|n]; simpl; auto.
  specialize (IH n). destruct (p x); simpl; lia.
Qed.

(** The four categories partition the event types. *)
Lemma length_by_category q :
  length q = (countb is_setup q + countb is_suspend q + countb is_resume q
              + countb is_lifecycle q)%nat.
Proof.
  unfold countb. induction q as [|x q IH]; simpl; auto.
  destruct x; simpl; lia.
Qed.

(** [__ffs_event_add] on the queue view, as long as the array has room
    for the kept entries and the new one. *)
Lemma event_add_queue f type :
  (count (ev f) <= length (types (ev f)))%nat ->
  (length (filter (fun e => negb (superseded_by type e)) (ev_queue f))
   < length (types (ev f)))%nat ->
  ev_queue (__ffs_event_add f type)
  = filter (fun e => negb (superseded_by type e)) (ev_queue f) ++ [type]
  /\ length (types (ev (__ffs_event_add f type))) = length (types (ev f))
  /\ count (ev (__ffs_event_add f type))
     = S (length (filter (fun e => negb (superseded_by type e)) (ev_queue f))).
Proof.
  intros Hc Hroom.
  assert (Hkeep : forall e,
             (let '(r1, r2, neg) := event_rem_types type in event_kept r1 r2 neg e)
             = negb (superseded_by type e)).
  { intros e. destruct type, e; reflexivity. }
  unfold __ffs_event_add, ev_queue in *.
  set (f1 := match setup_state f with
             | FFS_SETUP_PENDING => set_setup_state FFS_SETUP_CANCELLED f
             | _ => f
             end).
  assert (Hev : ev f1 = ev f) by (unfold f1; destruct (setup_state f); reflexivity).
  rewrite Hev.
  destruct (event_rem_types type) as [[r1 r2] neg] eqn:Hrem.
  pose proof (event_purge_filter (count (ev f)) (event_kept r1 r2 neg)
                (types (ev f)) 0 0) as HP.
  destruct (event_purge (count (ev f)) (event_kept r1 r2 neg) (types (ev f)) 0 0)
    as [a out].
  destruct HP as (H1 & H2 & H3 & H4); try lia.
  simpl in H1, H4. 
  rewrite (filter_ext _ _ Hkeep) in H1, H4.
  cbn [ev set_ev types count].
  rewrite array_set_length, H2.
  rewrite firstn_array_set_S by lia.
  rewrite H1. repeat split; auto.
Qed.

(** ** The queue invariant *)

Ltac category_purged p keep q :=
  try (assert (countb p (filter keep q) = 0%nat)
        by (apply countb_filter_none; intros []; simpl; congruence)).

Lemma ev_inv_event_add f type :
  ev_inv f ->
  ev_inv (__ffs_event_add f type) /\
  ev_queue (__ffs_event_add f type)
  = filter (fun e => negb (superseded_by type e)) (ev_queue f) ++ [type].
Proof.
  intros (HL & HC & H1 & H2 & H3 & H4).
  set (keep := fun e => negb (superseded_by type e)).
  pose proof (countb_filter_le is_setup keep (ev_queue f)) as K1.
  pose proof (countb_filter_le is_suspend keep (ev_queue f)) as K2.
  pose proof (countb_filter_le is_resume keep (ev_queue f)) as K3.
  pose proof (countb_filter_le is_lifecycle keep (ev_queue f)) as K4.
  pose proof (length_by_category (filter keep (ev_queue f))) as HLen.
  assert (Hstep :
    (length (filter keep (ev_queue f)) < 4)%nat /\
    (countb is_setup (filter keep (ev_queue f) ++ [type]) <= 1)%nat /\
    (countb is_suspend (filter keep (ev_queue f) ++ [type]) <= 1)%nat /\
    (countb is_resume (filter keep (ev_queue f) ++ [type]) <= 1)%nat /\
    (countb is_lifecycle (filter keep (ev_queue f) ++ [type]) <= 1)%nat).
  { rewrite !countb_app. unfold keep in *.
    destruct type; cbn [countb filter is_setup is_suspend is_resume
                        is_lifecycle event_type_eqb length];
      category_purged is_setup
        (fun e => negb (superseded_by FUNCTIONFS_SETUP e)) (ev_queue f);
      category_purged is_suspend
        (fun e => negb (superseded_by FUNCTIONFS_SUSPEND e)) (ev_queue f);
      category_purged is_suspend
        (fun e => negb (superseded_by FUNCTIONFS_RESUME e)) (ev_queue f);
      category_purged is_resume
        (fun e => negb (superseded_by FUNCTIONFS_RESUME e)) (ev_queue f);
      category_purged is_lifecycle
        (fun e => negb (superseded_by FUNCTIONFS_BIND e)) (ev_queue f);
      category_purged is_setup
        (fun e => negb (superseded_by FUNCTIONFS_BIND e)) (ev_queue f);
      category_purged is_lifecycle
        (fun e => negb (superseded_by FUNCTIONFS_UNBIND e)) (ev_queue f);
      category_purged is_setup
        (fun e => negb (superseded_by FUNCTIONFS_UNBIND e)) (ev_queue f);
      category_purged is_lifecycle
        (fun e => negb (superseded_by FUNCTIONFS_ENABLE e)) (ev_queue f);
      category_purged is_setup
        (fun e => negb (superseded_by FUNCTIONFS_ENABLE e)) (ev_queue f);
      category_purged is_lifecycle
        (fun e => negb (superseded_by FUNCTIONFS_DISABLE e)) (ev_queue f);
      category_purged is_setup
        (fun e => negb (superseded_by FUNCTIONFS_DISABLE e)) (ev_queue f);
      lia. }
  destruct Hstep as (Hroom & S1 & S2 & S3 & S4).
  destruct (event_add_queue f type) as (Q1 & Q2 & Q3).
  - lia.
  - fold keep. lia.
  - fold keep in Q1, Q3. split; [|exact Q1].
    unfold ev_inv. rewrite Q1, Q2, Q3. repeat split; auto; lia.
Qed.

Lemma ev_inv_set_ev_setup f creq : ev_inv f -> ev_inv (set_ev_setup creq f).
Proof. intros H. exact H. Qed.

Lemma ev_inv_new : ev_inv ffs_data_new.
Proof. unfold ev_inv. cbn. repeat split; lia. Qed.

Lemma ev_inv_read_events env f n :
  ev_inv f -> ev_inv (snd (fst (__ffs_ep0_read_events env f n))).
Proof.
  intros (HL & HC & H1 & H2 & H3 & H4).
  unfold __ffs_ep0_read_events.
  set (k := N.to_nat n).
  set (f1 := if existsb (event_type_eqb FUNCTIONFS_SETUP)
                  (firstn k (types (ev f)))
             then set_setup_state FFS_SETUP_PENDING f else f).
  assert (Hev : ev f1 = ev f) by (unfold f1; destruct (existsb _ _); reflexivity).
  rewrite Hev.
  assert (Hq : ev_queue
                 (set_ev
                    (mk_ffs_ev
                       (firstn (count (ev f) - k) (skipn k (types (ev f)))
                        ++ skipn (count (ev f) - k) (types (ev f)))
                       (count (ev f) - k) (can_stall (ev f)) (setup (ev f)))
                    f1)
               = skipn k (ev_queue f)).
  { unfold ev_queue. cbn [ev set_ev types count].
    rewrite firstn_app.
    rewrite length_firstn, length_skipn.
    replace (count (ev f) - k - Nat.min (count (ev f) - k) (length (types (ev f)) - k))%nat
      with 0%nat by lia.
    rewrite firstn_O, app_nil_r, firstn_firstn, Nat.min_id.
    rewrite skipn_firstn_comm. reflexivity. }
  assert (Hinv : ev_inv
                   (set_ev
                      (mk_ffs_ev
                         (firstn (count (ev f) - k) (skipn k (types (ev f)))
                          ++ skipn (count (ev f) - k) (types (ev f)))
                         (count (ev f) - k) (can_stall (ev f)) (setup (ev f)))
                      f1)).
  { unfold ev_inv. rewrite Hq. cbn [ev set_ev types count].
    rewrite length_app, length_firstn, !length_skipn.
    pose proof (countb_skipn_le is_setup k (ev_queue f)).
    pose proof (countb_skipn_le is_suspend k (ev_queue f)).
    pose proof (countb_skipn_le is_resume k (ev_queue f)).
    pose proof (countb_skipn_le is_lifecycle k (ev_queue f)).
    repeat split; lia. }
  destruct (copy_to_user_ok env); exact Hinv.
Qed.

Lemma ev_inv_queue_step f op : ev_inv f -> ev_inv (queue_step f op).
Proof.
  intros H. destruct op as [type|creq|n env]; simpl.
  - apply ev_inv_event_add, H.
  - apply ev_inv_event_add, ev_inv_set_ev_setup, H.
  - destruct ((n =? 0)%N || (blen_events f =? 0)%N); auto.
    apply ev_inv_read_events, H.
Qed.

Lemma ev_inv_queue_run ops : ev_inv (queue_run ops).
Proof.
  unfold queue_run. generalize ev_inv_new. generalize ffs_data_new.
  induction ops as [|op ops IH]; intros f Hf; simpl; auto.
  apply IH, ev_inv_queue_step, Hf.
Qed.

(** ** C4 *)

(** C4.  For every sequence of enqueue (and consume) operations from a
    fresh session, the number of queued events never exceeds four, and the
    four-cell array [ev.types] keeps its four cells: the store
    [ev.types[ev.count++] = type] of every enqueue is in range. *)
Theorem event_queue_never_exceeds_four (ops : list queue_op) :
  (count (ev (queue_run ops)) <= 4)%nat /\
  (length (ev_queue (queue_run ops)) <= 4)%nat /\
  length (types (ev (queue_run ops))) = 4%nat /\
  forall type,
    (count (ev (queue_step (queue_run ops) (Enqueue type))) <= 4)%nat /\
    last (ev_queue (queue_step (queue_run ops) (Enqueue type))) FUNCTIONFS_BIND
    = type.
Proof.
  pose proof (ev_inv_queue_run ops) as Hinv.
  destruct Hinv as (HL & HC & H1 & H2 & H3 & H4).
  repeat split; auto.
  - unfold ev_queue. rewrite length_firstn. lia.
  - destruct (ev_inv_event_add (queue_run ops) type) as ((_ & HC' & _) & _).
    + repeat split; auto.
    + exact HC'.
  - destruct (ev_inv_event_add (queue_run ops) type) as (_ & Q).
    + repeat split; auto.
    + simpl. unfold ffs_event_add. rewrite Q. apply last_last.
Qed.

(** ** C3 *)

(** C3, as stated, fails on the code in two places.  (1) A lifecycle event
    does not purge a queued [Suspend]: after [Suspend] then [Bind] the
    queue is [Suspend; Bind].  (2) Enqueueing [Resume] does not change
    exactly one entry when a [Resume] is queued as well: from the reachable
    queue [Resume; Suspend] it leaves [Resume] alone. *)
Lemma event_supersede_counterexample :
  ~ (forall ops type,
        is_lifecycle type = true ->
        ~ In FUNCTIONFS_SUSPEND
            (ev_queue (queue_step (queue_run ops) (Enqueue type)))) /\
  ~ (forall ops,
        In FUNCTIONFS_SUSPEND (ev_queue (queue_run ops)) ->
        ev_queue (queue_step (queue_run ops) (Enqueue FUNCTIONFS_RESUME))
        = filter (fun e => negb (is_suspend e)) (ev_queue (queue_run ops))
          ++ [FUNCTIONFS_RESUME]).
Proof.
  split.
  - intros H.
    apply (H [Enqueue FUNCTIONFS_SUSPEND] FUNCTIONFS_BIND eq_refl).
    vm_compute. left. reflexivity.
  - intros H.
    specialize (H [Enqueue FUNCTIONFS_RESUME; Enqueue FUNCTIONFS_SUSPEND]).
    vm_compute in H.
    assert (In FUNCTIONFS_SUSPEND [FUNCTIONFS_RESUME; FUNCTIONFS_SUSPEND])
      as Hin by (right; left; reflexivity).
    specialize (H Hin). discriminate H.
Qed.

(** C3, amended.  In every reachable queue state, enqueueing [type] leaves
    the queue as: the old queue without the entries superseded by [type],
    in their old order, followed by [type]; where [Resume] supersedes
    queued [Suspend] and [Resume] entries, [Suspend] and [Setup] supersede
    earlier instances of themselves, and [Bind]/[Unbind]/[Disable]/[Enable]
    supersede every queued entry except [Suspend] and [Resume]. *)
Theorem event_add_supersedes (ops : list queue_op)
    (type : usb_functionfs_event_type) :
  ev_queue (queue_step (queue_run ops) (Enqueue type))
  = filter (fun e => negb (superseded_by type e)) (ev_queue (queue_run ops))
    ++ [type].
Proof.
  destruct (ev_inv_event_add (queue_run ops) type) as (_ & Q).
  - apply ev_inv_queue_run.
  - exact Q.
Qed.

(** ** C2 *)

Lemma event_add_setup_state f type :
  setup_state (__ffs_event_add f type)
  = match setup_state f with
    | FFS_SETUP_PENDING => FFS_SETUP_CANCELLED
    | s => s
    end.
Proof.
  unfold __ffs_event_add.
  destruct (event_rem_types type) as [[r1 r2] neg].
  destruct (setup_state f) eqn:Hs;
    match goal with
    | |- context [event_purge ?n ?k ?a 0%nat 0%nat] =>
        destruct (event_purge n k a 0%nat 0%nat)
    end; cbn; auto.
Qed.

Lemma deliver_setup_state f d :
  setup_state (deliver f d)
  = match setup_state f with
    | FFS_SETUP_PENDING => FFS_SETUP_CANCELLED
    | s => s
    end.
Proof.
  destruct d as [type|creq]; simpl; unfold ffs_event_add;
    rewrite event_add_setup_state; reflexivity.
Qed.

Lemma deliver_all_cancelled f ds :
  setup_state f = FFS_SETUP_CANCELLED ->
  setup_state (deliver_all f ds) = FFS_SETUP_CANCELLED.
Proof.
  revert f; induction ds as [|d ds IH]; intros f H; simpl; auto.
  apply IH. rewrite deliver_setup_state, H. reflexivity.
Qed.

(** C2.  If a setup packet is pending and the function driver enqueues
    one or more events before it is answered, the setup sub-state is
    [FFS_SETUP_CANCELLED]; the next read and the next write on ep0 (on an
    instance that still exists) then fail with [-EIDRM], touch nothing but
    the sub-state (back to [FFS_NO_SETUP]) and issue no request to the
    UDC. *)
Theorem pending_setup_cancelled_by_enqueue (env : ep0_env) (f : ffs_data)
    (d : delivery) (ds : list delivery) (nonblock : bool) :
  setup_state f = FFS_SETUP_PENDING ->
  inst_exist env = true ->
  setup_state (deliver_all f (d :: ds)) = FFS_SETUP_CANCELLED /\
  (forall len,
      ffs_ep0_read env (deliver_all f (d :: ds)) nonblock len
      = (- EIDRM, set_setup_state FFS_NO_SETUP (deliver_all f (d :: ds)), []))
  /\
  (forall buf,
      ffs_ep0_write env (deliver_all f (d :: ds)) nonblock buf
      = (- EIDRM, set_setup_state FFS_NO_SETUP (deliver_all f (d :: ds)), [])).
Proof.
  intros Hp Hi.
  assert (Hc : setup_state (deliver_all f (d :: ds)) = FFS_SETUP_CANCELLED).
  { simpl. apply deliver_all_cancelled.
    rewrite deliver_setup_state, Hp. reflexivity. }
  split; [exact Hc|].
  split; intros x.
  - unfold ffs_ep0_read, ffs_inst_exist_check, ffs_setup_state_clear_cancelled.
    rewrite Hi, Hc. reflexivity.
  - unfold ffs_ep0_write, ffs_inst_exist_check, ffs_setup_state_clear_cancelled.
    rewrite Hi, Hc. reflexivity.
Qed.

Lemma pending_setup_cancelled_by_enqueue_witness :
  setup_state (ffs_setup_pending (mk_ctrlrequest 0x21 9 0 0 8))
  = FFS_SETUP_PENDING /\
  fst (fst (ffs_ep0_read (ep0_env_quiet 8)
              (deliver_all (ffs_setup_pending (mk_ctrlrequest 0x21 9 0 0 8))
                 [Deliver_event FUNCTIONFS_SUSPEND]) false 8))
  = - EIDRM.
Proof.
  split; [reflexivity|].
  destruct (pending_setup_cancelled_by_enqueue (ep0_env_quiet 8)
              (ffs_setup_pending (mk_ctrlrequest 0x21 9 0 0 8))
              (Deliver_event FUNCTIONFS_SUSPEND) [] false eq_refl eq_refl)
    as (_ & Hr & _).
  rewrite Hr. reflexivity.
Defined.

(** ** C5 *)

(** C5, as stated, fails on the code: a read of ep0 with a setup pending
    serves the host-to-device data stage ([USB_DIR_IN] clear in
    [bRequestType]) and stalls when the packet announces a device-to-host
    data stage.  With a pending class request [0x21] (host-to-device,
    [wLength = 8]) the read queues an eight-byte transfer instead of
    stalling; with [0xA1] (device-to-host) it halts ep0 and returns
    [-EL2HLT]. *)
Lemma ep0_read_direction_counterexample :
  ~ (forall env f nonblock len,
        state f = FFS_ACTIVE ->
        setup_state f = FFS_SETUP_PENDING ->
        inst_exist env = true ->
        ffs_mutex_lock env nonblock = 0 ->
        N.land (bRequestType (setup (ev f))) USB_DIR_IN = 0%N ->
        ffs_ep0_read env f nonblock len = __ffs_ep0_stall f) /\
  ffs_ep0_read (ep0_env_quiet 8)
    (ffs_setup_pending (mk_ctrlrequest 0x21 9 0 0 8)) false 8
  = (8, set_setup_state FFS_NO_SETUP
          (ffs_setup_pending (mk_ctrlrequest 0x21 9 0 0 8)),
     [Usb_ep_queue 8 false; Copy_to_user 8]) /\
  ffs_ep0_read (ep0_env_quiet 8)
    (ffs_setup_pending (mk_ctrlrequest 0xA1 1 0 0 8)) false 8
  = (- EL2HLT,
     set_setup_state FFS_NO_SETUP
       (ffs_setup_pending (mk_ctrlrequest 0xA1 1 0 0 8)),
     [Usb_ep_set_halt]).
Proof.
  split; [|split; reflexivity].
  intros H.
  specialize (H (ep0_env_quiet 8)
                (ffs_setup_pending (mk_ctrlrequest 0x21 9 0 0 8)) false 8%N
                eq_refl eq_refl eq_refl eq_refl eq_refl).
  vm_compute in H. discriminate H.
Qed.

(** C5, amended.  For every ep0 read issued while the session is active
    and a setup is pending (instance in place, mutex taken): if the cached
    packet announces a device-to-host data stage ([USB_DIR_IN] set), the
    read stalls: with [can_stall] it halts ep0, resets the sub-state and
    returns [-EL2HLT], otherwise it returns [-ESRCH] and does nothing.  If
    the packet announces a host-to-device data stage, then (buffer
    allocated, no event delivered while the lock is dropped, request
    accepted, wait not interrupted) one transfer of
    [min(len, wLength)] bytes is queued and awaited, the sub-state is
    [FFS_NO_SETUP], the result is the request's status or byte count, and a
    positive count is copied out ([-EFAULT] if that copy faults). *)
Theorem ep0_read_setup_pending (env : ep0_env) (f : ffs_data)
    (nonblock : bool) (len : N) :
  inst_exist env = true ->
  ffs_mutex_lock env nonblock = 0 ->
  state f = FFS_ACTIVE ->
  setup_state f = FFS_SETUP_PENDING ->
  (N.land (bRequestType (setup (ev f))) USB_DIR_IN <> 0%N ->
   ffs_ep0_read env f nonblock len
   = if can_stall (ev f)
     then (- EL2HLT, set_setup_state FFS_NO_SETUP f, [Usb_ep_set_halt])
     else (- ESRCH, f, [])) /\
  (N.land (bRequestType (setup (ev f))) USB_DIR_IN = 0%N ->
   (N.min len (wLength (setup (ev f))) = 0%N \/ kmalloc_ok env = true) ->
   delivered_unlocked env = [] ->
   0 <= usb_ep_queue_ret env ->
   completion_interrupted env = false ->
   ffs_ep0_read env f nonblock len
   = let n := N.min len (wLength (setup (ev f))) in
     let ret := if req_status env =? 0 then Z.of_N (req_actual env)
                else req_status env in
     let f' := set_setup_state FFS_NO_SETUP
                 (deliver_all f (delivered_waiting env)) in
     let queue := Usb_ep_queue n (n <? wLength (setup (ev f)))%N in
     if 0 <? ret then
       if copy_to_user_ok env then (ret, f', [queue; Copy_to_user n])
       else (- EFAULT, f', [queue])
     else (ret, f', [queue])).
Proof.
  intros Hi Hl Hs Hp.
  unfold ffs_ep0_read, ffs_inst_exist_check, ffs_setup_state_clear_cancelled.
  rewrite Hi, Hp, Hl. cbn beta iota zeta.
  rewrite Hs, Hp. cbn beta iota zeta.
  split.
  - intros Hdir.
    destruct (N.eqb_spec (N.land (bRequestType (setup (ev f))) USB_DIR_IN) 0)
      as [E|E]; [contradiction|].
    cbn [negb]. unfold __ffs_ep0_stall. reflexivity.
  - intros Hdir Hk Hd Hq Hc.
    rewrite Hdir. cbn [N.eqb negb].
    assert (Hkm : negb (N.min len (wLength (setup (ev f))) =? 0)%N
                  && negb (kmalloc_ok env) = false).
    { destruct Hk as [Hk|Hk]; rewrite Hk; [reflexivity|].
      apply andb_false_r. }
    rewrite Hkm, Hd. cbn [deliver_all fold_left]. rewrite Hp.
    unfold __ffs_ep0_queue_wait.
    replace (usb_ep_queue_ret env <? 0) with false
      by (symmetry; apply Z.ltb_ge; exact Hq).
    rewrite Hc.
    cbv zeta.
    destruct (0 <? (if req_status env =? 0 then Z.of_N (req_actual env)
                    else req_status env)); [|reflexivity].
    destruct (copy_to_user_ok env); reflexivity.
Qed.

Lemma ep0_read_setup_pending_witness :
  ffs_ep0_read (ep0_env_quiet 8)
    (ffs_setup_pending (mk_ctrlrequest 0xA1 1 0 0 8)) false 8
  = (- EL2HLT,
     set_setup_state FFS_NO_SETUP
       (ffs_setup_pending (mk_ctrlrequest 0xA1 1 0 0 8)),
     [Usb_ep_set_halt]) /\
  ffs_ep0_read (ep0_env_quiet 8)
    (ffs_setup_pending (mk_ctrlrequest 0x21 9 0 0 8)) false 8
  = (8, set_setup_state FFS_NO_SETUP
          (ffs_setup_pending (mk_ctrlrequest 0x21 9 0 0 8)),
     [Usb_ep_queue 8 false; Copy_to_user 8]).
Proof.
  split.
  - destruct (ep0_read_setup_pending (ep0_env_quiet 8)
                (ffs_setup_pending (mk_ctrlrequest 0xA1 1 0 0 8)) false 8
                eq_refl eq_refl eq_refl eq_refl) as (Hin & _).
    rewrite Hin; [reflexivity|]. vm_compute. discriminate.
  - destruct (ep0_read_setup_pending (ep0_env_quiet 8)
                (ffs_setup_pending (mk_ctrlrequest 0x21 9 0 0 8)) false 8
                eq_refl eq_refl eq_refl eq_refl) as (_ & Hout).
    rewrite Hout;
      first [reflexivity | right; reflexivity | vm_compute; discriminate].
Defined.

(** Case analysis on every test in the goal. *)
Ltac break_ifs :=
  repeat match goal with
         | |- context [if ?c then _ else _] =>
             let E := fresh "E" in destruct c eqn:E
         | |- context [let '(_, _) := ?e in _] =>
             let E := fresh "E" in destruct e eqn:E
         end.

(** ** Invariants of the descriptor walk *)

Section WalkInvariant.
Context {P : Type}.
Variable entity : ffs_entity_callback P.
(** [I] holds as long as the walk goes on, [W] whatever the outcome. *)
Variables I W : P -> Prop.
Hypothesis I_W : forall p, I p -> W p.
Hypothesis entity_post :
  forall type v d p,
    I p ->
    W (snd (entity type v d p)) /\
    (0 <= fst (entity type v d p) -> I (snd (entity type v d p))).

Lemma walk_post_leaf z p : I p -> walk_post I W (z, p).
Proof. intros H. split; simpl; auto. Qed.

Lemma __entity_post check type v d p k :
  I p ->
  (forall p', I p' -> walk_post I W (k p')) ->
  walk_post I W (__entity entity check type v d p k).
Proof.
  intros Hp Hk. unfold __entity.
  destruct (negb (check v)); [apply walk_post_leaf, Hp|].
  destruct (entity_post type v d p Hp) as [HW HI].
  destruct (entity type v d p) as [ret p1]. simpl in HW, HI.
  destruct (ret <? 0) eqn:Hret.
  - split; simpl; auto.
  - apply Hk, HI. apply Z.ltb_ge in Hret. exact Hret.
Qed.

Lemma ffs_do_single_desc_post data p :
  I p -> walk_post I W (ffs_do_single_desc entity data p).
Proof.
  intros Hp. unfold ffs_do_single_desc.
  repeat match goal with
         | |- context [if ?c then _ else _] => destruct c
         end;
    repeat first
      [ apply walk_post_leaf; assumption
      | apply __entity_post; [assumption | intros ? ?] ].
Qed.

Lemma ffs_do_descs_loop_post fuel count num data consumed p :
  I p ->
  walk_post I W (ffs_do_descs_loop entity fuel count num data consumed p).
Proof.
  revert num data consumed p.
  induction fuel as [|fuel IH]; intros num data consumed p Hp.
  - apply walk_post_leaf, Hp.
  - cbn [ffs_do_descs_loop].
    destruct (entity_post FFS_DESCRIPTOR num
                (if (num =? count)%N then [] else data) p Hp) as [HW HI].
    destruct (entity FFS_DESCRIPTOR num _ p) as [ret p1]. simpl in HW, HI.
    destruct (ret <? 0) eqn:Hret.
    { split; simpl; auto. }
    apply Z.ltb_ge in Hret. specialize (HI Hret).
    destruct (num =? count)%N; [apply walk_post_leaf, HI|].
    pose proof (ffs_do_single_desc_post data p1 HI) as [HW2 HI2].
    destruct (ffs_do_single_desc entity data p1) as [ret2 p2].
    simpl in HW2, HI2.
    destruct (ret2 <? 0) eqn:Hret2.
    { split; simpl; auto. }
    apply IH, HI2. apply Z.ltb_ge in Hret2. exact Hret2.
Qed.

Lemma ffs_do_descs_post count data p :
  I p -> walk_post I W (ffs_do_descs entity count data p).
Proof. apply ffs_do_descs_loop_post. Qed.
End WalkInvariant.

Section OsWalkInvariant.
Context {P : Type}.
Variable entity : ffs_os_desc_callback P.
Variable I : P -> Prop.
Hypothesis entity_post :
  forall type h d p, I p -> I (snd (entity type h d p)).

Lemma ffs_do_single_os_desc_loop_post n data consumed type h p :
  I p ->
  I (snd (ffs_do_single_os_desc_loop entity n data consumed type h p)).
Proof.
  revert data consumed p; induction n as [|n IH]; intros data consumed p Hp.
  - exact Hp.
  - cbn [ffs_do_single_os_desc_loop].
    pose proof (entity_post type h data p Hp) as H1.
    destruct (entity type h data p) as [ret p1]. simpl in H1.
    destruct (ret <? 0); [exact H1|]. apply IH, H1.
Qed.

Lemma ffs_do_os_descs_loop_post fuel count num data consumed p :
  I p ->
  I (snd (ffs_do_os_descs_loop entity fuel count num data consumed p)).
Proof.
  revert num data consumed p.
  induction fuel as [|fuel IH]; intros num data consumed p Hp.
  - exact Hp.
  - cbn [ffs_do_os_descs_loop].
    repeat match goal with
           | |- context [if ?c then _ else _] => destruct c; [exact Hp|]
           end.
    destruct (__ffs_do_os_desc_header data) as [ret type].
    destruct (ret <? 0); [exact Hp|].
    destruct (_ && _); [exact Hp|].
    unfold ffs_do_single_os_desc.
    pose proof (ffs_do_single_os_desc_loop_post
                  (N.to_nat (get_unaligned_le16 (advance 9 data)))
                  (advance (Z.to_N ret) data) 0%N type data p Hp) as H1.
    destruct (ffs_do_single_os_desc_loop entity _ _ _ _ _ p) as [ret1 p1].
    simpl in H1.
    destruct (ret1 <? 0); [exact H1|]. apply IH, H1.
Qed.

Lemma ffs_do_os_descs_post count data p :
  I p -> I (snd (ffs_do_os_descs entity count data p)).
Proof. apply ffs_do_os_descs_loop_post. Qed.
End OsWalkInvariant.

(** ** What the parser's callback preserves *)

Lemma walk_frame_refl f : walk_frame f f.
Proof. repeat split. Qed.

Lemma do_entity_post f0 type v d p :
  helper_ok f0 p ->
  helper_frame f0 (snd (__ffs_data_do_entity type v d p)) /\
  (0 <= fst (__ffs_data_do_entity type v d p) ->
   helper_ok f0 (snd (__ffs_data_do_entity type v d p))).
Proof.
  destruct p as [h f]. unfold helper_ok, helper_frame. cbn [fst snd].
  intros [Hf He]. unfold __ffs_data_do_entity.
  destruct type.
  - cbn [fst snd]. auto.
  - destruct (helper_interfaces_count h <=? v)%N; cbn [fst snd]; auto.
  - destruct (strings_count f <? v)%N; cbn [fst snd]; auto.
  - destruct (15 <=? (helper_eps_count h + 1) mod 2 ^ 32)%N eqn:H15.
    + cbn [fst snd]. split; auto. unfold EINVAL. intros; lia.
    + apply N.leb_gt in H15.
      destruct ((eps_count f =? 0)%N && (interfaces_count f =? 0)%N).
      * cbn [fst snd helper_eps_count]. split; [exact Hf|].
        intros _. split; [exact Hf|]. lia.
      * destruct (negb _); cbn [fst snd helper_eps_count].
        -- split; auto. unfold EINVAL. intros; lia.
        -- split; [exact Hf|]. intros _. split; [exact Hf|]. lia.
Qed.

Lemma ffs_do_descs_helper_ok f0 count data p :
  helper_ok f0 p ->
  helper_frame f0 (snd (ffs_do_descs __ffs_data_do_entity count data p)) /\
  (0 <= fst (ffs_do_descs __ffs_data_do_entity count data p) ->
   helper_ok f0 (snd (ffs_do_descs __ffs_data_do_entity count data p))).
Proof.
  intros Hp.
  apply (ffs_do_descs_post __ffs_data_do_entity (helper_ok f0)
           (helper_frame f0)); auto.
  - intros q [H _]. exact H.
  - intros type v d q Hq. apply do_entity_post, Hq.
Qed.

Lemma walk_frame_trans f0 f1 f2 :
  walk_frame f0 f1 -> walk_frame f1 f2 -> walk_frame f0 f2.
Proof.
  unfold walk_frame.
  intros (A1 & A2 & A3 & A4 & A5 & A6 & A7) (B1 & B2 & B3 & B4 & B5 & B6 & B7).
  repeat split; congruence.
Qed.

Lemma walk_frame_descs_frame f0 f : walk_frame f0 f -> descs_frame f0 f.
Proof.
  unfold walk_frame, descs_frame. intros (A1 & A2 & A3 & A4 & A5 & A6 & A7).
  repeat split; assumption.
Qed.

Lemma descs_frame_trans f0 f1 f2 :
  descs_frame f0 f1 -> descs_frame f1 f2 -> descs_frame f0 f2.
Proof.
  unfold descs_frame.
  intros (A1 & A2 & A3 & A4 & A5) (B1 & B2 & B3 & B4 & B5).
  repeat split; congruence.
Qed.

Lemma read_descs_post counts data f :
  descs_frame f (snd (read_descs counts data f)) /\
  ((eps_count f <= 14)%N ->
   (eps_count (snd (read_descs counts data f)) <= 14)%N).
Proof.
  revert data f; induction counts as [|c counts IH]; intros data f.
  - simpl. split; [repeat split|auto].
  - cbn [read_descs].
    destruct (c =? 0)%N; [apply IH|].
    pose proof (ffs_do_descs_helper_ok f c data (mk_helper 0 0, f)) as Hw.
    destruct (ffs_do_descs __ffs_data_do_entity c data (mk_helper 0 0, f))
      as [ret [h f1]].
    unfold helper_ok, helper_frame in Hw. simpl in Hw.
    destruct Hw as [Hfr Hok]; [split; [apply walk_frame_refl|lia]|].
    assert (He1 : (eps_count f <= 14)%N -> (eps_count f1 <= 14)%N).
    { destruct Hfr as (_ & _ & _ & E & _). rewrite E. auto. }
    destruct (ret <? 0) eqn:Hret.
    { simpl. split; [apply walk_frame_descs_frame, Hfr|exact He1]. }
    apply Z.ltb_ge in Hret. destruct (Hok Hret) as [_ Hh].
    destruct ((eps_count f1 =? 0)%N && (interfaces_count f1 =? 0)%N).
    + specialize (IH (advance (Z.to_N ret) data)
                    (set_counts (helper_eps_count h)
                       (helper_interfaces_count h) f1)).
      destruct IH as [IH1 IH2]. split; [|intros _; apply IH2, Hh].
      eapply descs_frame_trans; [|exact IH1].
      apply walk_frame_descs_frame in Hfr.
      destruct Hfr as (A1 & A2 & A3 & A4 & A5). repeat split; assumption.
    + destruct (negb (eps_count f1 =? helper_eps_count h)%N).
      { simpl. split; [apply walk_frame_descs_frame, Hfr|exact He1]. }
      destruct (negb (interfaces_count f1 =? helper_interfaces_count h)%N).
      { simpl. split; [apply walk_frame_descs_frame, Hfr|exact He1]. }
      specialize (IH (advance (Z.to_N ret) data) f1).
      destruct IH as [IH1 IH2]. split; [|auto].
      eapply descs_frame_trans; [|exact IH1].
      apply walk_frame_descs_frame, Hfr.
Qed.

Lemma do_os_desc_post f0 type h d f :
  os_frame f0 f -> os_frame f0 (snd (__ffs_data_do_os_desc type h d f)).
Proof.
  intros Hf. unfold __ffs_data_do_os_desc.
  destruct type; simpl; auto;
    repeat match goal with
           | |- context [if ?c then _ else _] => destruct c; simpl; auto
           end.
Qed.

Lemma got_descs_body_post fdget f _data flags data :
  descs_frame f (snd (got_descs_body fdget f _data flags data)) /\
  ((eps_count f <= 14)%N ->
   (eps_count (snd (got_descs_body fdget f _data flags data)) <= 14)%N).
Proof.
  unfold got_descs_body.
  set (st := if negb (N.land flags FUNCTIONFS_EVENTFD =? 0)%N
             then _ else _).
  assert (Hst : descs_frame f (snd st) /\ eps_count (snd st) = eps_count f).
  { unfold st.
    destruct (negb (N.land flags FUNCTIONFS_EVENTFD =? 0)%N);
      [|simpl; split; [repeat split|reflexivity]].
    destruct (blen data <? 4)%N; [simpl; split; [repeat split|reflexivity]|].
    destruct (fdget _ <? 0); simpl; split; try reflexivity; repeat split. }
  destruct st as [[ret0 data0] f0]. simpl in Hst. destruct Hst as [Hfr0 He0].
  rewrite <- He0.
  destruct (ret0 <? 0); [simpl; auto|].
  destruct (read_counts flags _ data0) as [[ok counts] data1].
  destruct (negb ok); [simpl; auto|].
  destruct (_ && _); [simpl; auto|].
  match goal with
  | |- context [read_descs counts ?d f0] =>
      pose proof (read_descs_post counts d f0) as [Hfr1 He1];
      destruct (read_descs counts d f0) as [[ret1 data2] f1]
  end.
  simpl in Hfr1, He1.
  assert (Hfr01 : descs_frame f f1) by (eapply descs_frame_trans; eauto).
  destruct (ret1 <? 0); [simpl; auto|].
  set (st2 := if negb (_ =? 0)%N then _ else _).
  assert (Hst2 : descs_frame f (snd st2) /\ eps_count (snd st2) = eps_count f1).
  { unfold st2.
    destruct (negb (_ =? 0)%N); [|simpl; auto].
    match goal with
    | |- context [ffs_do_os_descs __ffs_data_do_os_desc ?c ?d f1] =>
        pose proof (ffs_do_os_descs_post __ffs_data_do_os_desc (os_frame f1)
                      (do_os_desc_post f1) c d f1) as Hos;
        destruct (ffs_do_os_descs __ffs_data_do_os_desc c d f1) as [r f2]
    end.
    simpl in Hos. destruct Hos as [Hd Hec]; [split; [repeat split|reflexivity]|].
    assert (descs_frame f f2) by (eapply descs_frame_trans; eauto).
    destruct (r <? 0); simpl; split; auto. }
  destruct st2 as [[ret2 data3] f2]. simpl in Hst2. destruct Hst2 as [Hfr2 He2].
  destruct (ret2 <? 0); [simpl; rewrite He2; auto|].
  destruct (_ || _); simpl; rewrite He2; auto.
Qed.

Lemma got_descs_post fdget f _data :
  descs_frame f (snd (__ffs_data_got_descs fdget f _data)) /\
  ((eps_count f <= 14)%N ->
   (eps_count (snd (__ffs_data_got_descs fdget f _data)) <= 14)%N).
Proof.
  unfold __ffs_data_got_descs.
  destruct (negb _); [simpl; split; [repeat split|auto]|].
  destruct (_ =? FUNCTIONFS_DESCRIPTORS_MAGIC)%N;
    [apply got_descs_body_post|].
  destruct (_ =? FUNCTIONFS_DESCRIPTORS_MAGIC_V2)%N;
    [|simpl; split; [repeat split|auto]].
  destruct (negb _); [simpl; split; [repeat split|auto]|].
  apply (got_descs_body_post fdget (set_user_flags _ f)).
Qed.

(** *** A rejected blob is not kept *)

Lemma do_entity_raw_part r0 type v d p :
  raw_part (snd p) = r0 ->
  raw_part (snd (snd (__ffs_data_do_entity type v d p))) = r0.
Proof.
  destruct p as [h f]. cbn [snd]. intros H. unfold __ffs_data_do_entity.
  destruct type; break_ifs; cbn [snd]; exact H.
Qed.

Lemma ffs_do_descs_raw_part r0 count data p :
  raw_part (snd p) = r0 ->
  raw_part (snd (snd (ffs_do_descs __ffs_data_do_entity count data p))) = r0.
Proof.
  intros Hp.
  destruct (ffs_do_descs_post __ffs_data_do_entity
              (fun q => raw_part (snd q) = r0)
              (fun q => raw_part (snd q) = r0)) with (count := count)
    (data := data) (p := p) as [H _]; auto.
  intros type v d q Hq. split; [|intros _]; apply do_entity_raw_part, Hq.
Qed.

Lemma read_descs_raw_part counts data f :
  raw_part (snd (read_descs counts data f)) = raw_part f.
Proof.
  revert data f; induction counts as [|c counts IH]; intros data f;
    [reflexivity|].
  cbn [read_descs].
  destruct (c =? 0)%N; [apply IH|].
  pose proof (ffs_do_descs_raw_part (raw_part f) c data (mk_helper 0 0, f)
                eq_refl) as Hw.
  destruct (ffs_do_descs __ffs_data_do_entity c data (mk_helper 0 0, f))
    as [ret [h f1]]. cbn [snd] in Hw.
  repeat match goal with
         | |- context [if ?c then _ else _] => destruct c
         end; cbn [snd]; try exact Hw; rewrite IH; exact Hw.
Qed.

Lemma do_os_desc_raw_part r0 type h d f :
  raw_part f = r0 -> raw_part (snd (__ffs_data_do_os_desc type h d f)) = r0.
Proof.
  intros H. unfold __ffs_data_do_os_desc.
  destruct type; break_ifs; cbn [snd]; exact H.
Qed.

Lemma got_descs_body_raw_part fdget f _data flags data :
  fst (got_descs_body fdget f _data flags data) < 0 ->
  raw_part (snd (got_descs_body fdget f _data flags data)) = raw_part f.
Proof.
  unfold got_descs_body.
  set (st := if negb (N.land flags FUNCTIONFS_EVENTFD =? 0)%N
             then _ else _).
  assert (Hst : raw_part (snd st) = raw_part f)
    by (unfold st; break_ifs; reflexivity).
  destruct st as [[ret0 data0] f0]. cbn [snd] in Hst. rewrite <- Hst.
  destruct (ret0 <? 0); [reflexivity|].
  destruct (read_counts flags _ data0) as [[ok counts] data1].
  destruct (negb ok); [reflexivity|].
  destruct (_ && _); [reflexivity|].
  match goal with
  | |- context [read_descs counts ?d f0] =>
      pose proof (read_descs_raw_part counts d f0) as Hr;
      destruct (read_descs counts d f0) as [[ret1 data2] f1]
  end.
  cbn [snd] in Hr. rewrite <- Hr.
  destruct (ret1 <? 0); [reflexivity|].
  set (st2 := if negb (_ =? 0)%N then _ else _).
  assert (Hst2 : raw_part (snd st2) = raw_part f1).
  { unfold st2. destruct (negb (_ =? 0)%N); [|reflexivity].
    match goal with
    | |- context [ffs_do_os_descs __ffs_data_do_os_desc ?c ?d f1] =>
        pose proof (ffs_do_os_descs_post __ffs_data_do_os_desc
                      (fun q => raw_part q = raw_part f1)
                      (do_os_desc_raw_part (raw_part f1)) c d f1 eq_refl)
          as Hos;
        destruct (ffs_do_os_descs __ffs_data_do_os_desc c d f1) as [r f2]
    end.
    cbn [snd] in Hos. destruct (r <? 0); exact Hos. }
  destruct st2 as [[ret2 data3] f2]. cbn [snd] in Hst2.
  destruct (ret2 <? 0); [intros _; exact Hst2|].
  destruct (_ || _); [intros _; exact Hst2|].
  cbn [fst]. lia.
Qed.

Lemma got_descs_failure_raw_part fdget f _data :
  fst (__ffs_data_got_descs fdget f _data) < 0 ->
  raw_part (snd (__ffs_data_got_descs fdget f _data)) = raw_part f.
Proof.
  unfold __ffs_data_got_descs.
  destruct (negb _); [reflexivity|].
  destruct (_ =? FUNCTIONFS_DESCRIPTORS_MAGIC)%N;
    [apply got_descs_body_raw_part|].
  destruct (_ =? FUNCTIONFS_DESCRIPTORS_MAGIC_V2)%N; [|reflexivity].
  destruct (negb _); [reflexivity|].
  apply (got_descs_body_raw_part fdget (set_user_flags _ f)).
Qed.

(** ** The endpoint counter *)

Lemma do_entity_fifteenth helper ffs valuep desc :
  helper_eps_count helper = 14%N ->
  fst (__ffs_data_do_entity FFS_ENDPOINT valuep desc (helper, ffs))
  = - EINVAL.
Proof.
  intros H. unfold __ffs_data_do_entity. rewrite H. reflexivity.
Qed.

Lemma single_desc_fifteenth helper ffs data :
  helper_eps_count helper = 14%N ->
  byte_at data 1 = USB_DT_ENDPOINT ->
  fst (ffs_do_single_desc __ffs_data_do_entity data (helper, ffs))
  = - EINVAL.
Proof.
  intros H Ht. unfold ffs_do_single_desc. rewrite Ht.
  destruct (blen data <? 2)%N; [reflexivity|].
  destruct (blen data <? byte_at data 0)%N; [reflexivity|].
  cbn [N.eqb USB_DT_ENDPOINT USB_DT_DEVICE USB_DT_CONFIG USB_DT_STRING
         USB_DT_DEVICE_QUALIFIER USB_DT_INTERFACE Pos.eqb orb].
  destruct (_ && _); [reflexivity|].
  unfold __entity.
  destruct (negb _); [reflexivity|].
  pose proof (do_entity_fifteenth helper ffs (byte_at data 2) data H) as He.
  destruct (__ffs_data_do_entity FFS_ENDPOINT (byte_at data 2) data
              (helper, ffs)) as [ret p1].
  cbn [fst] in He. subst ret. reflexivity.
Qed.

(** The endpoint counter of the helper: when fourteen endpoints have been
    counted in the tier, the callback refuses one more with [-EINVAL], and
    so does the walk of any descriptor of type ENDPOINT.  Hence a tier walk
    that succeeds has counted at most fourteen endpoints, and a session
    holding at most fourteen endpoints holds at most fourteen after any
    call of the parser. *)
Lemma endpoint_counter_bounded :
  (forall helper ffs valuep desc,
      helper_eps_count helper = 14%N ->
      fst (__ffs_data_do_entity FFS_ENDPOINT valuep desc (helper, ffs))
      = - EINVAL) /\
  (forall helper ffs data,
      helper_eps_count helper = 14%N ->
      byte_at data 1 = USB_DT_ENDPOINT ->
      fst (ffs_do_single_desc __ffs_data_do_entity data (helper, ffs))
      = - EINVAL) /\
  (forall count data ffs,
      0 <= fst (ffs_do_descs __ffs_data_do_entity count data
                  (mk_helper 0 0, ffs)) ->
      (snd (tier_counts ffs count data) <= 14)%N) /\
  (forall fdget ffs blob,
      (eps_count ffs <= 14)%N ->
      (eps_count (snd (__ffs_data_got_descs fdget ffs blob)) <= 14)%N).
Proof.
  split; [|split; [|split]].
  - apply do_entity_fifteenth.
  - apply single_desc_fifteenth.
  - intros count data ffs Hret. unfold tier_counts. cbn [snd].
    destruct (ffs_do_descs_helper_ok ffs count data (mk_helper 0 0, ffs))
      as [_ Hok].
    + split; [apply walk_frame_refl|]. cbn. lia.
    + destruct (Hok Hret) as [_ H]. exact H.
  - intros fdget ffs blob He.
    destruct (got_descs_post fdget ffs blob) as [_ H]. exact (H He).
Qed.

(** A blob whose only tier holds one interface and fifteen endpoints is
    refused with [-EINVAL]; with fourteen endpoints it is accepted. *)
Example fifteen_endpoints_refused :
  fst (__ffs_data_got_descs (fun fd => fd) ffs_data_new
         (legacy_descs_blob 16 0 (interface_desc 0 0 ++ endpoint_descs 15)))
  = - EINVAL /\
  fst (__ffs_data_got_descs (fun fd => fd) ffs_data_new
         (legacy_descs_blob 15 0 (interface_desc 0 0 ++ endpoint_descs 14)))
  = 0.
Proof. vm_compute. split; reflexivity. Qed.

(** ** C1 *)

(** What the tier loop does enforce: once the session holds a non-zero
    endpoint or interface count, a tier walked with other counts is
    refused with [-EINVAL]. *)
Lemma established_counts_mismatch_refused c counts data f :
  c <> 0%N ->
  (eps_count f <> 0 \/ interfaces_count f <> 0)%N ->
  0 <= fst (ffs_do_descs __ffs_data_do_entity c data (mk_helper 0 0, f)) ->
  tier_counts f c data <> (interfaces_count f, eps_count f) ->
  fst (fst (read_descs (c :: counts) data f)) = - EINVAL.
Proof.
  intros Hc Hnz Hret Hneq. cbn [read_descs].
  destruct (N.eqb_spec c 0) as [E|_]; [contradiction|].
  unfold tier_counts in Hneq.
  pose proof (ffs_do_descs_helper_ok f c data (mk_helper 0 0, f)) as Hw.
  destruct (ffs_do_descs __ffs_data_do_entity c data (mk_helper 0 0, f))
    as [ret [h f1]].
  cbn [fst snd] in *.
  destruct Hw as [Hfr _]; [split; [apply walk_frame_refl|cbn; lia]|].
  destruct Hfr as (_ & _ & _ & E1 & E2 & _). cbn [snd] in E1, E2.
  replace (ret <? 0) with false by (symmetry; apply Z.ltb_ge; exact Hret).
  rewrite E1, E2.
  destruct (N.eqb_spec (eps_count f) 0) as [Z1|Z1];
    destruct (N.eqb_spec (interfaces_count f) 0) as [Z2|Z2];
    try (exfalso; destruct Hnz; contradiction); cbn [andb];
    destruct (N.eqb_spec (eps_count f) (helper_eps_count h)) as [A|A];
    cbn [negb]; try reflexivity;
    destruct (N.eqb_spec (interfaces_count f) (helper_interfaces_count h))
      as [B|B]; cbn [negb]; try reflexivity;
    exfalso; apply Hneq; rewrite A, B; reflexivity.
Qed.

(** Once the session holds a non-zero count, a successful tier loop leaves
    both counts alone and every tier it walked has exactly these counts. *)
Lemma read_descs_established counts data f :
  (eps_count f <> 0 \/ interfaces_count f <> 0)%N ->
  0 <= fst (fst (read_descs counts data f)) ->
  eps_count (snd (read_descs counts data f)) = eps_count f /\
  interfaces_count (snd (read_descs counts data f)) = interfaces_count f /\
  Forall (fun t => t = (interfaces_count f, eps_count f))
    (walked_tiers counts data f).
Proof.
  revert data f; induction counts as [|c counts IH]; intros data f Hnz.
  - cbn. auto.
  - cbn [read_descs walked_tiers].
    destruct (c =? 0)%N; [apply IH, Hnz|].
    pose proof (ffs_do_descs_helper_ok f c data (mk_helper 0 0, f)) as Hw.
    destruct (ffs_do_descs __ffs_data_do_entity c data (mk_helper 0 0, f))
      as [ret [h f1]].
    unfold helper_ok, helper_frame in Hw. cbn [fst snd] in Hw.
    destruct Hw as [Hfr _]; [split; [apply walk_frame_refl|cbn; lia]|].
    destruct Hfr as (_ & _ & _ & E1 & E2 & _).
    destruct (ret <? 0) eqn:Hneg;
      [apply Z.ltb_lt in Hneg; cbn [fst snd]; intros; lia|].
    assert (Hz : (eps_count f1 =? 0)%N && (interfaces_count f1 =? 0)%N = false).
    { rewrite E1, E2. apply andb_false_iff.
      destruct Hnz as [H|H]; [left|right]; apply N.eqb_neq, H. }
    rewrite Hz.
    destruct (N.eqb_spec (eps_count f1) (helper_eps_count h)) as [A|A];
      cbn [negb]; [|cbn [fst snd]; unfold EINVAL; intros; lia].
    destruct (N.eqb_spec (interfaces_count f1) (helper_interfaces_count h))
      as [B|B]; cbn [negb]; [|cbn [fst snd]; unfold EINVAL; intros; lia].
    intros Hret.
    destruct (IH (advance (Z.to_N ret) data) f1) as (I1 & I2 & I3); auto.
    { rewrite E1, E2. exact Hnz. }
    rewrite I1, I2, E1, E2. repeat split.
    constructor.
    + rewrite <- A, <- B, E1, E2. reflexivity.
    + rewrite <- E1, <- E2. exact I3.
Qed.

(** What the tier loop guarantees on acceptance: every walked tier has
    either the counts the session ends up with, or no interface and no
    endpoint at all. *)
Lemma accepted_tiers_agree_or_empty counts data f :
  0 <= fst (fst (read_descs counts data f)) ->
  Forall (fun t =>
            t = (0, 0)%N \/
            t = (interfaces_count (snd (read_descs counts data f)),
                 eps_count (snd (read_descs counts data f))))
    (walked_tiers counts data f).
Proof.
  revert data f; induction counts as [|c counts IH]; intros data f.
  - cbn. constructor.
  - cbn [read_descs walked_tiers].
    destruct (c =? 0)%N eqn:Hc; [apply IH|].
    destruct (N.eqb_spec (eps_count f) 0) as [Z1|Z1];
      [destruct (N.eqb_spec (interfaces_count f) 0) as [Z2|Z2]|].
    2, 3: intros Hret;
      pose proof (read_descs_established (c :: counts) data f) as He;
      cbn [read_descs walked_tiers] in He; rewrite Hc in He;
      destruct He as (E1 & E2 & E3); auto;
      rewrite E1, E2;
      eapply Forall_impl; [|exact E3]; intros t Ht; right; exact Ht.
    pose proof (ffs_do_descs_helper_ok f c data (mk_helper 0 0, f)) as Hw.
    destruct (ffs_do_descs __ffs_data_do_entity c data (mk_helper 0 0, f))
      as [ret [h f1]].
    unfold helper_ok, helper_frame in Hw. cbn [fst snd] in Hw.
    destruct Hw as [Hfr _]; [split; [apply walk_frame_refl|cbn; lia]|].
    destruct Hfr as (_ & _ & _ & E1 & E2 & _).
    destruct (ret <? 0) eqn:Hneg;
      [apply Z.ltb_lt in Hneg; cbn [fst snd]; intros; lia|].
    rewrite E1, E2, Z1, Z2. cbn [N.eqb andb].
    intros Hret.
    set (f2 := set_counts (helper_eps_count h) (helper_interfaces_count h) f1)
      in *.
    constructor; [|apply IH, Hret].
    destruct (N.eqb_spec (helper_eps_count h) 0) as [H1|H1];
      [destruct (N.eqb_spec (helper_interfaces_count h) 0) as [H2|H2]|].
    + left. rewrite H1, H2. reflexivity.
    + right.
      destruct (read_descs_established counts (advance (Z.to_N ret) data) f2)
        as (I1 & I2 & _); [right; exact H2|exact Hret|].
      rewrite I1, I2. reflexivity.
    + right.
      destruct (read_descs_established counts (advance (Z.to_N ret) data) f2)
        as (I1 & I2 & _); [left; exact H1|exact Hret|].
      rewrite I1, I2. reflexivity.
Qed.

(** C1 at the failing input.  The blob [blob_tiers_differ] declares both
    tiers; its full-speed tier (an OTG descriptor) yields no interface and
    no endpoint, its high-speed tier yields one interface; the parser
    accepts it on a fresh session and records one interface. *)
Theorem tiers_with_different_counts_accepted :
  __ffs_data_got_descs (fun fd => fd) ffs_data_new blob_tiers_differ
  = (0, set_raw_descs blob_tiers_differ (otg_desc ++ interface_desc 0 0)
          12 1 1 0 0 (set_counts 0 1 ffs_data_new)) /\
  tier_counts ffs_data_new 1 otg_desc = (0, 0)%N /\
  tier_counts ffs_data_new 1 (interface_desc 0 0) = (1, 0)%N /\
  (let r := ffs_ep0_write (ep0_env_quiet 0) ffs_data_new false
              blob_tiers_differ in
   fst (fst r) = 28 /\ state (snd (fst r)) = FFS_READ_STRINGS).
Proof. vm_compute. repeat split. Qed.

(** ** C6 *)

Lemma got_strings_failure_unchanged alloc_ok f _data :
  fst (__ffs_data_got_strings alloc_ok f _data) < 0 ->
  snd (__ffs_data_got_strings alloc_ok f _data) = f.
Proof.
  unfold __ffs_data_got_strings.
  repeat match goal with
         | |- context [if ?c then _ else _] => destruct c; cbn [fst snd]; auto
         end.
  destruct (langs_loop _ _ _ _ _ _) as [[data1 tabs]|]; cbn [fst snd]; auto.
  destruct (negb _); cbn [fst snd]; auto. lia.
Qed.

(** C6, as stated, fails on the code: a descriptor blob rejected in its
    second tier leaves behind what the first tier accumulated.  Written to
    a fresh session, [blob_bad_second_tier] fails with [-EINVAL] and the
    session stays in [FFS_READ_DESCRIPTORS], but it now holds one
    endpoint, one interface, string count 5 and the address [0x81] in its
    address map; the well-formed [blob_two_endpoints], accepted by a fresh
    session, is then refused. *)
Lemma rejected_blob_leaves_counts :
  ~ (forall fdget f buf,
        fst (__ffs_data_got_descs fdget f buf) < 0 ->
        snd (__ffs_data_got_descs fdget f buf) = f) /\
  (let r := ffs_ep0_write (ep0_env_quiet 0) ffs_data_new false
              blob_bad_second_tier in
   fst (fst r) = - EINVAL /\
   state (snd (fst r)) = FFS_READ_DESCRIPTORS /\
   eps_count (snd (fst r)) = 1%N /\
   interfaces_count (snd (fst r)) = 1%N /\
   strings_count (snd (fst r)) = 5%N /\
   array_get (eps_addrmap (snd (fst r))) 1 = 0x81%N /\
   fst (fst (ffs_ep0_write (ep0_env_quiet 0) (snd (fst r)) false
               blob_two_endpoints)) = - EINVAL /\
   fst (fst (ffs_ep0_write (ep0_env_quiet 0) ffs_data_new false
               blob_two_endpoints)) = 39).
Proof.
  split.
  - intros H.
    specialize (H (fun fd => fd) ffs_data_new blob_bad_second_tier).
    assert (E : eps_count
                  (snd (__ffs_data_got_descs (fun fd => fd) ffs_data_new
                          blob_bad_second_tier)) = 1%N) by (vm_compute; reflexivity).
    rewrite H in E; [discriminate E|]. vm_compute. reflexivity.
  - vm_compute. repeat split.
Qed.

(** C6, amended.  While the session is collecting, a write to ep0 that
    fails (other than by a failure to materialise the endpoint files)
    issues no request and leaves the lifecycle state as it was.  A
    malformed string blob leaves the whole session unchanged.  A
    descriptor blob of sixteen or more bytes whose magic is neither the
    legacy nor the versioned one, or whose declared length is not its
    length, fails with [-EINVAL] and leaves the whole session unchanged;
    any other rejected descriptor blob fails with the parser's error, is
    not kept, and leaves the lifecycle state, the setup sub-state, the
    event queue and the string tables unchanged. *)
Theorem malformed_blob_keeps_state (env : ep0_env) (f : ffs_data)
    (nonblock : bool) (buf : list byte) :
  (state f = FFS_READ_DESCRIPTORS \/ state f = FFS_READ_STRINGS) ->
  (fst (fst (ffs_ep0_write env f nonblock buf)) < 0 ->
   ffs_epfiles_create_ret env = 0 ->
   0 <= ffs_ready_ret env ->
   state (snd (fst (ffs_ep0_write env f nonblock buf))) = state f /\
   snd (ffs_ep0_write env f nonblock buf) = []) /\
  (inst_exist env = true ->
   setup_state f <> FFS_SETUP_CANCELLED ->
   ffs_mutex_lock env nonblock = 0 ->
   (16 <= blen buf)%N ->
   ffs_prepare_buffer env (blen buf) = 0 ->
   (state f = FFS_READ_STRINGS ->
    fst (__ffs_data_got_strings (vla_alloc_ok env) f buf) < 0 ->
    ffs_ep0_write env f nonblock buf
    = (fst (__ffs_data_got_strings (vla_alloc_ok env) f buf), f, [])) /\
   (state f = FFS_READ_DESCRIPTORS ->
    fst (__ffs_data_got_descs (eventfd_ctx_fdget env) f buf) < 0 ->
    ffs_ep0_write env f nonblock buf
    = (fst (__ffs_data_got_descs (eventfd_ctx_fdget env) f buf),
       snd (__ffs_data_got_descs (eventfd_ctx_fdget env) f buf), []) /\
    descs_frame f (snd (__ffs_data_got_descs (eventfd_ctx_fdget env) f buf))
    /\
    raw_part (snd (__ffs_data_got_descs (eventfd_ctx_fdget env) f buf))
    = raw_part f)
   /\
   (state f = FFS_READ_DESCRIPTORS ->
    (get_unaligned_le32 (advance 4 buf) <> blen buf \/
     (get_unaligned_le32 buf <> FUNCTIONFS_DESCRIPTORS_MAGIC /\
      get_unaligned_le32 buf <> FUNCTIONFS_DESCRIPTORS_MAGIC_V2))%N ->
    ffs_ep0_write env f nonblock buf = (- EINVAL, f, []))).
Proof.
  intros Hstate. split.
  - (* lifecycle state *)
    unfold ffs_ep0_write.
    destruct (ffs_inst_exist_check env <? 0); [cbn; auto|].
    unfold ffs_setup_state_clear_cancelled.
    destruct (setup_state f) eqn:Hss; cbn beta iota zeta; try (cbn; auto; fail);
      (destruct (ffs_mutex_lock env nonblock <? 0); [cbn; auto|]);
      (destruct Hstate as [Hs|Hs]; rewrite Hs;
       (destruct (blen buf <? 16)%N; [cbn; auto|]);
       (destruct (ffs_prepare_buffer env (blen buf) <? 0); [cbn; auto|])).
    + pose proof (got_descs_post (eventfd_ctx_fdget env) f buf) as [(S1 & _) _].
      destruct (__ffs_data_got_descs (eventfd_ctx_fdget env) f buf) as [ret f2].
      cbn [snd] in S1.
      destruct (ret <? 0) eqn:Hret; cbn [fst snd]; intros Hneg _ _.
      * rewrite S1, Hs. auto.
      * lia.
    + pose proof (got_strings_failure_unchanged (vla_alloc_ok env) f buf) as Hg.
      destruct (__ffs_data_got_strings (vla_alloc_ok env) f buf) as [ret f2].
      cbn [fst snd] in Hg.
      destruct (ret <? 0) eqn:Hret; cbn [fst snd]; intros Hneg Hc Hr.
      * apply Z.ltb_lt in Hret. rewrite (Hg Hret), Hs. auto.
      * exfalso. rewrite Hc in Hneg. cbn [Z.eqb negb] in Hneg.
        replace (ffs_ready_ret env <? 0) with false in Hneg
          by (symmetry; apply Z.ltb_ge; exact Hr).
        cbn [fst snd] in Hneg. lia.
    + pose proof (got_descs_post (eventfd_ctx_fdget env) f buf) as [(S1 & _) _].
      destruct (__ffs_data_got_descs (eventfd_ctx_fdget env) f buf) as [ret f2].
      cbn [snd] in S1.
      destruct (ret <? 0) eqn:Hret; cbn [fst snd]; intros Hneg _ _.
      * rewrite S1, Hs. auto.
      * lia.
    + pose proof (got_strings_failure_unchanged (vla_alloc_ok env) f buf) as Hg.
      destruct (__ffs_data_got_strings (vla_alloc_ok env) f buf) as [ret f2].
      cbn [fst snd] in Hg.
      destruct (ret <? 0) eqn:Hret; cbn [fst snd]; intros Hneg Hc Hr.
      * apply Z.ltb_lt in Hret. rewrite (Hg Hret), Hs. auto.
      * exfalso. rewrite Hc in Hneg. cbn [Z.eqb negb] in Hneg.
        replace (ffs_ready_ret env <? 0) with false in Hneg
          by (symmetry; apply Z.ltb_ge; exact Hr).
        cbn [fst snd] in Hneg. lia.
  - intros Hi Hnc Hl Hlen Hprep.
    assert (Hpre :
               ffs_ep0_write env f nonblock buf
               = match state f with
                 | FFS_READ_DESCRIPTORS =>
                     let '(ret, ffs2) :=
                       __ffs_data_got_descs (eventfd_ctx_fdget env) f buf in
                     if ret <? 0 then (ret, ffs2, [])
                     else (Z.of_N (blen buf), set_state FFS_READ_STRINGS ffs2, [])
                 | _ =>
                     let '(ret, ffs2) :=
                       __ffs_data_got_strings (vla_alloc_ok env) f buf in
                     if ret <? 0 then (ret, ffs2, [])
                     else if negb (ffs_epfiles_create_ret env =? 0)
                     then (ffs_epfiles_create_ret env,
                           set_state FFS_CLOSING ffs2, [])
                     else if ffs_ready_ret env <? 0
                     then (ffs_ready_ret env, set_state FFS_CLOSING ffs2, [])
                     else (Z.of_N (blen buf), set_state FFS_ACTIVE ffs2, [])
                 end).
    { unfold ffs_ep0_write, ffs_inst_exist_check.
      rewrite Hi. cbn [Z.ltb Z.compare].
      unfold ffs_setup_state_clear_cancelled.
      replace (blen buf <? 16)%N with false
        by (symmetry; apply N.ltb_ge; exact Hlen).
      rewrite Hl, Hprep. cbn [Z.ltb Z.compare].
      destruct (setup_state f); try contradiction;
        destruct Hstate as [Hs|Hs]; rewrite Hs; reflexivity. }
    split; [|split].
    + intros Hs Hneg. rewrite Hpre, Hs.
      pose proof (got_strings_failure_unchanged (vla_alloc_ok env) f buf) as Hg.
      destruct (__ffs_data_got_strings (vla_alloc_ok env) f buf) as [ret f2].
      cbn [fst snd] in *. apply Z.ltb_lt in Hneg as Hb. rewrite Hb.
      rewrite (Hg Hneg). reflexivity.
    + intros Hs Hneg. rewrite Hpre, Hs.
      pose proof (got_descs_post (eventfd_ctx_fdget env) f buf) as [Hfr _].
      pose proof (got_descs_failure_raw_part (eventfd_ctx_fdget env) f buf Hneg)
        as Hraw.
      destruct (__ffs_data_got_descs (eventfd_ctx_fdget env) f buf) as [ret f2].
      cbn [fst snd] in *. apply Z.ltb_lt in Hneg as Hb. rewrite Hb.
      split; [reflexivity|]. split; [exact Hfr|exact Hraw].
    + intros Hs Hbad. rewrite Hpre, Hs.
      unfold __ffs_data_got_descs.
      destruct (N.eqb_spec (get_unaligned_le32 (advance 4 buf)) (blen buf))
        as [E|E]; cbn [negb]; [|reflexivity].
      destruct Hbad as [Hbad|[M1 M2]]; [contradiction|].
      destruct (N.eqb_spec (get_unaligned_le32 buf) FUNCTIONFS_DESCRIPTORS_MAGIC)
        as [E1|E1]; [contradiction|].
      destruct (N.eqb_spec (get_unaligned_le32 buf)
                  FUNCTIONFS_DESCRIPTORS_MAGIC_V2) as [E2|E2]; [contradiction|].
      reflexivity.
Qed.

Lemma malformed_blob_keeps_state_witness :
  ffs_ep0_write (ep0_env_quiet 0) ffs_data_new false
    (le32 0xdeadbeef ++ le32 16 ++ le32 0 ++ le32 0)
  = (- EINVAL, ffs_data_new, []).
Proof.
  destruct (malformed_blob_keeps_state (ep0_env_quiet 0) ffs_data_new false
              (le32 0xdeadbeef ++ le32 16 ++ le32 0 ++ le32 0)
              (or_introl eq_refl)) as (_ & H).
  assert (Hnc : setup_state ffs_data_new <> FFS_SETUP_CANCELLED)
    by discriminate.
  assert (Hlen : (16 <= blen (le32 0xdeadbeef ++ le32 16 ++ le32 0 ++ le32 0))%N)
    by (vm_compute; discriminate).
  destruct (H eq_refl Hnc eq_refl Hlen eq_refl) as (_ & _ & Hmagic).
  apply Hmagic; [reflexivity|].
  right. split; vm_compute; discriminate.
Defined.

(** ** Endpoint files *)

Module EpfileFacts.
Import Epfile.

(** *** C9 *)

(** The direction test and what follows it, for a call holding the
    handle [ep0]. *)
Lemma fire_direction_mismatch env st call ep0 acts :
  read call = in_ (epfile st) ->
  (isoc (epfile st) = true ->
   ffs_epfile_io_fire env st call ep0 acts
   = inl (Io_return (- EINVAL), st, acts)) /\
  (isoc (epfile st) = false ->
   ffs_mutex_lock env (nonblock call) = 0 ->
   ep_at_fire env = Some ep0 ->
   ep_usb_present env = true ->
   ffs_epfile_io_fire env st call ep0 acts
   = inl (Io_return (- EBADMSG), st, acts ++ [Usb_ep_set_halt])).
Proof.
  intros Hdir. unfold ffs_epfile_io_fire. rewrite Hdir.
  rewrite Bool.eqb_reflx. split.
  - intros Hi. rewrite Hi. reflexivity.
  - intros Hi Hl Hf Hp. rewrite Hi, Hl, Hf, Hp. cbn.
    rewrite N.eqb_refl. reflexivity.
Qed.

(** C9.  An endpoint I/O call whose direction does not match the
    endpoint's (a read on an IN endpoint, a write on an OUT endpoint),
    made on an enabled endpoint of an active session: on an isochronous
    endpoint it fails with [-EINVAL] and touches nothing; on a bulk or
    interrupt endpoint (request mutex taken, endpoint still the same) it
    halts the endpoint and fails with [-EBADMSG]. *)
Theorem direction_mismatch (env : io_env) (envs : list io_env)
    (st : io_state) (call : io_call) (ep0 : N) :
  error (epfile st) = false ->
  ffs_active env = true ->
  ep (epfile st) = Some ep0 ->
  read call = in_ (epfile st) ->
  (isoc (epfile st) = true ->
   ffs_epfile_io true (env :: envs) st call
   = (Io_return (- EINVAL), st, [])) /\
  (isoc (epfile st) = false ->
   ffs_mutex_lock env (nonblock call) = 0 ->
   ep_at_fire env = Some ep0 ->
   ep_usb_present env = true ->
   ffs_epfile_io true (env :: envs) st call
   = (Io_return (- EBADMSG), st, [Usb_ep_set_halt])).
Proof.
  intros He Ha Hep Hdir.
  destruct (fire_direction_mismatch env st call ep0 [] Hdir) as [H1 H2].
  unfold ffs_epfile_io. cbn [negb ffs_epfile_io_retry].
  unfold ffs_epfile_io_pass. rewrite He, Ha, Hep. cbn [negb].
  split.
  - intros Hi. rewrite (H1 Hi). reflexivity.
  - intros Hi Hl Hf Hp. rewrite (H2 Hi Hl Hf Hp). reflexivity.
Qed.

Lemma direction_mismatch_witness :
  ffs_epfile_io true [io_env_quiet (fun n => n) 0 []]
    (mk_io_state (mk_epfile false (Some 1%N) true true) true false)
    (sync_read 64)
  = (Io_return (- EINVAL),
     mk_io_state (mk_epfile false (Some 1%N) true true) true false, []) /\
  ffs_epfile_io true [io_env_quiet (fun n => n) 0 []]
    (mk_io_state (mk_epfile false (Some 1%N) true false) true false)
    (sync_read 64)
  = (Io_return (- EBADMSG),
     mk_io_state (mk_epfile false (Some 1%N) true false) true false,
     [Usb_ep_set_halt]).
Proof.
  split.
  - apply (direction_mismatch (io_env_quiet (fun n => n) 0 []) []
             (mk_io_state (mk_epfile false (Some 1%N) true true) true false)
             (sync_read 64) 1%N eq_refl eq_refl eq_refl eq_refl).
    reflexivity.
  - apply (direction_mismatch (io_env_quiet (fun n => n) 0 []) []
             (mk_io_state (mk_epfile false (Some 1%N) true false) true false)
             (sync_read 64) 1%N eq_refl eq_refl eq_refl eq_refl);
      reflexivity.
Defined.

(** *** C8 *)

(** A synchronous read on an enabled OUT endpoint that completes with
    [status > 0] bytes: the test is against [data_len], the length of the
    request after [usb_ep_align_maybe], not against the caller's [count];
    below it the bytes go through [copy_to_iter], which is handed the
    caller's iterator. *)
Lemma sync_read_completion env envs st call ep0 :
  error (epfile st) = false ->
  ffs_active env = true ->
  ep (epfile st) = Some ep0 ->
  read call = true -> aio call = false -> in_ (epfile st) = false ->
  ep_at_alloc env = Some ep0 -> kmalloc_ok env = true ->
  ffs_mutex_lock env (nonblock call) = 0 ->
  ep_at_fire env = Some ep0 ->
  is_busy st = false ->
  0 <= usb_ep_queue_ret env ->
  completion_interrupted env = false ->
  ep_at_complete env = Some ep0 ->
  0 < ep_status env ->
  ffs_epfile_io true (env :: envs) st call
  = let data_len := usb_ep_align_maybe env (count call) in
    let st' := mk_io_state (epfile st) true false in
    if Z.of_N data_len <? ep_status env
    then (Io_return (- EOVERFLOW), st', [Usb_ep_queue data_len])
    else
      let copied := copy_to_iter env (Z.to_N (ep_status env)) (count call) in
      if (copied =? 0)%N
      then (Io_return (- EFAULT), st', [Usb_ep_queue data_len])
      else (Io_return (Z.of_N copied), st',
            [Usb_ep_queue data_len; Copy_to_iter copied]).
Proof.
  intros He Ha Hep Hr Haio Hin Hal Hk Hl Hf Hb Hq Hc Hcomp Hs.
  unfold ffs_epfile_io. cbn [negb ffs_epfile_io_retry].
  unfold ffs_epfile_io_pass. rewrite He, Ha, Hep. cbn [negb].
  unfold ffs_epfile_io_fire.
  rewrite Hr, Hin, Hal, Hk, Hl, Hf, Haio, Hb, Hc, Hcomp. cbn.
  rewrite N.eqb_refl. cbn.
  replace (usb_ep_queue_ret env <? 0) with false
    by (symmetry; apply Z.ltb_ge; exact Hq).
  replace (0 <=? ep_status env) with true
    by (symmetry; apply Z.leb_le; lia).
  replace (ep_status env <? 0) with false
    by (symmetry; apply Z.ltb_ge; lia).
  replace (0 <? ep_status env) with true
    by (symmetry; apply Z.ltb_lt; exact Hs).
  cbn.
  destruct (Z.of_N (usb_ep_align_maybe env (count call)) <? ep_status env);
    [reflexivity|].
  destruct (copy_to_iter env (Z.to_N (ep_status env)) (count call) =? 0)%N;
    reflexivity.
Qed.

(** C8 at the failing input.  A blocking read of one byte on an enabled
    bulk-OUT endpoint of a controller that wants OUT buffers rounded up to
    512 bytes queues a 512-byte request; when the host sends 512 bytes the
    call copies one byte, returns 1, and the other 511 bytes are gone: no
    [-EOVERFLOW]. *)
Theorem oversized_completion_truncated :
  ffs_epfile_io true [io_env_quiet round_up_512 512 []] epfile_out_enabled
    (sync_read 1)
  = (Io_return 1, epfile_out_enabled, [Usb_ep_queue 512; Copy_to_iter 1]).
Proof. vm_compute. reflexivity. Qed.

(** *** C7 *)

(** The sleep on [epfile->wait] ends only through a handle or a signal:
    it lasts exactly as long as every wake-up finds no handle and no
    signal, whatever the error flag is by then. *)
Lemma wait_event_interruptible_asleep ws :
  wait_event_interruptible ws = None <->
  Forall (fun w => ep (wk_epfile w) = None /\ wk_signal w = false) ws.
Proof.
  induction ws as [|w ws IH]; simpl.
  - split; auto.
  - destruct (ep (wk_epfile w)) eqn:E.
    + split; [discriminate|]. intros H. inversion H as [|? ? [H1 _] _].
      congruence.
    + destruct (wk_signal w) eqn:S.
      * split; [discriminate|]. intros H. inversion H as [|? ? [_ H1] _].
        congruence.
      * rewrite IH. split.
        -- intros H. constructor; auto.
        -- intros H. inversion H. assumption.
Qed.

(** C7, as stated, fails on the code: a reader asleep on a disabled
    endpoint is not released when the error flag is set.  The blocking
    read below starts with the flag clear; it is woken once, after the
    endpoint file has been torn down (flag set, still no handle): the call
    does not return, and the endpoint file it sleeps on has its error flag
    set. *)
Lemma blocked_reader_ignores_error_flag :
  ~ (forall env envs st call w,
        error (epfile st) = false -> ffs_active env = true ->
        ep (epfile st) = None ->
        nonblock call = false -> read call = true ->
        error_at_wait env = false ->
        wakeups env = [w] -> error (wk_epfile w) = true ->
        fst (fst (ffs_epfile_io true (env :: envs) st call))
        = Io_return (- ENODEV)) /\
  ffs_epfile_io true [io_env_quiet (fun n => n) 0 [wake_torn_down]]
    epfile_out_disabled (sync_read 512)
  = (Io_blocked, mk_io_state (mk_epfile true None false false) false false,
     [Sleep_on_epfile_wait]).
Proof.
  split; [|reflexivity].
  intros H.
  specialize (H (io_env_quiet (fun n => n) 0 [wake_torn_down]) []
                epfile_out_disabled (sync_read 512) wake_torn_down
                eq_refl eq_refl eq_refl eq_refl eq_refl eq_refl eq_refl
                eq_refl).
  vm_compute in H. discriminate H.
Qed.

(** C7, amended.  For every endpoint I/O call on an active session whose
    endpoint has no handle (error flag clear on entry): a non-blocking
    caller fails with [-EAGAIN]; a blocking write fails at once with
    [-EINTR], without sleeping; a blocking read that finds the error flag
    set where it would go to sleep fails with [-ENODEV] without sleeping;
    any other blocking read sleeps until a handle is assigned or a signal
    arrives: it stays asleep as long as neither happens (the endpoint file
    then is as the last wake-up found it, error flag included), returns
    [-ERESTARTSYS] on a signal, and goes on with the handle once there is
    one. *)
Theorem io_without_handle (env : io_env) (envs : list io_env)
    (st : io_state) (call : io_call) :
  error (epfile st) = false ->
  ffs_active env = true ->
  ep (epfile st) = None ->
  (nonblock call = true ->
   ffs_epfile_io true (env :: envs) st call
   = (Io_return (- EAGAIN), st, [])) /\
  (nonblock call = false -> read call = false ->
   ffs_epfile_io true (env :: envs) st call
   = (Io_return (- EINTR), st, [])) /\
  (nonblock call = false -> read call = true -> error_at_wait env = true ->
   ffs_epfile_io true (env :: envs) st call
   = (Io_return (- ENODEV), set_error true st, [])) /\
  (nonblock call = false -> read call = true -> error_at_wait env = false ->
   (Forall (fun w => ep (wk_epfile w) = None /\ wk_signal w = false)
      (wakeups env) ->
    ffs_epfile_io true (env :: envs) st call
    = (Io_blocked, set_epfile (last_seen (wakeups env) (epfile st)) st,
       [Sleep_on_epfile_wait])) /\
   (forall e,
       wait_event_interruptible (wakeups env) = Some (- ERESTARTSYS, e) ->
       ffs_epfile_io true (env :: envs) st call
       = (Io_return (- ERESTARTSYS), set_epfile e st,
          [Sleep_on_epfile_wait])) /\
   (forall e ep0,
       wait_event_interruptible (wakeups env) = Some (0, e) ->
       ep e = Some ep0 ->
       ffs_epfile_io true (env :: envs) st call
       = match ffs_epfile_io_fire env (set_epfile e st) call ep0
                 [Sleep_on_epfile_wait] with
         | inl r => r
         | inr (st1, acts1) => ffs_epfile_io_retry envs st1 call acts1
         end)).
Proof.
  intros He Ha Hep.
  unfold ffs_epfile_io. cbn [negb ffs_epfile_io_retry].
  unfold ffs_epfile_io_pass. rewrite He, Ha, Hep. cbn [negb].
  split; [|split; [|split]].
  - intros Hnb. rewrite Hnb. reflexivity.
  - intros Hnb Hr. rewrite Hnb, Hr. reflexivity.
  - intros Hnb Hr Hw. rewrite Hnb, Hr, Hw. reflexivity.
  - intros Hnb Hr Hw. rewrite Hnb, Hr, Hw. cbn [negb].
    split; [|split].
    + intros Hall. apply wait_event_interruptible_asleep in Hall.
      rewrite Hall. reflexivity.
    + intros e Hwait. rewrite Hwait. reflexivity.
    + intros e ep0 Hwait Hep0. rewrite Hwait, Hep0. cbn.
      destruct (ffs_epfile_io_fire env (set_epfile e st) call ep0
                  [Sleep_on_epfile_wait]) as [[[out st1] acts1]|[st1 acts1]];
        reflexivity.
Qed.

Lemma io_without_handle_witness :
  ffs_epfile_io true [io_env_quiet (fun n => n) 0 []] epfile_out_disabled
    (mk_io_call true true false 512)
  = (Io_return (- EAGAIN), epfile_out_disabled, []) /\
  ffs_epfile_io true [io_env_quiet (fun n => n) 0 []] epfile_out_disabled
    (mk_io_call false false false 512)
  = (Io_return (- EINTR), epfile_out_disabled, []) /\
  ffs_epfile_io true [io_env_quiet (fun n => n) 0 [wake_torn_down]]
    epfile_out_disabled (sync_read 512)
  = (Io_blocked, mk_io_state (mk_epfile true None false false) false false,
     [Sleep_on_epfile_wait]) /\
  ffs_epfile_io true
    [io_env_quiet (fun n => n) 512 [wake_torn_down; wake_enabled]]
    epfile_out_disabled (sync_read 512)
  = (Io_return 512,
     mk_io_state (mk_epfile false (Some 1%N) false false) true false,
     [Sleep_on_epfile_wait; Usb_ep_queue 512; Copy_to_iter 512]).
Proof.
  split; [|split; [|split]].
  - apply (io_without_handle (io_env_quiet (fun n => n) 0 []) []
             epfile_out_disabled (mk_io_call true true false 512)
             eq_refl eq_refl eq_refl). reflexivity.
  - apply (io_without_handle (io_env_quiet (fun n => n) 0 []) []
             epfile_out_disabled (mk_io_call false false false 512)
             eq_refl eq_refl eq_refl); reflexivity.
  - destruct (io_without_handle
                (io_env_quiet (fun n => n) 0 [wake_torn_down]) []
                epfile_out_disabled (sync_read 512)
                eq_refl eq_refl eq_refl) as (_ & _ & _ & H).
    destruct (H eq_refl eq_refl eq_refl) as (Hasleep & _).
    apply Hasleep. repeat constructor.
  - destruct (io_without_handle
                (io_env_quiet (fun n => n) 512
                   [wake_torn_down; wake_enabled]) []
                epfile_out_disabled (sync_read 512)
                eq_refl eq_refl eq_refl) as (_ & _ & _ & H).
    destruct (H eq_refl eq_refl eq_refl) as (_ & _ & Hgo).
    rewrite (Hgo (mk_epfile false (Some 1%N) false false) 1%N eq_refl eq_refl).
    reflexivity.
Defined.

End EpfileFacts.

(** ** The loops never run out of fuel *)

Lemma advance_length n data :
  length (advance n data) = (length data - N.to_nat n)%nat.
Proof. unfold advance. apply length_skipn. Qed.

(** An accepted descriptor is [bLength] bytes long, at least three and
    within the buffer. *)
Lemma ffs_do_single_desc_ret {P : Type} (entity : ffs_entity_callback P)
    data p :
  0 <= fst (ffs_do_single_desc entity data p) ->
  fst (ffs_do_single_desc entity data p) = Z.of_N (byte_at data 0) /\
  (3 <= byte_at data 0 <= blen data)%N.
Proof.
  unfold ffs_do_single_desc, __entity.
  unfold USB_DT_INTERFACE_SIZE, USB_DT_ENDPOINT_SIZE,
    USB_DT_ENDPOINT_AUDIO_SIZE, sizeof_hid_descriptor,
    sizeof_usb_otg_descriptor, sizeof_usb_interface_assoc_descriptor,
    sizeof_usb_ss_ep_comp_descriptor.
  break_ifs; cbn [fst]; intros H;
    try (exfalso; unfold EINVAL in H; lia);
    try (exfalso;
         match goal with
         | E : (?z <? 0) = true |- _ => apply Z.ltb_lt in E; lia
         end);
    (split; [reflexivity|]);
    repeat match goal with
           | E : negb _ = false |- _ => apply negb_false_iff in E
           | E : negb _ = true |- _ => apply negb_true_iff in E
           | E : (_ && _) = false |- _ => apply andb_false_iff in E
           | E : (_ =? _)%N = true |- _ => apply N.eqb_eq in E
           | E : (_ <? _)%N = false |- _ => apply N.ltb_ge in E
           | E : _ \/ _ |- _ => destruct E
           end;
    lia.
Qed.

Lemma ffs_do_descs_fuel_enough {P : Type} (entity : ffs_entity_callback P)
    fuel1 fuel2 count num data consumed p :
  (length data < fuel1)%nat -> (length data < fuel2)%nat ->
  ffs_do_descs_loop entity fuel1 count num data consumed p
  = ffs_do_descs_loop entity fuel2 count num data consumed p.
Proof.
  revert fuel2 num data consumed p.
  induction fuel1 as [|fuel1 IH]; intros fuel2 num data consumed p H1 H2;
    [lia|].
  destruct fuel2 as [|fuel2]; [lia|].
  cbn [ffs_do_descs_loop].
  destruct (entity FFS_DESCRIPTOR num _ p) as [ret p1].
  destruct (ret <? 0); [reflexivity|].
  destruct (num =? count)%N; [reflexivity|].
  pose proof (ffs_do_single_desc_ret entity data p1) as Hret.
  destruct (ffs_do_single_desc entity data p1) as [ret2 p2].
  cbn [fst] in Hret.
  destruct (ret2 <? 0) eqn:Hneg; [reflexivity|].
  apply Z.ltb_ge in Hneg. destruct (Hret Hneg) as [Hr Hb].
  unfold blen in Hb.
  apply IH; rewrite advance_length, Hr, N2Z.id; lia.
Qed.

Lemma os_desc_header_ret desc :
  0 <= fst (__ffs_do_os_desc_header desc) ->
  fst (__ffs_do_os_desc_header desc) = 11.
Proof.
  unfold __ffs_do_os_desc_header. break_ifs; cbn [fst]; intros H;
    try reflexivity; unfold EINVAL in H; lia.
Qed.

Lemma ffs_do_os_descs_fuel_enough {P : Type}
    (entity : ffs_os_desc_callback P) fuel1 fuel2 count num data consumed p :
  (length data < fuel1)%nat -> (length data < fuel2)%nat ->
  ffs_do_os_descs_loop entity fuel1 count num data consumed p
  = ffs_do_os_descs_loop entity fuel2 count num data consumed p.
Proof.
  revert fuel2 num data consumed p.
  induction fuel1 as [|fuel1 IH]; intros fuel2 num data consumed p H1 H2;
    [lia|].
  destruct fuel2 as [|fuel2]; [lia|].
  cbn [ffs_do_os_descs_loop].
  destruct (negb (num <? count)%N); [reflexivity|].
  destruct (blen data <? sizeof_usb_os_desc_header)%N eqn:Hlen;
    [reflexivity|].
  destruct (blen data <? get_unaligned_le32 (advance 1 data))%N;
    [reflexivity|].
  pose proof (os_desc_header_ret data) as Hh.
  destruct (__ffs_do_os_desc_header data) as [ret type]. cbn [fst] in Hh.
  destruct (ret <? 0) eqn:Hneg; [reflexivity|].
  apply Z.ltb_ge in Hneg. specialize (Hh Hneg). subst ret.
  destruct (_ && _); [reflexivity|].
  destruct (ffs_do_single_os_desc entity _ type _ data p) as [ret1 p1].
  destruct (ret1 <? 0); [reflexivity|].
  apply N.ltb_ge in Hlen. unfold blen, sizeof_usb_os_desc_header in Hlen.
  apply IH; rewrite !advance_length; cbn; lia.
Qed.

Lemma strnlen_le data : (strnlen data <= length data)%nat.
Proof.
  induction data as [|x data IH]; simpl; [lia|].
  destruct (u8 x =? 0)%N; simpl; lia.
Qed.

(** One language's strings are taken from the front of the buffer: what
    is left is strictly shorter. *)
Lemma strings_loop_shorter fuel str_count needed data kept sc data' kept' :
  strings_loop fuel str_count needed data kept = Some (sc, data', kept') ->
  (length data' < length data)%nat.
Proof.
  revert str_count needed data kept.
  induction fuel as [|fuel IH]; intros str_count needed data kept;
    [discriminate|].
  cbn [strings_loop].
  pose proof (strnlen_le data) as Hle.
  destruct (strnlen data =? length data)%nat eqn:Heq; [discriminate|].
  apply Nat.eqb_neq in Heq.
  assert (Hsk : (length (skipn (S (strnlen data)) data) < length data)%nat)
    by (rewrite length_skipn; lia).
  destruct (_ =? 0)%N.
  - intros H. injection H as _ Hd _. subst data'. exact Hsk.
  - intros H. apply IH in H. lia.
Qed.

Lemma strings_loop_fuel_enough fuel1 fuel2 str_count needed data kept :
  (length data < fuel1)%nat -> (length data < fuel2)%nat ->
  strings_loop fuel1 str_count needed data kept
  = strings_loop fuel2 str_count needed data kept.
Proof.
  revert fuel2 str_count needed data kept.
  induction fuel1 as [|fuel1 IH]; intros fuel2 str_count needed data kept
    H1 H2; [lia|].
  destruct fuel2 as [|fuel2]; [lia|].
  cbn [strings_loop].
  pose proof (strnlen_le data) as Hle.
  destruct (strnlen data =? length data)%nat eqn:Heq; [reflexivity|].
  apply Nat.eqb_neq in Heq.
  destruct (_ =? 0)%N; [reflexivity|].
  apply IH; rewrite length_skipn; lia.
Qed.

Lemma langs_loop_fuel_enough fuel1 fuel2 lang_count str_count needed data
    tabs :
  (length data < fuel1)%nat -> (length data < fuel2)%nat ->
  langs_loop fuel1 lang_count str_count needed data tabs
  = langs_loop fuel2 lang_count str_count needed data tabs.
Proof.
  revert fuel2 lang_count str_count data tabs.
  induction fuel1 as [|fuel1 IH]; intros fuel2 lang_count str_count data tabs
    H1 H2; [lia|].
  destruct fuel2 as [|fuel2]; [lia|].
  cbn [langs_loop].
  destruct (blen data <? 3)%N eqn:Hlen; [reflexivity|].
  apply N.ltb_ge in Hlen. unfold blen in Hlen.
  destruct (strings_loop _ str_count needed (advance 2 data) [])
    as [[[sc data2] kept]|] eqn:Hs; [|reflexivity].
  apply strings_loop_shorter in Hs. rewrite advance_length in Hs.
  destruct (_ =? 0)%N; [reflexivity|].
  apply IH; cbn in Hs; lia.
Qed.

(** * Further results *)

(** ** String blobs *)

Lemma strnlen_lt data :
  strnlen data <> length data -> (strnlen data < length data)%nat.
Proof. pose proof (strnlen_le data). lia. Qed.

Lemma strings_loop_rounds fuel str_count needed data kept r :
  (str_count < 2 ^ 32)%N ->
  strings_loop fuel str_count needed data kept = Some r ->
  (strings_rounds str_count <= blen data)%N /\ fst (fst r) = 0%N.
Proof.
  revert str_count needed data kept r.
  induction fuel as [|fuel IH]; intros sc needed data kept r Hsc H;
    [discriminate|].
  cbn [strings_loop] in H.
  destruct (Nat.eqb_spec (strnlen data) (length data)) as [E|E]; [discriminate|].
  apply strnlen_lt in E.
  set (sc1 := ((sc + (2 ^ 32 - 1)) mod 2 ^ 32)%N) in *.
  destruct (N.eqb_spec sc1 0) as [E1|E1].
  - inversion H; subst r; cbn [fst]. split; [|exact E1].
    assert (sc = 1%N).
    { subst sc1. destruct (N.eq_dec sc 0) as [->|Hn]; [cbn in E1; lia|].
      replace ((sc + (2 ^ 32 - 1)))%N with ((sc - 1) + 1 * 2 ^ 32)%N in E1 by lia.
      rewrite N.Div0.mod_add in E1. rewrite N.mod_small in E1 by lia. lia. }
    subst sc. unfold strings_rounds, blen. cbn. lia.
  - apply IH in H.
    2:{ subst sc1. apply N.mod_lt. lia. }
    destruct H as [H1 H2]. split; [|exact H2].
    unfold blen in *. rewrite length_skipn in H1.
    assert (strings_rounds sc = strings_rounds sc1 + 1)%N.
    { subst sc1. unfold strings_rounds.
      destruct (N.eqb_spec sc 0) as [->|Hn].
      - cbn. reflexivity.
      - replace ((sc + (2 ^ 32 - 1)))%N with ((sc - 1) + 1 * 2 ^ 32)%N in * by lia.
        rewrite N.Div0.mod_add in *. rewrite N.mod_small in * by lia.
        destruct (N.eqb_spec (sc - 1) 0); lia. }
    lia.
Qed.

Lemma langs_loop_second_language fuel lang_count needed data tabs :
  (blen data < 2 ^ 32)%N ->
  langs_loop fuel lang_count 0 needed data tabs = None.
Proof.
  intros Hlen. destruct fuel as [|fuel]; [reflexivity|].
  cbn [langs_loop].
  destruct (blen data <? 3)%N; [reflexivity|].
  destruct (strings_loop _ 0 needed (advance 2 data) []) as [r|] eqn:E;
    [|reflexivity].
  apply strings_loop_rounds in E; [|lia].
  destruct E as [E _]. unfold strings_rounds in E. cbn [N.eqb] in E.
  unfold blen, advance in *. rewrite length_skipn in E. lia.
Qed.

Lemma langs_loop_two_languages fuel lang_count str_count needed data tabs :
  (blen data < 2 ^ 32)%N -> (str_count < 2 ^ 32)%N ->
  (2 <= lang_count < 2 ^ 32)%N ->
  langs_loop fuel lang_count str_count needed data tabs = None.
Proof.
  intros Hlen Hsc Hlc. destruct fuel as [|fuel]; [reflexivity|].
  cbn [langs_loop].
  destruct (blen data <? 3)%N; [reflexivity|].
  destruct (strings_loop _ str_count needed (advance 2 data) [])
    as [[[sc1 data2] kept]|] eqn:E; [|reflexivity].
  pose proof (strings_loop_shorter _ _ _ _ _ _ _ _ E) as Hs.
  apply strings_loop_rounds in E; [|lia]. destruct E as [_ E]. cbn in E. subst sc1.
  destruct (N.eqb_spec ((lang_count + (2 ^ 32 - 1)) mod 2 ^ 32) 0) as [E1|E1].
  - exfalso.
    replace ((lang_count + (2 ^ 32 - 1)))%N
      with ((lang_count - 1) + 1 * 2 ^ 32)%N in E1 by lia.
    rewrite N.Div0.mod_add in E1. rewrite N.mod_small in E1 by lia. lia.
  - apply langs_loop_second_language.
    unfold blen, advance in *. rewrite length_skipn in Hs. lia.
Qed.

Lemma get_unaligned_le32_lt data : (get_unaligned_le32 data < 2 ^ 32)%N.
Proof.
  unfold get_unaligned_le32, byte_at, u8.
  pose proof (Byte.to_N_bounded (nth 0 data x00)).
  pose proof (Byte.to_N_bounded (nth 1 data x00)).
  pose proof (Byte.to_N_bounded (nth 2 data x00)).
  pose proof (Byte.to_N_bounded (nth 3 data x00)).
  lia.
Qed.

Lemma strings_two_languages_result (alloc_ok : bool) (ffs : ffs_data)
    (_data : list byte) :
  strings_count ffs <> 0%N ->
  (2 <= get_unaligned_le32 (advance 12 _data))%N ->
  __ffs_data_got_strings alloc_ok ffs _data
  = (if alloc_ok
        || (blen _data <? 16)%N
        || negb (get_unaligned_le32 _data =? FUNCTIONFS_STRINGS_MAGIC)%N
        || negb (get_unaligned_le32 (advance 4 _data) =? blen _data)%N
        || (get_unaligned_le32 (advance 8 _data) =? 0)%N
        || (get_unaligned_le32 (advance 8 _data) <? strings_count ffs)%N
     then - EINVAL else - ENOMEM, ffs).
Proof.
  intros Hn Hl. unfold __ffs_data_got_strings.
  destruct (blen _data <? 16)%N eqn:E16; cbn [orb];
    [rewrite orb_true_r; reflexivity|].
  destruct (get_unaligned_le32 _data =? FUNCTIONFS_STRINGS_MAGIC)%N eqn:Em;
    cbn [orb negb]; [|rewrite orb_true_r; reflexivity].
  destruct (N.eqb_spec (get_unaligned_le32 (advance 4 _data)) (blen _data))
    as [El|El]; cbn [orb negb]; [|rewrite orb_true_r; reflexivity].
  destruct (N.eqb_spec (get_unaligned_le32 (advance 12 _data)) 0) as [E0|E0];
    [lia|].
  destruct (N.eqb_spec (get_unaligned_le32 (advance 8 _data)) 0) as [Es|Es];
    cbn [Bool.eqb negb orb]; [rewrite orb_true_r; reflexivity|].
  destruct (get_unaligned_le32 (advance 8 _data) <? strings_count ffs)%N;
    [rewrite orb_true_r; reflexivity|].
  destruct (N.eqb_spec (strings_count ffs) 0) as [|_]; [contradiction|].
  destruct alloc_ok; cbn [negb orb]; [|reflexivity].
  rewrite langs_loop_two_languages; [reflexivity| | |].
  - pose proof (get_unaligned_le32_lt (advance 4 _data)).
    unfold blen, advance in *. rewrite length_skipn. lia.
  - apply get_unaligned_le32_lt.
  - pose proof (get_unaligned_le32_lt (advance 12 _data)). lia.
Qed.

(** X1.  The counter [str_count] of [__ffs_data_got_strings] is shared by
    all languages and is not reloaded after the first one, so a strings
    blob that declares two or more languages is never accepted once a
    descriptor references a string: the call fails ([-EINVAL] when the
    allocation of the tables succeeds) and leaves the session as it was. *)
Theorem strings_second_language_refused (alloc_ok : bool) (ffs : ffs_data)
    (_data : list byte) :
  strings_count ffs <> 0%N ->
  (2 <= get_unaligned_le32 (advance 12 _data))%N ->
  fst (__ffs_data_got_strings alloc_ok ffs _data) < 0 /\
  snd (__ffs_data_got_strings alloc_ok ffs _data) = ffs /\
  (alloc_ok = true ->
   fst (__ffs_data_got_strings alloc_ok ffs _data) = - EINVAL).
Proof.
  intros Hn Hl. rewrite (strings_two_languages_result alloc_ok ffs _data Hn Hl).
  cbn [fst snd]. split; [|split; [reflexivity|]].
  - destruct (_ || _); unfold EINVAL, ENOMEM; lia.
  - intros ->. reflexivity.
Qed.

Lemma strings_second_language_refused_witness :
  fst (__ffs_data_got_strings true (set_strings_count 1 ffs_data_new)
         blob_two_languages) = - EINVAL.
Proof.
  destruct (strings_second_language_refused true
              (set_strings_count 1 ffs_data_new) blob_two_languages)
    as (_ & _ & H).
  - cbn. discriminate.
  - vm_compute. discriminate.
  - apply H. reflexivity.
Defined.

Lemma u8_b n : (n < 256)%N -> u8 (b n) = n.
Proof.
  intros H. unfold u8, b.
  destruct (Byte.of_N n) as [x|] eqn:E.
  - apply Byte.to_of_N; exact E.
  - apply Byte.of_N_None_iff in E. lia.
Qed.

Lemma u8_zero c : u8 c = 0%N -> c = x00.
Proof.
  intros H. pose proof (Byte.of_to_N c) as E. unfold u8 in H.
  rewrite H in E. cbn in E. congruence.
Qed.

Lemma get_unaligned_le32_le32 n rest :
  (n < 2 ^ 32)%N -> get_unaligned_le32 (le32 n ++ rest) = n.
Proof.
  intros H. unfold get_unaligned_le32, le32, bytes, byte_at.
  cbn [map app nth].
  rewrite !u8_b by (apply N.mod_lt; lia).
  change (2 ^ 8)%N with 256%N. change (2 ^ 16)%N with 65536%N.
  change (2 ^ 24)%N with 16777216%N.
  assert (n / 16777216 < 256)%N by (apply N.Div0.div_lt_upper_bound; lia).
  rewrite (N.mod_small (n / 16777216)) by assumption.
  pose proof (N.div_mod n 256 ltac:(lia)).
  pose proof (N.div_mod (n / 256) 256 ltac:(lia)).
  pose proof (N.div_mod (n / 256 / 256) 256 ltac:(lia)).
  rewrite !N.Div0.div_div in *.
  change (256 * 256)%N with 65536%N in *.
  change (65536 * 256)%N with 16777216%N in *.
  lia.
Qed.

Lemma get_unaligned_le16_le16 n rest :
  (n < 2 ^ 16)%N -> get_unaligned_le16 (le16 n ++ rest) = n.
Proof.
  intros H. unfold get_unaligned_le16, le16, bytes, byte_at.
  cbn [map app nth].
  rewrite !u8_b by (apply N.mod_lt; lia).
  change (2 ^ 8)%N with 256%N.
  assert (n / 256 < 256)%N by (apply N.Div0.div_lt_upper_bound; lia).
  rewrite (N.mod_small (n / 256)) by assumption.
  pose proof (N.div_mod n 256 ltac:(lia)). lia.
Qed.

Lemma le32_length n : length (le32 n) = 4%nat.
Proof. reflexivity. Qed.

Lemma strnlen_app s rest :
  nul_free s -> strnlen (s ++ x00 :: rest) = length s.
Proof.
  induction 1 as [|c s Hc _ IH]; [reflexivity|].
  cbn. destruct (N.eqb_spec (u8 c) 0) as [E|E].
  - apply u8_zero in E. contradiction.
  - now rewrite IH.
Qed.

Lemma skipn_past_terminator {A : Type} (s : list A) (c : A) rest :
  skipn (S (length s)) (s ++ c :: rest) = rest.
Proof. induction s as [|x s IH]; [reflexivity|exact IH]. Qed.

Lemma strings_loop_body fuel strs needed kept :
  strs <> [] -> Forall nul_free strs ->
  (length strs <= fuel)%nat ->
  (N.of_nat (length strs) < 2 ^ 32)%N ->
  strings_loop fuel (N.of_nat (length strs)) needed (strings_body strs) kept
  = Some (0%N, [], kept ++ firstn (N.to_nat needed) strs).
Proof.
  revert strs needed kept.
  induction fuel as [|fuel IH]; intros strs needed kept Hne Hall Hfuel Hlen.
  - destruct strs; [contradiction|cbn in Hfuel; lia].
  - destruct strs as [|s strs]; [contradiction|].
    inversion Hall as [|? ? Hs Hrest]; subst.
    cbn [strings_loop]. unfold strings_body. cbn [map concat].
    rewrite <- !app_assoc. cbn [app].
    rewrite strnlen_app by assumption.
    destruct (Nat.eqb_spec (length s)
                (length (s ++ x00 :: concat (map (fun s0 => s0 ++ [x00]) strs))))
      as [E|_].
    { rewrite length_app in E. cbn in E. lia. }
    replace (skipn (S (length s)) (s ++ x00 :: concat (map (fun s0 => s0 ++ [x00]) strs)))
      with (strings_body strs).
    2:{ symmetry; apply skipn_past_terminator. }
    rewrite firstn_app, firstn_all, Nat.sub_diag. cbn [firstn]. rewrite app_nil_r.
    cbn [length] in *.
    replace ((N.of_nat (S (length strs)) + (2 ^ 32 - 1)) mod 2 ^ 32)%N
      with (N.of_nat (length strs)).
    2:{ replace (N.of_nat (S (length strs)) + (2 ^ 32 - 1))%N
          with (N.of_nat (length strs) + 1 * 2 ^ 32)%N by lia.
        rewrite N.Div0.mod_add. rewrite N.mod_small; lia. }
    destruct strs as [|s' strs'].
    + cbn [length N.of_nat N.eqb]. unfold strings_body. cbn [map concat].
      destruct (N.eqb_spec needed 0) as [->|Hn]; cbn [negb].
      * cbn. now rewrite app_nil_r.
      * replace (N.to_nat needed) with (S (N.to_nat needed - 1)) by lia.
        cbn [firstn]. now rewrite firstn_nil.
    + destruct (N.eqb_spec (N.of_nat (length (s' :: strs'))) 0) as [E|_].
      { cbn in E. lia. }
      rewrite IH; [|discriminate|assumption|cbn in *; lia|cbn [length] in *; lia].
      destruct (N.eqb_spec needed 0) as [->|Hn]; cbn [negb].
      * cbn. now rewrite app_nil_r.
      * rewrite <- app_assoc. cbn [app].
        replace (N.to_nat needed) with (S (N.to_nat (needed - 1))) by lia.
        reflexivity.
Qed.

(** X2.  Round trip for one language: the blob that lists the NUL-free
    strings [strs] under the language [lang] is accepted, and the table
    built for [lang] holds the first [strings_count] of them, in order,
    byte for byte; the surplus strings are dropped. *)
Theorem strings_round_trip (ffs : ffs_data) (lang : N)
    (strs : list (list byte)) :
  Forall nul_free strs ->
  (0 < strings_count ffs <= N.of_nat (length strs))%N ->
  (lang < 2 ^ 16)%N ->
  (18 + blen (strings_body strs) < 2 ^ 32)%N ->
  __ffs_data_got_strings true ffs (strings_blob lang strs)
  = (0, set_strings [(lang, firstn (N.to_nat (strings_count ffs)) strs)]
          (strings_blob lang strs) ffs).
Proof.
  intros Hall Hcnt Hlang Hlen.
  assert (Hn : strs <> []) by (destruct strs; [cbn in Hcnt; lia|discriminate]).
  assert (Hbody : (length strs <= length (strings_body strs))%nat).
  { clear. unfold strings_body. induction strs as [|s strs IH]; [cbn; lia|].
    cbn [map concat length]. rewrite !length_app. cbn [length]. lia. }
  assert (Hcount : (N.of_nat (length strs) < 2 ^ 32)%N)
    by (unfold blen in Hlen; lia).
  assert (Hblen : blen (strings_blob lang strs)
                  = (18 + blen (strings_body strs))%N).
  { unfold strings_blob, blen. rewrite !length_app, !le32_length.
    change (length (le16 lang)) with 2%nat. lia. }
  unfold __ffs_data_got_strings.
  rewrite Hblen.
  destruct (N.ltb_spec (18 + blen (strings_body strs)) 16) as [|_]; [lia|].
  unfold strings_blob at 1.
  rewrite get_unaligned_le32_le32 by (unfold FUNCTIONFS_STRINGS_MAGIC; lia).
  cbn [N.eqb FUNCTIONFS_STRINGS_MAGIC Pos.eqb negb orb].
  replace (advance 4 (strings_blob lang strs))
    with (le32 (18 + blen (strings_body strs))
          ++ le32 (N.of_nat (length strs)) ++ le32 1
          ++ le16 lang ++ strings_body strs) by reflexivity.
  rewrite get_unaligned_le32_le32 by assumption.
  rewrite N.eqb_refl. cbn [negb].
  replace (advance 8 (strings_blob lang strs))
    with (le32 (N.of_nat (length strs)) ++ le32 1
          ++ le16 lang ++ strings_body strs) by reflexivity.
  rewrite get_unaligned_le32_le32 by assumption.
  replace (advance 12 (strings_blob lang strs))
    with (le32 1 ++ le16 lang ++ strings_body strs) by reflexivity.
  rewrite get_unaligned_le32_le32 by lia.
  destruct (N.eqb_spec (N.of_nat (length strs)) 0) as [E|_];
    [destruct strs; [contradiction|cbn in E; lia]|].
  cbn [N.eqb Bool.eqb negb].
  destruct (N.ltb_spec (N.of_nat (length strs)) (strings_count ffs)) as [|_];
    [lia|].
  destruct (N.eqb_spec (strings_count ffs) 0) as [|_]; [lia|].
  replace (advance 16 (strings_blob lang strs))
    with (le16 lang ++ strings_body strs) by reflexivity.
  cbn [langs_loop].
  destruct (N.ltb_spec (blen (le16 lang ++ strings_body strs)) 3) as [Hs|_].
  { unfold blen in Hs. rewrite length_app in Hs.
    change (length (le16 lang)) with 2%nat in Hs.
    destruct strs; [contradiction|]. cbn [length] in Hbody. lia. }
  rewrite get_unaligned_le16_le16 by assumption.
  replace (advance 2 (le16 lang ++ strings_body strs))
    with (strings_body strs) by reflexivity.
  rewrite strings_loop_body; try assumption; [|lia].
  cbn [app N.eqb]. reflexivity.
Qed.

Lemma strings_round_trip_witness :
  __ffs_data_got_strings true (set_strings_count 1 ffs_data_new)
    (strings_blob 0x0409 [bytes [0x61; 0x62]%N; bytes [0x63]%N])
  = (0, set_strings [(0x0409%N, [bytes [0x61; 0x62]%N])]
          (strings_blob 0x0409 [bytes [0x61; 0x62]%N; bytes [0x63]%N])
          (set_strings_count 1 ffs_data_new)).
Proof.
  apply (strings_round_trip (set_strings_count 1 ffs_data_new) 0x0409
           [bytes [0x61; 0x62]%N; bytes [0x63]%N]).
  - repeat constructor; discriminate.
  - cbn. lia.
  - lia.
  - vm_compute. reflexivity.
Defined.

(** ** Accepted descriptor blobs *)

Lemma read_counts_advance flags bits data cs d :
  read_counts flags bits data = (true, cs, d) ->
  d = skipn (4 * flag_words flags bits) data.
Proof.
  revert data cs d. unfold flag_words.
  induction bits as [|b0 bits IH]; intros data cs d H; cbn [read_counts] in H.
  - inversion H. reflexivity.
  - cbn [filter].
    destruct (N.land flags b0 =? 0)%N; cbn [negb].
    + destruct (read_counts flags bits data) as [[ok cs'] d'] eqn:E.
      inversion H; subst. eapply IH; eauto.
    + destruct (blen data <? 4)%N; [discriminate|].
      destruct (read_counts flags bits (advance 4 data)) as [[ok cs'] d'] eqn:E.
      inversion H; subst. apply IH in E. rewrite E.
      unfold advance. rewrite skipn_skipn. cbn [length]. f_equal. lia.
Qed.

Lemma got_descs_body_accepted fdget f _data flags data :
  0 <= fst (got_descs_body fdget f _data flags data) ->
  let f' := snd (got_descs_body fdget f _data flags data) in
  fst (got_descs_body fdget f _data flags data) = 0 /\
  raw_descs_data f' = Some _data /\
  raw_descs f'
  = skipn (4 * flag_words flags
                 [FUNCTIONFS_EVENTFD; FUNCTIONFS_HAS_FS_DESC;
                  FUNCTIONFS_HAS_HS_DESC; FUNCTIONFS_HAS_SS_DESC;
                  FUNCTIONFS_HAS_MS_OS_DESC]) data /\
  raw_descs_length f' = blen (raw_descs f') /\
  raw_descs f' <> [].
Proof.
  unfold got_descs_body.
  set (st := if negb (N.land flags FUNCTIONFS_EVENTFD =? 0)%N
             then _ else _).
  assert (Hst : 0 <= fst (fst st) ->
                snd (fst st)
                = skipn (4 * flag_words flags [FUNCTIONFS_EVENTFD]) data).
  { unfold st, flag_words. cbn [filter].
    destruct (N.land flags FUNCTIONFS_EVENTFD =? 0)%N; cbn [negb];
      [reflexivity|].
    destruct (blen data <? 4)%N; [cbn; unfold EINVAL; lia|].
    destruct (fdget _ <? 0) eqn:E; [apply Z.ltb_lt in E; cbn; lia|].
    reflexivity. }
  destruct st as [[ret0 data0] f0]. cbn [fst snd] in Hst.
  destruct (ret0 <? 0) eqn:E0; [apply Z.ltb_lt in E0; cbn; lia|].
  apply Z.ltb_ge in E0. specialize (Hst E0).
  destruct (read_counts flags _ data0) as [[ok counts] data1] eqn:Ec.
  destruct ok; cbn [negb]; [|cbn; unfold EINVAL; lia].
  apply read_counts_advance in Ec.
  destruct (negb (N.land flags FUNCTIONFS_HAS_MS_OS_DESC =? 0)%N) eqn:Eos;
    cbn [andb].
  - destruct (blen data1 <? 4)%N; [cbn; unfold EINVAL; lia|].
    destruct (read_descs counts (advance 4 data1) f0) as [[ret1 data2] f1].
    destruct (ret1 <? 0) eqn:E1; [apply Z.ltb_lt in E1; cbn; lia|].
    set (st2 := if negb (_ =? 0)%N then _ else _).
    destruct st2 as [[ret2 data3] f2].
    destruct (ret2 <? 0) eqn:E2; [apply Z.ltb_lt in E2; cbn; lia|].
    destruct (Nat.eqb_spec (length (advance 4 data1)) (length data3)) as [El|El];
      cbn [orb]; [cbn; unfold EINVAL; lia|].
    destruct (N.eqb_spec (blen data3) 0) as [Ez|Ez]; cbn [negb];
      [|cbn; unfold EINVAL; lia].
    intros _. cbn [fst snd raw_descs_data raw_descs raw_descs_length set_raw_descs].
    repeat split.
    + subst data1 data0. unfold advance, flag_words. cbn [filter].
      rewrite !skipn_skipn. f_equal.
      destruct (N.land flags FUNCTIONFS_EVENTFD =? 0)%N,
               (N.land flags FUNCTIONFS_HAS_FS_DESC =? 0)%N,
               (N.land flags FUNCTIONFS_HAS_HS_DESC =? 0)%N,
               (N.land flags FUNCTIONFS_HAS_SS_DESC =? 0)%N;
        cbn [negb length app]; rewrite ?Eos; cbn [length]; lia.
    + rewrite Ez. lia.
    + intros Hnil. rewrite Hnil in El. unfold blen in Ez. cbn in El. lia.
  - destruct (read_descs counts data1 f0) as [[ret1 data2] f1].
    destruct (ret1 <? 0) eqn:E1; [apply Z.ltb_lt in E1; cbn; lia|].
    set (st2 := if negb (_ =? 0)%N then _ else _).
    destruct st2 as [[ret2 data3] f2].
    destruct (ret2 <? 0) eqn:E2; [apply Z.ltb_lt in E2; cbn; lia|].
    destruct (Nat.eqb_spec (length data1) (length data3)) as [El|El];
      cbn [orb]; [cbn; unfold EINVAL; lia|].
    destruct (N.eqb_spec (blen data3) 0) as [Ez|Ez]; cbn [negb];
      [|cbn; unfold EINVAL; lia].
    intros _. cbn [fst snd raw_descs_data raw_descs raw_descs_length set_raw_descs].
    repeat split.
    + subst data1 data0. unfold advance, flag_words. cbn [filter].
      rewrite !skipn_skipn. f_equal.
      destruct (N.land flags FUNCTIONFS_EVENTFD =? 0)%N,
               (N.land flags FUNCTIONFS_HAS_FS_DESC =? 0)%N,
               (N.land flags FUNCTIONFS_HAS_HS_DESC =? 0)%N,
               (N.land flags FUNCTIONFS_HAS_SS_DESC =? 0)%N;
        cbn [negb length app]; rewrite ?Eos; cbn [length]; lia.
    + rewrite Ez. lia.
    + intros Hnil. rewrite Hnil in El. unfold blen in Ez. cbn in El. lia.
Qed.

Lemma got_descs_accepted fdget f blob :
  0 <= fst (__ffs_data_got_descs fdget f blob) ->
  fst (__ffs_data_got_descs fdget f blob) = 0 /\
  raw_descs_data (snd (__ffs_data_got_descs fdget f blob)) = Some blob.
Proof.
  unfold __ffs_data_got_descs.
  destruct (negb _); [cbn; unfold EINVAL; lia|].
  destruct (_ =? FUNCTIONFS_DESCRIPTORS_MAGIC)%N.
  - intros H. apply got_descs_body_accepted in H. split; apply H.
  - destruct (_ =? FUNCTIONFS_DESCRIPTORS_MAGIC_V2)%N;
      [|cbn; unfold EINVAL; lia].
    destruct (negb _); [cbn; unfold ENOSYS; lia|].
    intros H. apply got_descs_body_accepted in H. split; apply H.
Qed.

(** X3.  An accepted descriptor blob is kept whole: the call returns [0],
    the session owns the blob, [raw_descs] is the blob past its header
    ([descs_header_size] bytes), [raw_descs_length] is the length of all
    that is left, so no byte follows the last descriptor walked, and at
    least one descriptor was walked. *)
Theorem accepted_blob_kept_whole (fdget : Z -> Z) (f : ffs_data)
    (blob : list byte) :
  0 <= fst (__ffs_data_got_descs fdget f blob) ->
  let f' := snd (__ffs_data_got_descs fdget f blob) in
  fst (__ffs_data_got_descs fdget f blob) = 0 /\
  raw_descs_data f' = Some blob /\
  raw_descs f' = skipn (descs_header_size blob) blob /\
  raw_descs_length f' = blen (raw_descs f') /\
  raw_descs f' <> [].
Proof.
  unfold __ffs_data_got_descs, descs_header_size.
  destruct (negb _); [cbn; unfold EINVAL; lia|].
  destruct (N.eqb_spec (get_unaligned_le32 blob) FUNCTIONFS_DESCRIPTORS_MAGIC)
    as [Em|Em].
  - intros H. apply got_descs_body_accepted in H.
    destruct H as (H0 & H1 & H2 & H3 & H4).
    repeat split; try assumption.
    rewrite H2. unfold advance. rewrite skipn_skipn. reflexivity.
  - destruct (_ =? FUNCTIONFS_DESCRIPTORS_MAGIC_V2)%N;
      [|cbn; unfold EINVAL; lia].
    destruct (negb _); [cbn; unfold ENOSYS; lia|].
    intros H. apply got_descs_body_accepted in H.
    destruct H as (H0 & H1 & H2 & H3 & H4).
    repeat split; try assumption.
    rewrite H2. unfold advance. rewrite skipn_skipn. f_equal.
    change (N.to_nat 12) with 12%nat. lia.
Qed.

Lemma accepted_blob_kept_whole_witness :
  raw_descs (snd (__ffs_data_got_descs (fun fd => fd) ffs_data_new
                    blob_two_endpoints))
  = skipn 16 blob_two_endpoints.
Proof.
  destruct (accepted_blob_kept_whole (fun fd => fd) ffs_data_new
              blob_two_endpoints) as (_ & _ & H & _).
  - vm_compute. discriminate.
  - exact H.
Defined.

(** ** Error codes of the descriptor parser *)

Section WalkErrors.
Context {P : Type}.
Variable entity : ffs_entity_callback P.
Hypothesis entity_err : forall type v d p, einval_only (entity type v d p).

Lemma __entity_einval check type v d p k :
  (forall p', einval_only (k p')) ->
  einval_only (__entity entity check type v d p k).
Proof.
  intros Hk. unfold __entity.
  destruct (negb (check v)); [intros _; reflexivity|].
  pose proof (entity_err type v d p) as He.
  destruct (entity type v d p) as [ret p1].
  destruct (ret <? 0) eqn:E; [exact He|apply Hk].
Qed.

Lemma ffs_do_single_desc_einval data p :
  einval_only (ffs_do_single_desc entity data p).
Proof.
  unfold ffs_do_single_desc.
  repeat match goal with
         | |- context [if ?c then _ else _] => destruct c
         end;
    repeat first
      [ (intros _; reflexivity)
      | (unfold einval_only; cbn [fst]; lia)
      | apply __entity_einval; intros ? ].
Qed.

Lemma ffs_do_descs_loop_einval fuel count num data consumed p :
  einval_only (ffs_do_descs_loop entity fuel count num data consumed p).
Proof.
  revert num data consumed p.
  induction fuel as [|fuel IH]; intros num data consumed p.
  - intros _; reflexivity.
  - cbn [ffs_do_descs_loop].
    pose proof (entity_err FFS_DESCRIPTOR num
                  (if (num =? count)%N then [] else data) p) as He.
    destruct (entity FFS_DESCRIPTOR num _ p) as [ret p1].
    destruct (ret <? 0) eqn:E; [exact He|].
    destruct (num =? count)%N; [unfold einval_only; cbn [fst]; lia|].
    pose proof (ffs_do_single_desc_einval data p1) as Hs.
    destruct (ffs_do_single_desc entity data p1) as [ret2 p2].
    destruct (ret2 <? 0); [exact Hs|apply IH].
Qed.
End WalkErrors.

Section OsWalkErrors.
Context {P : Type}.
Variable entity : ffs_os_desc_callback P.
Hypothesis entity_err : forall type h d p, einval_only (entity type h d p).

Lemma ffs_do_single_os_desc_loop_einval n data consumed type h p :
  einval_only (ffs_do_single_os_desc_loop entity n data consumed type h p).
Proof.
  revert data consumed p.
  induction n as [|n IH]; intros data consumed p; cbn [ffs_do_single_os_desc_loop].
  - unfold einval_only; cbn [fst]; lia.
  - pose proof (entity_err type h data p) as He.
    destruct (entity type h data p) as [ret p1].
    destruct (ret <? 0); [exact He|apply IH].
Qed.

Lemma ffs_do_os_descs_loop_einval fuel count num data consumed p :
  einval_only (ffs_do_os_descs_loop entity fuel count num data consumed p).
Proof.
  revert num data consumed p.
  induction fuel as [|fuel IH]; intros num data consumed p.
  - intros _; reflexivity.
  - cbn [ffs_do_os_descs_loop].
    destruct (num <? count)%N; cbn [negb];
      [|unfold einval_only; cbn [fst]; lia].
    destruct (blen data <? _)%N; [intros _; reflexivity|].
    destruct (blen data <? _)%N; [intros _; reflexivity|].
    unfold __ffs_do_os_desc_header.
    destruct (negb _); cbn [fst snd Z.ltb Z.compare EINVAL Z.opp];
      [intros _; reflexivity|].
    destruct (_ =? 4)%N.
    + cbn -[ffs_do_os_descs_loop ffs_do_single_os_desc einval_only].
      match goal with
      | |- context [if ?c then _ else _] => destruct c
      end; [intros _; reflexivity|].
      unfold ffs_do_single_os_desc.
      match goal with
      | |- context [ffs_do_single_os_desc_loop entity ?n ?d ?c ?t ?h ?q] =>
          pose proof (ffs_do_single_os_desc_loop_einval n d c t h q) as Hs;
          destruct (ffs_do_single_os_desc_loop entity n d c t h q) as [r1 p1]
      end.
      destruct (r1 <? 0); [exact Hs|apply IH].
    + destruct (_ =? 5)%N; [|intros _; reflexivity].
      cbn -[ffs_do_os_descs_loop ffs_do_single_os_desc einval_only].
      unfold ffs_do_single_os_desc.
      match goal with
      | |- context [ffs_do_single_os_desc_loop entity ?n ?d ?c ?t ?h ?q] =>
          pose proof (ffs_do_single_os_desc_loop_einval n d c t h q) as Hs;
          destruct (ffs_do_single_os_desc_loop entity n d c t h q) as [r1 p1]
      end.
      destruct (r1 <? 0); [exact Hs|apply IH].
Qed.
End OsWalkErrors.

Lemma do_entity_einval type v d p : einval_only (__ffs_data_do_entity type v d p).
Proof.
  unfold __ffs_data_do_entity. destruct p as [helper ffs].
  destruct type; break_ifs; unfold einval_only; cbn [fst]; lia.
Qed.

Lemma do_os_desc_einval type h d f : einval_only (__ffs_data_do_os_desc type h d f).
Proof.
  unfold __ffs_data_do_os_desc.
  destruct type; break_ifs; unfold einval_only; cbn [fst]; try lia.
  generalize (N2Z.is_nonneg (get_unaligned_le32 d mod 2 ^ 8)).
  generalize (Z.of_N (get_unaligned_le32 d mod 2 ^ 8)). intros; lia.
Qed.

Lemma read_descs_einval counts data f :
  fst (fst (read_descs counts data f)) < 0 ->
  fst (fst (read_descs counts data f)) = - EINVAL.
Proof.
  revert data f. induction counts as [|c counts IH]; intros data f;
    cbn [read_descs].
  - cbn. lia.
  - destruct (c =? 0)%N; [apply IH|].
    pose proof (ffs_do_descs_loop_einval __ffs_data_do_entity do_entity_einval
                  (S (length data)) c 0%N data 0%N (mk_helper 0 0, f)) as Hw.
    unfold ffs_do_descs.
    destruct (ffs_do_descs_loop _ _ _ _ _ _ _) as [ret [helper f1]].
    destruct (ret <? 0); [exact Hw|].
    destruct (_ && _); [apply IH|].
    destruct (negb _); [intros _; reflexivity|].
    destruct (negb _); [intros _; reflexivity|apply IH].
Qed.

Lemma got_descs_body_errors fdget f _data flags data :
  let r := fst (got_descs_body fdget f _data flags data) in
  r = 0 \/ r = - EINVAL \/
  (r < 0 /\ N.land flags FUNCTIONFS_EVENTFD <> 0%N /\
   r = fdget (to_int (get_unaligned_le32 data))).
Proof.
  unfold got_descs_body.
  destruct (N.eqb_spec (N.land flags FUNCTIONFS_EVENTFD) 0) as [Ev|Ev];
    cbn [negb].
  - cbn [Z.ltb Z.compare].
    destruct (read_counts flags _ data) as [[ok counts] data1].
    destruct (negb ok); [cbn; auto|].
    destruct (_ && _); [cbn; auto|].
    match goal with
    | |- context [read_descs counts ?d f] =>
        pose proof (read_descs_einval counts d f) as Hr;
        destruct (read_descs counts d f) as [[ret1 data2] f1]
    end.
    cbn [fst] in Hr.
    destruct (ret1 <? 0) eqn:E1; [apply Z.ltb_lt in E1; cbn; auto|].
    destruct (negb _).
    + match goal with
      | |- context [ffs_do_os_descs __ffs_data_do_os_desc ?c ?d f1] =>
          pose proof (ffs_do_os_descs_loop_einval __ffs_data_do_os_desc
                        do_os_desc_einval (S (length d)) c 0%N d 0%N f1) as Ho;
          unfold ffs_do_os_descs;
          destruct (ffs_do_os_descs_loop __ffs_data_do_os_desc _ c 0%N d 0%N f1)
            as [r f2]
      end.
      unfold einval_only in Ho. cbn [fst] in Ho.
      destruct (r <? 0) eqn:E2.
      * rewrite E2. apply Z.ltb_lt in E2. cbn; auto.
      * rewrite E2. destruct (_ || _); cbn; auto.
    + rewrite E1. destruct (_ || _); cbn; auto.
  - destruct (blen data <? 4)%N; [cbn; auto|].
    destruct (fdget _ <? 0) eqn:Ef.
    { rewrite Ef. apply Z.ltb_lt in Ef. cbn. right. right. auto. }
    cbn [Z.ltb Z.compare].
    destruct (read_counts flags _ _) as [[ok counts] data1].
    destruct (negb ok); [cbn; auto|].
    destruct (_ && _); [cbn; auto|].
    match goal with
    | |- context [read_descs counts ?d ?g] =>
        pose proof (read_descs_einval counts d g) as Hr;
        destruct (read_descs counts d g) as [[ret1 data2] f1]
    end.
    cbn [fst] in Hr.
    destruct (ret1 <? 0) eqn:E1; [apply Z.ltb_lt in E1; cbn; auto|].
    destruct (negb _).
    + match goal with
      | |- context [ffs_do_os_descs __ffs_data_do_os_desc ?c ?d f1] =>
          pose proof (ffs_do_os_descs_loop_einval __ffs_data_do_os_desc
                        do_os_desc_einval (S (length d)) c 0%N d 0%N f1) as Ho;
          unfold ffs_do_os_descs;
          destruct (ffs_do_os_descs_loop __ffs_data_do_os_desc _ c 0%N d 0%N f1)
            as [r f2]
      end.
      unfold einval_only in Ho. cbn [fst] in Ho.
      destruct (r <? 0) eqn:E2.
      * rewrite E2. apply Z.ltb_lt in E2. cbn; auto.
      * rewrite E2. destruct (_ || _); cbn; auto.
    + rewrite E1. destruct (_ || _); cbn; auto.
Qed.

(** X4.  [__ffs_data_got_descs] returns [0], [-EINVAL], [-ENOSYS] (a flag
    outside the known ones) or, for a blob that carries an eventfd, the
    error of [eventfd_ctx_fdget] on the descriptor number at offset 12;
    nothing else, and never a positive value. *)
Theorem got_descs_error_codes (fdget : Z -> Z) (f : ffs_data)
    (blob : list byte) :
  let r := fst (__ffs_data_got_descs fdget f blob) in
  r = 0 \/ r = - EINVAL \/ r = - ENOSYS \/
  (r < 0 /\
   N.land (get_unaligned_le32 (advance 8 blob)) FUNCTIONFS_EVENTFD <> 0%N /\
   r = fdget (to_int (get_unaligned_le32 (advance 12 blob)))).
Proof.
  unfold __ffs_data_got_descs.
  destruct (negb _); [cbn; auto|].
  destruct (_ =? FUNCTIONFS_DESCRIPTORS_MAGIC)%N.
  - destruct (got_descs_body_errors fdget f blob
                (N.lor FUNCTIONFS_HAS_FS_DESC FUNCTIONFS_HAS_HS_DESC)
                (advance 8 blob)) as [H|[H|(_ & H & _)]]; auto.
    exfalso. apply H. reflexivity.
  - destruct (_ =? FUNCTIONFS_DESCRIPTORS_MAGIC_V2)%N; [|cbn; auto].
    destruct (negb _); [cbn; auto|].
    destruct (got_descs_body_errors fdget
                (set_user_flags (get_unaligned_le32 (advance 8 blob)) f) blob
                (get_unaligned_le32 (advance 8 blob))
                (advance 12 blob)) as [H|[H|H]]; auto.
Qed.

(** ** Reading events from ep0 *)

Lemma read_events_queue env f n :
  (count (ev f) <= length (types (ev f)))%nat ->
  ev_queue (snd (fst (__ffs_ep0_read_events env f n)))
  = skipn (N.to_nat n) (ev_queue f).
Proof.
  intros HC. unfold __ffs_ep0_read_events.
  set (k := N.to_nat n).
  set (f1 := if existsb (event_type_eqb FUNCTIONFS_SETUP)
                  (firstn k (types (ev f)))
             then set_setup_state FFS_SETUP_PENDING f else f).
  assert (Hev : ev f1 = ev f) by (unfold f1; destruct (existsb _ _); reflexivity).
  rewrite Hev.
  assert (Hq : ev_queue
                 (set_ev
                    (mk_ffs_ev
                       (firstn (count (ev f) - k) (skipn k (types (ev f)))
                        ++ skipn (count (ev f) - k) (types (ev f)))
                       (count (ev f) - k) (can_stall (ev f)) (setup (ev f)))
                    f1)
               = skipn k (ev_queue f)).
  { unfold ev_queue. cbn [ev set_ev types count].
    rewrite firstn_app.
    rewrite length_firstn, length_skipn.
    replace (count (ev f) - k - Nat.min (count (ev f) - k) (length (types (ev f)) - k))%nat
      with 0%nat by lia.
    rewrite firstn_O, app_nil_r, firstn_firstn, Nat.min_id.
    rewrite skipn_firstn_comm. reflexivity. }
  destruct (copy_to_user_ok env); exact Hq.
Qed.

Lemma read_events_result env f n :
  (N.to_nat n <= count (ev f))%nat ->
  let r := __ffs_ep0_read_events env f n in
  fst (fst r) = (if copy_to_user_ok env
                 then Z.of_N (n * sizeof_usb_functionfs_event) else - EFAULT) /\
  snd r = (if copy_to_user_ok env
           then [Copy_events (events_of f (firstn (N.to_nat n) (ev_queue f)))]
           else []) /\
  state (snd (fst r)) = state f /\
  setup_state (snd (fst r))
  = (if existsb is_setup (firstn (N.to_nat n) (ev_queue f))
     then FFS_SETUP_PENDING else setup_state f).
Proof.
  intros Hn. unfold __ffs_ep0_read_events.
  assert (Hq : firstn (N.to_nat n) (ev_queue f)
               = firstn (N.to_nat n) (types (ev f))).
  { unfold ev_queue. rewrite firstn_firstn. f_equal. lia. }
  rewrite Hq.
  assert (He : existsb is_setup (firstn (N.to_nat n) (types (ev f)))
               = existsb (event_type_eqb FUNCTIONFS_SETUP)
                   (firstn (N.to_nat n) (types (ev f)))).
  { clear. induction (firstn (N.to_nat n) (types (ev f))) as [|x l IH];
      [reflexivity|cbn [existsb]; rewrite IH; destruct x; reflexivity]. }
  rewrite He. rewrite N2Nat.id.
  destruct (existsb _ _); destruct (copy_to_user_ok env); cbn; auto.
Qed.

Lemma ep0_read_no_setup env f nonblock len :
  inst_exist env = true ->
  ffs_mutex_lock env nonblock = 0 ->
  state f = FFS_ACTIVE ->
  setup_state f = FFS_NO_SETUP ->
  (0 < count (ev f))%nat ->
  (sizeof_usb_functionfs_event <= len)%N ->
  ffs_ep0_read env f nonblock len
  = __ffs_ep0_read_events env f
      (N.min (len / sizeof_usb_functionfs_event) (blen_events f)).
Proof.
  intros Hinst Hlock Hst Hss Hq Hlen.
  unfold ffs_ep0_read, ffs_inst_exist_check, ffs_setup_state_clear_cancelled.
  rewrite Hinst. cbn [Z.ltb Z.compare]. rewrite Hss. cbn beta iota.
  rewrite Hlock. cbn [Z.ltb Z.compare]. rewrite Hst, Hss. cbn beta iota zeta.
  assert (Hn0 : (len / sizeof_usb_functionfs_event =? 0)%N = false).
  { apply N.eqb_neq. intros E. apply N.div_small_iff in E;
      unfold sizeof_usb_functionfs_event in *; lia. }
  rewrite Hn0.
  assert (Hb : (blen_events f =? 0)%N = false)
    by (apply N.eqb_neq; unfold blen_events; lia).
  rewrite Hb, andb_false_r. reflexivity.
Qed.

(** X5.  An event read is first in, first out: on an active session with
    no setup in progress and a non-empty queue, a read of [len] bytes takes
    the [n = min(len / 12, count)] oldest events in queue order (a setup
    event with the cached packet), leaves the others queued in order, and
    makes the setup pending exactly when a setup event was among those
    taken.  The events are dequeued before [copy_to_user]: when the copy
    faults the call returns [-EFAULT] and they are gone all the same. *)
Theorem ep0_read_delivers_in_order (env : ep0_env) (f : ffs_data)
    (nonblock : bool) (len : N) :
  inst_exist env = true ->
  ffs_mutex_lock env nonblock = 0 ->
  state f = FFS_ACTIVE ->
  setup_state f = FFS_NO_SETUP ->
  (count (ev f) <= length (types (ev f)))%nat ->
  (0 < count (ev f))%nat ->
  (sizeof_usb_functionfs_event <= len)%N ->
  let n := N.min (len / sizeof_usb_functionfs_event) (blen_events f) in
  let r := ffs_ep0_read env f nonblock len in
  fst (fst r) = (if copy_to_user_ok env
                 then Z.of_N (n * sizeof_usb_functionfs_event) else - EFAULT) /\
  snd r = (if copy_to_user_ok env
           then [Copy_events (events_of f (firstn (N.to_nat n) (ev_queue f)))]
           else []) /\
  ev_queue (snd (fst r)) = skipn (N.to_nat n) (ev_queue f) /\
  state (snd (fst r)) = FFS_ACTIVE /\
  setup_state (snd (fst r))
  = (if existsb is_setup (firstn (N.to_nat n) (ev_queue f))
     then FFS_SETUP_PENDING else FFS_NO_SETUP).
Proof.
  intros Hinst Hlock Hst Hss HC Hq Hlen n r. subst r.
  rewrite (ep0_read_no_setup env f nonblock len Hinst Hlock Hst Hss Hq Hlen).
  fold n.
  assert (Hn : (N.to_nat n <= count (ev f))%nat)
    by (unfold n, blen_events; lia).
  destruct (read_events_result env f n Hn) as (H1 & H2 & H3 & H4).
  rewrite Hst in H3. rewrite Hss in H4.
  repeat split; try assumption.
  apply read_events_queue. exact HC.
Qed.

Lemma ep0_read_delivers_in_order_witness :
  fst (fst (ffs_ep0_read (ep0_env_quiet 0)
              (ffs_active_two_events (mk_ctrlrequest 0x21 9 0 0 8)) false 24))
  = 24 /\
  snd (ffs_ep0_read (ep0_env_quiet 0)
         (ffs_active_two_events (mk_ctrlrequest 0x21 9 0 0 8)) false 24)
  = [Copy_events [(FUNCTIONFS_ENABLE, None);
                  (FUNCTIONFS_SETUP, Some (mk_ctrlrequest 0x21 9 0 0 8))]] /\
  ev_queue (snd (fst (ffs_ep0_read (ep0_env_quiet 0)
                        (ffs_active_two_events (mk_ctrlrequest 0x21 9 0 0 8))
                        false 24)))
  = [].
Proof.
  destruct (ep0_read_delivers_in_order (ep0_env_quiet 0)
              (ffs_active_two_events (mk_ctrlrequest 0x21 9 0 0 8)) false 24)
    as (H1 & H2 & H3 & _).
  - reflexivity.
  - reflexivity.
  - reflexivity.
  - reflexivity.
  - vm_compute. lia.
  - vm_compute. lia.
  - vm_compute. discriminate.
  - split; [exact H1|split; [exact H2|exact H3]].
Defined.

(** ** The state machine behind ep0 *)

Lemma event_add_state f type : state (__ffs_event_add f type) = state f.
Proof.
  unfold __ffs_event_add.
  destruct (event_rem_types type) as [[r1 r2] neg].
  destruct (event_purge _ _ _ _ _) as [a out].
  destruct (setup_state f); reflexivity.
Qed.

Lemma deliver_state f d : state (deliver f d) = state f.
Proof.
  destruct d; cbn [deliver]; unfold ffs_event_add; rewrite event_add_state;
    reflexivity.
Qed.

Lemma deliver_all_state f ds : state (deliver_all f ds) = state f.
Proof.
  revert f. induction ds as [|d ds IH]; intros f; [reflexivity|].
  cbn [deliver_all fold_left]. fold (deliver_all (deliver f d) ds).
  rewrite IH. apply deliver_state.
Qed.

Lemma clear_cancelled_state f :
  state (snd (ffs_setup_state_clear_cancelled f)) = state f.
Proof. unfold ffs_setup_state_clear_cancelled. destruct (setup_state f); reflexivity. Qed.

Lemma queue_wait_state env f len :
  state (snd (fst (__ffs_ep0_queue_wait env f len))) = state f.
Proof.
  unfold __ffs_ep0_queue_wait.
  destruct (_ <? 0); [reflexivity|].
  destruct (completion_interrupted env); cbn [fst snd set_setup_state state];
    apply deliver_all_state.
Qed.

Lemma stall_state f : state (snd (fst (__ffs_ep0_stall f))) = state f.
Proof. unfold __ffs_ep0_stall. destruct (can_stall (ev f)); reflexivity. Qed.

Lemma got_strings_accepted alloc_ok f buf :
  0 <= fst (__ffs_data_got_strings alloc_ok f buf) ->
  fst (__ffs_data_got_strings alloc_ok f buf) = 0 /\
  state (snd (__ffs_data_got_strings alloc_ok f buf)) = state f.
Proof.
  unfold __ffs_data_got_strings.
  destruct (_ || _); [cbn [fst]; unfold EINVAL; lia|].
  destruct (negb (Bool.eqb _ _)); [cbn [fst]; unfold EINVAL; lia|].
  destruct (_ <? _)%N; [cbn [fst]; unfold EINVAL; lia|].
  destruct (_ =? 0)%N; [cbn [fst snd]; auto|].
  destruct (negb alloc_ok); [cbn [fst]; unfold ENOMEM; lia|].
  destruct (langs_loop _ _ _ _ _ _) as [[d t]|];
    [|cbn [fst]; unfold EINVAL; lia].
  destruct (negb _); cbn [fst snd]; [unfold EINVAL; lia|auto].
Qed.


(** The head of [ffs_ep0_write] and [ffs_ep0_read]: instance check, fast
    check, mutex. *)
Ltac ep0_head f f1 Hcc El :=
  unfold ffs_inst_exist_check;
  destruct (inst_exist _); cbn [Z.ltb Z.compare ENODEV Z.opp];
  [ pose proof (clear_cancelled_state f) as Hcc;
    destruct (ffs_setup_state_clear_cancelled f) as [[] f1]; cbn [snd] in Hcc;
    [ destruct (ffs_mutex_lock _ _ <? 0) eqn:El;
      [apply Z.ltb_lt in El|clear El]
    | destruct (ffs_mutex_lock _ _ <? 0) eqn:El;
      [apply Z.ltb_lt in El|clear El]
    | ]
  | ].

Lemma ep0_write_not_collecting env f nonblock buf :
  state f = FFS_DEACTIVATED \/ state f = FFS_CLOSING ->
  fst (fst (ffs_ep0_write env f nonblock buf)) < 0 /\
  state (snd (fst (ffs_ep0_write env f nonblock buf))) = state f /\
  snd (ffs_ep0_write env f nonblock buf) = [].
Proof.
  intros Hs. unfold ffs_ep0_write. ep0_head f f1 Hcc El; cbn [fst snd].
  all: try (repeat split; auto; unfold EIDRM; lia).
  all: rewrite <- Hcc in Hs; destruct Hs as [Hs|Hs]; rewrite Hs; cbn [fst snd];
    repeat split; auto; unfold EBADFD; lia.
Qed.

Lemma ep0_write_active env f nonblock buf :
  state f = FFS_ACTIVE ->
  state (snd (fst (ffs_ep0_write env f nonblock buf))) = FFS_ACTIVE.
Proof.
  intros Hs. unfold ffs_ep0_write. ep0_head f f1 Hcc El; cbn [fst snd];
    try congruence.
  all: rewrite <- Hcc in Hs; rewrite Hs.
  all: pose proof (clear_cancelled_state f1) as Hc2;
    destruct (ffs_setup_state_clear_cancelled f1) as [old2 f2];
    cbn [snd] in Hc2; destruct old2; cbn [fst snd]; try congruence.
  all: destruct (N.land _ _ =? 0)%N; [rewrite stall_state; congruence|].
  all: destruct (ffs_prepare_buffer _ _ <? 0); [cbn [fst snd]; congruence|].
  all: pose proof (clear_cancelled_state (deliver_all f2 (delivered_unlocked env)))
         as Hc3;
    destruct (ffs_setup_state_clear_cancelled
                (deliver_all f2 (delivered_unlocked env))) as [old3 f3];
    cbn [snd] in Hc3; rewrite deliver_all_state in Hc3.
  all: destruct old3; try rewrite queue_wait_state; cbn [fst snd]; congruence.
Qed.

Lemma ep0_write_descriptors env f nonblock buf :
  state f = FFS_READ_DESCRIPTORS ->
  let r := ffs_ep0_write env f nonblock buf in
  snd r = [] /\
  ((fst (fst r) < 0 /\ state (snd (fst r)) = FFS_READ_DESCRIPTORS) \/
   (fst (fst r) = Z.of_N (blen buf) /\ state (snd (fst r)) = FFS_READ_STRINGS /\
    raw_descs_data (snd (fst r)) = Some buf)).
Proof.
  intros Hs. cbv zeta. unfold ffs_ep0_write. ep0_head f f1 Hcc El; cbn [fst snd].
  all: try (split; [reflexivity|left; split; [try lia; unfold EIDRM; lia|congruence]]).
  all: rewrite <- Hcc in Hs; rewrite Hs.
  all: destruct (blen buf <? 16)%N;
    [cbn [fst snd]; split; [reflexivity|left; split;
       [unfold EINVAL; lia|assumption]]|].
  all: destruct (ffs_prepare_buffer env (blen buf) <? 0) eqn:Ep;
    [apply Z.ltb_lt in Ep; cbn [fst snd]; split;
       [reflexivity|left; split; assumption]|].
  all: pose proof (got_descs_post (eventfd_ctx_fdget env) f1 buf)
         as [(Hst & _) _];
    pose proof (got_descs_accepted (eventfd_ctx_fdget env) f1 buf) as Hacc;
    destruct (__ffs_data_got_descs (eventfd_ctx_fdget env) f1 buf)
      as [ret f2]; cbn [fst snd] in *;
    (destruct (ret <? 0) eqn:Er;
     [apply Z.ltb_lt in Er; cbn [fst snd]; split;
        [reflexivity|left; split; [exact Er|congruence]]|]);
    apply Z.ltb_ge in Er; cbn [fst snd]; split; [reflexivity|];
    right; repeat split; apply Hacc; exact Er.
Qed.

Lemma ep0_write_strings env f nonblock buf :
  state f = FFS_READ_STRINGS ->
  let r := ffs_ep0_write env f nonblock buf in
  snd r = [] /\
  ((fst (fst r) < 0 /\ state (snd (fst r)) = FFS_READ_STRINGS) \/
   (fst (fst r) = Z.of_N (blen buf) /\ state (snd (fst r)) = FFS_ACTIVE) \/
   (state (snd (fst r)) = FFS_CLOSING /\
    ((fst (fst r) = ffs_epfiles_create_ret env /\ fst (fst r) <> 0) \/
     (fst (fst r) = ffs_ready_ret env /\ fst (fst r) < 0)))).
Proof.
  intros Hs. cbv zeta. unfold ffs_ep0_write. ep0_head f f1 Hcc El; cbn [fst snd].
  all: try (split; [reflexivity|left; split; [try lia; unfold EIDRM; lia|congruence]]).
  all: rewrite <- Hcc in Hs; rewrite Hs.
  all: destruct (blen buf <? 16)%N;
    [cbn [fst snd]; split; [reflexivity|left; split;
       [unfold EINVAL; lia|assumption]]|].
  all: destruct (ffs_prepare_buffer env (blen buf) <? 0) eqn:Ep;
    [apply Z.ltb_lt in Ep; cbn [fst snd]; split;
       [reflexivity|left; split; assumption]|].
  all: pose proof (got_strings_accepted (vla_alloc_ok env) f1 buf) as Hg;
    pose proof (got_strings_failure_unchanged (vla_alloc_ok env) f1 buf) as Hu;
    destruct (__ffs_data_got_strings (vla_alloc_ok env) f1 buf)
      as [ret f2]; cbn [fst snd] in *;
    (destruct (ret <? 0) eqn:Er;
     [apply Z.ltb_lt in Er; cbn [fst snd]; split;
        [reflexivity|left; split; [exact Er|rewrite (Hu Er); exact Hs]]|]);
    (destruct (Z.eqb_spec (ffs_epfiles_create_ret env) 0) as [Ec|Ec];
     cbn [negb];
     [|cbn [fst snd]; split; [reflexivity|]; right; right; auto]);
    (destruct (ffs_ready_ret env <? 0) eqn:Ey;
     [apply Z.ltb_lt in Ey; cbn [fst snd]; split; [reflexivity|];
      right; right; auto|]);
    cbn [fst snd]; split; [reflexivity|]; right; left; auto.
Qed.


Lemma read_events_state env f n :
  state (snd (fst (__ffs_ep0_read_events env f n))) = state f.
Proof.
  unfold __ffs_ep0_read_events.
  destruct (existsb _ _); destruct (copy_to_user_ok env); reflexivity.
Qed.

Lemma ep0_read_state env f nonblock len :
  state (snd (fst (ffs_ep0_read env f nonblock len))) = state f.
Proof.
  unfold ffs_ep0_read. ep0_head f f1 Hcc El; cbn [fst snd]; try congruence.
  all: destruct (state f1) eqn:Hs; cbn [fst snd]; try congruence.
  all: pose proof (clear_cancelled_state f1) as Hc2;
    destruct (ffs_setup_state_clear_cancelled f1) as [old2 f2];
    cbn [snd] in Hc2; destruct old2; cbn [fst snd]; try congruence.
  all: try (destruct (_ =? 0)%N; [cbn [fst snd]; congruence|];
            destruct (_ && _); [cbn [fst snd]; congruence|];
            destruct (negb _); [rewrite read_events_state; congruence|];
            destruct (ev_waitq env); [cbn [fst snd]; congruence|];
            rewrite read_events_state, deliver_all_state; congruence).
  all: destruct (negb _); [rewrite stall_state; congruence|].
  all: destruct (_ && _); [cbn [fst snd]; congruence|].
  all: pose proof (clear_cancelled_state (deliver_all f2 (delivered_unlocked env)))
         as Hc3;
    destruct (ffs_setup_state_clear_cancelled
                (deliver_all f2 (delivered_unlocked env))) as [old3 f3];
    cbn [snd] in Hc3; rewrite deliver_all_state in Hc3.
  all: destruct old3; cbn [fst snd]; try congruence.
  all: pose proof (queue_wait_state env f3 (N.min len (wLength (setup (ev f2)))))
         as Hq;
    destruct (__ffs_ep0_queue_wait env f3 _) as [[ret f5] acts];
    cbn [fst snd] in Hq;
    destruct (0 <? ret); [destruct (copy_to_user_ok env)|]; cbn [fst snd];
    congruence.
Qed.

Lemma clear_cancelled_ev f : ev (snd (ffs_setup_state_clear_cancelled f)) = ev f.
Proof. unfold ffs_setup_state_clear_cancelled. destruct (setup_state f); reflexivity. Qed.

Lemma ep0_read_not_active env f nonblock len :
  state f <> FFS_ACTIVE ->
  fst (fst (ffs_ep0_read env f nonblock len)) < 0 /\
  snd (ffs_ep0_read env f nonblock len) = [] /\
  ev (snd (fst (ffs_ep0_read env f nonblock len))) = ev f.
Proof.
  intros Hs. unfold ffs_ep0_read.
  pose proof (clear_cancelled_ev f) as Hev.
  ep0_head f f1 Hcc El; cbn [fst snd] in *; auto.
  all: try (repeat split; auto; unfold EIDRM; lia).
  all: rewrite <- Hcc in Hs; destruct (state f1); try contradiction;
    cbn [fst snd]; repeat split; auto; unfold EBADFD; lia.
Qed.

Lemma ev_inv_ext f g : ev g = ev f -> ev_inv f -> ev_inv g.
Proof. unfold ev_inv, ev_queue. intros ->. auto. Qed.

Lemma ev_inv_deliver f d : ev_inv f -> ev_inv (deliver f d).
Proof.
  intros H. destruct d; cbn [deliver].
  - apply ev_inv_event_add, H.
  - apply ev_inv_event_add, ev_inv_set_ev_setup, H.
Qed.

Lemma ev_inv_deliver_all f ds : ev_inv f -> ev_inv (deliver_all f ds).
Proof.
  revert f. induction ds as [|d ds IH]; intros f H; [exact H|].
  cbn [deliver_all fold_left]. apply IH, ev_inv_deliver, H.
Qed.

Lemma ev_inv_clear_cancelled f :
  ev_inv f -> ev_inv (snd (ffs_setup_state_clear_cancelled f)).
Proof. apply ev_inv_ext, clear_cancelled_ev. Qed.

Lemma ev_inv_queue_wait env f len :
  ev_inv f -> ev_inv (snd (fst (__ffs_ep0_queue_wait env f len))).
Proof.
  intros H. unfold __ffs_ep0_queue_wait.
  destruct (_ <? 0); [exact H|].
  destruct (completion_interrupted env); cbn [fst snd].
  - apply ev_inv_deliver_all, H.
  - eapply ev_inv_ext; [|apply ev_inv_deliver_all, H]. reflexivity.
Qed.

Lemma ev_inv_stall f : ev_inv f -> ev_inv (snd (fst (__ffs_ep0_stall f))).
Proof.
  intros H. unfold __ffs_ep0_stall. destruct (can_stall (ev f)); exact H.
Qed.

Lemma got_strings_ev alloc_ok f buf :
  ev (snd (__ffs_data_got_strings alloc_ok f buf)) = ev f.
Proof.
  unfold __ffs_data_got_strings.
  destruct (_ || _); [reflexivity|].
  destruct (negb (Bool.eqb _ _)); [reflexivity|].
  destruct (_ <? _)%N; [reflexivity|].
  destruct (_ =? 0)%N; [reflexivity|].
  destruct (negb alloc_ok); [reflexivity|].
  destruct (langs_loop _ _ _ _ _ _) as [[d t]|]; [|reflexivity].
  destruct (negb _); reflexivity.
Qed.

Lemma ev_inv_ep0_read env f nonblock len :
  ev_inv f -> ev_inv (snd (fst (ffs_ep0_read env f nonblock len))).
Proof.
  intros H. unfold ffs_ep0_read.
  pose proof (ev_inv_clear_cancelled f H) as H1.
  ep0_head f f1 Hcc El; cbn [fst snd] in *; auto.
  all: destruct (state f1); cbn [fst snd]; auto.
  all: pose proof (ev_inv_clear_cancelled f1 H1) as H2;
    destruct (ffs_setup_state_clear_cancelled f1) as [old2 f2];
    cbn [snd] in H2; destruct old2; cbn [fst snd]; auto.
  all: try (destruct (_ =? 0)%N; [cbn [fst snd]; auto|];
            destruct (_ && _); [cbn [fst snd]; auto|];
            destruct (negb _); [apply ev_inv_read_events, H2|];
            destruct (ev_waitq env); [cbn [fst snd]; auto|];
            apply ev_inv_read_events, ev_inv_deliver_all, H2).
  all: destruct (negb _); [apply ev_inv_stall, H2|].
  all: destruct (_ && _); [cbn [fst snd]; auto|].
  all: pose proof (ev_inv_clear_cancelled _
                     (ev_inv_deliver_all f2 (delivered_unlocked env) H2)) as H3;
    destruct (ffs_setup_state_clear_cancelled
                (deliver_all f2 (delivered_unlocked env))) as [old3 f3];
    cbn [snd] in H3.
  all: destruct old3; cbn [fst snd]; auto.
  all: pose proof (ev_inv_queue_wait env f3
                     (N.min len (wLength (setup (ev f2)))) H3) as Hq;
    destruct (__ffs_ep0_queue_wait env f3 _) as [[ret f5] acts];
    cbn [fst snd] in Hq;
    destruct (0 <? ret); [destruct (copy_to_user_ok env)|]; cbn [fst snd];
    auto.
Qed.

Lemma ev_inv_ep0_write env f nonblock buf :
  ev_inv f -> ev_inv (snd (fst (ffs_ep0_write env f nonblock buf))).
Proof.
  intros H. unfold ffs_ep0_write.
  pose proof (ev_inv_clear_cancelled f H) as H1.
  ep0_head f f1 Hcc El; cbn [fst snd] in *; auto.
  all: destruct (state f1) eqn:Hs; cbn [fst snd]; auto.
  all: try (destruct (blen buf <? 16)%N; [cbn [fst snd]; auto|];
            destruct (ffs_prepare_buffer env (blen buf) <? 0);
            [cbn [fst snd]; auto|]).
  all: try (pose proof (got_descs_post (eventfd_ctx_fdget env) f1 buf)
              as [(_ & _ & Hev & _) _];
            destruct (__ffs_data_got_descs (eventfd_ctx_fdget env) f1 buf)
              as [ret f2]; cbn [fst snd] in *;
            destruct (ret <? 0); cbn [fst snd];
            (eapply ev_inv_ext; [|exact H1]); exact Hev).
  all: try (pose proof (got_strings_ev (vla_alloc_ok env) f1 buf) as Hev;
            destruct (__ffs_data_got_strings (vla_alloc_ok env) f1 buf)
              as [ret f2]; cbn [fst snd] in *;
            destruct (ret <? 0); [cbn [fst snd]|
              destruct (negb _); [cbn [fst snd]|
                destruct (_ <? 0); cbn [fst snd]]];
            (eapply ev_inv_ext; [|exact H1]); exact Hev).
  all: pose proof (ev_inv_clear_cancelled f1 H1) as H2;
    destruct (ffs_setup_state_clear_cancelled f1) as [old2 f2];
    cbn [snd] in H2; destruct old2; cbn [fst snd]; auto.
  all: destruct (N.land _ _ =? 0)%N; [apply ev_inv_stall, H2|].
  all: destruct (ffs_prepare_buffer _ _ <? 0); [cbn [fst snd]; auto|].
  all: pose proof (ev_inv_clear_cancelled _
                     (ev_inv_deliver_all f2 (delivered_unlocked env) H2)) as H3;
    destruct (ffs_setup_state_clear_cancelled
                (deliver_all f2 (delivered_unlocked env))) as [old3 f3];
    cbn [snd] in H3.
  all: destruct old3; cbn [fst snd]; auto; apply ev_inv_queue_wait, H3.
Qed.
(** X6.  The transitions a write to ep0 can make, whatever the
    environment does.  Collecting descriptors: the call fails and the state
    stays, or it returns the blob's length, keeps the blob and moves on to
    collecting strings.  Collecting strings: it fails and the state stays,
    or returns the length and the session is active, or the creation of
    the endpoint files or [ffs_ready] fails and the session is closing.
    An active session stays active.  A deactivated or closing session
    refuses the write and stays as it is.  While collecting, and in the
    last two states, no request reaches the controller. *)
Theorem ep0_write_state_machine (env : ep0_env) (f : ffs_data)
    (nonblock : bool) (buf : list byte) :
  let r := ffs_ep0_write env f nonblock buf in
  let ret := fst (fst r) in
  let f' := snd (fst r) in
  match state f with
  | FFS_READ_DESCRIPTORS =>
      snd r = [] /\
      ((ret < 0 /\ state f' = FFS_READ_DESCRIPTORS) \/
       (ret = Z.of_N (blen buf) /\ state f' = FFS_READ_STRINGS /\
        raw_descs_data f' = Some buf))
  | FFS_READ_STRINGS =>
      snd r = [] /\
      ((ret < 0 /\ state f' = FFS_READ_STRINGS) \/
       (ret = Z.of_N (blen buf) /\ state f' = FFS_ACTIVE) \/
       (state f' = FFS_CLOSING /\
        ((ret = ffs_epfiles_create_ret env /\ ret <> 0) \/
         (ret = ffs_ready_ret env /\ ret < 0))))
  | FFS_ACTIVE => state f' = FFS_ACTIVE
  | s => ret < 0 /\ state f' = s /\ snd r = []
  end.
Proof.
  cbv zeta. destruct (state f) eqn:Hs.
  - apply ep0_write_descriptors, Hs.
  - apply ep0_write_strings, Hs.
  - apply ep0_write_active, Hs.
  - rewrite <- Hs. apply ep0_write_not_collecting. auto.
  - rewrite <- Hs. apply ep0_write_not_collecting. auto.
Qed.

(** X7.  A read from ep0 never changes the lifecycle state; on a session
    that is not active it fails, does nothing to the outside and leaves
    the event queue as it is. *)
Theorem ep0_read_keeps_state (env : ep0_env) (f : ffs_data)
    (nonblock : bool) (len : N) :
  state (snd (fst (ffs_ep0_read env f nonblock len))) = state f /\
  (state f <> FFS_ACTIVE ->
   fst (fst (ffs_ep0_read env f nonblock len)) < 0 /\
   snd (ffs_ep0_read env f nonblock len) = [] /\
   ev (snd (fst (ffs_ep0_read env f nonblock len))) = ev f).
Proof.
  split; [apply ep0_read_state|apply ep0_read_not_active].
Qed.

Lemma ep0_read_keeps_state_witness :
  fst (fst (ffs_ep0_read (ep0_env_quiet 0) ffs_data_new false 12)) < 0 /\
  ev (snd (fst (ffs_ep0_read (ep0_env_quiet 0) ffs_data_new false 12)))
  = ev ffs_data_new.
Proof.
  destruct (ep0_read_keeps_state (ep0_env_quiet 0) ffs_data_new false 12)
    as (_ & H).
  destruct H as (H1 & _ & H3); [discriminate|].
  split; [exact H1|exact H3].
Defined.

(** X8.  The invariant of the event queue (four cells, at most one queued
    event of each category, hence at most four) survives every call on
    ep0, whatever the function driver delivers while the call has dropped
    the queue lock or waits. *)
Theorem ep0_calls_keep_queue_invariant (env : ep0_env) (f : ffs_data)
    (nonblock : bool) :
  ev_inv f ->
  (forall len,
      ev_inv (snd (fst (ffs_ep0_read env f nonblock len))) /\
      (count (ev (snd (fst (ffs_ep0_read env f nonblock len)))) <= 4)%nat) /\
  (forall buf,
      ev_inv (snd (fst (ffs_ep0_write env f nonblock buf))) /\
      (count (ev (snd (fst (ffs_ep0_write env f nonblock buf)))) <= 4)%nat).
Proof.
  intros H. split; intros x.
  - pose proof (ev_inv_ep0_read env f nonblock x H) as Hi.
    split; [exact Hi|apply Hi].
  - pose proof (ev_inv_ep0_write env f nonblock x H) as Hi.
    split; [exact Hi|apply Hi].
Qed.

Lemma ep0_calls_keep_queue_invariant_witness :
  (count (ev (snd (fst (ffs_ep0_read
                          (mk_ep0_env true true false true true true
                             (fun fd => fd) true 0 0 [] 0 [] false 0 0
                             (Ev_delivered (Deliver_event FUNCTIONFS_SUSPEND)
                                [Deliver_event FUNCTIONFS_RESUME]))
                          (ffs_active_two_events (mk_ctrlrequest 0x21 9 0 0 8))
                          false 12)))) <= 4)%nat.
Proof.
  destruct (ep0_calls_keep_queue_invariant
              (mk_ep0_env true true false true true true
                 (fun fd => fd) true 0 0 [] 0 [] false 0 0
                 (Ev_delivered (Deliver_event FUNCTIONFS_SUSPEND)
                    [Deliver_event FUNCTIONFS_RESUME]))
              (ffs_active_two_events (mk_ctrlrequest 0x21 9 0 0 8)) false)
    as (H & _).
  - unfold ev_inv. vm_compute. repeat split; lia.
  - apply H.
Defined.

(** ** Polling ep0 *)

Lemma ep0_poll_not_readable env f :
  inst_exist env = true -> ffs_mutex_lock env true = 0 ->
  state f = FFS_ACTIVE ->
  N.land (ffs_ep0_poll env f true) POLLIN = 0%N ->
  setup_state f = FFS_NO_SETUP /\ count (ev f) = 0%nat.
Proof.
  intros Hi Hl Hs. unfold ffs_ep0_poll, ffs_inst_exist_check.
  rewrite Hi, Hl, Hs. cbn [Z.ltb Z.compare].
  destruct (setup_state f); [|cbn; discriminate|cbn; discriminate].
  destruct (N.eqb_spec (blen_events f) 0) as [E|E]; cbn [negb].
  - intros _. unfold blen_events in E. split; [reflexivity|lia].
  - cbn. discriminate.
Qed.

Lemma ep0_poll_not_writable env f :
  inst_exist env = true -> ffs_mutex_lock env true = 0 ->
  state f = FFS_ACTIVE ->
  N.land (ffs_ep0_poll env f true) POLLOUT = 0%N ->
  setup_state f = FFS_NO_SETUP.
Proof.
  intros Hi Hl Hs. unfold ffs_ep0_poll, ffs_inst_exist_check.
  rewrite Hi, Hl, Hs. cbn [Z.ltb Z.compare].
  destruct (setup_state f); [reflexivity|cbn; discriminate|cbn; discriminate].
Qed.

Lemma ep0_poll_readable env f :
  inst_exist env = true -> ffs_mutex_lock env true = 0 ->
  state f = FFS_ACTIVE -> setup_state f = FFS_NO_SETUP ->
  N.land (ffs_ep0_poll env f true) POLLIN <> 0%N ->
  (0 < count (ev f))%nat.
Proof.
  intros Hi Hl Hs Hss. unfold ffs_ep0_poll, ffs_inst_exist_check.
  rewrite Hi, Hl, Hs, Hss. cbn [Z.ltb Z.compare].
  destruct (N.eqb_spec (blen_events f) 0) as [E|E]; cbn [negb].
  - cbn. congruence.
  - intros _. unfold blen_events in E. lia.
Qed.

Lemma ep0_poll_active (env : ep0_env) (f : ffs_data) :
  inst_exist env = true ->
  ffs_mutex_lock env true = 0 ->
  state f = FFS_ACTIVE ->
  let mask := ffs_ep0_poll env f true in
  N.land mask POLLWRNORM <> 0%N /\
  (N.land mask POLLIN = 0%N ->
   forall len, (sizeof_usb_functionfs_event <= len)%N ->
     ffs_ep0_read env f true len = (- EAGAIN, f, [])) /\
  (N.land mask POLLIN <> 0%N ->
   setup_state f = FFS_NO_SETUP ->
   (count (ev f) <= length (types (ev f)))%nat ->
   copy_to_user_ok env = true ->
   forall len, (sizeof_usb_functionfs_event <= len)%N ->
     12 <= fst (fst (ffs_ep0_read env f true len))) /\
  (N.land mask POLLOUT = 0%N ->
   forall buf, ffs_ep0_write env f true buf = (- ESRCH, f, [])).
Proof.
  intros Hi Hl Hs mask. subst mask. repeat split.
  - unfold ffs_ep0_poll, ffs_inst_exist_check.
    rewrite Hi, Hl, Hs. cbn [Z.ltb Z.compare].
    destruct (setup_state f); [destruct (negb _)| |]; cbn; discriminate.
  - intros Hm len Hlen.
    destruct (ep0_poll_not_readable env f Hi Hl Hs Hm) as [Hss Hc].
    unfold ffs_ep0_read, ffs_inst_exist_check, ffs_setup_state_clear_cancelled.
    rewrite Hi. cbn [Z.ltb Z.compare]. rewrite Hss. cbn beta iota.
    rewrite Hl. cbn [Z.ltb Z.compare]. rewrite Hs, Hss. cbn beta iota zeta.
    assert (Hn0 : (len / sizeof_usb_functionfs_event =? 0)%N = false).
    { apply N.eqb_neq. intros E. apply N.div_small_iff in E;
        unfold sizeof_usb_functionfs_event in *; lia. }
    rewrite Hn0. unfold blen_events. rewrite Hc. reflexivity.
  - intros Hm Hss HC Hcopy len Hlen.
    pose proof (ep0_poll_readable env f Hi Hl Hs Hss Hm) as Hq.
    rewrite (ep0_read_no_setup env f true len Hi Hl Hs Hss Hq Hlen).
    assert (Hn : (N.to_nat (N.min (len / sizeof_usb_functionfs_event)
                              (blen_events f)) <= count (ev f))%nat)
      by (unfold blen_events; lia).
    destruct (read_events_result env f _ Hn) as (H1 & _).
    rewrite H1, Hcopy.
    assert (1 <= N.min (len / sizeof_usb_functionfs_event) (blen_events f))%N.
    { assert (len / sizeof_usb_functionfs_event <> 0)%N.
      { intros E. apply N.div_small_iff in E;
          unfold sizeof_usb_functionfs_event in *; lia. }
      unfold blen_events.
      set (d := (len / sizeof_usb_functionfs_event)%N) in *. lia. }
    set (n := N.min (len / sizeof_usb_functionfs_event) (blen_events f)) in *.
    change sizeof_usb_functionfs_event with 12%N. lia.
  - intros Hm buf.
    pose proof (ep0_poll_not_writable env f Hi Hl Hs Hm) as Hss.
    unfold ffs_ep0_write, ffs_inst_exist_check, ffs_setup_state_clear_cancelled.
    rewrite Hi. cbn [Z.ltb Z.compare]. rewrite Hss. cbn beta iota.
    rewrite Hl. cbn [Z.ltb Z.compare]. rewrite Hs, Hss. reflexivity.
Qed.

(** X9.  What the poll mask of ep0 tells a non-blocking caller on an active
    session (instance registered, mutex free): [POLLWRNORM] is always set;
    when [POLLIN] is clear a read of at least one event returns [-EAGAIN]
    and changes nothing; when [POLLIN] is set and no setup is in progress a
    read returns at least one event; when [POLLOUT] is clear a write
    returns [-ESRCH] and changes nothing.  When the instance is gone the
    function returns [-ENODEV] through its [unsigned] mask, which reads as
    readable, writable and in error. *)
Theorem ep0_poll_agrees_with_calls (env : ep0_env) (f : ffs_data) :
  (inst_exist env = false ->
   forall nonblock,
     ffs_ep0_poll env f nonblock = (2 ^ 32 - 19)%N /\
     N.land (ffs_ep0_poll env f nonblock)
       (N.lor POLLIN (N.lor POLLOUT POLLERR))
     = N.lor POLLIN (N.lor POLLOUT POLLERR)) /\
  (inst_exist env = true ->
   ffs_mutex_lock env true = 0 ->
   state f = FFS_ACTIVE ->
   let mask := ffs_ep0_poll env f true in
   N.land mask POLLWRNORM <> 0%N /\
   (N.land mask POLLIN = 0%N ->
    forall len, (sizeof_usb_functionfs_event <= len)%N ->
      ffs_ep0_read env f true len = (- EAGAIN, f, [])) /\
   (N.land mask POLLIN <> 0%N ->
    setup_state f = FFS_NO_SETUP ->
    (count (ev f) <= length (types (ev f)))%nat ->
    copy_to_user_ok env = true ->
    forall len, (sizeof_usb_functionfs_event <= len)%N ->
      12 <= fst (fst (ffs_ep0_read env f true len))) /\
   (N.land mask POLLOUT = 0%N ->
    forall buf, ffs_ep0_write env f true buf = (- ESRCH, f, []))).
Proof.
  split; [|apply ep0_poll_active].
  intros Hi nonblock. unfold ffs_ep0_poll, ffs_inst_exist_check.
  rewrite Hi. split; reflexivity.
Qed.

Lemma ep0_poll_agrees_with_calls_witness :
  ffs_ep0_read (ep0_env_quiet 0) (set_state FFS_ACTIVE ffs_data_new) true 12
  = (- EAGAIN, set_state FFS_ACTIVE ffs_data_new, []) /\
  ffs_ep0_write (ep0_env_quiet 0) (set_state FFS_ACTIVE ffs_data_new) true []
  = (- ESRCH, set_state FFS_ACTIVE ffs_data_new, []).
Proof.
  destruct (ep0_poll_agrees_with_calls (ep0_env_quiet 0)
              (set_state FFS_ACTIVE ffs_data_new)) as (_ & H).
  destruct H as (_ & Hin & _ & Hout); [reflexivity|reflexivity|reflexivity|].
  split.
  - apply Hin; [reflexivity|]. vm_compute. discriminate.
  - apply Hout. reflexivity.
Defined.

(** ** Reverse maps of the function *)

Lemma revmap_intf_loop_spec nums count i intf :
  (revmap_intf_loop nums count i intf = - EDOM /\
   forall j, (i <= j < i + count)%nat -> nth j nums (-1) <> Z.of_N intf) \/
  (exists k,
      revmap_intf_loop nums count i intf = Z.of_nat k /\
      (i <= k < i + count)%nat /\
      nth k nums (-1) = Z.of_N intf /\
      forall j, (i <= j < k)%nat -> nth j nums (-1) <> Z.of_N intf).
Proof.
  revert i. induction count as [|count IH]; intros i; cbn [revmap_intf_loop].
  - left. split; [reflexivity|]. intros j Hj. lia.
  - destruct (Z.leb_spec 0 (nth i nums (-1))) as [Hn|Hn]; cbn [andb].
    + destruct (Z.eqb_spec (nth i nums (-1)) (Z.of_N intf)) as [E|E].
      * right. exists i. split; [reflexivity|]. split; [lia|].
        split; [exact E|]. intros; lia.
      * destruct (IH (S i)) as [[Hr Hall]|(k & Hr & Hk & Hv & Hall)].
        -- left. split; [exact Hr|]. intros j Hj.
           destruct (Nat.eq_dec j i) as [->|Hji]; [exact E|apply Hall; lia].
        -- right. exists k. split; [exact Hr|]. split; [lia|].
           split; [exact Hv|]. intros j Hj.
           destruct (Nat.eq_dec j i) as [->|Hji]; [exact E|apply Hall; lia].
    + assert (E : nth i nums (-1) <> Z.of_N intf) by lia.
      destruct (IH (S i)) as [[Hr Hall]|(k & Hr & Hk & Hv & Hall)].
      * left. split; [exact Hr|]. intros j Hj.
        destruct (Nat.eq_dec j i) as [->|Hji]; [exact E|apply Hall; lia].
      * right. exists k. split; [exact Hr|]. split; [lia|].
        split; [exact Hv|]. intros j Hj.
        destruct (Nat.eq_dec j i) as [->|Hji]; [exact E|apply Hall; lia].
Qed.

Lemma revmap_intf_spec (func : ffs_function) (ffs : ffs_data) (intf : N) :
  let r := ffs_func_revmap_intf func ffs intf in
  let count := N.to_nat (interfaces_count ffs) in
  (r = - EDOM /\
   forall j, (j < count)%nat ->
     nth j (interfaces_nums func) (-1) <> Z.of_N intf) \/
  (exists k,
      r = Z.of_nat k /\ (k < count)%nat /\
      nth k (interfaces_nums func) (-1) = Z.of_N intf /\
      forall j, (j < k)%nat ->
        nth j (interfaces_nums func) (-1) <> Z.of_N intf).
Proof.
  cbv zeta. unfold ffs_func_revmap_intf.
  destruct (revmap_intf_loop_spec (interfaces_nums func)
              (N.to_nat (interfaces_count ffs)) 0 intf)
    as [[Hr Hall]|(k & Hr & Hk & Hv & Hall)].
  - left. split; [exact Hr|]. intros j Hj. apply Hall. lia.
  - right. exists k. split; [exact Hr|]. split; [lia|].
    split; [exact Hv|]. intros j Hj. apply Hall. lia.
Qed.

(** X10.  [ffs_func_revmap_intf] is a first-match search of the
    [interfaces_count] cells of [interfaces_nums]: it returns the lowest
    index whose cell holds the number asked for, and [-EDOM] exactly when
    no cell does (an unassigned cell, [-1], never matches).  Round trip:
    the number stored in cell [k] maps back to [k] when no lower cell
    holds the same number. *)
Theorem revmap_intf_first_match (func : ffs_function) (ffs : ffs_data) :
  (forall intf,
      (ffs_func_revmap_intf func ffs intf = - EDOM /\
       forall j, (j < N.to_nat (interfaces_count ffs))%nat ->
         nth j (interfaces_nums func) (-1) <> Z.of_N intf) \/
      (exists k,
          ffs_func_revmap_intf func ffs intf = Z.of_nat k /\
          (k < N.to_nat (interfaces_count ffs))%nat /\
          nth k (interfaces_nums func) (-1) = Z.of_N intf /\
          forall j, (j < k)%nat ->
            nth j (interfaces_nums func) (-1) <> Z.of_N intf)) /\
  (forall k,
      (k < N.to_nat (interfaces_count ffs))%nat ->
      0 <= nth k (interfaces_nums func) (-1) ->
      (forall j, (j < k)%nat ->
         nth j (interfaces_nums func) (-1)
         <> nth k (interfaces_nums func) (-1)) ->
      ffs_func_revmap_intf func ffs
        (Z.to_N (nth k (interfaces_nums func) (-1)))
      = Z.of_nat k).
Proof.
  split; [intros intf; apply revmap_intf_spec|].
  intros k Hk Hv Hfirst.
  destruct (revmap_intf_spec func ffs
              (Z.to_N (nth k (interfaces_nums func) (-1))))
    as [[_ Hall]|(k' & Hr & Hk' & Hv' & Hall)].
  - exfalso. apply (Hall k Hk). rewrite Z2N.id; auto.
  - rewrite Hr. f_equal. rewrite Z2N.id in * by assumption.
    destruct (Nat.lt_trichotomy k k') as [H|[H|H]]; [|exact (eq_sym H)|].
    + exfalso. apply (Hall k H). reflexivity.
    + exfalso. apply (Hfirst k' H). exact Hv'.
Qed.

Lemma revmap_intf_first_match_witness :
  ffs_func_revmap_intf function_two_interfaces ffs_active_two_interfaces 3
  = 1.
Proof.
  destruct (revmap_intf_first_match function_two_interfaces
              ffs_active_two_interfaces) as (_ & H).
  apply (H 1%nat).
  - vm_compute. lia.
  - vm_compute. discriminate.
  - intros j Hj. assert (j = 0%nat) as -> by lia. vm_compute. discriminate.
Defined.

(** ** Setup packets *)

Lemma func_setup_not_active func ffs creq :
  state ffs <> FFS_ACTIVE -> ffs_func_setup func ffs creq = (- ENODEV, ffs).
Proof. unfold ffs_func_setup. destruct (state ffs); congruence. Qed.

(** The index [ffs_func_setup] stores in [wIndex], when it accepts. *)
Lemma func_setup_accepted func ffs creq :
  0 <= fst (ffs_func_setup func ffs creq) ->
  state ffs = FFS_ACTIVE /\
  exists idx,
    0 <= idx /\
    ffs_func_setup func ffs creq
    = (if (wLength creq =? 0)%N then USB_GADGET_DELAYED_STATUS else 0,
       __ffs_event_add (set_ev_setup (with_wIndex creq idx) ffs)
         FUNCTIONFS_SETUP) /\
    (N.land (bRequestType creq) USB_RECIP_MASK = USB_RECIP_INTERFACE ->
     idx = ffs_func_revmap_intf func ffs (to_u8 (wIndex creq))) /\
    (N.land (bRequestType creq) USB_RECIP_MASK = USB_RECIP_ENDPOINT ->
     0 < ffs_func_revmap_ep func (to_u8 (wIndex creq)) /\
     idx = if (N.land (user_flags ffs) FUNCTIONFS_VIRTUAL_ADDR =? 0)%N
           then ffs_func_revmap_ep func (to_u8 (wIndex creq))
           else Z.of_N (array_get (eps_addrmap ffs)
                          (Z.to_nat (ffs_func_revmap_ep func
                                       (to_u8 (wIndex creq)))))) /\
    (N.land (bRequestType creq) USB_RECIP_MASK = USB_RECIP_INTERFACE \/
     N.land (bRequestType creq) USB_RECIP_MASK = USB_RECIP_ENDPOINT).
Proof.
  unfold ffs_func_setup.
  destruct (state ffs); try (cbn [fst]; unfold ENODEV; lia).
  set (ret := if (_ =? USB_RECIP_INTERFACE)%N then _ else _).
  destruct (ret <? 0) eqn:Er; [apply Z.ltb_lt in Er; cbn [fst]; lia|].
  apply Z.ltb_ge in Er. intros _. split; [reflexivity|].
  exists ret. split; [exact Er|]. split; [reflexivity|].
  unfold ret in *. clear ret.
  destruct (N.eqb_spec (N.land (bRequestType creq) USB_RECIP_MASK)
              USB_RECIP_INTERFACE) as [Ei|Ei].
  - split; [reflexivity|]. split; [|left; exact Ei].
    intros E. rewrite Ei in E. discriminate.
  - destruct (N.eqb_spec (N.land (bRequestType creq) USB_RECIP_MASK)
                USB_RECIP_ENDPOINT) as [Ee|Ee].
    + split; [contradiction|]. split; [|right; exact Ee]. intros _.
      unfold ffs_func_revmap_ep in *.
      destruct (N.eqb_spec
                  (array_get (eps_revmap func)
                     (N.to_nat (N.land (to_u8 (wIndex creq))
                                  USB_ENDPOINT_NUMBER_MASK))) 0) as [E0|E0];
        cbn [negb] in *.
      * cbn in Er. lia.
      * destruct (Z.of_N _ <? 0) eqn:E1; [apply Z.ltb_lt in E1; lia|].
        split; [lia|].
        destruct (N.land (user_flags ffs) FUNCTIONFS_VIRTUAL_ADDR =? 0)%N;
          reflexivity.
    + unfold EOPNOTSUPP in Er. lia.
Qed.

Lemma func_setup_rejected func ffs creq :
  fst (ffs_func_setup func ffs creq) < 0 ->
  snd (ffs_func_setup func ffs creq) = ffs.
Proof.
  unfold ffs_func_setup.
  destruct (state ffs); try reflexivity.
  set (ret := if (_ =? USB_RECIP_INTERFACE)%N then _ else _).
  destruct (ret <? 0); [reflexivity|].
  destruct (wLength creq =? 0)%N; cbn [fst]; unfold USB_GADGET_DELAYED_STATUS;
    intros H; exfalso; lia.
Qed.

(** X11.  What [ffs_func_setup] does with a setup packet.  A session that
    is not active refuses it with [-ENODEV]; a request whose recipient is
    neither an interface nor an endpoint, or whose interface or endpoint
    number is not one of the function's, is refused too; a refused packet
    changes nothing.  An accepted packet is cached with [wIndex] replaced
    by the function's own index (for an interface: the first cell of
    [interfaces_nums] that holds the low byte of [wIndex]), it replaces a
    setup event still queued and is queued last, a setup already handed to
    the reader is cancelled, and the return value asks for a delayed status
    stage exactly when [wLength] is zero. *)
Theorem func_setup_queues_packet (func : ffs_function) (ffs : ffs_data)
    (creq : usb_ctrlrequest) :
  ev_inv ffs ->
  let r := ffs_func_setup func ffs creq in
  (state ffs <> FFS_ACTIVE -> r = (- ENODEV, ffs)) /\
  (N.land (bRequestType creq) USB_RECIP_MASK <> USB_RECIP_INTERFACE ->
   N.land (bRequestType creq) USB_RECIP_MASK <> USB_RECIP_ENDPOINT ->
   fst r < 0) /\
  (fst r < 0 -> snd r = ffs) /\
  (0 <= fst r ->
   fst r = (if (wLength creq =? 0)%N then USB_GADGET_DELAYED_STATUS else 0) /\
   state (snd r) = FFS_ACTIVE /\
   ev_inv (snd r) /\
   ev_queue (snd r)
   = filter (fun e => negb (is_setup e)) (ev_queue ffs) ++ [FUNCTIONFS_SETUP] /\
   setup_state (snd r)
   = match setup_state ffs with
     | FFS_SETUP_PENDING => FFS_SETUP_CANCELLED
     | s => s
     end /\
   bRequestType (setup (ev (snd r))) = bRequestType creq /\
   bRequest (setup (ev (snd r))) = bRequest creq /\
   wValue (setup (ev (snd r))) = wValue creq /\
   wLength (setup (ev (snd r))) = wLength creq /\
   (N.land (bRequestType creq) USB_RECIP_MASK = USB_RECIP_INTERFACE ->
    exists k,
      (k < N.to_nat (interfaces_count ffs))%nat /\
      nth k (interfaces_nums func) (-1) = Z.of_N (to_u8 (wIndex creq)) /\
      wIndex (setup (ev (snd r))) = (N.of_nat k mod 2 ^ 16)%N) /\
   (N.land (bRequestType creq) USB_RECIP_MASK = USB_RECIP_ENDPOINT ->
    let n := array_get (eps_revmap func)
               (N.to_nat (N.land (to_u8 (wIndex creq))
                            USB_ENDPOINT_NUMBER_MASK)) in
    n <> 0%N /\
    wIndex (setup (ev (snd r)))
    = ((if (N.land (user_flags ffs) FUNCTIONFS_VIRTUAL_ADDR =? 0)%N
        then n else array_get (eps_addrmap ffs) (N.to_nat n)) mod 2 ^ 16)%N)).
Proof.
  intros Hinv r. subst r. split; [apply func_setup_not_active|].
  split.
  { intros Hi He.
    destruct (Z.lt_ge_cases (fst (ffs_func_setup func ffs creq)) 0) as [H|H];
      [exact H|].
    apply func_setup_accepted in H.
    destruct H as (_ & idx & _ & _ & _ & _ & [H|H]); contradiction. }
  split; [apply func_setup_rejected|].
  intros Hacc.
  destruct (func_setup_accepted func ffs creq Hacc)
    as (Hs & idx & Hidx & Heq & Hintf & Hep & _).
  rewrite Heq. cbn [fst snd].
  pose proof (ev_inv_set_ev_setup ffs (with_wIndex creq idx) Hinv) as Hinv1.
  destruct (ev_inv_event_add _ FUNCTIONFS_SETUP Hinv1) as [Hinv2 Hq].
  split; [reflexivity|].
  split; [rewrite event_add_state; exact Hs|].
  split; [exact Hinv2|].
  split; [exact Hq|].
  split; [rewrite event_add_setup_state; reflexivity|].
  assert (Hsetup : setup (ev (__ffs_event_add
                               (set_ev_setup (with_wIndex creq idx) ffs)
                               FUNCTIONFS_SETUP))
                   = with_wIndex creq idx).
  { unfold __ffs_event_add. cbn [event_rem_types].
    destruct (event_purge _ _ _ _ _) as [a out].
    destruct (setup_state (set_ev_setup (with_wIndex creq idx) ffs));
      reflexivity. }
  rewrite Hsetup. cbn [with_wIndex bRequestType bRequest wValue wLength wIndex].
  repeat (split; [reflexivity|]).
  split.
  - intros Hi. specialize (Hintf Hi).
    destruct (revmap_intf_spec func ffs (to_u8 (wIndex creq)))
      as [[Hr _]|(k & Hr & Hk & Hv & _)].
    + rewrite Hr in Hintf. unfold EDOM in Hintf. lia.
    + exists k. split; [exact Hk|]. split; [exact Hv|].
      rewrite Hintf, Hr. f_equal. lia.
  - intros He. destruct (Hep He) as [Hpos Hidx']. cbv zeta.
    unfold ffs_func_revmap_ep in *.
    destruct (N.eqb_spec
                (array_get (eps_revmap func)
                   (N.to_nat (N.land (to_u8 (wIndex creq))
                                USB_ENDPOINT_NUMBER_MASK))) 0) as [E0|E0];
      cbn [negb] in *; [unfold EDOM in Hpos; lia|].
    split; [exact E0|]. rewrite Hidx'.
    destruct (N.land (user_flags ffs) FUNCTIONFS_VIRTUAL_ADDR =? 0)%N.
    + rewrite N2Z.id. reflexivity.
    + rewrite N2Z.id. f_equal. f_equal. lia.
Qed.

Lemma func_setup_queues_packet_witness :
  ffs_func_setup function_two_interfaces ffs_active_two_interfaces
    (mk_ctrlrequest 0x21 9 0 3 8)
  = (0, deliver ffs_active_two_interfaces
          (Deliver_setup (mk_ctrlrequest 0x21 9 0 1 8))) /\
  ev_queue (snd (ffs_func_setup function_two_interfaces
                   ffs_active_two_interfaces (mk_ctrlrequest 0x21 9 0 3 8)))
  = [FUNCTIONFS_SETUP].
Proof.
  destruct (func_setup_queues_packet function_two_interfaces
              ffs_active_two_interfaces (mk_ctrlrequest 0x21 9 0 3 8))
    as (_ & _ & _ & H).
  - unfold ev_inv. vm_compute. repeat split; lia.
  - destruct H as (_ & _ & _ & Hq & _).
    + vm_compute. discriminate.
    + split; [reflexivity|exact Hq].
Defined.

Lemma events_of_no_setup f q :
  events_of f (filter (fun e => negb (is_setup e)) q)
  = map (fun t => (t, None)) (filter (fun e => negb (is_setup e)) q).
Proof.
  unfold events_of. induction q as [|t q IH]; [reflexivity|].
  cbn [filter]. destruct t; cbn [is_setup event_type_eqb negb map];
    rewrite ?IH; reflexivity.
Qed.

(** X12.  The relay of a setup packet, end to end: once [ffs_func_setup]
    has accepted a packet on a session with no setup in progress, a read
    from ep0 with room for four events returns every queued event, the
    setup event last and together with the cached packet (its [wIndex]
    rewritten), empties the queue and leaves the setup pending, which is
    what the data stage on ep0 then requires. *)
Theorem setup_packet_reaches_reader (func : ffs_function) (ffs : ffs_data)
    (creq : usb_ctrlrequest) (env : ep0_env) (nonblock : bool) (len : N) :
  ev_inv ffs ->
  setup_state ffs = FFS_NO_SETUP ->
  0 <= fst (ffs_func_setup func ffs creq) ->
  inst_exist env = true ->
  ffs_mutex_lock env nonblock = 0 ->
  copy_to_user_ok env = true ->
  (4 * sizeof_usb_functionfs_event <= len)%N ->
  let ffs1 := snd (ffs_func_setup func ffs creq) in
  let r := ffs_ep0_read env ffs1 nonblock len in
  fst (fst r) = Z.of_N (blen_events ffs1 * sizeof_usb_functionfs_event) /\
  snd r
  = [Copy_events
       (map (fun t => (t, None))
          (filter (fun e => negb (is_setup e)) (ev_queue ffs))
        ++ [(FUNCTIONFS_SETUP, Some (setup (ev ffs1)))])] /\
  ev_queue (snd (fst r)) = [] /\
  state (snd (fst r)) = FFS_ACTIVE /\
  setup_state (snd (fst r)) = FFS_SETUP_PENDING.
Proof.
  intros Hinv Hss Hacc Hi Hl Hcopy Hlen ffs1 r.
  destruct (func_setup_accepted func ffs creq Hacc)
    as (Hs & idx & Hidx & Heq & _).
  assert (Hffs1 : ffs1 = __ffs_event_add
                           (set_ev_setup (with_wIndex creq idx) ffs)
                           FUNCTIONFS_SETUP)
    by (unfold ffs1; rewrite Heq; reflexivity).
  pose proof (ev_inv_set_ev_setup ffs (with_wIndex creq idx) Hinv) as Hinv0.
  destruct (ev_inv_event_add _ FUNCTIONFS_SETUP Hinv0) as [Hinv1 Hq].
  rewrite <- Hffs1 in Hinv1, Hq.
  change (ev_queue (set_ev_setup (with_wIndex creq idx) ffs))
    with (ev_queue ffs) in Hq.
  change (fun e => negb (superseded_by FUNCTIONFS_SETUP e))
    with (fun e => negb (is_setup e)) in Hq.
  assert (Hs1 : state ffs1 = FFS_ACTIVE)
    by (rewrite Hffs1, event_add_state; exact Hs).
  assert (Hss1 : setup_state ffs1 = FFS_NO_SETUP)
    by (rewrite Hffs1, event_add_setup_state; cbn; rewrite Hss; reflexivity).
  destruct Hinv1 as (HL & HC & _).
  assert (Hlenq : length (ev_queue ffs1) = count (ev ffs1)).
  { unfold ev_queue. rewrite length_firstn. lia. }
  assert (Hpos : (0 < count (ev ffs1))%nat).
  { rewrite <- Hlenq, Hq, length_app. cbn [length]. lia. }
  assert (Hlen1 : (sizeof_usb_functionfs_event <= len)%N)
    by (unfold sizeof_usb_functionfs_event in *; lia).
  assert (Hn : N.min (len / sizeof_usb_functionfs_event) (blen_events ffs1)
               = blen_events ffs1).
  { apply N.min_r. unfold blen_events.
    assert (4 <= len / sizeof_usb_functionfs_event)%N.
    { apply N.div_le_lower_bound; unfold sizeof_usb_functionfs_event in *; lia. }
    lia. }
  subst r.
  rewrite (ep0_read_no_setup env ffs1 nonblock len Hi Hl Hs1 Hss1 Hpos Hlen1).
  rewrite Hn.
  assert (Hnn : (N.to_nat (blen_events ffs1) <= count (ev ffs1))%nat)
    by (unfold blen_events; lia).
  destruct (read_events_result env ffs1 _ Hnn) as (H1 & H2 & H3 & H4).
  pose proof (read_events_queue env ffs1 (blen_events ffs1)) as H5.
  assert (Hall : firstn (N.to_nat (blen_events ffs1)) (ev_queue ffs1)
                 = ev_queue ffs1).
  { apply firstn_all2. unfold blen_events. lia. }
  rewrite Hall in H2, H4. rewrite Hcopy in H1, H2.
  split; [exact H1|]. split.
  { rewrite H2, Hq. unfold events_of at 1. rewrite map_app.
    fold (events_of ffs1 (filter (fun e => negb (is_setup e)) (ev_queue ffs))).
    rewrite events_of_no_setup. reflexivity. }
  split.
  { rewrite H5 by lia. apply skipn_all2. unfold blen_events. lia. }
  split; [rewrite H3; exact Hs1|].
  rewrite H4, Hq, existsb_app. cbn. rewrite orb_true_r. reflexivity.
Qed.

Lemma setup_packet_reaches_reader_witness :
  fst (fst (ffs_ep0_read (ep0_env_quiet 0)
              (snd (ffs_func_setup function_two_interfaces
                      ffs_active_two_interfaces (mk_ctrlrequest 0x21 9 0 3 8)))
              false 48))
  = 12 /\
  snd (ffs_ep0_read (ep0_env_quiet 0)
         (snd (ffs_func_setup function_two_interfaces
                 ffs_active_two_interfaces (mk_ctrlrequest 0x21 9 0 3 8)))
         false 48)
  = [Copy_events [(FUNCTIONFS_SETUP, Some (mk_ctrlrequest 0x21 9 0 1 8))]].
Proof.
  destruct (setup_packet_reaches_reader function_two_interfaces
              ffs_active_two_interfaces (mk_ctrlrequest 0x21 9 0 3 8)
              (ep0_env_quiet 0) false 48) as (H1 & H2 & _).
  - unfold ev_inv. vm_compute. repeat split; lia.
  - reflexivity.
  - vm_compute. discriminate.
  - reflexivity.
  - reflexivity.
  - reflexivity.
  - vm_compute. discriminate.
  - split; [exact H1|exact H2].
Defined.

(** ** Sessions, their files and their endpoints *)

Module SessionFacts.
Import Epfile Session.

Lemma array_set_nth_error {A : Type} (l : list A) (i j : nat) (v : A) :
  nth_error (array_set l i v) j
  = if Nat.eqb j i then (if Nat.ltb i (length l) then Some v else None)
    else nth_error l j.
Proof.
  revert i j. induction l as [|x l IH]; intros i j.
  - cbn. destruct (Nat.eqb j i), j; reflexivity.
  - destruct i as [|i], j as [|j]; cbn [array_set nth_error Nat.eqb];
      try reflexivity.
    rewrite IH. cbn [length].
    change (S i <? S (length l))%nat with (i <? length l)%nat. reflexivity.
Qed.

Lemma pre_decrement_S k :
  (N.of_nat (S k) < 2 ^ 32)%N -> pre_decrement (N.of_nat (S k)) = N.of_nat k.
Proof.
  intros H. unfold pre_decrement.
  replace (N.of_nat (S k) + (2 ^ 32 - 1))%N
    with (N.of_nat k + 1 * 2 ^ 32)%N by lia.
  rewrite N.Div0.mod_add. apply N.mod_small. lia.
Qed.

Lemma eps_disable_loop_spec fuel eps l k i acts :
  length l = length eps ->
  (i + S k = length eps)%nat ->
  (k < fuel)%nat ->
  (N.of_nat (S k) < 2 ^ 32)%N ->
  exists l',
    eps_disable_loop fuel eps (Some l) (N.of_nat (S k)) i acts
    = Some (Some l', acts ++ disable_calls (skipn i eps)) /\
    length l' = length l /\
    forall j, nth_error l' j
              = if (i <=? j)%nat then option_map disabled_node (nth_error l j)
                else nth_error l j.
Proof.
  revert l k i acts.
  induction fuel as [|fuel IH]; intros l k i acts Hlen Hi Hfuel Hk; [lia|].
  cbn [eps_disable_loop].
  destruct (nth_error eps i) as [ep0|] eqn:Eep.
  2:{ apply nth_error_None in Eep. lia. }
  destruct (nth_error l i) as [n|] eqn:En.
  2:{ apply nth_error_None in En. lia. }
  rewrite pre_decrement_S by assumption.
  assert (Hskip : skipn i eps = ep0 :: skipn (S i) eps).
  { clear - Eep. revert i Eep. induction eps as [|e eps IH]; intros [|i] E;
      try discriminate.
    - cbn in E. inversion E. reflexivity.
    - cbn in E. cbn [skipn]. rewrite (IH i E). reflexivity. }
  set (acts1 := match usb_ep ep0 with
                | Some e => acts ++ [Usb_ep_disable e]
                | None => acts
                end).
  assert (Hacts : acts1 ++ disable_calls (skipn (S i) eps)
                  = acts ++ disable_calls (skipn i eps)).
  { rewrite Hskip. unfold acts1, disable_calls. cbn [flat_map].
    destruct (usb_ep ep0); [rewrite <- app_assoc|]; reflexivity. }
  set (l1 := array_set l i _).
  assert (Hl1 : forall j, nth_error l1 j
                          = if Nat.eqb j i then Some (disabled_node n)
                            else nth_error l j).
  { intros j. unfold l1. rewrite array_set_nth_error.
    destruct (Nat.ltb_spec i (length l)) as [_|H]; [reflexivity|lia]. }
  assert (Hlen1 : length l1 = length l) by apply array_set_length.
  destruct k as [|k].
  - cbn [N.of_nat N.eqb]. exists l1. split; [|split; [exact Hlen1|]].
    + f_equal. f_equal. rewrite <- Hacts.
      assert (skipn (S i) eps = []) as -> by (apply skipn_all2; lia).
      cbn. now rewrite app_nil_r.
    + intros j. rewrite Hl1.
      destruct (Nat.eqb_spec j i) as [->|Hji].
      * rewrite Nat.leb_refl, En. reflexivity.
      * destruct (Nat.leb_spec i j) as [Hle|Hle]; [|reflexivity].
        assert (nth_error l j = None) as -> by (apply nth_error_None; lia).
        reflexivity.
  - destruct (N.eqb_spec (N.of_nat (S k)) 0) as [E|_]; [lia|].
    destruct (IH l1 k (S i) acts1) as (l' & Heq & Hlen' & Hnth);
      try lia.
    exists l'. split; [rewrite Heq, Hacts; reflexivity|].
    split; [lia|]. intros j. rewrite Hnth, !Hl1.
    destruct (Nat.eqb_spec j i) as [->|Hji].
    + destruct (Nat.leb_spec (S i) i); [lia|].
      rewrite Nat.leb_refl, En. reflexivity.
    + destruct (Nat.leb_spec (S i) j), (Nat.leb_spec i j); try lia;
        reflexivity.
Qed.

Lemma eps_disable_spec func s l :
  epfiles s = Some l ->
  length l = length (eps func) ->
  eps_count (data s) = N.of_nat (length (eps func)) ->
  (1 <= eps_count (data s) < 2 ^ 32)%N ->
  ffs_func_eps_disable func s
  = Some (set_epfiles (Some (map disabled_node l)) s,
          disable_calls (eps func)).
Proof.
  intros He Hlen Hc Hrange. unfold ffs_func_eps_disable.
  rewrite He, Hc.
  destruct (length (eps func)) as [|k] eqn:Ek; [lia|].
  destruct (eps_disable_loop_spec (S (S k)) (eps func) l k 0 [])
    as (l' & Heq & Hlen' & Hnth); try lia.
  rewrite Heq. cbn [skipn app].
  f_equal. f_equal. f_equal. f_equal.
  apply nth_error_ext. intros j. rewrite Hnth. cbn [Nat.leb].
  rewrite nth_error_map. reflexivity.
Qed.

Lemma pre_decrement_rounds count :
  (count < 2 ^ 32)%N ->
  (pre_decrement count < 2 ^ 32)%N /\
  (pre_decrement count <> 0%N ->
   strings_rounds count = (strings_rounds (pre_decrement count) + 1)%N).
Proof.
  intros H. unfold pre_decrement, strings_rounds.
  split; [apply N.mod_lt; lia|].
  destruct (N.eqb_spec count 0) as [->|Hn].
  - cbn. intros _. reflexivity.
  - replace (count + (2 ^ 32 - 1))%N with ((count - 1) + 1 * 2 ^ 32)%N by lia.
    rewrite N.Div0.mod_add, N.mod_small by lia.
    intros H0. destruct (N.eqb_spec (count - 1) 0); lia.
Qed.

(** The loop leaves [func->eps] when [count] asks for more rounds than the
    array has cells left: with [count = 0] above all. *)
Lemma eps_disable_loop_overrun fuel eps epfiles count i acts :
  (count < 2 ^ 32)%N ->
  (N.of_nat (length eps - i) < strings_rounds count)%N ->
  eps_disable_loop fuel eps epfiles count i acts = None.
Proof.
  revert epfiles count i acts.
  induction fuel as [|fuel IH]; intros epfiles count i acts Hc Hr;
    [reflexivity|].
  cbn [eps_disable_loop].
  destruct (nth_error eps i) as [ep0|] eqn:Eep; [|reflexivity].
  assert (Hi : (i < length eps)%nat)
    by (apply nth_error_Some; congruence).
  destruct (pre_decrement_rounds count Hc) as [Hlt Hrounds].
  assert (Hnz : pre_decrement count <> 0%N).
  { intros E. unfold pre_decrement in E.
    destruct (N.eq_dec count 0) as [->|Hn]; [cbn in E; lia|].
    replace (count + (2 ^ 32 - 1))%N with ((count - 1) + 1 * 2 ^ 32)%N in E
      by lia.
    rewrite N.Div0.mod_add, N.mod_small in E by lia.
    unfold strings_rounds in Hr.
    destruct (N.eqb_spec count 0); lia. }
  specialize (Hrounds Hnz).
  destruct epfiles as [l|].
  - destruct (nth_error l i); [|reflexivity].
    destruct (N.eqb_spec (pre_decrement count) 0); [contradiction|].
    apply IH; [exact Hlt|lia].
  - destruct (N.eqb_spec (pre_decrement count) 0); [contradiction|].
    apply IH; [exact Hlt|lia].
Qed.

Lemma io_error_flag_set envs st call :
  error (epfile st) = true ->
  ffs_epfile_io true envs st call
  = (match envs with
     | [] => Io_blocked
     | _ => Io_return (- ENODEV)
     end, st, []).
Proof.
  intros He. unfold ffs_epfile_io. cbn [negb].
  destruct envs as [|env envs]; [reflexivity|].
  cbn [ffs_epfile_io_retry]. unfold ffs_epfile_io_pass. rewrite He.
  reflexivity.
Qed.

(** X13.  [ffs_func_eps_disable] on a session whose [eps_count] (at least
    one) is the number of cells of [func->eps] and of the array of
    endpoint files: the loop stays in the arrays, disables every endpoint
    the controller has assigned, in order, and leaves every endpoint file
    with its error flag set and no handle, its direction, type and open
    flag untouched; from then on every I/O call on such a file fails with
    [-ENODEV] at once, whatever it asks for.  With [eps_count = 0] the
    [do ... while (--count)] loop runs off the array. *)
Theorem eps_disable_kills_every_file (func0 : ffs_function) (s : ffs_session)
    (l : list epfile_node) :
  epfiles s = Some l ->
  length l = length (eps func0) ->
  (N.of_nat (length (eps func0)) < 2 ^ 32)%N ->
  (eps_count (data s) = 0%N -> ffs_func_eps_disable func0 s = None) /\
  (eps_count (data s) = N.of_nat (length (eps func0)) ->
   (1 <= eps_count (data s))%N ->
   ffs_func_eps_disable func0 s
   = Some (set_epfiles (Some (map disabled_node l)) s,
           disable_calls (eps func0)) /\
   forall i n env envs call first_read_done is_busy,
     nth_error (map disabled_node l) i = Some n ->
     ffs_epfile_io true (env :: envs) (io_state_of n first_read_done is_busy)
       call
     = (Io_return (- ENODEV), io_state_of n first_read_done is_busy, [])).
Proof.
  intros He Hlen Hbound. split.
  - intros H0. unfold ffs_func_eps_disable. rewrite H0.
    rewrite eps_disable_loop_overrun; [reflexivity|lia|].
    unfold strings_rounds. cbn [N.eqb]. lia.
  - intros Hc H1. split.
    + apply eps_disable_spec; try assumption.
      split; [exact H1|]. rewrite Hc. exact Hbound.
    + intros i n env envs call frd busy Hn.
      rewrite nth_error_map in Hn.
      destruct (nth_error l i) as [n0|]; [|discriminate].
      inversion Hn; subst n.
      apply (io_error_flag_set (env :: envs)). reflexivity.
Qed.

Lemma eps_enable_loop_success fuel env eps l k i acts l'opt acts' :
  length l = length eps ->
  (i + S k = length eps)%nat ->
  (N.of_nat (S k) < 2 ^ 32)%N ->
  eps_enable_loop fuel env eps (Some l) (N.of_nat (S k)) i acts
  = Some (0, l'opt, acts') ->
  exists l',
    l'opt = Some l' /\ length l' = length l /\
    forall j n',
      nth_error l' j = Some n' ->
      exists n,
        nth_error l j = Some n /\
        error (file n') = error (file n) /\
        node_opened n' = node_opened n /\
        ((i <= j)%nat -> ep (file n') = Some (N.of_nat j)) /\
        ((j < i)%nat -> n' = n).
Proof.
  revert l k i acts.
  induction fuel as [|fuel IH]; intros l k i acts Hlen Hi Hk H;
    [discriminate|].
  cbn [eps_enable_loop] in H.
  destruct (nth_error eps i) as [ep0|]; [|discriminate].
  destruct (pick_desc (descs ep0) (speed_idx env)) as [ds|].
  2:{ assert (Hret : - EINVAL = 0) by congruence.
      unfold EINVAL in Hret. lia. }
  destruct (usb_ep ep0) as [e|]; [|discriminate].
  destruct (Z.eqb_spec (config_ep_by_speed env e) 0) as [Ec|Ec];
    cbn [negb] in H.
  2:{ assert (Hret : config_ep_by_speed env e = 0) by congruence.
      contradiction. }
  destruct (Z.eqb_spec (usb_ep_enable env e) 0) as [Ee|Ee];
    cbn [negb] in H.
  2:{ assert (Hret : usb_ep_enable env e = 0) by congruence.
      contradiction. }
  destruct (nth_error l i) as [n|] eqn:En; [|discriminate].
  rewrite pre_decrement_S in H by assumption.
  set (l1 := array_set l i _) in H.
  assert (Hl1 : forall j, nth_error l1 j
                          = if Nat.eqb j i
                            then Some (mk_node
                                         (mk_epfile (error (file n))
                                            (Some (N.of_nat i))
                                            (usb_endpoint_dir_in ds)
                                            (usb_endpoint_xfer_isoc ds))
                                         (node_opened n))
                            else nth_error l j).
  { intros j. unfold l1. rewrite array_set_nth_error.
    assert (i < length l)%nat by (apply nth_error_Some; congruence).
    destruct (Nat.ltb_spec i (length l)) as [_|Hx]; [reflexivity|lia]. }
  assert (Hlen1 : length l1 = length l) by apply array_set_length.
  destruct k as [|k].
  - cbn [N.of_nat N.eqb] in H. inversion H; subst l'opt acts'.
    exists l1. split; [reflexivity|]. split; [exact Hlen1|].
    intros j n' Hj. rewrite Hl1 in Hj.
    destruct (Nat.eqb_spec j i) as [->|Hji].
    + inversion Hj; subst n'. exists n. cbn. repeat split; auto; lia.
    + exists n'. repeat split; auto.
      intros Hle. exfalso.
      assert (j < length l)%nat by (apply nth_error_Some; congruence). lia.
  - destruct (N.eqb_spec (N.of_nat (S k)) 0) as [E|_]; [lia|].
    apply IH in H; try lia.
    destruct H as (l' & -> & Hlen' & Hnth).
    exists l'. split; [reflexivity|]. split; [lia|].
    intros j n' Hj.
    destruct (Hnth j n' Hj) as (n1 & Hn1 & Herr & Hop & Hep & Hsame).
    rewrite Hl1 in Hn1.
    destruct (Nat.eqb_spec j i) as [->|Hji].
    + inversion Hn1; subst n1. exists n.
      rewrite (Hsame (Nat.lt_succ_diag_r i)). cbn.
      repeat split; auto; lia.
    + exists n1. split; [exact Hn1|]. split; [exact Herr|].
      split; [exact Hop|]. split.
      * intros Hle. apply Hep. lia.
      * intros Hlt. apply Hsame. lia.
Qed.

Section Reopen.
Variable ffs_closed : ffs_session -> ffs_session.

Lemma get_node_set_node s i n n0 :
  get_node s i = Some n0 -> get_node (set_node i n s) i = Some n.
Proof.
  unfold get_node, set_node. destruct (epfiles s) as [l|]; [|discriminate].
  intros H. cbn [epfiles set_epfiles]. rewrite array_set_nth_error.
  rewrite Nat.eqb_refl.
  assert (i < length l)%nat by (apply nth_error_Some; congruence).
  destruct (Nat.ltb_spec i (length l)); [reflexivity|lia].
Qed.

Lemma array_set_twice {A : Type} (l : list A) (i : nat) (v w : A) :
  array_set (array_set l i v) i w = array_set l i w.
Proof.
  revert i. induction l as [|x l IH]; intros [|i]; cbn; try reflexivity.
  now rewrite IH.
Qed.

Lemma epfile_reopen s i n first_read_done :
  get_node s i = Some n ->
  node_opened n = true ->
  state (data s) = FFS_ACTIVE ->
  1 < opened s -> 1 < ref s ->
  exists s3,
    ffs_epfile_release ffs_closed s i = Some (0, Some s3, []) /\
    ffs_epfile_open ffs_closed true s3 i first_read_done
    = Some (0,
            set_node i
              (mk_node (mk_epfile false (ep (file n)) (in_ (file n))
                          (isoc (file n))) true) s,
            false).
Proof.
  destruct s as [d r o nd fl ef fn]. unfold get_node. cbn [epfiles data opened ref].
  destruct ef as [l|]; [|discriminate].
  intros Hn Hop Hs Ho Hr.
  assert (Hi : (i < length l)%nat) by (apply nth_error_Some; congruence).
  unfold ffs_epfile_release, get_node. cbn [epfiles]. rewrite Hn.
  unfold ffs_data_closed, set_node. cbn [epfiles set_epfiles opened ref data
    no_disconnect flags func].
  destruct (Z.eqb_spec (o - 1) 0) as [E|_]; [lia|].
  cbn [opened].
  destruct (Z.ltb_spec (o - 1) 0) as [E|_]; [lia|].
  unfold ffs_data_put. cbn [ref].
  destruct (Z.eqb_spec (r - 1) 0) as [E|_]; [lia|].
  eexists. split; [reflexivity|].
  unfold ffs_epfile_open, get_node, set_node.
  cbn [negb data epfiles set_epfiles opened ref no_disconnect flags func].
  rewrite Hs.
  rewrite array_set_nth_error, Nat.eqb_refl.
  destruct (Nat.ltb_spec i (length l)) as [_|]; [|lia].
  cbn [node_opened set_node_error set_node_opened].
  unfold ffs_data_opened.
  cbn [opened ref data epfiles set_epfiles no_disconnect flags func].
  destruct (Z.eqb_spec (o - 1 + 1) 1) as [E|_]; [lia|].
  cbn [epfiles].
  rewrite array_set_nth_error, Nat.eqb_refl, array_set_length.
  destruct (Nat.ltb_spec i (length l)) as [_|]; [|lia].
  cbn [file ep in_ isoc node_opened error set_node_error set_node_opened
       data ref opened no_disconnect flags func epfiles].
  rewrite !array_set_twice.
  replace (r - 1 + 1) with r by lia.
  replace (o - 1 + 1) with o by lia.
  reflexivity.
Qed.

(** X14.  Enabling the endpoints again does not revive an endpoint file
    that [ffs_func_eps_disable] has marked: after a successful
    [ffs_func_eps_enable] the file has its handle and its direction back,
    but the error flag is still set, so every I/O call on it keeps failing
    with [-ENODEV].  Closing the file and opening it again clears the flag
    (while another open file keeps the session alive the two calls succeed
    and leave the counters [opened] and [ref] as they were), and the next
    I/O call goes on to the transfer. *)
Theorem disabled_file_needs_reopen (env : enable_env) (func0 : ffs_function)
    (s s2 : ffs_session) (l : list epfile_node)
    (acts : list session_action) (i : nat) (n : epfile_node) :
  epfiles s = Some l ->
  length l = length (eps func0) ->
  eps_count (data s) = N.of_nat (length (eps func0)) ->
  (1 <= eps_count (data s) < 2 ^ 32)%N ->
  ffs_func_eps_enable env func0 s = Some (0, s2, acts) ->
  get_node s i = Some n ->
  error (file n) = true ->
  exists n2,
    get_node s2 i = Some n2 /\
    ep (file n2) = Some (N.of_nat i) /\
    error (file n2) = true /\
    node_opened n2 = node_opened n /\
    (forall env' envs call first_read_done is_busy,
        ffs_epfile_io true (env' :: envs)
          (io_state_of n2 first_read_done is_busy) call
        = (Io_return (- ENODEV), io_state_of n2 first_read_done is_busy, []))
    /\
    (node_opened n = true ->
     state (data s2) = FFS_ACTIVE ->
     1 < opened s2 -> 1 < ref s2 ->
     forall first_read_done,
     exists s3 s4 n4,
       ffs_epfile_release ffs_closed s2 i = Some (0, Some s3, []) /\
       ffs_epfile_open ffs_closed true s3 i first_read_done
       = Some (0, s4, false) /\
       get_node s4 i = Some n4 /\
       error (file n4) = false /\
       ep (file n4) = Some (N.of_nat i) /\
       opened s4 = opened s2 /\ ref s4 = ref s2 /\
       forall env' call is_busy,
         ffs_active env' = true ->
         ffs_epfile_io_pass env' (io_state_of n4 false is_busy) call
         = ffs_epfile_io_fire env' (io_state_of n4 false is_busy) call
             (N.of_nat i) []).
Proof.
  intros He Hlen Hc Hrange Hen Hn Herr.
  unfold ffs_func_eps_enable in Hen. rewrite He, Hc in Hen.
  destruct (eps_enable_loop _ env (eps func0) (Some l) _ 0 [])
    as [[[ret l'opt] acts']|] eqn:Eloop; [|discriminate].
  inversion Hen; subst ret s2 acts'. clear Hen.
  destruct (length (eps func0)) as [|k] eqn:Ek; [lia|].
  apply eps_enable_loop_success in Eloop; try lia.
  destruct Eloop as (l' & -> & Hlen' & Hnth).
  unfold get_node in Hn. rewrite He in Hn.
  assert (Hi : (i < length l')%nat)
    by (rewrite Hlen'; apply nth_error_Some; congruence).
  destruct (nth_error l' i) as [n2|] eqn:En2.
  2:{ apply nth_error_None in En2. lia. }
  destruct (Hnth i n2 En2) as (n0 & Hn0 & Herr2 & Hop2 & Hep2 & _).
  rewrite Hn in Hn0. inversion Hn0; subst n0. clear Hn0.
  exists n2.
  assert (Hg : get_node (set_epfiles (Some l') s) i = Some n2) by exact En2.
  split; [exact Hg|]. split; [apply Hep2; lia|].
  split; [congruence|]. split; [exact Hop2|]. split.
  - intros env' envs call frd busy.
    apply (io_error_flag_set (env' :: envs)). cbn. congruence.
  - intros Hopen Hs Ho Hr frd.
    destruct (epfile_reopen (set_epfiles (Some l') s) i n2 frd Hg
                ltac:(congruence) Hs Ho Hr) as (s3 & Hrel & Hopn).
    exists s3. eexists. eexists.
    split; [exact Hrel|]. split; [exact Hopn|].
    split; [eapply get_node_set_node; exact Hg|].
    cbn [file error ep].
    split; [reflexivity|]. split; [apply Hep2; lia|].
    split; [reflexivity|]. split; [reflexivity|].
    intros env' call busy Hact.
    unfold ffs_epfile_io_pass, io_state_of. cbn [epfile file error ep].
    rewrite Hact. cbn [negb]. rewrite Hep2 by lia. reflexivity.
Qed.
End Reopen.

Lemma eps_disable_kills_every_file_witness :
  ffs_func_eps_disable function_one_endpoint session_one_endpoint
  = Some (set_epfiles
            (Some [mk_node (mk_epfile true None false false) true])
            session_one_endpoint,
          [Usb_ep_disable 1]).
Proof.
  destruct (eps_disable_kills_every_file function_one_endpoint
              session_one_endpoint
              [mk_node (mk_epfile false (Some 0%N) false false) true])
    as (_ & H).
  - reflexivity.
  - reflexivity.
  - vm_compute. reflexivity.
  - destruct H as (H & _); [reflexivity|vm_compute; discriminate|].
    exact H.
Defined.

Lemma disabled_file_needs_reopen_witness :
  exists n2,
    get_node
      (set_epfiles (Some [mk_node (mk_epfile true (Some 0%N) false false) true])
         session_one_endpoint) 0
    = Some n2 /\
    error (file n2) = true.
Proof.
  destruct (disabled_file_needs_reopen ffs_closed_nobody enable_env_quiet
              function_one_endpoint
              (set_epfiles
                 (Some [mk_node (mk_epfile true None false false) true])
                 session_one_endpoint)
              (set_epfiles
                 (Some [mk_node (mk_epfile true (Some 0%N) false false) true])
                 session_one_endpoint)
              [mk_node (mk_epfile true None false false) true]
              [Usb_ep_enable 1; Wake_up_epfile 0] 0
              (mk_node (mk_epfile true None false false) true))
    as (n2 & H1 & _ & H3 & _).
  - reflexivity.
  - reflexivity.
  - reflexivity.
  - vm_compute. split; [discriminate|reflexivity].
  - reflexivity.
  - reflexivity.
  - reflexivity.
  - exists n2. split; [exact H1|exact H3].
Defined.

(** *** Opening and closing *)

Section Facts.
Variable ffs_closed : ffs_session -> ffs_session.

Lemma reset_is_reset s : is_reset (ffs_data_reset ffs_closed s).
Proof. unfold is_reset, ffs_data_reset. cbn. repeat split. Qed.

Lemma ep0_open_result inst s :
  ffs_ep0_open ffs_closed inst s
  = if inst
    then match state (data s) with
         | FFS_CLOSING => (- EBUSY, s)
         | _ => if opened s =? 0 then (0, ffs_data_opened ffs_closed s)
                else (- EBUSY, s)
         end
    else (- ENODEV, s).
Proof.
  unfold ffs_ep0_open. destruct inst; cbn [negb]; [|reflexivity].
  destruct (state (data s)); try reflexivity;
    destruct (opened s =? 0); reflexivity.
Qed.

Lemma ep0_open_success inst s :
  fst (ffs_ep0_open ffs_closed inst s) = 0 <->
  inst = true /\ state (data s) <> FFS_CLOSING /\ opened s = 0.
Proof.
  rewrite ep0_open_result. destruct inst.
  2:{ cbn [fst]. unfold ENODEV. split; [intros H; lia|].
      intros (H & _). discriminate. }
  destruct (Z.eqb_spec (opened s) 0) as [Ho|Ho];
    destruct (state (data s)); cbn [fst]; unfold EBUSY;
    (split; [intros H; try lia; repeat split; auto; discriminate
            |intros (_ & H1 & H2); try reflexivity; try contradiction;
             try congruence]).
Qed.

Lemma ep0_open_failure inst s :
  fst (ffs_ep0_open ffs_closed inst s) <> 0 ->
  ffs_ep0_open ffs_closed inst s
  = (if inst then - EBUSY else - ENODEV, s).
Proof.
  rewrite ep0_open_result. destruct inst; [|reflexivity].
  destruct (state (data s)); try reflexivity;
    destruct (opened s =? 0); cbn [fst]; try reflexivity; contradiction.
Qed.

Lemma ep0_open_opened s :
  state (data s) <> FFS_DEACTIVATED -> opened s = 0 ->
  ffs_data_opened ffs_closed s
  = mk_session (data s) (ref s + 1) 1 (no_disconnect s) (flags s)
      (epfiles s) (func s).
Proof.
  intros Hs Ho. unfold ffs_data_opened. cbn [opened data]. rewrite Ho.
  cbn [Z.add Z.eqb Pos.eqb].
  destruct (state (data s)); try reflexivity. contradiction.
Qed.

(** X15.  The control file has one opener at a time: [ffs_ep0_open]
    succeeds exactly when the instance is registered, the session is not
    closing and no file of the session is open; a refused open returns
    [-EBUSY] ([-ENODEV] without the instance) and changes nothing; a
    successful one takes a reference, counts the open file, and makes every
    further open fail with [-EBUSY]; on a deactivated session it resets
    the session first, so that the opener finds it waiting for
    descriptors, and there too (as [ffs_closed] leaves the two counters
    alone) the reference and the open file are counted and a further open
    fails with [-EBUSY]. *)
Theorem ep0_single_opener (inst : bool) (s : ffs_session) :
  let r := ffs_ep0_open ffs_closed inst s in
  (fst r = 0 <->
   inst = true /\ state (data s) <> FFS_CLOSING /\ opened s = 0) /\
  (fst r <> 0 ->
   snd r = s /\ fst r = (if inst then - EBUSY else - ENODEV)) /\
  (fst r = 0 ->
   state (data s) <> FFS_DEACTIVATED ->
   snd r = mk_session (data s) (ref s + 1) 1 (no_disconnect s) (flags s)
             (epfiles s) (func s) /\
   ffs_ep0_open ffs_closed true (snd r) = (- EBUSY, snd r)) /\
  (fst r = 0 ->
   state (data s) = FFS_DEACTIVATED ->
   is_reset (snd r) /\
   ((forall x, ref (ffs_closed x) = ref x /\
               opened (ffs_closed x) = opened x) ->
    ref (snd r) = ref s + 1 /\ opened (snd r) = 1 /\
    ffs_ep0_open ffs_closed true (snd r) = (- EBUSY, snd r))).
Proof.
  cbv zeta. split; [apply ep0_open_success|]. split.
  { intros H. rewrite (ep0_open_failure inst s H). split; reflexivity. }
  split.
  - intros H Hs. apply ep0_open_success in H. destruct H as (-> & Hc & Ho).
    rewrite ep0_open_result, Ho. cbn [Z.eqb].
    assert (Hr : match state (data s) with
                 | FFS_CLOSING => (- EBUSY, s)
                 | _ => (0, ffs_data_opened ffs_closed s)
                 end = (0, ffs_data_opened ffs_closed s))
      by (destruct (state (data s)); try reflexivity; contradiction).
    rewrite Hr. cbn [snd]. rewrite (ep0_open_opened s Hs Ho).
    split; [reflexivity|].
    rewrite ep0_open_result. cbn [data opened Z.eqb].
    destruct (state (data s)); reflexivity.
  - intros H Hs. apply ep0_open_success in H. destruct H as (-> & Hc & Ho).
    rewrite ep0_open_result, Ho, Hs. cbn [Z.eqb snd].
    unfold ffs_data_opened. cbn [opened data]. rewrite Ho, Hs.
    cbn [Z.add Z.eqb Pos.eqb]. split; [apply reset_is_reset|].
    intros Hkeep.
    set (s1 := set_data _ _).
    destruct (Hkeep s1) as [Hr1 Ho1].
    assert (Hrs : ref (ffs_data_reset ffs_closed s1) = ref s + 1)
      by (unfold ffs_data_reset; cbn [ref]; rewrite Hr1; reflexivity).
    assert (Hos : opened (ffs_data_reset ffs_closed s1) = 1)
      by (unfold ffs_data_reset; cbn [opened]; rewrite Ho1; reflexivity).
    split; [exact Hrs|]. split; [exact Hos|].
    rewrite ep0_open_result, Hos. reflexivity.
Qed.

Lemma put_is_reset s s' :
  is_reset s -> ffs_data_put s = Some s' -> is_reset s'.
Proof.
  unfold ffs_data_put. destruct (ref s - 1 =? 0); [discriminate|].
  intros H E. inversion E; subst s'. exact H.
Qed.

Lemma closed_last_reset s s' :
  opened s = 1 -> no_disconnect s = false ->
  fst (ffs_data_closed ffs_closed s) = Some s' -> is_reset s'.
Proof.
  intros Ho Hn. unfold ffs_data_closed. cbn [opened no_disconnect].
  rewrite Ho, Hn. cbn [Z.sub Z.add Z.opp Z.pos_sub Z.eqb].
  match goal with
  | |- context [ffs_data_reset ffs_closed ?x] => set (s1 := x)
  end.
  destruct (opened (ffs_data_reset ffs_closed s1) <? 0); cbn [fst];
    apply put_is_reset, reset_is_reset.
Qed.

Lemma closed_unmount s s' :
  opened s = 0 ->
  fst (ffs_data_closed ffs_closed s) = Some s' -> is_reset s'.
Proof.
  intros Ho. unfold ffs_data_closed. cbn [opened]. rewrite Ho.
  cbn [Z.sub Z.add Z.opp Z.eqb Z.ltb Z.compare fst].
  apply put_is_reset, reset_is_reset.
Qed.

Lemma closed_not_last s :
  1 < opened s -> 1 < ref s ->
  ffs_data_closed ffs_closed s
  = (Some (mk_session (data s) (ref s - 1) (opened s - 1) (no_disconnect s)
             (flags s) (epfiles s) (func s)), []).
Proof.
  intros Ho Hr. unfold ffs_data_closed. cbn [opened].
  destruct (Z.eqb_spec (opened s - 1) 0); [lia|]. cbn [opened].
  destruct (Z.ltb_spec (opened s - 1) 0); [lia|].
  unfold ffs_data_put. cbn [ref].
  destruct (Z.eqb_spec (ref s - 1) 0); [lia|]. reflexivity.
Qed.

Lemma closed_last_deactivates s :
  opened s = 1 -> no_disconnect s = true -> 1 < ref s ->
  ffs_data_closed ffs_closed s
  = (Some (deactivated s),
     match epfiles s with Some _ => [Ffs_epfiles_destroy] | None => [] end
     ++ match setup_state (data s) with
        | FFS_SETUP_PENDING =>
            if can_stall (ev (data s)) then [Ep0_set_halt] else []
        | _ => []
        end).
Proof.
  intros Ho Hn Hr. unfold ffs_data_closed, deactivated.
  cbn [opened no_disconnect]. rewrite Ho, Hn.
  cbn [Z.sub Z.add Z.opp Z.pos_sub Z.eqb].
  unfold ffs_data_put, __ffs_ep0_stall.
  destruct (epfiles s) eqn:Ee; cbn [epfiles set_data set_epfiles data];
    rewrite ?Ee; cbn [setup_state set_state ev can_stall];
    destruct (setup_state (data s)); cbn [opened set_data set_epfiles Z.ltb
      Z.compare ref app];
    try (destruct (Z.eqb_spec (ref s - 1) 0); [lia|]; rewrite ?app_nil_r;
         reflexivity);
    destruct (can_stall (ev (data s)));
    cbn [opened set_data set_epfiles Z.ltb Z.compare ref app data];
    destruct (Z.eqb_spec (ref s - 1) 0); try lia; reflexivity.
Qed.

Lemma ep0_open_deactivated s :
  state (data s) = FFS_DEACTIVATED -> opened s = 0 ->
  fst (ffs_ep0_open ffs_closed true s) = 0 /\
  is_reset (snd (ffs_ep0_open ffs_closed true s)).
Proof.
  intros Hs Ho. rewrite ep0_open_result, Ho, Hs. cbn [Z.eqb fst snd].
  split; [reflexivity|].
  unfold ffs_data_opened. cbn [opened data]. rewrite Ho, Hs.
  cbn [Z.add Z.eqb Pos.eqb]. apply reset_is_reset.
Qed.

Lemma deactivated_keeps s :
  state (data (deactivated s)) = FFS_DEACTIVATED /\
  raw_part (data (deactivated s)) = raw_part (data s) /\
  stringtabs (data (deactivated s)) = stringtabs (data s) /\
  strings_count (data (deactivated s)) = strings_count (data s) /\
  eps_count (data (deactivated s)) = eps_count (data s) /\
  interfaces_count (data (deactivated s)) = interfaces_count (data s) /\
  ev (data (deactivated s)) = ev (data s).
Proof.
  unfold deactivated. cbn [data].
  destruct (match setup_state (data s) with
            | FFS_SETUP_PENDING => can_stall (ev (data s))
            | _ => false
            end); repeat split.
Qed.

(** X16.  What closing a file does to the session ([ffs_data_closed], the
    tail of every release).  While other files are open only the counters
    move.  The last close of a session without [no_disconnect] resets it:
    if the session survives the drop of the reference it waits for
    descriptors again, with no blobs, no counts, no queued events, no
    endpoint files.  With [no_disconnect] the last close deactivates it
    instead: descriptors, strings, counts and queued events stay, the
    endpoint files are destroyed, a pending setup is stalled; the next
    open of the control file succeeds and resets it.  At unmount
    ([opened] already zero) the session is reset as well. *)
Theorem last_close_resets_or_deactivates (s : ffs_session) :
  (1 < opened s -> 1 < ref s ->
   ffs_data_closed ffs_closed s
   = (Some (mk_session (data s) (ref s - 1) (opened s - 1) (no_disconnect s)
              (flags s) (epfiles s) (func s)), [])) /\
  (opened s = 1 -> no_disconnect s = false ->
   forall s', fst (ffs_data_closed ffs_closed s) = Some s' -> is_reset s') /\
  (opened s = 1 -> no_disconnect s = true -> 1 < ref s ->
   ffs_data_closed ffs_closed s
   = (Some (deactivated s),
      match epfiles s with Some _ => [Ffs_epfiles_destroy] | None => [] end
      ++ match setup_state (data s) with
         | FFS_SETUP_PENDING =>
             if can_stall (ev (data s)) then [Ep0_set_halt] else []
         | _ => []
         end) /\
   state (data (deactivated s)) = FFS_DEACTIVATED /\
   raw_part (data (deactivated s)) = raw_part (data s) /\
   stringtabs (data (deactivated s)) = stringtabs (data s) /\
   strings_count (data (deactivated s)) = strings_count (data s) /\
   eps_count (data (deactivated s)) = eps_count (data s) /\
   interfaces_count (data (deactivated s)) = interfaces_count (data s) /\
   ev (data (deactivated s)) = ev (data s) /\
   fst (ffs_ep0_open ffs_closed true (deactivated s)) = 0 /\
   is_reset (snd (ffs_ep0_open ffs_closed true (deactivated s)))) /\
  (opened s = 0 ->
   forall s', fst (ffs_data_closed ffs_closed s) = Some s' -> is_reset s').
Proof.
  split; [apply closed_not_last|].
  split; [intros Ho Hn s'; apply closed_last_reset; assumption|].
  split; [|intros Ho s'; apply closed_unmount; assumption].
  intros Ho Hn Hr.
  split; [apply closed_last_deactivates; assumption|].
  destruct (deactivated_keeps s) as (H1 & H2 & H3 & H4 & H5 & H6 & H7).
  repeat (split; [assumption|]).
  apply ep0_open_deactivated; [exact H1|reflexivity].
Qed.
End Facts.

Lemma ep0_single_opener_witness :
  ffs_ep0_open ffs_closed_nobody true
    (snd (ffs_ep0_open ffs_closed_nobody true
            (mk_session ffs_data_new 1 0 false 0 None None)))
  = (- EBUSY,
     snd (ffs_ep0_open ffs_closed_nobody true
            (mk_session ffs_data_new 1 0 false 0 None None))) /\
  ffs_ep0_open ffs_closed_nobody true
    (snd (ffs_ep0_open ffs_closed_nobody true
            (mk_session (set_state FFS_DEACTIVATED ffs_data_new) 1 0 true 0
               None None)))
  = (- EBUSY,
     snd (ffs_ep0_open ffs_closed_nobody true
            (mk_session (set_state FFS_DEACTIVATED ffs_data_new) 1 0 true 0
               None None))).
Proof.
  split.
  - destruct (ep0_single_opener ffs_closed_nobody true
                (mk_session ffs_data_new 1 0 false 0 None None))
      as (_ & _ & H & _).
    destruct H as (_ & H2); [reflexivity|discriminate|].
    exact H2.
  - destruct (ep0_single_opener ffs_closed_nobody true
                (mk_session (set_state FFS_DEACTIVATED ffs_data_new) 1 0 true
                   0 None None))
      as (_ & _ & _ & H).
    destruct H as (_ & H2); [reflexivity|reflexivity|].
    destruct H2 as (_ & _ & H3); [intros x; split; reflexivity|].
    exact H3.
Defined.

Lemma last_close_resets_or_deactivates_witness :
  ffs_data_closed ffs_closed_nobody
    (mk_session
       (set_setup_state FFS_SETUP_PENDING
          (set_counts 1 1 (set_state FFS_ACTIVE ffs_data_new)))
       2 1 true 0 (Some []) None)
  = (Some (mk_session
             (set_counts 1 1 (set_state FFS_DEACTIVATED ffs_data_new))
             1 0 true 0 None None),
     [Ffs_epfiles_destroy; Ep0_set_halt]).
Proof.
  destruct (last_close_resets_or_deactivates ffs_closed_nobody
              (mk_session
                 (set_setup_state FFS_SETUP_PENDING
                    (set_counts 1 1 (set_state FFS_ACTIVE ffs_data_new)))
                 2 1 true 0 (Some []) None)) as (_ & _ & H & _).
  destruct H as (H & _); [reflexivity|reflexivity|reflexivity|].
  exact H.
Defined.
End SessionFacts.

(** ** Mount options *)

Module MountFacts.
Import Ascii String Mount.

Lemma land_lor_type_bit v m t c :
  N.land m c = 0%N -> N.land t c = 0%N ->
  N.land (N.lor (N.land v m) t) c = 0%N.
Proof.
  intros Hm Ht.
  rewrite N.land_lor_distr_l, <- N.land_assoc, Hm, Ht, N.land_0_r.
  reflexivity.
Qed.

Lemma land_lor_absorb x t : N.land (N.lor x t) t = t.
Proof.
  apply N.bits_inj. intros n. rewrite N.land_spec, N.lor_spec.
  destruct (N.testbit x n), (N.testbit t n); reflexivity.
Qed.

Section Facts.
Variable kstrtoul : string -> option N.
Variable make_kuid : N -> N.
Variable make_kgid : N -> N.

Lemma interpret_modes_ok data name value :
  modes_ok data ->
  modes_ok (snd (interpret_option make_kuid make_kgid data name value)).
Proof.
  intros [Hr Hf]. unfold interpret_option.
  destruct (String.length name) as [|[|[|[|[|[|[|[|[|[|[|[|[|[|n]]]]]]]]]]]]]];
    try (split; assumption).
  - destruct (String.eqb name "uid").
    { destruct (negb _); split; assumption. }
    destruct (String.eqb name "gid"); [|split; assumption].
    destruct (negb _); split; assumption.
  - destruct (String.eqb name "mode"); [|split; assumption].
    split; eexists; reflexivity.
  - destruct (String.eqb name "rmode").
    { split; [eexists; reflexivity|assumption]. }
    destruct (String.eqb name "fmode"); [|split; assumption].
    split; [assumption|eexists; reflexivity].
  - destruct (String.eqb name "no_disconnect"); split; assumption.
Qed.

Lemma parse_opts_loop_modes_ok fuel data opts :
  modes_ok data ->
  modes_ok (snd (parse_opts_loop kstrtoul make_kuid make_kgid fuel data opts)).
Proof.
  revert data opts. induction fuel as [|fuel IH]; intros data opts H;
    [exact H|].
  cbn [parse_opts_loop].
  destruct (strchr_cut "," opts) as [[h t]|].
  - destruct (strchr_cut "=" h) as [[name val]|]; [|exact H].
    destruct (kstrtoul val) as [value|]; [|exact H].
    pose proof (interpret_modes_ok data name value H) as Hi.
    destruct (interpret_option make_kuid make_kgid data name value)
      as [ret data1].
    destruct (ret <? 0); [exact Hi|apply IH, Hi].
  - destruct (strchr_cut "=" opts) as [[name val]|]; [|exact H].
    destruct (kstrtoul val) as [value|]; [|exact H].
    pose proof (interpret_modes_ok data name value H) as Hi.
    destruct (interpret_option make_kuid make_kgid data name value)
      as [ret data1].
    destruct (ret <? 0); exact Hi.
Qed.

(** X17.  Whatever the option string and whatever [kstrtoul] makes of the
    values, the parser started on the defaults of [ffs_fs_mount] leaves a
    root mode that is a directory without write permission (its permission
    bits lie within [0555]) and a file mode that is a regular file without
    execute permission (within [0666]); this holds for the data of a failed
    parse as well. *)
Theorem mount_modes_bounded (opts : option string) :
  let data :=
    snd (ffs_fs_parse_opts kstrtoul make_kuid make_kgid sb_fill_data_default
           opts) in
  N.land (root_mode data) S_IFDIR = S_IFDIR /\
  N.land (root_mode data) (N.lor S_IFREG (octal [2; 2; 2]%N)) = 0%N /\
  N.land (mode (perms data)) S_IFREG = S_IFREG /\
  N.land (mode (perms data)) (N.lor S_IFDIR (octal [1; 1; 1]%N)) = 0%N.
Proof.
  cbv zeta.
  assert (H0 : modes_ok sb_fill_data_default).
  { split; [exists (octal [5; 0; 0]%N)|exists (octal [6; 0; 0]%N)];
      reflexivity. }
  assert (H : modes_ok
                (snd (ffs_fs_parse_opts kstrtoul make_kuid make_kgid
                        sb_fill_data_default opts))).
  { unfold ffs_fs_parse_opts. destruct opts as [[|a s]|]; try exact H0.
    apply parse_opts_loop_modes_ok, H0. }
  destruct H as [[v Hr] [w Hf]]. rewrite Hr, Hf.
  repeat split.
  - apply land_lor_absorb.
  - apply land_lor_type_bit; reflexivity.
  - apply land_lor_absorb.
  - apply land_lor_type_bit; reflexivity.
Qed.

Lemma strchr_cut_some c s h t :
  strchr_cut c s = Some (h, t) ->
  s = (h ++ String c t)%string /\
  (String.length t < String.length s)%nat /\
  forall u, strchr_cut c (s ++ u)%string = Some (h, (t ++ u)%string).
Proof.
  revert h t. induction s as [|a s IH]; intros h t H; [discriminate|].
  cbn [strchr_cut] in H.
  destruct (Ascii.eqb_spec a c) as [->|Hac].
  - inversion H; subst h t. repeat split; [cbn; lia|].
    intros u. cbn [append strchr_cut]. rewrite Ascii.eqb_refl. reflexivity.
  - destruct (strchr_cut c s) as [[h' t']|]; [|discriminate].
    inversion H; subst h t.
    destruct (IH h' t' eq_refl) as (Hs & Hl & Hu).
    split; [cbn; now rewrite <- Hs|]. split; [cbn; lia|].
    intros u. cbn [append strchr_cut].
    destruct (Ascii.eqb_spec a c); [contradiction|]. now rewrite Hu.
Qed.

Lemma strchr_cut_none c s u :
  strchr_cut c s = None ->
  strchr_cut c (s ++ String c u)%string = Some (s, u).
Proof.
  induction s as [|a s IH]; intros H.
  - cbn. rewrite Ascii.eqb_refl. reflexivity.
  - cbn [strchr_cut] in H. cbn [append strchr_cut].
    destruct (Ascii.eqb a c); [discriminate|].
    destruct (strchr_cut c s) as [[h t]|]; [discriminate|].
    now rewrite IH.
Qed.

Lemma append_length a b :
  String.length (a ++ b)%string = (String.length a + String.length b)%nat.
Proof. induction a as [|x a IH]; cbn; [reflexivity|now rewrite IH]. Qed.

Lemma parse_opts_loop_fuel_enough fuel1 fuel2 data opts :
  (String.length opts < fuel1)%nat -> (String.length opts < fuel2)%nat ->
  parse_opts_loop kstrtoul make_kuid make_kgid fuel1 data opts
  = parse_opts_loop kstrtoul make_kuid make_kgid fuel2 data opts.
Proof.
  revert fuel2 data opts.
  induction fuel1 as [|fuel1 IH]; intros fuel2 data opts H1 H2; [lia|].
  destruct fuel2 as [|fuel2]; [lia|].
  cbn [parse_opts_loop].
  destruct (strchr_cut "," opts) as [[h t]|] eqn:Ec; [|reflexivity].
  destruct (strchr_cut_some _ _ _ _ Ec) as (_ & Hl & _).
  destruct (strchr_cut "=" h) as [[name val]|]; [|reflexivity].
  destruct (kstrtoul val) as [value|]; [|reflexivity].
  destruct (interpret_option make_kuid make_kgid data name value)
    as [ret data1].
  destruct (ret <? 0); [reflexivity|]. apply IH; lia.
Qed.

(** The loop on [a,b] is the loop on [a] followed, when it succeeds, by the
    loop on [b]. *)
Lemma parse_opts_loop_app n :
  forall a, (String.length a <= n)%nat ->
  forall fuel fuel1 fuel2 data b,
    (String.length (a ++ String "," b)%string < fuel)%nat ->
    (String.length a < fuel1)%nat ->
    (String.length b < fuel2)%nat ->
    parse_opts_loop kstrtoul make_kuid make_kgid fuel data
      (a ++ String "," b)%string
    = let '(ret, data1) :=
        parse_opts_loop kstrtoul make_kuid make_kgid fuel1 data a in
      if ret <? 0 then (ret, data1)
      else parse_opts_loop kstrtoul make_kuid make_kgid fuel2 data1 b.
Proof.
  induction n as [|n IH]; intros a Hn fuel fuel1 fuel2 data b Hf Hf1 Hf2.
  - destruct a; [|cbn in Hn; lia].
    destruct fuel as [|fuel]; [lia|]. destruct fuel1 as [|fuel1]; [lia|].
    cbn. reflexivity.
  - destruct fuel as [|fuel]; [lia|]. destruct fuel1 as [|fuel1]; [lia|].
    cbn [parse_opts_loop].
    destruct (strchr_cut "," a) as [[h t]|] eqn:Ec.
    + destruct (strchr_cut_some _ _ _ _ Ec) as (Ha & Hl & Hu).
      rewrite Hu.
      destruct (strchr_cut "=" h) as [[name val]|]; [|reflexivity].
      destruct (kstrtoul val) as [value|]; [|reflexivity].
      destruct (interpret_option make_kuid make_kgid data name value)
        as [ret data1].
      destruct (ret <? 0) eqn:Er; [rewrite Er; reflexivity|].
      apply IH; try lia.
      rewrite append_length in *. cbn [String.length] in *. lia.
    + rewrite (strchr_cut_none _ _ _ Ec).
      destruct (strchr_cut "=" a) as [[name val]|]; [|reflexivity].
      destruct (kstrtoul val) as [value|]; [|reflexivity].
      destruct (interpret_option make_kuid make_kgid data name value)
        as [ret data1].
      destruct (ret <? 0) eqn:Er; [rewrite Er; reflexivity|].
      cbn [Z.ltb Z.compare].
      apply parse_opts_loop_fuel_enough; [|assumption].
      rewrite append_length in Hf. cbn [String.length] in Hf. lia.
Qed.

(** X18.  Mount options are applied from left to right: parsing [a,b]
    (both parts non-empty) is parsing [a] and then, when that succeeded,
    parsing [b] on what [a] left, so a later option overrides an earlier
    one and an error keeps what the options before it have set; an option
    string that ends in a comma is refused. *)
Theorem mount_opts_compose (data : ffs_sb_fill_data) (a b : string) :
  a <> EmptyString -> b <> EmptyString ->
  ffs_fs_parse_opts kstrtoul make_kuid make_kgid data
    (Some (a ++ String "," b)%string)
  = (let '(ret, data1) :=
       ffs_fs_parse_opts kstrtoul make_kuid make_kgid data (Some a) in
     if ret <? 0 then (ret, data1)
     else ffs_fs_parse_opts kstrtoul make_kuid make_kgid data1 (Some b)) /\
  fst (ffs_fs_parse_opts kstrtoul make_kuid make_kgid data
         (Some (a ++ ",")%string)) < 0.
Proof.
  intros Ha Hb. split.
  - unfold ffs_fs_parse_opts.
    destruct a as [|x a]; [contradiction|].
    destruct b as [|y b]; [contradiction|].
    cbn [append].
    change (String x (a ++ String "," (String y b))%string)
      with (String x a ++ String "," (String y b))%string.
    apply (parse_opts_loop_app (String.length (String x a))); lia.
  - unfold ffs_fs_parse_opts.
    destruct a as [|x a]; [contradiction|]. cbn [append].
    change (String x (a ++ ",")%string)
      with (String x a ++ String "," EmptyString)%string.
    rewrite (parse_opts_loop_app (String.length (String x a)) (String x a)
               (Nat.le_refl _) _ (S (String.length (String x a))) 1%nat data ""%string)
      by (cbn; lia).
    destruct (parse_opts_loop _ _ _ _ data (String x a)) as [ret data1].
    destruct (ret <? 0) eqn:Er; [apply Z.ltb_lt in Er; exact Er|].
    cbn. unfold EINVAL. lia.
Qed.
End Facts.

Lemma mount_opts_compose_witness :
  ffs_fs_parse_opts kstrtoul_decimal (fun v => v) (fun v => v)
    sb_fill_data_default (Some "rmode=365,mode=511"%string)
  = (0, mk_sb_fill_data
          (mk_perms (N.lor (octal [6; 6; 6]%N) S_IFREG) 0 0)
          (N.lor (octal [5; 5; 5]%N) S_IFDIR) false).
Proof.
  destruct (mount_opts_compose kstrtoul_decimal (fun v => v) (fun v => v)
              sb_fill_data_default "rmode=365"%string "mode=511"%string)
    as (H & _); [discriminate|discriminate|].
  etransitivity; [exact H|]. reflexivity.
Defined.
End MountFacts.

(** ** Writes to an endpoint file *)

Module EpfileWriteFacts.
Import Epfile.

(** The write path below "Do we halt?". *)
Lemma fire_write env st call ep0 :
  read call = false ->
  exists ret st1 acts,
    ffs_epfile_io_fire env st call ep0 [] = inl (Io_return ret, st1, acts) /\
    existsb read_only_action acts = false /\
    queues_only (count call) acts /\
    epfile st1 = epfile st.
Proof.
  intros Hr. unfold ffs_epfile_io_fire. rewrite Hr. cbn [negb andb app].
  repeat match goal with
         | |- context [if ?c then _ else _] => destruct c
         end;
    do 3 eexists; (split; [reflexivity|]);
    (split; [reflexivity|]);
    (split; [intros m Hin; cbn in Hin; intuition congruence|reflexivity]).
Qed.

Lemma pass_write env st call :
  read call = false ->
  exists ret st1 acts,
    ffs_epfile_io_pass env st call = inl (Io_return ret, st1, acts) /\
    existsb read_only_action acts = false /\
    queues_only (count call) acts /\
    epfile st1 = epfile st.
Proof.
  intros Hr. unfold ffs_epfile_io_pass.
  assert (Hq : queues_only (count call) []) by (intros m []).
  destruct (error (epfile st)).
  { do 3 eexists. repeat split; try reflexivity; assumption. }
  destruct (ffs_active env); cbn [negb].
  2:{ do 3 eexists. repeat split; try reflexivity; assumption. }
  destruct (ep (epfile st)) as [ep0|].
  { apply fire_write, Hr. }
  rewrite Hr. cbn [negb].
  destruct (nonblock call);
    do 3 eexists; repeat split; try reflexivity; assumption.
Qed.

(** X19.  A write to an endpoint file ([io_data->read] false) is one pass
    through [ffs_epfile_io]: it never takes [goto retry], so the call
    returns whatever the later passes would have met; it never sleeps on
    the wait queue of the endpoint file (on a disabled endpoint it fails
    at once, with [-EAGAIN] or [-EINTR]); it never copies to the caller;
    every request it queues has exactly the length the caller gave (only
    reads are rounded up by [usb_ep_align_maybe]); and it leaves the
    endpoint file ([error], [ep], direction) as it found it. *)
Theorem write_is_one_pass (env : io_env) (envs : list io_env)
    (st : io_state) (call : io_call) :
  read call = false ->
  ffs_epfile_io true (env :: envs) st call = ffs_epfile_io true [env] st call /\
  exists ret st1 acts,
    ffs_epfile_io true (env :: envs) st call = (Io_return ret, st1, acts) /\
    existsb read_only_action acts = false /\
    queues_only (count call) acts /\
    epfile st1 = epfile st /\
    (ep (epfile st) = None -> error (epfile st) = false ->
     ffs_active env = true ->
     ret = (if nonblock call then - EAGAIN else - EINTR) /\ acts = []).
Proof.
  intros Hr. unfold ffs_epfile_io. cbn [negb ffs_epfile_io_retry].
  destruct (pass_write env st call Hr)
    as (ret & st1 & acts & Hp & Hro & Hq & He).
  rewrite Hp. cbn [app]. split; [reflexivity|].
  exists ret, st1, acts.
  split; [reflexivity|]. split; [assumption|]. split; [assumption|].
  split; [assumption|].
  intros Hn Herr Ha. revert Hp. unfold ffs_epfile_io_pass.
  rewrite Hn, Herr, Ha, Hr. cbn [negb].
  destruct (nonblock call); intros Hp; split; congruence.
Qed.

Lemma write_is_one_pass_witness :
  ffs_epfile_io true
    [io_env_quiet (fun n => n) 64 []; io_env_quiet (fun n => n) 0 []]
    epfile_in_enabled (sync_write 64)
  = ffs_epfile_io true [io_env_quiet (fun n => n) 64 []]
      epfile_in_enabled (sync_write 64).
Proof.
  exact (proj1 (write_is_one_pass (io_env_quiet (fun n => n) 64 [])
                  [io_env_quiet (fun n => n) 0 []]
                  epfile_in_enabled (sync_write 64) eq_refl)).
Defined.
End EpfileWriteFacts.

(** ** Disconnect *)

Module DisconnectFacts.
Import Epfile Session.

Lemma eps_disable_loop_no_files fuel eps k i acts :
  (i + S k = length eps)%nat ->
  (k < fuel)%nat ->
  (N.of_nat (S k) < 2 ^ 32)%N ->
  eps_disable_loop fuel eps None (N.of_nat (S k)) i acts
  = Some (None, acts ++ disable_calls (skipn i eps)).
Proof.
  revert k i acts.
  induction fuel as [|fuel IH]; intros k i acts Hi Hfuel Hk; [lia|].
  cbn [eps_disable_loop].
  destruct (nth_error eps i) as [ep0|] eqn:Eep.
  2:{ apply nth_error_None in Eep. lia. }
  rewrite SessionFacts.pre_decrement_S by assumption.
  assert (Hskip : skipn i eps = ep0 :: skipn (S i) eps).
  { clear - Eep. revert i Eep. induction eps as [|e eps IH]; intros [|i] E;
      try discriminate.
    - cbn in E. inversion E. reflexivity.
    - cbn in E. cbn [skipn]. rewrite (IH i E). reflexivity. }
  set (acts1 := match usb_ep ep0 with
                | Some e => acts ++ [Usb_ep_disable e]
                | None => acts
                end).
  assert (Hacts : acts1 ++ disable_calls (skipn (S i) eps)
                  = acts ++ disable_calls (skipn i eps)).
  { rewrite Hskip. unfold acts1, disable_calls. cbn [flat_map].
    destruct (usb_ep ep0); [rewrite <- app_assoc|]; reflexivity. }
  destruct k as [|k].
  - cbn [N.of_nat N.eqb]. rewrite <- Hacts.
    assert (skipn (S i) eps = []) as -> by (apply skipn_all2; lia).
    cbn. now rewrite app_nil_r.
  - destruct (N.eqb_spec (N.of_nat (S k)) 0) as [E|_]; [lia|].
    rewrite IH by lia. rewrite Hacts. reflexivity.
Qed.

Lemma eps_disable_no_files func s :
  epfiles s = None ->
  eps_count (data s) = N.of_nat (length (eps func)) ->
  (1 <= eps_count (data s) < 2 ^ 32)%N ->
  ffs_func_eps_disable func s
  = Some (set_epfiles None s, disable_calls (eps func)).
Proof.
  intros He Hc Hrange. unfold ffs_func_eps_disable.
  rewrite He, Hc.
  destruct (length (eps func)) as [|k] eqn:Ek; [lia|].
  rewrite (eps_disable_loop_no_files (S (S k)) (eps func) k 0 []);
    try lia.
  reflexivity.
Qed.

Section Disconnect.
Variable ffs_closed : ffs_session -> ffs_session.

(** X20.  What a disconnect ([ffs_func_disable], which is
    [ffs_func_set_alt] with [alt = -1]) does to a session whose function
    is bound ([eps_count], at least one, is the number of its endpoints).
    While the session is active: the endpoints are disabled, every
    endpoint file is left dead, [ffs->func] is cleared, the power
    reference is dropped, a [FUNCTIONFS_DISABLE] event is queued and the
    call returns [0].  While it is deactivated (the last file was closed
    under [no_disconnect], so there are no endpoint files): the endpoints
    are disabled, no event is queued, the session goes to [FFS_CLOSING]
    and the reset is deferred to a work item; until that has run the
    control file cannot be opened ([-EBUSY]), and once it has run the
    session is reset.  A [SET_INTERFACE] for an interface number that is
    not this function's returns [-EDOM] and changes nothing. *)
Theorem disconnect_outcomes (env : enable_env) (func0 f : ffs_function)
    (s : ffs_session) :
  func s = Some f ->
  eps_count (data s) = N.of_nat (length (eps f)) ->
  (1 <= eps_count (data s) < 2 ^ 32)%N ->
  (forall l,
      epfiles s = Some l -> length l = length (eps f) ->
      state (data s) = FFS_ACTIVE ->
      ffs_func_disable env func0 s
      = Some (0,
              mk_session (ffs_event_add (data s) FUNCTIONFS_DISABLE)
                (ref s) (opened s) (no_disconnect s) (flags s)
                (Some (map disabled_node l)) None,
              disable_calls (eps f) ++ [Usb_gadget_autopm_put_async])) /\
  (epfiles s = None ->
   state (data s) = FFS_DEACTIVATED ->
   let s1 := mk_session (set_state FFS_CLOSING (data s))
               (ref s) (opened s) (no_disconnect s) (flags s) None None in
   ffs_func_disable env func0 s
   = Some (- ENODEV, s1,
           disable_calls (eps f)
           ++ [Usb_gadget_autopm_put_async; Schedule_reset_work]) /\
   ffs_ep0_open ffs_closed true s1 = (- EBUSY, s1) /\
   is_reset (ffs_reset_work ffs_closed s1)) /\
  (forall interface alt,
      alt <> (2 ^ 32 - 1)%N ->
      (forall j, (j < N.to_nat (interfaces_count (data s)))%nat ->
         nth j (interfaces_nums func0) (-1) <> Z.of_N (to_u8 interface)) ->
      ffs_func_set_alt env func0 s interface alt = Some (- EDOM, s, [])).
Proof.
  intros Hf Hc Hrange. split; [|split].
  - intros l He Hlen Hst.
    unfold ffs_func_disable, ffs_func_set_alt.
    rewrite N.eqb_refl. cbn [negb Z.ltb Z.compare]. rewrite Hf.
    rewrite (SessionFacts.eps_disable_spec f s l He Hlen Hc Hrange).
    cbn [set_func set_epfiles data state]. rewrite Hst.
    reflexivity.
  - intros He Hst s1.
    split; [|split].
    + unfold ffs_func_disable, ffs_func_set_alt.
      rewrite N.eqb_refl. cbn [negb Z.ltb Z.compare]. rewrite Hf.
      rewrite (eps_disable_no_files f s He Hc Hrange).
      cbn [set_func set_epfiles data state]. rewrite Hst.
      unfold s1. cbn [set_data data ref opened no_disconnect flags epfiles
                        func].
      rewrite <- app_assoc. reflexivity.
    + unfold ffs_ep0_open. cbn [negb]. reflexivity.
    + apply SessionFacts.reset_is_reset.
  - intros interface alt Halt Hall.
    unfold ffs_func_set_alt.
    destruct (N.eqb_spec alt (2 ^ 32 - 1)) as [E|_]; [contradiction|].
    cbn [negb].
    destruct (revmap_intf_spec func0 (data s) (to_u8 interface))
      as [[Hr _]|(k & _ & Hk & Hv & _)].
    + rewrite Hr. reflexivity.
    + exfalso. exact (Hall k Hk Hv).
Qed.
End Disconnect.

Lemma disconnect_outcomes_witness :
  ffs_func_disable enable_env_quiet function_one_endpoint
    session_one_endpoint
  = Some (0,
          mk_session
            (ffs_event_add (data session_one_endpoint) FUNCTIONFS_DISABLE)
            3 2 false 0
            (Some [mk_node (mk_epfile true None false false) true]) None,
          [Usb_ep_disable 1; Usb_gadget_autopm_put_async]).
Proof.
  destruct (disconnect_outcomes ffs_closed_nobody enable_env_quiet
              function_one_endpoint function_one_endpoint
              session_one_endpoint) as [H _].
  - reflexivity.
  - reflexivity.
  - cbn. lia.
  - exact (H _ eq_refl eq_refl eq_refl).
Defined.

End DisconnectFacts.

(** ** Descriptors of a tier *)

Lemma byte_at_firstn data n k :
  (k < n)%nat -> byte_at (firstn n data) k = byte_at data k.
Proof.
  intros H. unfold byte_at. f_equal.
  rewrite <- (firstn_skipn n data) at 2.
  destruct (Nat.lt_ge_cases k (length (firstn n data))) as [Hl|Hl].
  - now rewrite app_nth1.
  - rewrite length_firstn in Hl.
    assert (Hn : (length data <= k)%nat) by lia.
    rewrite firstn_skipn.
    rewrite !nth_overflow; try reflexivity; try assumption.
    rewrite length_firstn. lia.
Qed.

Lemma single_desc_well_formed {P : Type} (entity : ffs_entity_callback P)
    data p :
  0 <= fst (ffs_do_single_desc entity data p) ->
  well_formed_desc (firstn (N.to_nat (byte_at data 0)) data) = true.
Proof.
  intros H.
  destruct (ffs_do_single_desc_ret entity data p H) as [_ [H3 Hlen]].
  unfold blen in Hlen.
  unfold well_formed_desc.
  rewrite !byte_at_firstn by lia.
  unfold blen. rewrite length_firstn.
  replace (N.of_nat (Nat.min (N.to_nat (byte_at data 0)) (length data)))
    with (byte_at data 0) by lia.
  rewrite N.eqb_refl. cbn [andb].
  revert H. unfold ffs_do_single_desc, __entity.
  unfold __entity_check_ENDPOINT.
  assert (Hneg : forall q : P, ~ 0 <= fst (- EINVAL, q)).
  { intros q. cbn. unfold EINVAL. lia. }
  destruct (blen data <? 2)%N; [intros H; now apply Hneg in H|].
  destruct (blen data <? byte_at data 0)%N; [intros H; now apply Hneg in H|].
  destruct (byte_at data 1 =? USB_DT_INTERFACE)%N eqn:E1.
  { apply N.eqb_eq in E1. rewrite E1. cbn [N.eqb Pos.eqb orb USB_DT_DEVICE
      USB_DT_CONFIG USB_DT_STRING USB_DT_DEVICE_QUALIFIER USB_DT_INTERFACE].
    destruct (byte_at data 0 =? USB_DT_INTERFACE_SIZE)%N;
      [reflexivity|intros H; now apply Hneg in H]. }
  destruct (byte_at data 1 =? USB_DT_ENDPOINT)%N eqn:E2.
  { apply N.eqb_eq in E2. rewrite E2. cbn [N.eqb Pos.eqb orb USB_DT_DEVICE
      USB_DT_CONFIG USB_DT_STRING USB_DT_DEVICE_QUALIFIER USB_DT_INTERFACE
      USB_DT_ENDPOINT].
    destruct (byte_at data 0 =? USB_DT_ENDPOINT_SIZE)%N,
      (byte_at data 0 =? USB_DT_ENDPOINT_AUDIO_SIZE)%N; cbn [negb andb orb];
      try (intros H; now apply Hneg in H);
      destruct (negb (N.land (byte_at data 2) USB_ENDPOINT_NUMBER_MASK =? 0)%N);
      cbn [negb]; try reflexivity; intros H; now apply Hneg in H. }
  destruct ((byte_at data 1 =? USB_DT_DEVICE)%N
            || (byte_at data 1 =? USB_DT_CONFIG)%N
            || (byte_at data 1 =? USB_DT_STRING)%N
            || (byte_at data 1 =? USB_DT_DEVICE_QUALIFIER)%N);
    [intros H; now apply Hneg in H|].
  destruct (byte_at data 1 =? HID_DT_HID)%N.
  { destruct (byte_at data 0 =? sizeof_hid_descriptor)%N;
      [reflexivity|intros H; now apply Hneg in H]. }
  destruct (byte_at data 1 =? USB_DT_OTG)%N.
  { destruct (byte_at data 0 =? sizeof_usb_otg_descriptor)%N;
      [reflexivity|intros H; now apply Hneg in H]. }
  destruct (byte_at data 1 =? USB_DT_INTERFACE_ASSOCIATION)%N.
  { destruct (byte_at data 0 =? sizeof_usb_interface_assoc_descriptor)%N;
      [reflexivity|intros H; now apply Hneg in H]. }
  destruct (byte_at data 1 =? USB_DT_SS_ENDPOINT_COMP)%N.
  { destruct (byte_at data 0 =? sizeof_usb_ss_ep_comp_descriptor)%N;
      [reflexivity|intros H; now apply Hneg in H]. }
  intros H; now apply Hneg in H.
Qed.

Lemma do_descs_loop_sound {P : Type} (entity : ffs_entity_callback P)
    fuel count num data consumed p :
  (num <= count)%N ->
  0 <= fst (ffs_do_descs_loop entity fuel count num data consumed p) ->
  exists ds,
    (num + N.of_nat (length ds) = count)%N /\
    forallb well_formed_desc ds = true /\
    (length (concat ds) <= length data)%nat /\
    concat ds = firstn (length (concat ds)) data /\
    fst (ffs_do_descs_loop entity fuel count num data consumed p)
    = Z.of_N (consumed + blen (concat ds)).
Proof.
  revert num data consumed p.
  induction fuel as [|fuel IH]; intros num data consumed p Hnum.
  { cbn. unfold EINVAL. lia. }
  cbn [ffs_do_descs_loop].
  destruct (entity FFS_DESCRIPTOR num _ p) as [ret p1].
  destruct (ret <? 0) eqn:Hret.
  { cbn [fst]. apply Z.ltb_lt in Hret. lia. }
  destruct (N.eqb_spec num count) as [E|E].
  { intros _. exists []. cbn. unfold blen. cbn.
    repeat split; try lia. }
  pose proof (ffs_do_single_desc_ret entity data p1) as Hr.
  pose proof (single_desc_well_formed entity data p1) as Hw.
  destruct (ffs_do_single_desc entity data p1) as [ret2 p2].
  cbn [fst] in Hr, Hw.
  destruct (ret2 <? 0) eqn:Hret2.
  { cbn [fst]. apply Z.ltb_lt in Hret2. lia. }
  apply Z.ltb_ge in Hret2.
  destruct (Hr Hret2) as [Hr2 [H3 Hlen]]. specialize (Hw Hret2).
  subst ret2. rewrite N2Z.id. unfold blen in Hlen.
  intros H.
  destruct (IH (num + 1)%N (advance (byte_at data 0) data)
              (consumed + byte_at data 0)%N p2) as (ds & Hc & Hwf & Hl & Hcat & Hfst);
    [lia|exact H|].
  set (d := firstn (N.to_nat (byte_at data 0)) data) in *.
  assert (Hd : length d = N.to_nat (byte_at data 0)).
  { unfold d. rewrite length_firstn. lia. }
  rewrite advance_length in Hl.
  exists (d :: ds). cbn [length forallb concat].
  rewrite Hw, Hwf, length_app, Hd.
  split; [lia|]. split; [reflexivity|]. split; [lia|].
  split.
  - rewrite <- (firstn_skipn (N.to_nat (byte_at data 0)) data) at 2.
    rewrite firstn_app, length_firstn.
    replace (Nat.min (N.to_nat (byte_at data 0)) (length data))
      with (N.to_nat (byte_at data 0)) by lia.
    rewrite firstn_firstn.
    replace (Nat.min (N.to_nat (byte_at data 0) + length (concat ds))
               (N.to_nat (byte_at data 0)))
      with (N.to_nat (byte_at data 0)) by lia.
    fold d. f_equal.
    replace (N.to_nat (byte_at data 0) + length (concat ds)
             - N.to_nat (byte_at data 0))%nat
      with (length (concat ds)) by lia.
    exact Hcat.
  - rewrite Hfst. unfold blen. f_equal. rewrite length_app, Hd. lia.
Qed.

(** X21.  What a tier the walker accepts looks like, whatever the callback
    does: when [ffs_do_descs] returns a non-negative value for [count]
    descriptors, the bytes it has consumed (their number is the value
    returned) are the concatenation of exactly [count] well-formed
    descriptors: each as long as its [bLength] says, of one of the six
    kinds interface, endpoint, HID, OTG, interface association and
    SuperSpeed endpoint companion, of the length of its kind, an endpoint
    descriptor with a non-zero endpoint number. *)
Theorem accepted_tier_is_descriptor_list {P : Type}
    (entity : ffs_entity_callback P) (count : N) (data : list byte)
    (priv : P) :
  0 <= fst (ffs_do_descs entity count data priv) ->
  exists ds,
    N.of_nat (length ds) = count /\
    forallb well_formed_desc ds = true /\
    fst (ffs_do_descs entity count data priv)
    = Z.of_nat (length (concat ds)) /\
    (length (concat ds) <= length data)%nat /\
    concat ds = firstn (length (concat ds)) data.
Proof.
  intros H. unfold ffs_do_descs in *.
  destruct (do_descs_loop_sound entity (S (length data)) count 0 data 0 priv)
    as (ds & Hc & Hwf & Hl & Hcat & Hfst); [lia|exact H|].
  exists ds. split; [lia|]. split; [exact Hwf|].
  split; [|split; assumption].
  rewrite Hfst. unfold blen. lia.
Qed.

Lemma blen_app_ge (d rest : list byte) n :
  (n <= blen d)%N -> (blen (d ++ rest) <? n)%N = false.
Proof.
  intros H. apply N.ltb_ge. unfold blen in *. rewrite length_app. lia.
Qed.

Lemma byte_at_app d rest k :
  (k < length d)%nat -> byte_at (d ++ rest) k = byte_at d k.
Proof. intros H. unfold byte_at. now rewrite app_nth1. Qed.

Lemma entity_string v desc h f :
  __ffs_data_do_entity FFS_STRING v desc (h, f)
  = (0, (h, set_strings_count (N.max (strings_count f) v) f)).
Proof.
  destruct f as [st sst ev0 uf efd rdd rd rdl fsc hsc ssc osc epc epn epd sc
                   ic0 ec am stt rs].
  cbn [__ffs_data_do_entity strings_count].
  destruct (N.ltb_spec sc v);
    [rewrite N.max_r by lia|rewrite N.max_l by lia]; reflexivity.
Qed.

Lemma entity_interface v desc ic e f :
  __ffs_data_do_entity FFS_INTERFACE v desc (mk_helper ic e, f)
  = (0, (mk_helper (N.max ic (v + 1)) e, f)).
Proof.
  cbn [__ffs_data_do_entity helper_interfaces_count helper_eps_count].
  destruct (N.leb_spec ic v);
    [rewrite N.max_r by lia|rewrite N.max_l by lia]; reflexivity.
Qed.

Lemma entity_endpoint v desc ic e f :
  eps_count f = 0%N -> interfaces_count f = 0%N -> (e < 14)%N ->
  __ffs_data_do_entity FFS_ENDPOINT v desc (mk_helper ic e, f)
  = (0, (mk_helper ic (e + 1),
         set_eps_addrmap
           (array_set (eps_addrmap f) (S (N.to_nat e)) (byte_at desc 2)) f)).
Proof.
  intros He Hi Hlt.
  cbn [__ffs_data_do_entity helper_interfaces_count helper_eps_count].
  rewrite (N.mod_small (e + 1)) by lia.
  destruct (N.leb_spec 15 (e + 1)); [lia|].
  rewrite He, Hi. cbn [N.eqb andb].
  replace (N.to_nat (e + 1)) with (S (N.to_nat e)) by lia. reflexivity.
Qed.

Lemma well_formed_length d :
  well_formed_desc d = true ->
  blen d = byte_at d 0 /\ (3 <= length d)%nat.
Proof.
  unfold well_formed_desc. intros Hw. apply andb_true_iff in Hw.
  destruct Hw as [Hlen Hk]. apply N.eqb_eq in Hlen.
  split; [exact Hlen|].
  revert Hk.
  unfold USB_DT_INTERFACE_SIZE, USB_DT_ENDPOINT_SIZE,
    USB_DT_ENDPOINT_AUDIO_SIZE, sizeof_hid_descriptor,
    sizeof_usb_otg_descriptor, sizeof_usb_interface_assoc_descriptor,
    sizeof_usb_ss_ep_comp_descriptor.
  unfold blen in Hlen.
  break_ifs; intros Hk; try discriminate;
    repeat match goal with
           | H : (_ && _) = true |- _ => apply andb_true_iff in H; destruct H
           | H : (_ || _) = true |- _ => apply orb_true_iff in H; destruct H
           | H : (_ =? _)%N = true |- _ => apply N.eqb_eq in H
           end; lia.
Qed.

Lemma single_desc_step d rest ic e f :
  well_formed_desc d = true ->
  eps_count f = 0%N -> interfaces_count f = 0%N ->
  (is_endpoint_desc d = true -> e < 14)%N ->
  ffs_do_single_desc __ffs_data_do_entity (d ++ rest) (mk_helper ic e, f)
  = (Z.of_nat (length d),
     (mk_helper (N.max ic (interface_need d))
        (if is_endpoint_desc d then e + 1 else e)%N,
      set_strings_count (N.max (strings_count f) (string_need d))
        (set_eps_addrmap
           (if is_endpoint_desc d
            then array_set (eps_addrmap f) (S (N.to_nat e)) (byte_at d 2)
            else eps_addrmap f) f))).
Proof.
  intros Hw He Hi Hep.
  destruct (well_formed_length d Hw) as [Hlen Hl].
  assert (HZ : Z.of_N (byte_at d 0) = Z.of_nat (length d))
    by (unfold blen in Hlen; lia).
  assert (Hid : forall g, set_strings_count (N.max (strings_count g) 0)
                            (set_eps_addrmap (eps_addrmap g) g) = g).
  { intros g. rewrite N.max_0_r. now destruct g. }
  assert (Hs : forall g v, set_strings_count (N.max (strings_count g) v) g
                           = set_strings_count (N.max (strings_count g) v)
                               (set_eps_addrmap (eps_addrmap g) g)).
  { intros g v. now destruct g. }
  unfold well_formed_desc in Hw. apply andb_true_iff in Hw.
  destruct Hw as [_ Hk].
  unfold ffs_do_single_desc.
  rewrite blen_app_ge by (unfold blen; lia).
  rewrite !(byte_at_app d rest) by lia.
  rewrite blen_app_ge by lia.
  unfold is_endpoint_desc, interface_need, string_need.
  revert Hk Hep. unfold is_endpoint_desc.
  destruct (byte_at d 1 =? USB_DT_INTERFACE)%N eqn:E1.
  { apply N.eqb_eq in E1. rewrite E1. intros Hk _. rewrite Hk.
    cbn [N.eqb Pos.eqb orb negb USB_DT_DEVICE USB_DT_CONFIG USB_DT_STRING
           USB_DT_DEVICE_QUALIFIER USB_DT_INTERFACE USB_DT_ENDPOINT].
    apply N.eqb_eq in Hk. unfold USB_DT_INTERFACE_SIZE in Hk.
    rewrite Hk in Hlen. unfold blen in Hlen.
    rewrite !(byte_at_app d rest) by lia.
    unfold __entity, __entity_check_INTERFACE, __entity_check_STRING.
    cbn [negb]. rewrite entity_interface. cbn [Z.ltb Z.compare].
    rewrite HZ.
    destruct (N.eqb_spec (byte_at d 8) 0) as [E8|E8]; cbn [negb].
    - rewrite E8, Hid. reflexivity.
    - rewrite entity_string. cbn [Z.ltb Z.compare]. rewrite <- Hs.
      reflexivity. }
  destruct (byte_at d 1 =? USB_DT_ENDPOINT)%N eqn:E2.
  { apply N.eqb_eq in E2. rewrite E2. intros Hk Hep. specialize (Hep eq_refl).
    cbn [N.eqb Pos.eqb orb negb USB_DT_DEVICE USB_DT_CONFIG USB_DT_STRING
           USB_DT_DEVICE_QUALIFIER USB_DT_INTERFACE USB_DT_ENDPOINT
           USB_DT_INTERFACE_ASSOCIATION].
    apply andb_true_iff in Hk. destruct Hk as [Hk Hnum].
    assert (Hsz : negb (byte_at d 0 =? USB_DT_ENDPOINT_SIZE)%N
                  && negb (byte_at d 0 =? USB_DT_ENDPOINT_AUDIO_SIZE)%N
                  = false).
    { destruct (byte_at d 0 =? USB_DT_ENDPOINT_SIZE)%N,
        (byte_at d 0 =? USB_DT_ENDPOINT_AUDIO_SIZE)%N;
        try reflexivity; discriminate. }
    rewrite Hsz.
    unfold __entity, __entity_check_ENDPOINT. rewrite Hnum. cbn [negb].
    rewrite entity_endpoint by assumption. cbn [Z.ltb Z.compare].
    rewrite !N.max_0_r, HZ, byte_at_app by lia.
    destruct f; reflexivity. }
  intros Hk _. rewrite !N.max_0_r.
  destruct (byte_at d 1 =? HID_DT_HID)%N eqn:E3.
  { apply N.eqb_eq in E3. rewrite E3, Hk, HZ, Hid. reflexivity. }
  destruct (byte_at d 1 =? USB_DT_OTG)%N eqn:E4.
  { apply N.eqb_eq in E4. rewrite E4, Hk, HZ, Hid. reflexivity. }
  destruct (byte_at d 1 =? USB_DT_INTERFACE_ASSOCIATION)%N eqn:E5.
  { apply N.eqb_eq in E5. rewrite E5, Hk.
    cbn [N.eqb Pos.eqb orb negb USB_DT_DEVICE USB_DT_CONFIG USB_DT_STRING
           USB_DT_DEVICE_QUALIFIER USB_DT_INTERFACE USB_DT_ENDPOINT
           USB_DT_INTERFACE_ASSOCIATION HID_DT_HID USB_DT_OTG].
    apply N.eqb_eq in Hk. unfold sizeof_usb_interface_assoc_descriptor in Hk.
    rewrite Hk in Hlen. unfold blen in Hlen.
    rewrite !(byte_at_app d rest) by lia.
    unfold __entity, __entity_check_STRING.
    destruct (N.eqb_spec (byte_at d 7) 0) as [E7|E7]; cbn [negb].
    - rewrite E7, Hid, HZ. reflexivity.
    - rewrite entity_string. cbn [Z.ltb Z.compare]. rewrite <- Hs, HZ.
      reflexivity. }
  destruct (byte_at d 1 =? USB_DT_SS_ENDPOINT_COMP)%N eqn:E6; [|discriminate].
  apply N.eqb_eq in E6. rewrite E6, Hk, HZ, Hid. reflexivity.
Qed.

Lemma endpoint_addresses_cons d ds :
  endpoint_addresses (d :: ds)
  = if is_endpoint_desc d then byte_at d 2 :: endpoint_addresses ds
    else endpoint_addresses ds.
Proof.
  unfold endpoint_addresses. cbn [filter].
  destruct (is_endpoint_desc d); reflexivity.
Qed.

Lemma do_descs_loop_complete ds :
  forall fuel num rest consumed ic e f,
    forallb well_formed_desc ds = true ->
    eps_count f = 0%N -> interfaces_count f = 0%N ->
    (N.to_nat e + length (endpoint_addresses ds) <= 14)%nat ->
    (length ds < fuel)%nat ->
    ffs_do_descs_loop __ffs_data_do_entity fuel
      (num + N.of_nat (length ds)) num (concat ds ++ rest) consumed
      (mk_helper ic e, f)
    = (Z.of_N (consumed + blen (concat ds)),
       (mk_helper (N.max ic (interfaces_needed ds))
          (e + N.of_nat (length (endpoint_addresses ds))),
        set_strings_count (N.max (strings_count f) (strings_needed ds))
          (set_eps_addrmap
             (store_addresses (eps_addrmap f) (N.to_nat e)
                (endpoint_addresses ds)) f))).
Proof.
  induction ds as [|d ds IH];
    intros fuel num rest consumed ic e f Hw He Hi Hn Hfuel;
    (destruct fuel as [|fuel]; [cbn in Hfuel; lia|]).
  - cbn [ffs_do_descs_loop __ffs_data_do_entity length N.of_nat].
    rewrite N.add_0_r, N.eqb_refl. cbn [Z.ltb Z.compare].
    cbn [concat blen length endpoint_addresses filter map interfaces_needed
           strings_needed fold_right store_addresses N.of_nat].
    unfold blen. cbn [length N.of_nat].
    rewrite !N.add_0_r, !N.max_0_r. now destruct f.
  - cbn [forallb] in Hw. apply andb_true_iff in Hw. destruct Hw as [Hd Hds].
    cbn [ffs_do_descs_loop __ffs_data_do_entity]. cbn [Z.ltb Z.compare].
    destruct (N.eqb_spec num (num + N.of_nat (length (d :: ds)))) as [E|_];
      [cbn [length] in E; lia|].
    cbn [concat]. rewrite <- app_assoc.
    rewrite endpoint_addresses_cons in Hn |- *.
    rewrite single_desc_step; try assumption.
    2:{ intros Hep. rewrite Hep in Hn. cbn [length] in Hn. lia. }
    cbn [Z.ltb Z.compare]. 
    assert (Hneg : (Z.of_nat (length d) <? 0) = false) by (apply Z.ltb_ge; lia).
    rewrite Hneg.
    assert (Hadv : advance (N.of_nat (length d)) (d ++ concat ds ++ rest)
                   = concat ds ++ rest).
    { unfold advance. rewrite Nat2N.id, skipn_app, skipn_all, Nat.sub_diag.
      reflexivity. }
    replace (Z.to_N (Z.of_nat (length d))) with (N.of_nat (length d)) by lia.
    rewrite Hadv.
    replace (num + N.of_nat (length (d :: ds)))%N
      with (num + 1 + N.of_nat (length ds))%N by (cbn [length]; lia).
    rewrite IH; try assumption.
    + f_equal.
      { unfold blen. rewrite length_app. f_equal. lia. }
      cbn [interfaces_needed strings_needed fold_right].
      fold (interfaces_needed ds). fold (strings_needed ds).
      destruct f as [st sst ev0 uf efd rdd rd rdl fsc hsc ssc osc epc epn epd
                       sc ic0 ec am stt rs].
      cbn [set_strings_count set_eps_addrmap strings_count eps_addrmap
             state setup_state ev user_flags ffs_eventfd raw_descs_data
             raw_descs raw_descs_length fs_descs_count hs_descs_count
             ss_descs_count ms_os_descs_count ms_os_descs_ext_prop_count
             ms_os_descs_ext_prop_name_len ms_os_descs_ext_prop_data_len
             interfaces_count eps_count stringtabs raw_strings].
      rewrite <- !N.max_assoc.
      destruct (is_endpoint_desc d); cbn [length store_addresses].
      * replace (N.to_nat (e + 1)) with (S (N.to_nat e)) by lia.
        replace (e + 1 + N.of_nat (length (endpoint_addresses ds)))%N
          with (e + N.of_nat (S (length (endpoint_addresses ds))))%N by lia.
        reflexivity.
      * reflexivity.
    + destruct (is_endpoint_desc d); cbn [length] in Hn; lia.
    + cbn [length] in Hfuel. lia.
Qed.

Lemma concat_length_ge ds :
  forallb well_formed_desc ds = true ->
  (length ds <= length (concat ds))%nat.
Proof.
  induction ds as [|d ds IH]; intros Hw; [cbn; lia|].
  cbn [forallb] in Hw. apply andb_true_iff in Hw. destruct Hw as [Hd Hds].
  destruct (well_formed_length d Hd) as [_ Hl].
  cbn [concat length]. rewrite length_app. specialize (IH Hds). lia.
Qed.

(** X22.  Round trip for a first tier.  On a session that has no counts yet,
    [ffs_do_descs] with the driver's callback accepts the concatenation of
    any well-formed descriptors with at most fourteen endpoint descriptors
    among them, whatever follows in the buffer.  It returns the number of
    bytes of those descriptors; the helper then holds the number of
    endpoint descriptors and the highest [bInterfaceNumber] plus one;
    [strings_count] has grown to the highest string index an interface or
    interface association names; and the cells of [eps_addrmap] from 1 on
    hold the endpoint addresses in the order of the blob. *)
Theorem tier_round_trip (ds : list (list byte)) (rest : list byte)
    (f : ffs_data) :
  forallb well_formed_desc ds = true ->
  eps_count f = 0%N -> interfaces_count f = 0%N ->
  (length (endpoint_addresses ds) <= 14)%nat ->
  ffs_do_descs __ffs_data_do_entity (N.of_nat (length ds))
    (concat ds ++ rest) (mk_helper 0 0, f)
  = (Z.of_nat (length (concat ds)),
     (mk_helper (interfaces_needed ds)
        (N.of_nat (length (endpoint_addresses ds))),
      set_strings_count (N.max (strings_count f) (strings_needed ds))
        (set_eps_addrmap
           (store_addresses (eps_addrmap f) 0 (endpoint_addresses ds)) f))).
Proof.
  intros Hw He Hi Hn. unfold ffs_do_descs.
  pose proof (concat_length_ge ds Hw) as Hlen.
  pose proof (do_descs_loop_complete ds (S (length (concat ds ++ rest))) 0
                rest 0 0 0 f Hw He Hi) as H.
  rewrite N.add_0_l in H. rewrite H;
    [|cbn; lia|rewrite length_app; lia].
  unfold blen. rewrite N.max_0_l. cbn [N.add N.to_nat]. f_equal. lia.
Qed.

Lemma store_addresses_length m e addrs :
  length (store_addresses m e addrs) = length m.
Proof.
  revert m e. induction addrs as [|a addrs IH]; intros m e; [reflexivity|].
  cbn [store_addresses]. rewrite IH. apply array_set_length.
Qed.

Lemma array_set_nth (m : list N) i j v :
  nth j (array_set m i v) 0%N
  = if Nat.eqb j i && Nat.ltb i (length m) then v else nth j m 0%N.
Proof.
  revert i j. induction m as [|x m IH]; intros i j.
  - cbn. rewrite andb_false_r. reflexivity.
  - destruct i as [|i], j as [|j]; cbn [array_set nth Nat.eqb andb length];
      try reflexivity.
    rewrite IH.
    change (S i <? S (length m))%nat with (i <? length m)%nat. reflexivity.
Qed.

Lemma store_addresses_nth addrs :
  forall m e j,
    (e + length addrs < length m)%nat ->
    nth j (store_addresses m e addrs) 0%N
    = if Nat.ltb e j && Nat.leb j (e + length addrs)
      then nth (j - S e) addrs 0%N
      else nth j m 0%N.
Proof.
  induction addrs as [|a addrs IH]; intros m e j Hlen.
  - cbn [store_addresses length].
    destruct (Nat.ltb_spec e j), (Nat.leb_spec j (e + 0)); try reflexivity.
    lia.
  - cbn [store_addresses length] in *.
    rewrite IH by (rewrite array_set_length; lia).
    rewrite array_set_nth.
    destruct (Nat.ltb_spec (S e) (length m)) as [_|Hm]; [|lia].
    rewrite andb_true_r.
    destruct (Nat.eqb_spec j (S e)) as [->|Ej].
    + destruct (Nat.ltb_spec (S e) (S e)); [lia|]. cbn [andb].
      destruct (Nat.ltb_spec e (S e)); [|lia].
      destruct (Nat.leb_spec (S e) (e + S (length addrs))); [|lia].
      cbn [andb]. rewrite Nat.sub_diag. reflexivity.
    + destruct (Nat.ltb_spec (S e) j), (Nat.leb_spec j (S e + length addrs)),
        (Nat.ltb_spec e j), (Nat.leb_spec j (e + S (length addrs)));
        cbn [andb]; try lia; try reflexivity.
      replace (j - S e)%nat with (S (j - S (S e))) by lia. reflexivity.
Qed.

Lemma addr2idx_loop_spec map n :
  forall i a,
    (addr2idx_loop map n i a = - ENOENT /\
     forall j, (i <= j < i + n)%nat -> array_get map j <> a) \/
    (exists k,
        addr2idx_loop map n i a = Z.of_nat k /\ (i <= k < i + n)%nat /\
        array_get map k = a /\
        forall j, (i <= j < k)%nat -> array_get map j <> a).
Proof.
  induction n as [|n IH]; intros i a.
  - left. split; [reflexivity|]. intros j Hj. lia.
  - cbn [addr2idx_loop].
    destruct (N.eqb_spec (array_get map i) a) as [E|E].
    + right. exists i. split; [reflexivity|]. split; [lia|].
      split; [exact E|]. intros j Hj. lia.
    + destruct (IH (S i) a) as [[Hr Hall]|(k & Hr & Hk & Hv & Hall)].
      * left. split; [exact Hr|]. intros j Hj.
        destruct (Nat.eq_dec j i) as [->|]; [exact E|]. apply Hall. lia.
      * right. exists k. split; [exact Hr|]. split; [lia|].
        split; [exact Hv|]. intros j Hj.
        destruct (Nat.eq_dec j i) as [->|]; [exact E|]. apply Hall. lia.
Qed.

(** The session a first tier leaves. *)
Lemma tier_walk_map ds rest f :
  forallb well_formed_desc ds = true ->
  eps_count f = 0%N -> interfaces_count f = 0%N ->
  (length (endpoint_addresses ds) <= 14)%nat ->
  eps_addrmap
    (snd (snd (ffs_do_descs __ffs_data_do_entity (N.of_nat (length ds))
                 (concat ds ++ rest) (mk_helper 0 0, f))))
  = store_addresses (eps_addrmap f) 0 (endpoint_addresses ds).
Proof.
  intros Hw He Hi Hn. unfold ffs_do_descs.
  pose proof (concat_length_ge ds Hw) as Hlen.
  pose proof (do_descs_loop_complete ds (S (length (concat ds ++ rest))) 0
                rest 0 0 0 f Hw He Hi) as H.
  rewrite N.add_0_l in H. rewrite H;
    [|cbn; lia|rewrite length_app; lia].
  cbn [snd N.to_nat]. now destruct f.
Qed.

(** X23.  The endpoint addresses a first tier stores are the ones
    [ffs_ep_addr2idx] finds.  After [ffs_do_descs] with the driver's
    callback has walked well-formed descriptors with at most fourteen
    endpoints on a session without counts (and with the fifteen cells of
    [eps_addrmap]), the address of every endpoint descriptor of the tier
    maps to an index between 1 and the number of endpoints, the position
    of the first endpoint descriptor with that address, so the cell
    [func->eps + idx] that binding takes from it exists; with pairwise
    different addresses the k-th endpoint maps to k.  When the map was
    all zero before, an address that no endpoint descriptor carries is
    answered with [-ENOENT]. *)
Theorem parsed_endpoint_has_index (ds : list (list byte)) (rest : list byte)
    (f : ffs_data) :
  forallb well_formed_desc ds = true ->
  eps_count f = 0%N -> interfaces_count f = 0%N ->
  length (eps_addrmap f) = 15%nat ->
  (length (endpoint_addresses ds) <= 14)%nat ->
  let addrs := endpoint_addresses ds in
  let f' := snd (snd (ffs_do_descs __ffs_data_do_entity
                        (N.of_nat (length ds)) (concat ds ++ rest)
                        (mk_helper 0 0, f))) in
  (forall k,
      (k < length addrs)%nat ->
      exists idx,
        ffs_ep_addr2idx f' (nth k addrs 0%N) = Z.of_nat (S idx) /\
        (idx <= k)%nat /\
        nth idx addrs 0%N = nth k addrs 0%N /\
        forall j, (j < idx)%nat -> nth j addrs 0%N <> nth k addrs 0%N) /\
  (forall k,
      NoDup addrs -> (k < length addrs)%nat ->
      ffs_ep_addr2idx f' (nth k addrs 0%N) = Z.of_nat (S k)) /\
  (forall a,
      eps_addrmap f = repeat 0%N 15 -> a <> 0%N -> ~ In a addrs ->
      ffs_ep_addr2idx f' a = - ENOENT).
Proof.
  intros Hw He Hi Hlen Hn addrs f'.
  assert (Hn' : (length addrs <= 14)%nat) by exact Hn.
  assert (Hmap : eps_addrmap f' = store_addresses (eps_addrmap f) 0 addrs)
    by (apply tier_walk_map; assumption).
  assert (Hl' : length (eps_addrmap f') = 15%nat)
    by (rewrite Hmap, store_addresses_length; exact Hlen).
  assert (Hcell : forall j, (1 <= j <= length addrs)%nat ->
                            array_get (eps_addrmap f') j
                            = nth (j - 1) addrs 0%N).
  { intros j Hj. unfold array_get. rewrite Hmap, store_addresses_nth by lia.
    destruct (Nat.ltb_spec 0 j), (Nat.leb_spec j (0 + length addrs));
      try lia. reflexivity. }
  assert (Hfirst : forall k,
             (k < length addrs)%nat ->
             exists idx,
               ffs_ep_addr2idx f' (nth k addrs 0%N) = Z.of_nat (S idx) /\
               (idx <= k)%nat /\
               nth idx addrs 0%N = nth k addrs 0%N /\
               forall j, (j < idx)%nat -> nth j addrs 0%N <> nth k addrs 0%N).
  { intros k Hk. unfold ffs_ep_addr2idx.
    rewrite Hl'.
    destruct (addr2idx_loop_spec (eps_addrmap f') (15 - 1) 1
                (nth k addrs 0%N))
      as [[_ Hall]|(i & Hr & Hi' & Hv & Hall)].
    - exfalso. apply (Hall (S k)); [lia|].
      rewrite Hcell by lia. f_equal. lia.
    - assert (Hik : (i <= S k)%nat).
      { destruct (Nat.le_gt_cases i (S k)) as [|Hgt]; [assumption|].
        exfalso. apply (Hall (S k)); [lia|].
        rewrite Hcell by lia. f_equal. lia. }
      exists (i - 1)%nat.
      replace (S (i - 1)) with i by lia.
      split; [exact Hr|]. split; [lia|].
      split; [rewrite <- Hcell by lia; exact Hv|].
      intros j Hj. specialize (Hall (S j)).
      rewrite Hcell in Hall by lia.
      replace (S j - 1)%nat with j in Hall by lia. apply Hall. lia. }
  split; [exact Hfirst|]. split.
  - intros k Hnd Hk.
    destruct (Hfirst k Hk) as (idx & Hr & Hle & Hv & _).
    rewrite Hr. f_equal. f_equal.
    apply (proj1 (NoDup_nth addrs 0%N) Hnd); try lia; exact Hv.
  - intros a Hzero Ha Hnot. unfold ffs_ep_addr2idx.
    rewrite Hl'.
    destruct (addr2idx_loop_spec (eps_addrmap f') (15 - 1) 1 a)
      as [[Hr _]|(i & _ & Hi' & Hv & _)]; [exact Hr|].
    exfalso.
    destruct (Nat.le_gt_cases i (length addrs)) as [Hle|Hgt].
    + rewrite Hcell in Hv by lia. apply Hnot. rewrite <- Hv.
      apply nth_In. lia.
    + unfold array_get in Hv.
      rewrite Hmap, store_addresses_nth in Hv by lia.
      destruct (Nat.ltb_spec 0 i), (Nat.leb_spec i (0 + length addrs));
        try lia.
      cbn [andb] in Hv. rewrite Hzero in Hv.
      rewrite nth_repeat in Hv. congruence.
Qed.

Lemma accepted_tier_is_descriptor_list_witness :
  exists ds,
    N.of_nat (length ds) = 3%N /\
    forallb well_formed_desc ds = true /\
    fst (ffs_do_descs __ffs_data_do_entity 3 (concat tier_two_endpoints)
           (mk_helper 0 0, ffs_data_new))
    = Z.of_nat (length (concat ds)) /\
    (length (concat ds) <= length (concat tier_two_endpoints))%nat /\
    concat ds = firstn (length (concat ds)) (concat tier_two_endpoints).
Proof.
  apply (accepted_tier_is_descriptor_list __ffs_data_do_entity 3
           (concat tier_two_endpoints) (mk_helper 0 0, ffs_data_new)).
  vm_compute. discriminate.
Defined.

Lemma tier_round_trip_witness :
  ffs_do_descs __ffs_data_do_entity 3 (concat tier_two_endpoints ++ [])
    (mk_helper 0 0, ffs_data_new)
  = (23,
     (mk_helper 1 2,
      set_strings_count 5
        (set_eps_addrmap
           ([0; 0x81; 0x02] ++ repeat 0 12)%N ffs_data_new))).
Proof.
  apply (tier_round_trip tier_two_endpoints [] ffs_data_new);
    try reflexivity.
  cbn. lia.
Defined.

Lemma parsed_endpoint_has_index_witness :
  ffs_ep_addr2idx
    (snd (snd (ffs_do_descs __ffs_data_do_entity 3
                 (concat tier_two_endpoints ++ [])
                 (mk_helper 0 0, ffs_data_new)))) 0x02
  = 2.
Proof.
  assert (Hle : (length (endpoint_addresses tier_two_endpoints) <= 14)%nat)
    by (cbn; lia).
  assert (Hnd : NoDup (endpoint_addresses tier_two_endpoints))
    by (repeat constructor; cbn; intuition discriminate).
  assert (Hk : (1 < length (endpoint_addresses tier_two_endpoints))%nat)
    by (cbn; lia).
  exact (proj1 (proj2 (parsed_endpoint_has_index tier_two_endpoints []
                         ffs_data_new eq_refl eq_refl eq_refl eq_refl Hle))
           1%nat Hnd Hk).
Defined.

(** ** A reset session and a new one *)

Section WalkSimulation.
Context {P : Type}.
Variable entity : ffs_entity_callback P.
Variable Rel : P -> P -> Prop.
Variable Doom : P -> Prop.
Hypothesis entity_sim :
  forall type v d p1 p2,
    Rel p1 p2 -> sim_post Rel Doom (entity type v d p1) (entity type v d p2).
Hypothesis entity_doomed :
  forall type v d p,
    Doom p -> 0 <= fst (entity type v d p) -> Doom (snd (entity type v d p)).

Lemma entity_doomed_post type v d p :
  Doom p ->
  (fun _ : P => True) (snd (entity type v d p)) /\
  (0 <= fst (entity type v d p) -> Doom (snd (entity type v d p))).
Proof. intros H. split; [exact Logic.I|apply entity_doomed, H]. Qed.

Lemma sim_post_error z p1 p2 : z < 0 -> sim_post Rel Doom (z, p1) (z, p2).
Proof. intros H. left. cbn. split; [reflexivity|lia]. Qed.

Lemma sim_post_done z p1 p2 : Rel p1 p2 -> sim_post Rel Doom (z, p1) (z, p2).
Proof. intros H. left. cbn. split; [reflexivity|intros _; exact H]. Qed.

Lemma __entity_sim check type v d p1 p2 k :
  Rel p1 p2 ->
  (forall q1 q2, Rel q1 q2 -> sim_post Rel Doom (k q1) (k q2)) ->
  (forall q, Doom q -> 0 <= fst (k q) -> Doom (snd (k q))) ->
  sim_post Rel Doom (__entity entity check type v d p1 k)
    (__entity entity check type v d p2 k).
Proof.
  intros Hs Hk Hd. unfold __entity.
  destruct (negb (check v)).
  { apply sim_post_error. unfold EINVAL. lia. }
  destruct (entity_sim type v d p1 p2 Hs) as [[Hr HS]|[H1 H2]];
    destruct (entity type v d p1) as [r1 q1], (entity type v d p2) as [r2 q2];
    cbn [fst snd] in *.
  - subst r2. destruct (r1 <? 0) eqn:E.
    + apply sim_post_error. apply Z.ltb_lt in E. exact E.
    + apply Hk, HS. apply Z.ltb_ge in E. exact E.
  - right. split.
    + destruct (r1 <? 0) eqn:E; cbn [fst snd].
      * apply Z.ltb_lt in E. lia.
      * apply Z.ltb_ge in E. apply Hd, H1, E.
    + destruct (r2 <? 0) eqn:E; cbn [fst snd].
      * apply Z.ltb_lt in E. lia.
      * apply Z.ltb_ge in E. apply Hd, H2, E.
Qed.

Lemma __entity_doomed check type v d p k :
  Doom p ->
  (forall q, Doom q -> 0 <= fst (k q) -> Doom (snd (k q))) ->
  0 <= fst (__entity entity check type v d p k) ->
  Doom (snd (__entity entity check type v d p k)).
Proof.
  intros Hp Hk. unfold __entity.
  destruct (negb (check v)); [cbn; unfold EINVAL; lia|].
  pose proof (entity_doomed type v d p Hp) as He.
  destruct (entity type v d p) as [r q]. cbn [fst snd] in He.
  destruct (r <? 0) eqn:E; cbn [fst snd].
  - apply Z.ltb_lt in E. lia.
  - apply Z.ltb_ge in E. apply Hk, He, E.
Qed.

Lemma ffs_do_single_desc_sim data p1 p2 :
  Rel p1 p2 ->
  sim_post Rel Doom (ffs_do_single_desc entity data p1)
    (ffs_do_single_desc entity data p2).
Proof.
  intros Hs. unfold ffs_do_single_desc.
  assert (Hneg : - EINVAL < 0) by (unfold EINVAL; lia).
  cbv zeta.
  repeat match goal with
         | |- context [if ?c then _ else _] => destruct c
         end;
    repeat first
      [ apply sim_post_error; exact Hneg
      | apply sim_post_done; assumption
      | apply __entity_sim; [assumption | intros ? ? ? | intros ? ?]
      | apply __entity_doomed; [assumption | intros ? ?]
      | (cbn [fst snd]; intros _; assumption) ].
Qed.

Lemma ffs_do_descs_loop_sim fuel count num data consumed p1 p2 :
  Rel p1 p2 ->
  sim_post Rel Doom (ffs_do_descs_loop entity fuel count num data consumed p1)
    (ffs_do_descs_loop entity fuel count num data consumed p2).
Proof.
  revert num data consumed p1 p2.
  induction fuel as [|fuel IH]; intros num data consumed p1 p2 Hs.
  { apply sim_post_error. unfold EINVAL. lia. }
  cbn [ffs_do_descs_loop].
  assert (Hun : forall f c n dt cs q,
             Doom q ->
             0 <= fst (ffs_do_descs_loop entity f c n dt cs q) ->
             Doom (snd (ffs_do_descs_loop entity f c n dt cs q))).
  { intros f c n dt cs q Hq.
    exact (proj2 (ffs_do_descs_loop_post entity Doom (fun _ => True)
                    (fun _ _ => Logic.I) entity_doomed_post f c n dt cs q Hq)). }
  assert (Hun1 : forall dt q,
             Doom q ->
             0 <= fst (ffs_do_single_desc entity dt q) ->
             Doom (snd (ffs_do_single_desc entity dt q))).
  { intros dt q Hq.
    exact (proj2 (ffs_do_single_desc_post entity Doom (fun _ => True)
                    (fun _ _ => Logic.I) entity_doomed_post dt q Hq)). }
  (* the rest of a round, for one walk that has left the other *)
  assert (Hrest : forall r q,
             (0 <= r -> Doom q) ->
             let res :=
               if r <? 0 then (r, q)
               else if (num =? count)%N then (Z.of_N consumed, q)
               else
                 let '(ret, priv2) := ffs_do_single_desc entity data q in
                 if ret <? 0 then (ret, priv2)
                 else ffs_do_descs_loop entity fuel count (num + 1)%N
                        (advance (Z.to_N ret) data) (consumed + Z.to_N ret)%N
                        priv2 in
             0 <= fst res -> Doom (snd res)).
  { intros r q Hq. cbv zeta.
    destruct (r <? 0) eqn:E; cbn [fst snd].
    { apply Z.ltb_lt in E. lia. }
    apply Z.ltb_ge in E. specialize (Hq E).
    destruct (num =? count)%N; [intros _; exact Hq|].
    pose proof (Hun1 data q Hq) as H1.
    destruct (ffs_do_single_desc entity data q) as [ret q2].
    cbn [fst snd] in H1.
    destruct (ret <? 0) eqn:E2; cbn [fst snd].
    { apply Z.ltb_lt in E2. lia. }
    apply Z.ltb_ge in E2. apply Hun, H1, E2. }
  destruct (entity_sim FFS_DESCRIPTOR num
              (if (num =? count)%N then [] else data) p1 p2 Hs)
    as [[Hr HS]|[H1 H2]];
    destruct (entity FFS_DESCRIPTOR num _ p1) as [r1 q1],
      (entity FFS_DESCRIPTOR num _ p2) as [r2 q2];
    cbn [fst snd] in *.
  2:{ right. split; [exact (Hrest r1 q1 H1)|exact (Hrest r2 q2 H2)]. }
  subst r2. destruct (r1 <? 0) eqn:E.
  { apply sim_post_error. apply Z.ltb_lt in E. exact E. }
  apply Z.ltb_ge in E. specialize (HS E).
  destruct (num =? count)%N; [apply sim_post_done, HS|].
  destruct (ffs_do_single_desc_sim data q1 q2 HS) as [[Hr HS2]|[H1 H2]];
    pose proof (Hun1 data q1) as U1; pose proof (Hun1 data q2) as U2;
    destruct (ffs_do_single_desc entity data q1) as [s1 t1],
      (ffs_do_single_desc entity data q2) as [s2 t2];
    cbn [fst snd] in *.
  - subst s2. destruct (s1 <? 0) eqn:E2.
    + apply sim_post_error. apply Z.ltb_lt in E2. exact E2.
    + apply IH, HS2. apply Z.ltb_ge in E2. exact E2.
  - right. split.
    + destruct (s1 <? 0) eqn:E2; cbn [fst snd].
      * apply Z.ltb_lt in E2. lia.
      * apply Z.ltb_ge in E2. apply Hun, H1, E2.
    + destruct (s2 <? 0) eqn:E2; cbn [fst snd].
      * apply Z.ltb_lt in E2. lia.
      * apply Z.ltb_ge in E2. apply Hun, H2, E2.
Qed.

Lemma ffs_do_descs_sim count data p1 p2 :
  Rel p1 p2 ->
  sim_post Rel Doom (ffs_do_descs entity count data p1)
    (ffs_do_descs entity count data p2).
Proof. apply ffs_do_descs_loop_sim. Qed.
End WalkSimulation.

Lemma parser_fields_counts f g :
  parser_fields f = parser_fields g ->
  strings_count f = strings_count g /\
  interfaces_count f = interfaces_count g /\
  eps_count f = eps_count g.
Proof. unfold parser_fields. intros H. inversion H. auto. Qed.

Lemma parser_fields_first_tier f g :
  parser_fields f = parser_fields g -> first_tier f = first_tier g.
Proof.
  intros H. destruct (parser_fields_counts f g H) as (_ & Hi & He).
  unfold first_tier. now rewrite Hi, He.
Qed.

Lemma parser_fields_set_strings_count v f g :
  parser_fields f = parser_fields g ->
  parser_fields (set_strings_count v f) = parser_fields (set_strings_count v g).
Proof.
  unfold parser_fields. intros H. inversion H.
  cbn [set_strings_count state setup_state raw_descs_data raw_descs
         raw_descs_length fs_descs_count hs_descs_count ss_descs_count
         ms_os_descs_ext_prop_count ms_os_descs_ext_prop_name_len
         ms_os_descs_ext_prop_data_len strings_count interfaces_count
         eps_count stringtabs raw_strings].
  congruence.
Qed.

Lemma do_entity_sim type v d p1 p2 :
  walk_agree p1 p2 ->
  sim_post walk_agree walk_doomed (__ffs_data_do_entity type v d p1)
    (__ffs_data_do_entity type v d p2).
Proof.
  destruct p1 as [h f1], p2 as [h2 f2].
  intros (Hh & Hf & Hle & Hlen & Hcells). cbn [fst snd] in *. subst h2.
  destruct (parser_fields_counts f1 f2 Hf) as (Hsc & Hic & Hec).
  pose proof (parser_fields_first_tier f1 f2 Hf) as Hft.
  destruct type; cbn [__ffs_data_do_entity].
  - left. cbn [fst snd]. split; [reflexivity|]. intros _.
    repeat split; assumption.
  - destruct (helper_interfaces_count h <=? v)%N; left; cbn [fst snd];
      (split; [reflexivity|]); intros _; repeat split; assumption.
  - rewrite <- Hsc.
    destruct (strings_count f1 <? v)%N; left; cbn [fst snd];
      (split; [reflexivity|]); intros _.
    + split; [reflexivity|].
      split; [apply parser_fields_set_strings_count, Hf|].
      split; [assumption|]. split; [exact Hlen|exact Hcells].
    + repeat split; assumption.
  - rewrite (N.mod_small (helper_eps_count h + 1)) by lia.
    destruct (N.leb_spec 15 (helper_eps_count h + 1)) as [H15|H15].
    { left. cbn [fst snd]. split; [reflexivity|]. unfold EINVAL. lia. }
    fold (first_tier f1). fold (first_tier f2). rewrite <- Hft.
    destruct (first_tier f1) eqn:Eft.
    + left. cbn [fst snd]. split; [reflexivity|]. intros _.
      split; [reflexivity|]. split; [exact Hf|].
      split; [cbn [fst snd helper_eps_count]; lia|].
      cbn [fst snd helper_eps_count].
      change (first_tier (set_eps_addrmap _ f1)) with (first_tier f1).
      rewrite Eft. split.
      * cbn [set_eps_addrmap eps_addrmap]. rewrite !array_set_length.
        exact Hlen.
      * intros i Hi. unfold array_get.
        cbn [set_eps_addrmap eps_addrmap]. rewrite !array_set_nth, <- Hlen.
        destruct (Nat.eqb_spec i (N.to_nat (helper_eps_count h + 1)))
          as [Ei|Ei]; cbn [andb].
        -- destruct (Nat.ltb_spec (N.to_nat (helper_eps_count h + 1))
                       (length (eps_addrmap f1))) as [Hin|Hout];
             [reflexivity|].
           rewrite !nth_overflow by lia. reflexivity.
        -- apply Hcells. lia.
    + destruct (N.leb_spec (helper_eps_count h + 1) (eps_count f1))
        as [Hin|Hout].
      * assert (Hc : array_get (eps_addrmap f1)
                       (N.to_nat (helper_eps_count h + 1))
                     = array_get (eps_addrmap f2)
                         (N.to_nat (helper_eps_count h + 1)))
          by (apply Hcells; lia).
        rewrite <- Hc.
        destruct (negb _); left; cbn [fst snd];
          (split; [reflexivity|]); [unfold EINVAL; lia|].
        intros _. split; [reflexivity|]. split; [exact Hf|].
        split; [cbn [fst snd helper_eps_count]; lia|].
        cbn [fst snd helper_eps_count]. rewrite Eft.
        split; [exact Hlen|exact Hcells].
      * right.
        assert (Hd1 : walk_doomed
                        (mk_helper (helper_interfaces_count h)
                           (helper_eps_count h + 1), f1)).
        { split; [exact Eft|]. cbn [fst snd helper_eps_count]. lia. }
        assert (Hd2 : walk_doomed
                        (mk_helper (helper_interfaces_count h)
                           (helper_eps_count h + 1), f2)).
        { split; [cbn [snd]; symmetry; exact Hft|].
          cbn [fst snd helper_eps_count]. lia. }
        split; destruct (negb _); cbn [fst snd]; intros _; assumption.
Qed.

Lemma do_entity_doomed type v d p :
  walk_doomed p ->
  0 <= fst (__ffs_data_do_entity type v d p) ->
  walk_doomed (snd (__ffs_data_do_entity type v d p)).
Proof.
  destruct p as [h f]. intros [Hft Hr]. cbn [fst snd] in *.
  destruct type; cbn [__ffs_data_do_entity].
  - intros _. split; assumption.
  - destruct (helper_interfaces_count h <=? v)%N; intros _; split;
      assumption.
  - destruct (strings_count f <? v)%N; intros _; split; assumption.
  - rewrite (N.mod_small (helper_eps_count h + 1)) by lia.
    destruct (N.leb_spec 15 (helper_eps_count h + 1)) as [H15|H15].
    { cbn [fst]. unfold EINVAL. lia. }
    fold (first_tier f). rewrite Hft.
    destruct (negb _); cbn [fst snd]; intros _;
      (split; [exact Hft|cbn [fst snd helper_eps_count]; lia]).
Qed.

Lemma parser_fields_set_counts e i f g :
  parser_fields f = parser_fields g ->
  parser_fields (set_counts e i f) = parser_fields (set_counts e i g).
Proof.
  unfold parser_fields. intros H. inversion H.
  cbn [set_counts state setup_state raw_descs_data raw_descs
         raw_descs_length fs_descs_count hs_descs_count ss_descs_count
         ms_os_descs_ext_prop_count ms_os_descs_ext_prop_name_len
         ms_os_descs_ext_prop_data_len strings_count interfaces_count
         eps_count stringtabs raw_strings].
  congruence.
Qed.

Lemma read_descs_sim counts :
  forall data f g,
    parse_agree f g ->
    fst (fst (read_descs counts data f)) = fst (fst (read_descs counts data g))
    /\ (0 <= fst (fst (read_descs counts data f)) ->
        snd (fst (read_descs counts data f))
        = snd (fst (read_descs counts data g)) /\
        parse_agree (snd (read_descs counts data f))
          (snd (read_descs counts data g))).
Proof.
  induction counts as [|c counts IH]; intros data f g Hfg;
    cbn [read_descs].
  { cbn [fst snd]. split; [reflexivity|]. intros _. split; [reflexivity|].
    exact Hfg. }
  destruct (c =? 0)%N; [apply IH, Hfg|].
  destruct Hfg as [Hf [Hlen Hcells]].
  assert (Hs : walk_agree (mk_helper 0 0, f) (mk_helper 0 0, g)).
  { split; [reflexivity|]. split; [exact Hf|]. cbn [fst snd helper_eps_count].
    split; [lia|]. split; [exact Hlen|]. intros i Hi. apply Hcells.
    destruct (first_tier f); cbn in Hi; lia. }
  pose proof (ffs_do_descs_sim __ffs_data_do_entity walk_agree walk_doomed
                do_entity_sim do_entity_doomed c data _ _ Hs) as Hsim.
  pose proof (ffs_do_descs_loop_einval __ffs_data_do_entity do_entity_einval
                (S (length data)) c 0%N data 0%N (mk_helper 0 0, f)) as He1.
  pose proof (ffs_do_descs_loop_einval __ffs_data_do_entity do_entity_einval
                (S (length data)) c 0%N data 0%N (mk_helper 0 0, g)) as He2.
  fold (ffs_do_descs __ffs_data_do_entity c data (mk_helper 0 0, f)) in He1.
  fold (ffs_do_descs __ffs_data_do_entity c data (mk_helper 0 0, g)) in He2.
  unfold einval_only in He1, He2.
  destruct (ffs_do_descs __ffs_data_do_entity c data (mk_helper 0 0, f))
    as [r1 [h1 f1]].
  destruct (ffs_do_descs __ffs_data_do_entity c data (mk_helper 0 0, g))
    as [r2 [h2 f2]].
  cbn [fst snd] in He1, He2.
  (* a walk that is doomed, or has failed, ends the parse with -EINVAL *)
  assert (Hdoom : forall r h f',
             (r < 0 -> r = - EINVAL) ->
             (0 <= r -> walk_doomed (h, f')) ->
             fst (fst (if r <? 0 then (r, data, f')
                       else if (eps_count f' =? 0)%N
                               && (interfaces_count f' =? 0)%N
                       then read_descs counts (advance (Z.to_N r) data)
                              (set_counts (helper_eps_count h)
                                 (helper_interfaces_count h) f')
                       else if negb (eps_count f' =? helper_eps_count h)%N
                       then (- EINVAL, data, f')
                       else if negb (interfaces_count f'
                                     =? helper_interfaces_count h)%N
                       then (- EINVAL, data, f')
                       else read_descs counts (advance (Z.to_N r) data) f'))
             = - EINVAL).
  { intros r h f' Herr Hd.
    destruct (r <? 0) eqn:E.
    { apply Z.ltb_lt in E. cbn [fst]. auto. }
    apply Z.ltb_ge in E. destruct (Hd E) as [Hft Hr]. cbn [fst snd] in *.
    unfold first_tier in Hft. rewrite Hft.
    destruct (N.eqb_spec (eps_count f') (helper_eps_count h)) as [Ee|_];
      [lia|reflexivity]. }
  destruct Hsim as [[Hr HS]|[H1 H2]]; cbn [fst snd] in *.
  2:{ rewrite (Hdoom r1 h1 f1 He1 H1), (Hdoom r2 h2 f2 He2 H2).
      split; [reflexivity|]. unfold EINVAL. lia. }
  subst r2. destruct (r1 <? 0) eqn:E.
  { cbn [fst snd]. split; [reflexivity|]. apply Z.ltb_lt in E. lia. }
  apply Z.ltb_ge in E.
  destruct (HS E) as (Hh & Hf' & Hle & Hlen' & Hcells').
  cbn [fst snd] in *. subst h2.
  destruct (parser_fields_counts f1 f2 Hf') as (_ & Hic & Hec).
  rewrite <- Hic, <- Hec.
  fold (first_tier f1) in *.
  destruct (first_tier f1) eqn:Eft.
  - apply IH. split; [apply parser_fields_set_counts, Hf'|].
    split; [exact Hlen'|exact Hcells'].
  - destruct (negb (eps_count f1 =? helper_eps_count h1)%N).
    { cbn [fst snd]. split; [reflexivity|]. unfold EINVAL. lia. }
    destruct (negb (interfaces_count f1 =? helper_interfaces_count h1)%N).
    { cbn [fst snd]. split; [reflexivity|]. unfold EINVAL. lia. }
    apply IH. split; [exact Hf'|]. split; [exact Hlen'|exact Hcells'].
Qed.

Section OsWalkSimulation.
Context {P : Type}.
Variable entity : ffs_os_desc_callback P.
Variable R : P -> P -> Prop.
Hypothesis entity_sim :
  forall type h d p1 p2,
    R p1 p2 ->
    fst (entity type h d p1) = fst (entity type h d p2) /\
    R (snd (entity type h d p1)) (snd (entity type h d p2)).

Lemma ffs_do_single_os_desc_loop_sim n :
  forall data consumed type h p1 p2,
    R p1 p2 ->
    fst (ffs_do_single_os_desc_loop entity n data consumed type h p1)
    = fst (ffs_do_single_os_desc_loop entity n data consumed type h p2) /\
    R (snd (ffs_do_single_os_desc_loop entity n data consumed type h p1))
      (snd (ffs_do_single_os_desc_loop entity n data consumed type h p2)).
Proof.
  induction n as [|n IH]; intros data consumed type h p1 p2 HR;
    cbn [ffs_do_single_os_desc_loop].
  - cbn [fst snd]. split; [reflexivity|exact HR].
  - destruct (entity_sim type h data p1 p2 HR) as [Hr HR'].
    destruct (entity type h data p1) as [r1 q1],
      (entity type h data p2) as [r2 q2].
    cbn [fst snd] in *. subst r2.
    destruct (r1 <? 0); [cbn [fst snd]; split; [reflexivity|exact HR']|].
    apply IH, HR'.
Qed.

Lemma ffs_do_os_descs_loop_sim fuel :
  forall count num data consumed p1 p2,
    R p1 p2 ->
    fst (ffs_do_os_descs_loop entity fuel count num data consumed p1)
    = fst (ffs_do_os_descs_loop entity fuel count num data consumed p2) /\
    R (snd (ffs_do_os_descs_loop entity fuel count num data consumed p1))
      (snd (ffs_do_os_descs_loop entity fuel count num data consumed p2)).
Proof.
  induction fuel as [|fuel IH]; intros count num data consumed p1 p2 HR;
    cbn [ffs_do_os_descs_loop].
  { cbn [fst snd]. split; [reflexivity|exact HR]. }
  assert (Hleaf : forall z : Z, fst (z, p1) = fst (z, p2) /\
                                R (snd (z, p1)) (snd (z, p2)))
    by (intros z; cbn [fst snd]; split; [reflexivity|exact HR]).
  destruct (negb (num <? count)%N); [apply Hleaf|].
  destruct (blen data <? sizeof_usb_os_desc_header)%N; [apply Hleaf|].
  destruct (blen data <? _)%N; [apply Hleaf|].
  destruct (__ffs_do_os_desc_header data) as [ret type].
  destruct (ret <? 0); [apply Hleaf|].
  destruct (_ && _); [apply Hleaf|].
  unfold ffs_do_single_os_desc.
  match goal with
  | |- context [ffs_do_single_os_desc_loop entity ?n ?d ?c ?t ?h p1] =>
      destruct (ffs_do_single_os_desc_loop_sim n d c t h p1 p2 HR)
        as [Hr HR'];
      destruct (ffs_do_single_os_desc_loop entity n d c t h p1) as [r1 q1];
      destruct (ffs_do_single_os_desc_loop entity n d c t h p2) as [r2 q2]
  end.
  cbn [fst snd] in *. subst r2.
  destruct (r1 <? 0); [cbn [fst snd]; split; [reflexivity|exact HR']|].
  apply IH, HR'.
Qed.
End OsWalkSimulation.

Lemma parser_fields_add_ext_prop n d f g :
  parser_fields f = parser_fields g ->
  parser_fields (add_ext_prop n d f) = parser_fields (add_ext_prop n d g).
Proof.
  unfold parser_fields. intros H. inversion H.
  cbn [add_ext_prop state setup_state raw_descs_data raw_descs
         raw_descs_length fs_descs_count hs_descs_count ss_descs_count
         ms_os_descs_ext_prop_count ms_os_descs_ext_prop_name_len
         ms_os_descs_ext_prop_data_len strings_count interfaces_count
         eps_count stringtabs raw_strings].
  congruence.
Qed.

Lemma parser_fields_set_raw_descs _data raw rlen c0 c1 c2 os f g :
  parser_fields f = parser_fields g ->
  parser_fields (set_raw_descs _data raw rlen c0 c1 c2 os f)
  = parser_fields (set_raw_descs _data raw rlen c0 c1 c2 os g).
Proof.
  unfold parser_fields. intros H. inversion H.
  cbn [set_raw_descs state setup_state raw_descs_data raw_descs
         raw_descs_length fs_descs_count hs_descs_count ss_descs_count
         ms_os_descs_ext_prop_count ms_os_descs_ext_prop_name_len
         ms_os_descs_ext_prop_data_len strings_count interfaces_count
         eps_count stringtabs raw_strings].
  congruence.
Qed.

Lemma do_os_desc_sim type h d f g :
  parse_agree f g ->
  fst (__ffs_data_do_os_desc type h d f) = fst (__ffs_data_do_os_desc type h d g)
  /\ parse_agree (snd (__ffs_data_do_os_desc type h d f))
       (snd (__ffs_data_do_os_desc type h d g)).
Proof.
  intros Hfg. pose proof Hfg as [Hf [Hlen Hcells]].
  destruct (parser_fields_counts f g Hf) as (_ & Hic & _).
  unfold __ffs_data_do_os_desc. rewrite <- Hic.
  destruct type;
    repeat match goal with
           | |- context [if ?c then _ else _] => destruct c
           end;
    cbn [fst snd]; (split; [reflexivity|]); try exact Hfg.
  split; [apply parser_fields_add_ext_prop, Hf|].
  split; [exact Hlen|exact Hcells].
Qed.

Lemma got_descs_body_sim fdget f g _data flags data :
  parse_agree f g ->
  fst (got_descs_body fdget f _data flags data)
  = fst (got_descs_body fdget g _data flags data) /\
  (fst (got_descs_body fdget f _data flags data) = 0 ->
   parse_agree (snd (got_descs_body fdget f _data flags data))
     (snd (got_descs_body fdget g _data flags data)) /\
   ms_os_descs_count (snd (got_descs_body fdget f _data flags data))
   = ms_os_descs_count (snd (got_descs_body fdget g _data flags data))).
Proof.
  intros Hfg. unfold got_descs_body.
  assert (Herr : forall z (a b : ffs_data),
             z <> 0 ->
             fst (z, a) = fst (z, b) /\
             (fst (z, a) = 0 ->
              parse_agree (snd (z, a)) (snd (z, b)) /\
              ms_os_descs_count (snd (z, a)) = ms_os_descs_count (snd (z, b)))).
  { intros z a b Hz. cbn [fst snd]. split; [reflexivity|]. intros E.
    contradiction. }
  assert (Hneg : - EINVAL <> 0) by (unfold EINVAL; lia).
  (* the part after the eventfd flag *)
  assert (Hrest : forall f0 g0 data0,
             parse_agree f0 g0 ->
             let rest := fun ffs : ffs_data =>
               let '(ok, counts, data) :=
                 read_counts flags
                   [FUNCTIONFS_HAS_FS_DESC; FUNCTIONFS_HAS_HS_DESC;
                    FUNCTIONFS_HAS_SS_DESC] data0 in
               if negb ok then (- EINVAL, ffs)
               else
                 let has_os :=
                   negb (N.land flags FUNCTIONFS_HAS_MS_OS_DESC =? 0)%N in
                 if has_os && (blen data <? 4)%N then (- EINVAL, ffs)
                 else
                   let os_descs_count :=
                     if has_os then get_unaligned_le32 data else 0%N in
                   let data := if has_os then advance 4 data else data in
                   let raw_descs := data in
                   let '(ret, data, ffs) := read_descs counts data ffs in
                   if ret <? 0 then (ret, ffs)
                   else
                     let '(ret, data, ffs) :=
                       if negb (os_descs_count =? 0)%N then
                         let '(r, ffs1) :=
                           ffs_do_os_descs __ffs_data_do_os_desc
                             os_descs_count data ffs in
                         if r <? 0 then (r, data, ffs1)
                         else (r, advance (Z.to_N r) data, ffs1)
                       else (ret, data, ffs) in
                     if ret <? 0 then (ret, ffs)
                     else if (length raw_descs =? length data)%nat
                             || negb (blen data =? 0)%N
                     then (- EINVAL, ffs)
                     else
                       (0, set_raw_descs _data raw_descs
                             (blen raw_descs - blen data)%N
                             (nth 0 counts 0%N) (nth 1 counts 0%N)
                             (nth 2 counts 0%N) os_descs_count ffs) in
             fst (rest f0) = fst (rest g0) /\
             (fst (rest f0) = 0 ->
              parse_agree (snd (rest f0)) (snd (rest g0)) /\
              ms_os_descs_count (snd (rest f0))
              = ms_os_descs_count (snd (rest g0)))).
  { intros f0 g0 data0 H0. cbv zeta.
    destruct (read_counts flags _ data0) as [[ok counts] data1].
    destruct (negb ok); [apply Herr, Hneg|].
    destruct (_ && _); [apply Herr, Hneg|].
    match goal with
    | |- context [read_descs counts ?d f0] =>
        destruct (read_descs_sim counts d f0 g0 H0) as [Hr Hok];
        destruct (read_descs counts d f0) as [[r1 d1] f1];
        destruct (read_descs counts d g0) as [[r2 d2] f2]
    end.
    cbn [fst snd] in Hr, Hok. subst r2.
    destruct (r1 <? 0) eqn:E1.
    { apply Herr. apply Z.ltb_lt in E1. lia. }
    apply Z.ltb_ge in E1. destruct (Hok E1) as [Hd H1]. subst d2.
    destruct (negb _).
    - unfold ffs_do_os_descs.
      match goal with
      | |- context [ffs_do_os_descs_loop __ffs_data_do_os_desc ?fu ?c ?n ?d
                      ?cs f1] =>
          destruct (ffs_do_os_descs_loop_sim __ffs_data_do_os_desc
                      parse_agree do_os_desc_sim fu c n d cs f1 f2 H1)
            as [Hr2 H2];
          destruct (ffs_do_os_descs_loop __ffs_data_do_os_desc fu c n d cs f1)
            as [s1 t1];
          destruct (ffs_do_os_descs_loop __ffs_data_do_os_desc fu c n d cs f2)
            as [s2 t2]
      end.
      cbn [fst snd] in Hr2, H2. subst s2.
      destruct (s1 <? 0) eqn:E2.
      + rewrite E2. apply Herr. apply Z.ltb_lt in E2. lia.
      + rewrite E2. destruct (_ || _); [apply Herr, Hneg|].
        cbn [fst snd]. split; [reflexivity|]. intros _.
        destruct H2 as [Hf2 [Hl2 Hc2]].
        split; [|reflexivity].
        split; [apply parser_fields_set_raw_descs, Hf2|].
        split; [exact Hl2|exact Hc2].
    - rewrite (proj2 (Z.ltb_ge r1 0) E1).
      destruct (_ || _); [apply Herr, Hneg|].
      cbn [fst snd]. split; [reflexivity|]. intros _.
      destruct H1 as [Hf2 [Hl2 Hc2]].
      split; [|reflexivity].
      split; [apply parser_fields_set_raw_descs, Hf2|].
      split; [exact Hl2|exact Hc2]. }
  destruct (negb (N.land flags FUNCTIONFS_EVENTFD =? 0)%N).
  - destruct (blen data <? 4)%N.
    { cbn [Z.ltb Z.compare EINVAL Z.opp]. apply Herr. lia. }
    destruct (fdget _ <? 0) eqn:Ef.
    { rewrite Ef. apply Herr. apply Z.ltb_lt in Ef. lia. }
    cbn [Z.ltb Z.compare].
    apply (Hrest (set_ffs_eventfd _ f) (set_ffs_eventfd _ g)). exact Hfg.
  - cbn [Z.ltb Z.compare]. apply (Hrest f g). exact Hfg.
Qed.

Lemma got_descs_sim fdget f g _data :
  parse_agree f g ->
  fst (__ffs_data_got_descs fdget f _data)
  = fst (__ffs_data_got_descs fdget g _data) /\
  (fst (__ffs_data_got_descs fdget f _data) = 0 ->
   parse_agree (snd (__ffs_data_got_descs fdget f _data))
     (snd (__ffs_data_got_descs fdget g _data)) /\
   ms_os_descs_count (snd (__ffs_data_got_descs fdget f _data))
   = ms_os_descs_count (snd (__ffs_data_got_descs fdget g _data))).
Proof.
  intros Hfg. unfold __ffs_data_got_descs.
  assert (Herr : forall z (a b : ffs_data),
             z <> 0 ->
             fst (z, a) = fst (z, b) /\
             (fst (z, a) = 0 ->
              parse_agree (snd (z, a)) (snd (z, b)) /\
              ms_os_descs_count (snd (z, a)) = ms_os_descs_count (snd (z, b)))).
  { intros z a b Hz. cbn [fst snd]. split; [reflexivity|]. intros E.
    contradiction. }
  destruct (negb _); [apply Herr; unfold EINVAL; lia|].
  destruct (_ =? FUNCTIONFS_DESCRIPTORS_MAGIC)%N.
  { apply got_descs_body_sim, Hfg. }
  destruct (_ =? FUNCTIONFS_DESCRIPTORS_MAGIC_V2)%N;
    [|apply Herr; unfold EINVAL; lia].
  destruct (negb _); [apply Herr; unfold ENOSYS; lia|].
  apply (got_descs_body_sim fdget (set_user_flags _ f) (set_user_flags _ g)).
  exact Hfg.
Qed.

(** X24.  A session that has been reset parses descriptors like a new one,
    although [ffs_data_reset] leaves [eps_addrmap] (and [user_flags],
    [ffs_eventfd], [ms_os_descs_count]) as they were.  For every blob,
    [__ffs_data_got_descs] returns the same value on a session after the
    assignments of [ffs_data_reset] as on one from [ffs_data_new]; and when
    the blob is accepted the two sessions hold the same descriptors, the
    same counts of descriptors, strings, interfaces, endpoints and OS
    descriptors, and the same endpoint addresses in the cells 1 to
    [eps_count] of [eps_addrmap]. *)
Theorem reset_session_parses_like_new (eventfd_ctx_fdget : Z -> Z)
    (ffs_closed : Session.ffs_session -> Session.ffs_session)
    (s : Session.ffs_session) (blob : list byte) :
  length (eps_addrmap (Session.data (ffs_closed s))) = 15%nat ->
  let r1 := __ffs_data_got_descs eventfd_ctx_fdget
              (Session.data (Session.ffs_data_reset ffs_closed s)) blob in
  let r2 := __ffs_data_got_descs eventfd_ctx_fdget ffs_data_new blob in
  fst r1 = fst r2 /\
  (fst r1 = 0 ->
   parser_fields (snd r1) = parser_fields (snd r2) /\
   ms_os_descs_count (snd r1) = ms_os_descs_count (snd r2) /\
   forall i, (1 <= i <= N.to_nat (eps_count (snd r1)))%nat ->
     array_get (eps_addrmap (snd r1)) i = array_get (eps_addrmap (snd r2)) i).
Proof.
  intros Hlen r1 r2.
  assert (H0 : parse_agree
                 (Session.data (Session.ffs_data_reset ffs_closed s))
                 ffs_data_new).
  { split; [reflexivity|]. split; [exact Hlen|].
    intros i Hi. cbn in Hi. lia. }
  destruct (got_descs_sim eventfd_ctx_fdget _ _ blob H0) as [Hr Hok].
  split; [exact Hr|]. intros E.
  destruct (Hok E) as [[Hf [_ Hc]] Hos].
  split; [exact Hf|]. split; [exact Hos|exact Hc].
Qed.

Lemma reset_session_parses_like_new_witness :
  fst (__ffs_data_got_descs (fun fd => fd)
         (Session.data
            (Session.ffs_data_reset Session.ffs_closed_nobody
               Session.session_one_endpoint))
         blob_other_endpoint)
  = fst (__ffs_data_got_descs (fun fd => fd) ffs_data_new
           blob_other_endpoint).
Proof.
  exact (proj1 (reset_session_parses_like_new (fun fd => fd)
                  Session.ffs_closed_nobody Session.session_one_endpoint
                  blob_other_endpoint eq_refl)).
Defined.

(** ** Accepted strings *)

Lemma firstn_strnlen_nul_free data : nul_free (firstn (strnlen data) data).
Proof.
  induction data as [|b data IH]; [constructor|].
  cbn [strnlen]. destruct (N.eqb_spec (u8 b) 0) as [E|E]; [constructor|].
  cbn [firstn]. constructor; [|exact IH].
  intros ->. apply E. reflexivity.
Qed.

(** What a successful run of the inner loop keeps: one string per round
    while strings are needed, each without a NUL. *)
Lemma strings_loop_kept fuel :
  forall str_count needed data kept r,
    (0 < str_count < 2 ^ 32)%N ->
    Forall nul_free kept ->
    strings_loop fuel str_count needed data kept = Some r ->
    Forall nul_free (snd r) /\
    length (snd r)
    = (length kept + N.to_nat (N.min needed str_count))%nat.
Proof.
  induction fuel as [|fuel IH]; intros sc needed data kept r Hsc Hk H;
    [discriminate|].
  cbn [strings_loop] in H.
  destruct (Nat.eqb_spec (strnlen data) (length data)) as [E|E];
    [discriminate|].
  set (sc1 := ((sc + (2 ^ 32 - 1)) mod 2 ^ 32)%N) in *.
  assert (Hsc1 : sc1 = (sc - 1)%N).
  { unfold sc1.
    replace (sc + (2 ^ 32 - 1))%N with ((sc - 1) + 1 * 2 ^ 32)%N by lia.
    rewrite N.Div0.mod_add. apply N.mod_small. lia. }
  set (kept1 := if negb (needed =? 0)%N
                then kept ++ [firstn (strnlen data) data] else kept) in *.
  assert (Hk1 : Forall nul_free kept1).
  { unfold kept1. destruct (negb (needed =? 0)%N); [|exact Hk].
    apply Forall_app. split; [exact Hk|].
    constructor; [apply firstn_strnlen_nul_free|constructor]. }
  assert (Hl1 : length kept1
                = (length kept + (if (needed =? 0)%N then 0 else 1))%nat).
  { unfold kept1. destruct (needed =? 0)%N; cbn [negb];
      [lia|rewrite length_app; cbn; lia]. }
  destruct (N.eqb_spec sc1 0) as [E1|E1].
  - inversion H; subst r. cbn [snd]. split; [exact Hk1|].
    rewrite Hl1. destruct (N.eqb_spec needed 0); lia.
  - apply IH in H; [|lia|exact Hk1].
    destruct H as [Hf Hlen]. split; [exact Hf|].
    rewrite Hlen, Hl1.
    destruct (N.eqb_spec needed 0) as [->|Hn]; cbn [negb]; lia.
Qed.

Ltac bad_ret :=
  let H := fresh in
  intros H; exfalso; cbn in H; unfold EINVAL, ENOMEM in H; lia.

(** X25.  What an accepted strings blob leaves.  When a descriptor names a
    string ([strings_count] is not zero) and [__ffs_data_got_strings]
    returns [0], the blob declares exactly one language and at least
    [strings_count] strings, and the session holds one table, for that
    language, with exactly [strings_count] strings, none containing a NUL:
    every string index a descriptor uses (1 to [strings_count]) has its
    entry [strings[index - 1]].  When no descriptor names a string, a blob
    with a valid header (sixteen bytes or more, the strings magic, its own
    length, and string and language counts both zero or both not) is
    accepted unread, whatever follows the header, and the session is left
    as it was, without tables; no other blob is accepted then. *)
Theorem accepted_strings_table (alloc_ok : bool) (ffs : ffs_data)
    (_data : list byte) :
  (strings_count ffs = 0%N ->
   ((16 <= blen _data)%N /\
    get_unaligned_le32 _data = FUNCTIONFS_STRINGS_MAGIC /\
    get_unaligned_le32 (advance 4 _data) = blen _data /\
    (get_unaligned_le32 (advance 8 _data) = 0%N <->
     get_unaligned_le32 (advance 12 _data) = 0%N) ->
    __ffs_data_got_strings alloc_ok ffs _data = (0, ffs)) /\
   (fst (__ffs_data_got_strings alloc_ok ffs _data) = 0 ->
    (16 <= blen _data)%N /\
    get_unaligned_le32 _data = FUNCTIONFS_STRINGS_MAGIC /\
    get_unaligned_le32 (advance 4 _data) = blen _data /\
    (get_unaligned_le32 (advance 8 _data) = 0%N <->
     get_unaligned_le32 (advance 12 _data) = 0%N))) /\
  (fst (__ffs_data_got_strings alloc_ok ffs _data) = 0 ->
   strings_count ffs <> 0%N ->
   get_unaligned_le32 (advance 12 _data) = 1%N /\
   (strings_count ffs <= get_unaligned_le32 (advance 8 _data))%N /\
   exists kept,
     snd (__ffs_data_got_strings alloc_ok ffs _data)
     = set_strings [(get_unaligned_le16 (advance 16 _data), kept)] _data ffs /\
     N.of_nat (length kept) = strings_count ffs /\
     Forall nul_free kept).
Proof.
  split.
  - intros H0. unfold __ffs_data_got_strings. rewrite H0. cbn [N.eqb].
    destruct (N.ltb_spec (blen _data) 16) as [H16|H16]; cbn [orb].
    { split; [intros (H & _); lia|bad_ret]. }
    destruct (N.eqb_spec (get_unaligned_le32 _data) FUNCTIONFS_STRINGS_MAGIC)
      as [Em|Em]; cbn [negb orb].
    2:{ split; [intros (_ & H & _); contradiction|bad_ret]. }
    destruct (N.eqb_spec (get_unaligned_le32 (advance 4 _data)) (blen _data))
      as [El|El]; cbn [negb].
    2:{ split; [intros (_ & _ & H & _); contradiction|bad_ret]. }
    destruct (N.eqb_spec (get_unaligned_le32 (advance 8 _data)) 0) as [Es|Es];
      destruct (N.eqb_spec (get_unaligned_le32 (advance 12 _data)) 0)
        as [Ec|Ec]; cbn [Bool.eqb negb].
    + destruct (N.ltb_spec (get_unaligned_le32 (advance 8 _data)) 0); [lia|].
      split; [reflexivity|]. intros _. repeat split; auto.
    + split; [intros (_ & _ & _ & H); exfalso; apply Ec, H, Es|bad_ret].
    + split; [intros (_ & _ & _ & H); exfalso; apply Es, H, Ec|bad_ret].
    + destruct (N.ltb_spec (get_unaligned_le32 (advance 8 _data)) 0); [lia|].
      split; [reflexivity|]. intros _.
      repeat split; auto; intros; contradiction.
  - intros Hret Hn.
    destruct (N.le_gt_cases 2 (get_unaligned_le32 (advance 12 _data)))
      as [H2|H2].
    { rewrite (strings_two_languages_result alloc_ok ffs _data Hn H2) in Hret.
      cbn [fst] in Hret. destruct (_ || _); unfold EINVAL, ENOMEM in Hret; lia. }
    revert Hret. unfold __ffs_data_got_strings.
    destruct (_ || _); [bad_ret|].
    destruct (N.eqb_spec (get_unaligned_le32 (advance 8 _data)) 0) as [Es|Es];
      destruct (N.eqb_spec (get_unaligned_le32 (advance 12 _data)) 0)
        as [El|El]; cbn [Bool.eqb negb];
      try (bad_ret).
    { destruct (N.ltb_spec (get_unaligned_le32 (advance 8 _data))
                  (strings_count ffs)); [bad_ret|lia]. }
    destruct (N.ltb_spec (get_unaligned_le32 (advance 8 _data))
                (strings_count ffs)) as [Hlt|Hge];
      [bad_ret|].
    destruct (N.eqb_spec (strings_count ffs) 0) as [E0|_]; [contradiction|].
    destruct alloc_ok; cbn [negb]; [|bad_ret].
    assert (Hone : get_unaligned_le32 (advance 12 _data) = 1%N) by lia.
    rewrite Hone.
    cbn [langs_loop].
    destruct (blen (advance 16 _data) <? 3)%N; [bad_ret|].
    destruct (strings_loop _ _ _ (advance 2 (advance 16 _data)) [])
      as [[[sc1 data2] kept]|] eqn:E; [|bad_ret].
    pose proof (get_unaligned_le32_lt (advance 8 _data)) as Hb.
    apply strings_loop_kept in E; [|lia|constructor].
    cbn [snd length] in E. destruct E as [Hf Hlen].
    cbn [app].
    change ((1 + (2 ^ 32 - 1)) mod 2 ^ 32)%N with 0%N.
    cbn [N.eqb].
    destruct (negb (blen data2 =? 0)%N); [bad_ret|].
    intros _. cbn [snd].
    split; [reflexivity|]. split; [exact Hge|].
    exists kept. split; [reflexivity|]. split; [lia|exact Hf].
Qed.

Lemma accepted_strings_table_witness :
  get_unaligned_le32
    (advance 12 (strings_blob 1033 [[x61; x62]; [x63]])) = 1%N /\
  (strings_count (set_strings_count 1 ffs_data_new)
   <= get_unaligned_le32
        (advance 8 (strings_blob 1033 [[x61; x62]; [x63]])))%N /\
  __ffs_data_got_strings false ffs_data_new
    (strings_blob 1033 [[x61; x62]; [x63]])
  = (0, ffs_data_new).
Proof.
  split; [|split].
  - destruct (accepted_strings_table true (set_strings_count 1 ffs_data_new)
                (strings_blob 1033 [[x61; x62]; [x63]])) as [_ H].
    destruct H as (H1 & _); [reflexivity|discriminate|]. exact H1.
  - destruct (accepted_strings_table true (set_strings_count 1 ffs_data_new)
                (strings_blob 1033 [[x61; x62]; [x63]])) as [_ H].
    destruct H as (_ & H2 & _); [reflexivity|discriminate|]. exact H2.
  - destruct (accepted_strings_table false ffs_data_new
                (strings_blob 1033 [[x61; x62]; [x63]])) as [H _].
    destruct (H eq_refl) as [Hacc _]. apply Hacc.
    split; [vm_compute; discriminate|].
    split; [reflexivity|]. split; [reflexivity|].
    split; intros E; vm_compute in E; discriminate E.
Defined.

(** ** Asynchronous calls on an endpoint file *)

Module EpfileAioFacts.
Import Epfile.

Lemma aio_post_unqueued env ret acts :
  existsb sync_only_action acts = false ->
  ~ queued acts -> ret <> - EIOCBQUEUED ->
  aio_post env ret acts.
Proof.
  intros Hs Hq Hr. split; [exact Hs|]. split; intros H; contradiction.
Qed.

Lemma not_queued_app acts a :
  ~ queued acts -> (forall m, a <> Usb_ep_queue m) -> ~ queued (acts ++ [a]).
Proof.
  intros Hq Ha [m Hin]. apply in_app_or in Hin. destruct Hin as [Hin|[Hin|[]]].
  - apply Hq. exists m. exact Hin.
  - exact (Ha m Hin).
Qed.

Lemma fire_aio env st call ep0 acts0 :
  aio call = true ->
  existsb sync_only_action acts0 = false ->
  ~ queued acts0 ->
  exists ret acts,
    ffs_epfile_io_fire env st call ep0 acts0 = inl (Io_return ret, st, acts) /\
    aio_post env ret acts.
Proof.
  intros Ha Hs Hq. unfold ffs_epfile_io_fire. rewrite Ha.
  assert (Hs1 : forall a, sync_only_action a = false ->
                          existsb sync_only_action (acts0 ++ [a]) = false).
  { intros a Hsa. rewrite existsb_app, Hs. cbn. now rewrite Hsa. }
  unfold ffs_mutex_lock.
  repeat match goal with
         | |- context [if ?c then _ else _] =>
             let E := fresh "E" in destruct c eqn:E
         end;
    do 2 eexists; (split; [reflexivity|]);
    try (apply aio_post_unqueued;
         [ first [exact Hs | apply Hs1; reflexivity | rewrite app_nil_r; exact Hs]
         | first [exact Hq | apply not_queued_app; [exact Hq|discriminate]
                 | rewrite app_nil_r; exact Hq]
         | unfold EINVAL, ESHUTDOWN, ENOMEM, EFAULT, EAGAIN, EINTR, EBADMSG,
             EIOCBQUEUED; lia ]).
  all: split; [apply Hs1; reflexivity|].
  all: split;
    [ intros _
    | intros _; eexists; apply in_or_app; right; left; reflexivity ].
  all: match goal with
       | E : negb (_ =? 0) = true |- _ =>
           apply negb_true_iff in E; rewrite E; reflexivity
       | E : negb (_ =? 0) = false |- _ =>
           apply negb_false_iff in E; rewrite E; reflexivity
       end.
Qed.

Lemma wait_event_ret wakeups ret e :
  wait_event_interruptible wakeups = Some (ret, e) ->
  ret = 0 \/ ret = - ERESTARTSYS.
Proof.
  induction wakeups as [|w ws IH]; [discriminate|].
  cbn [wait_event_interruptible].
  destruct (ep (wk_epfile w)); [intros H; inversion H; auto|].
  destruct (wk_signal w); [intros H; inversion H; auto|exact IH].
Qed.

(** One pass of an asynchronous call. *)
Lemma pass_aio env st call :
  aio call = true ->
  exists out st1 acts,
    ffs_epfile_io_pass env st call = inl (out, st1, acts) /\
    is_busy st1 = is_busy st /\
    first_read_done st1 = first_read_done st /\
    existsb sync_only_action acts = false /\
    (queued acts ->
     out = Io_return (if usb_ep_queue_ret env =? 0 then - EIOCBQUEUED
                      else usb_ep_queue_ret env)) /\
    (out = Io_return (- EIOCBQUEUED) -> queued acts).
Proof.
  intros Ha. unfold ffs_epfile_io_pass.
  assert (Hnil : ~ queued []) by (intros [m []]).
  assert (Hsl : ~ queued [Sleep_on_epfile_wait]).
  { intros [m [H|[]]]. discriminate. }
  assert (Hleaf : forall z st1 acts,
             z <> - EIOCBQUEUED -> ~ queued acts ->
             existsb sync_only_action acts = false ->
             is_busy st1 = is_busy st ->
             first_read_done st1 = first_read_done st ->
             exists out st2 acts2,
               @inl io_result (io_state * list io_action)
                 (Io_return z, st1, acts)
               = inl (out, st2, acts2) /\
               is_busy st2 = is_busy st /\
               first_read_done st2 = first_read_done st /\
               existsb sync_only_action acts2 = false /\
               (queued acts2 ->
                out = Io_return (if usb_ep_queue_ret env =? 0
                                 then - EIOCBQUEUED
                                 else usb_ep_queue_ret env)) /\
               (out = Io_return (- EIOCBQUEUED) -> queued acts2)).
  { intros z st1 acts Hz Hq Hs Hb Hf. do 3 eexists.
    split; [reflexivity|]. split; [exact Hb|]. split; [exact Hf|].
    split; [exact Hs|]. split; [intros H; contradiction|].
    intros H. inversion H. contradiction. }
  assert (Hfire : forall st1 ep0 acts0,
             existsb sync_only_action acts0 = false -> ~ queued acts0 ->
             is_busy st1 = is_busy st ->
             first_read_done st1 = first_read_done st ->
             exists out st2 acts2,
               ffs_epfile_io_fire env st1 call ep0 acts0
               = inl (out, st2, acts2) /\
               is_busy st2 = is_busy st /\
               first_read_done st2 = first_read_done st /\
               existsb sync_only_action acts2 = false /\
               (queued acts2 ->
                out = Io_return (if usb_ep_queue_ret env =? 0
                                 then - EIOCBQUEUED
                                 else usb_ep_queue_ret env)) /\
               (out = Io_return (- EIOCBQUEUED) -> queued acts2)).
  { intros st1 ep0 acts0 Hs Hq Hb Hf.
    destruct (fire_aio env st1 call ep0 acts0 Ha Hs Hq)
      as (ret & acts & Heq & Hs2 & Hq2 & Hr2).
    exists (Io_return ret), st1, acts.
    split; [exact Heq|]. split; [exact Hb|]. split; [exact Hf|].
    split; [exact Hs2|]. split.
    - intros H. rewrite (Hq2 H). reflexivity.
    - intros H. inversion H. auto. }
  destruct (error (epfile st)).
  { apply Hleaf; try reflexivity; try assumption.
    unfold ENODEV, EIOCBQUEUED; lia. }
  destruct (ffs_active env); cbn [negb].
  2:{ apply Hleaf; try reflexivity; try assumption.
      unfold ENODEV, EIOCBQUEUED; lia. }
  destruct (ep (epfile st)) as [ep0|].
  { apply Hfire; try reflexivity; assumption. }
  destruct (nonblock call).
  { apply Hleaf; try reflexivity; try assumption.
    unfold EAGAIN, EIOCBQUEUED; lia. }
  destruct (read call); cbn [negb].
  2:{ apply Hleaf; try reflexivity; try assumption.
      unfold EINTR, EIOCBQUEUED; lia. }
  destruct (error_at_wait env); cbn [negb].
  { apply Hleaf; try reflexivity; try assumption.
    unfold ENODEV, EIOCBQUEUED; lia. }
  destruct (wait_event_interruptible (wakeups env)) as [[ret e]|] eqn:Ew.
  2:{ do 3 eexists. split; [reflexivity|].
      repeat split; try reflexivity.
      - intros H; contradiction.
      - intros H; discriminate. }
  apply wait_event_ret in Ew.
  destruct (ret <? 0) eqn:Er.
  { apply Hleaf; try reflexivity; try assumption.
    destruct Ew as [->| ->]; unfold ERESTARTSYS, EIOCBQUEUED; lia. }
  destruct (ep e) as [ep0|].
  { apply Hfire; try reflexivity; assumption. }
  apply Hleaf; try reflexivity; try assumption.
  unfold ENODEV, EIOCBQUEUED; lia.
Qed.

(** X26.  An asynchronous call ([io_data->aio]) never waits for its
    transfer: whatever the later passes would meet, it is over after one
    pass through [ffs_epfile_io]; it never takes a request back from the
    endpoint and never copies to the caller, and it leaves [is_busy] and
    [first_read_done] alone.  It returns [-EIOCBQUEUED] only after it has
    handed its request to [usb_ep_queue]; and once it has, the call returns
    [-EIOCBQUEUED] when the controller has taken the request (result [0])
    and the controller's own result when it refuses the request. *)
Theorem aio_returns_once_queued (env : io_env) (envs : list io_env)
    (st : io_state) (call : io_call) :
  aio call = true ->
  ffs_epfile_io true (env :: envs) st call = ffs_epfile_io true [env] st call /\
  exists out st1 acts,
    ffs_epfile_io true (env :: envs) st call = (out, st1, acts) /\
    is_busy st1 = is_busy st /\
    first_read_done st1 = first_read_done st /\
    existsb sync_only_action acts = false /\
    (queued acts ->
     out = Io_return (if usb_ep_queue_ret env =? 0 then - EIOCBQUEUED
                      else usb_ep_queue_ret env)) /\
    (out = Io_return (- EIOCBQUEUED) -> queued acts).
Proof.
  intros Ha. unfold ffs_epfile_io. cbn [negb ffs_epfile_io_retry].
  destruct (pass_aio env st call Ha)
    as (out & st1 & acts & Hp & Hb & Hf & Hs & Hq & Hr).
  rewrite Hp. cbn [app]. split; [reflexivity|].
  exists out, st1, acts. repeat split; assumption.
Qed.

Lemma aio_returns_once_queued_witness :
  ffs_epfile_io true
    [io_env_quiet (fun n => n) 64 []; io_env_quiet (fun n => n) 0 []]
    epfile_out_enabled (aio_read 64)
  = ffs_epfile_io true [io_env_quiet (fun n => n) 64 []]
      epfile_out_enabled (aio_read 64).
Proof.
  exact (proj1 (aio_returns_once_queued (io_env_quiet (fun n => n) 64 [])
                  [io_env_quiet (fun n => n) 0 []]
                  epfile_out_enabled (aio_read 64) eq_refl)).
Defined.
End EpfileAioFacts.

(** ** Selecting the interface *)

Module SelectFacts.
Import Epfile Session Select.




Section Select.
Variables (env : enable_env) (func0 : ffs_function) (s : ffs_session).
Variables (l : list epfile_node) (interface alt : N).
Hypothesis active : state (data s) = FFS_ACTIVE.
Hypothesis unselected : func s = None.
Hypothesis files : epfiles s = Some l.
Hypothesis files_count : length l = length (eps func0).
Hypothesis eps_counted :
  eps_count (data s) = N.of_nat (length (eps func0)).
Hypothesis eps_range : (1 <= eps_count (data s) < 2 ^ 32)%N.
Hypothesis select : alt <> (2 ^ 32 - 1)%N.
Hypothesis known :
  0 <= ffs_func_revmap_intf func0 (data s) (to_u8 interface).


End Select.

End SelectFacts.

(** ** C10 *)

(** An accepted descriptor moves the endpoint counter of the helper by one
    when it is an endpoint descriptor and not at all otherwise, and never
    past fourteen. *)
Lemma single_desc_counts_endpoint data h f :
  (helper_eps_count h <= 14)%N ->
  0 <= fst (ffs_do_single_desc __ffs_data_do_entity data (h, f)) ->
  let h' := fst (snd (ffs_do_single_desc __ffs_data_do_entity data (h, f))) in
  helper_eps_count h'
  = (helper_eps_count h
     + (if (byte_at data 1 =? USB_DT_ENDPOINT)%N then 1 else 0))%N /\
  (helper_eps_count h' <= 14)%N.
Proof.
  intros He. unfold ffs_do_single_desc, __entity, __ffs_data_do_entity.
  rewrite (N.mod_small (helper_eps_count h + 1)) by lia. cbv zeta.
  assert (Hneg : ~ 0 <= - EINVAL) by (unfold EINVAL; lia).
  destruct (N.eqb_spec (byte_at data 1) USB_DT_ENDPOINT) as [Et|Et].
  - rewrite Et.
    cbn [N.eqb Pos.eqb orb USB_DT_DEVICE USB_DT_CONFIG USB_DT_STRING
           USB_DT_DEVICE_QUALIFIER USB_DT_INTERFACE USB_DT_ENDPOINT].
    break_ifs; cbn [fst snd helper_eps_count Z.ltb Z.compare] in *;
      try discriminate; intros H; try contradiction;
      repeat match goal with
             | E : (_ <=? _)%N = false |- _ => apply N.leb_gt in E
             end;
      lia.
  - unfold USB_DT_ENDPOINT in Et.
    break_ifs; cbn [fst snd helper_eps_count Z.ltb Z.compare] in *;
      try discriminate; intros H; try contradiction;
      repeat match goal with
             | E : (_ =? _)%N = true |- _ => apply N.eqb_eq in E
             end;
      try (exfalso; unfold USB_DT_ENDPOINT in *; congruence);
      lia.
Qed.

(** A walk that has fifteen endpoint descriptors before it, counted and
    to come, fails. *)
Lemma do_descs_loop_fifteen fuel :
  forall count num data consumed h f,
    (helper_eps_count h <= 14)%N ->
    (num <= count)%N ->
    (15 <= N.to_nat (helper_eps_count h)
           + count_endpoints (N.to_nat (count - num)) data)%nat ->
    fst (ffs_do_descs_loop __ffs_data_do_entity fuel count num data consumed
           (h, f)) < 0.
Proof.
  induction fuel as [|fuel IH]; intros count num data consumed h f He Hn H15.
  { cbn. unfold EINVAL. lia. }
  cbn [ffs_do_descs_loop __ffs_data_do_entity]. cbn [Z.ltb Z.compare].
  destruct (N.eqb_spec num count) as [E|E].
  { subst num. rewrite N.sub_diag in H15. cbn in H15. lia. }
  pose proof (ffs_do_single_desc_ret __ffs_data_do_entity data (h, f)) as Hr.
  pose proof (single_desc_counts_endpoint data h f He) as Hc.
  destruct (ffs_do_single_desc __ffs_data_do_entity data (h, f))
    as [ret [h' f']].
  cbn [fst snd] in Hr, Hc.
  destruct (ret <? 0) eqn:Eret; [apply Z.ltb_lt in Eret; exact Eret|].
  apply Z.ltb_ge in Eret.
  destruct (Hr Eret) as [-> _]. destruct (Hc Eret) as [Hh' Hle'].
  rewrite N2Z.id.
  apply IH; [exact Hle'|lia|].
  replace (N.to_nat (count - num)) with (S (N.to_nat (count - (num + 1))))
    in H15 by lia.
  cbn [count_endpoints] in H15. rewrite Hh'.
  destruct (byte_at data 1 =? USB_DT_ENDPOINT)%N; lia.
Qed.

Lemma do_descs_fifteen f count data :
  (15 <= count_endpoints (N.to_nat count) data)%nat ->
  fst (ffs_do_descs __ffs_data_do_entity count data (mk_helper 0 0, f))
  = - EINVAL.
Proof.
  intros H.
  apply (ffs_do_descs_loop_einval __ffs_data_do_entity do_entity_einval).
  apply do_descs_loop_fifteen; cbn [helper_eps_count]; try lia.
  rewrite N.sub_0_r. cbn. exact H.
Qed.

(** An accepted walk has consumed its [count] descriptors. *)
Lemma do_descs_loop_consumed {P : Type} (entity : ffs_entity_callback P)
    fuel :
  forall count num data consumed p,
    (num <= count)%N ->
    0 <= fst (ffs_do_descs_loop entity fuel count num data consumed p) ->
    let ret := fst (ffs_do_descs_loop entity fuel count num data consumed p) in
    Z.of_N consumed <= ret /\
    advance (Z.to_N ret - consumed) data
    = skip_descs (N.to_nat (count - num)) data.
Proof.
  induction fuel as [|fuel IH]; intros count num data consumed p Hn.
  { cbn. unfold EINVAL. lia. }
  cbn [ffs_do_descs_loop].
  destruct (entity FFS_DESCRIPTOR num _ p) as [r p1].
  destruct (r <? 0) eqn:Er; [cbn [fst]; apply Z.ltb_lt in Er; lia|].
  destruct (N.eqb_spec num count) as [E|E].
  { subst num. intros _. cbv zeta. cbn [fst]. split; [apply Z.le_refl|].
    rewrite N.sub_diag, N2Z.id, N.sub_diag. reflexivity. }
  pose proof (ffs_do_single_desc_ret entity data p1) as Hr.
  destruct (ffs_do_single_desc entity data p1) as [ret2 p2].
  cbn [fst] in Hr.
  destruct (ret2 <? 0) eqn:E2; [cbn [fst]; apply Z.ltb_lt in E2; lia|].
  apply Z.ltb_ge in E2. destruct (Hr E2) as [-> [H3 Hlen]].
  rewrite N2Z.id. intros H.
  destruct (IH count (num + 1)%N (advance (byte_at data 0) data)
              (consumed + byte_at data 0)%N p2 ltac:(lia) H) as [Hle Hadv].
  cbv zeta in Hle, Hadv |- *. split; [lia|].
  replace (N.to_nat (count - num)) with (S (N.to_nat (count - (num + 1))))
    by lia.
  cbn [skip_descs]. rewrite <- Hadv.
  set (res := fst (ffs_do_descs_loop _ _ _ _ _ _ _)) in *.
  unfold advance. rewrite skipn_skipn. f_equal. lia.
Qed.

Lemma do_descs_consumed {P : Type} (entity : ffs_entity_callback P)
    count data p :
  0 <= fst (ffs_do_descs entity count data p) ->
  advance (Z.to_N (fst (ffs_do_descs entity count data p))) data
  = skip_descs (N.to_nat count) data.
Proof.
  intros H. unfold ffs_do_descs in *.
  destruct (do_descs_loop_consumed entity (S (length data)) count 0 data 0 p
              ltac:(lia) H) as [_ Hadv].
  rewrite !N.sub_0_r in Hadv. exact Hadv.
Qed.

(** The tier loop refuses every list of tiers one of which holds fifteen
    endpoint descriptors. *)
Lemma read_descs_fifteen counts :
  forall data f,
    Exists (fun n => (15 <= n)%nat) (tiers_endpoints counts data) ->
    fst (fst (read_descs counts data f)) = - EINVAL.
Proof.
  intros data f H. apply read_descs_einval. revert data f H.
  induction counts as [|c counts IH]; intros data f H;
    cbn [tiers_endpoints] in H; [inversion H|].
  cbn [read_descs].
  destruct (N.eqb_spec c 0) as [E|E].
  { subst c. cbn [N.to_nat count_endpoints skip_descs] in H.
    inversion H as [? ? H0|? ? H0]; subst; [lia|]. apply IH, H0. }
  pose proof (do_descs_fifteen f c data) as H15.
  pose proof (do_descs_consumed __ffs_data_do_entity c data (mk_helper 0 0, f))
    as Hadv.
  destruct (ffs_do_descs __ffs_data_do_entity c data (mk_helper 0 0, f))
    as [ret [h f1]].
  cbn [fst] in H15, Hadv.
  destruct (ret <? 0) eqn:Er; [cbn [fst]; apply Z.ltb_lt in Er; exact Er|].
  apply Z.ltb_ge in Er.
  inversion H as [? ? H0|? ? H0]; subst.
  { rewrite (H15 H0) in Er. unfold EINVAL in Er. lia. }
  rewrite (Hadv Er).
  destruct (_ && _); [apply IH, H0|].
  destruct (negb _); [cbn; unfold EINVAL; lia|].
  destruct (negb _); [cbn; unfold EINVAL; lia|].
  apply IH, H0.
Qed.

Lemma read_counts_length flags bits data cs d :
  read_counts flags bits data = (true, cs, d) -> length cs = length bits.
Proof.
  revert data cs d.
  induction bits as [|b0 bits IH]; intros data cs d H; cbn [read_counts] in H.
  - inversion H. reflexivity.
  - destruct (N.land flags b0 =? 0)%N.
    + destruct (read_counts flags bits data) as [[ok cs'] d'] eqn:E.
      inversion H; subst. cbn [length]. f_equal. eapply IH, E.
    + destruct (blen data <? 4)%N; [discriminate|].
      destruct (read_counts flags bits (advance 4 data)) as [[ok cs'] d'] eqn:E.
      inversion H; subst. cbn [length]. f_equal. eapply IH, E.
Qed.

Lemma not_fifteen l :
  ~ Exists (fun n => (15 <= n)%nat) l -> Forall (fun n => (n <= 14)%nat) l.
Proof.
  intros H. apply Forall_Exists_neg in H.
  eapply Forall_impl; [|exact H]. cbv beta. intros n Hn. lia.
Qed.

(** The tiers of an accepted blob, as the session keeps them. *)
Lemma got_descs_body_tiers fdget f _data flags data :
  0 <= fst (got_descs_body fdget f _data flags data) ->
  let f' := snd (got_descs_body fdget f _data flags data) in
  Forall (fun n => (n <= 14)%nat)
    (tiers_endpoints [fs_descs_count f'; hs_descs_count f'; ss_descs_count f']
       (raw_descs f')).
Proof.
  unfold got_descs_body.
  set (st := if negb (N.land flags FUNCTIONFS_EVENTFD =? 0)%N
             then _ else _).
  destruct st as [[ret0 data0] f0].
  destruct (ret0 <? 0) eqn:E0; [apply Z.ltb_lt in E0; cbn; lia|].
  destruct (read_counts flags _ data0) as [[ok counts] data1] eqn:Ec.
  destruct ok; cbn [negb]; [|cbn; unfold EINVAL; lia].
  apply read_counts_length in Ec.
  destruct counts as [|c0 [|c1 [|c2 [|? ?]]]]; try discriminate Ec.
  destruct (_ && _); [cbn; unfold EINVAL; lia|].
  match goal with
  | |- context [read_descs ?cs ?d f0] =>
      pose proof (read_descs_fifteen cs d f0) as H15;
      destruct (read_descs cs d f0) as [[ret1 data2] f1]
  end.
  cbn [fst] in H15.
  destruct (ret1 <? 0) eqn:E1; [apply Z.ltb_lt in E1; cbn; lia|].
  apply Z.ltb_ge in E1.
  assert (Hno : ~ Exists (fun n => (15 <= n)%nat)
                    (tiers_endpoints [c0; c1; c2]
                       (if negb (N.land flags FUNCTIONFS_HAS_MS_OS_DESC =? 0)%N
                        then advance 4 data1 else data1))).
  { intros H. rewrite (H15 H) in E1. unfold EINVAL in E1. lia. }
  apply not_fifteen in Hno.
  set (st2 := if negb (_ =? 0)%N then _ else _).
  destruct st2 as [[ret2 data3] f2].
  destruct (ret2 <? 0) eqn:E2; [apply Z.ltb_lt in E2; cbn; lia|].
  destruct (_ || _); [cbn; unfold EINVAL; lia|].
  intros _. exact Hno.
Qed.

Lemma got_descs_tiers fdget f blob :
  fst (__ffs_data_got_descs fdget f blob) = 0 ->
  let f' := snd (__ffs_data_got_descs fdget f blob) in
  Forall (fun n => (n <= 14)%nat)
    (tiers_endpoints [fs_descs_count f'; hs_descs_count f'; ss_descs_count f']
       (raw_descs f')).
Proof.
  unfold __ffs_data_got_descs.
  destruct (negb _); [cbn; unfold EINVAL; lia|].
  destruct (_ =? FUNCTIONFS_DESCRIPTORS_MAGIC)%N.
  { intros H. apply got_descs_body_tiers. lia. }
  destruct (_ =? FUNCTIONFS_DESCRIPTORS_MAGIC_V2)%N;
    [|cbn; unfold EINVAL; lia].
  destruct (negb _); [cbn; unfold ENOSYS; lia|].
  intros H. apply got_descs_body_tiers. lia.
Qed.

Lemma advance_le32 n rest : advance 4 (le32 n ++ rest) = rest.
Proof. reflexivity. Qed.

Lemma blen_le32 n rest : blen (le32 n ++ rest) = (4 + blen rest)%N.
Proof. unfold blen. cbn [le32 bytes map app length]. lia. Qed.

(** A blob in the legacy format goes to the tier loop with its two
    counts. *)
Lemma legacy_blob_walk fdget f fs_count hs_count descs :
  (16 + blen descs < 2 ^ 32)%N ->
  (fs_count < 2 ^ 32)%N -> (hs_count < 2 ^ 32)%N ->
  fst (fst (read_descs [fs_count; hs_count; 0%N] descs f)) < 0 ->
  fst (__ffs_data_got_descs fdget f
         (legacy_descs_blob fs_count hs_count descs))
  = fst (fst (read_descs [fs_count; hs_count; 0%N] descs f)).
Proof.
  intros Hlen Hfs Hhs Hneg.
  unfold __ffs_data_got_descs, legacy_descs_blob.
  change (advance 8 (le32 FUNCTIONFS_DESCRIPTORS_MAGIC
                       ++ le32 (16 + blen descs)
                       ++ le32 fs_count ++ le32 hs_count ++ descs))
    with (le32 fs_count ++ le32 hs_count ++ descs).
  rewrite advance_le32.
  rewrite !get_unaligned_le32_le32 by (try assumption; cbn; lia).
  rewrite !blen_le32.
  destruct (N.eqb_spec (16 + blen descs) (4 + (4 + (4 + (4 + blen descs)))))
    as [_|E]; [|lia].
  cbn [negb]. rewrite N.eqb_refl.
  unfold got_descs_body.
  change (N.land (N.lor FUNCTIONFS_HAS_FS_DESC FUNCTIONFS_HAS_HS_DESC)
            FUNCTIONFS_EVENTFD =? 0)%N with true.
  cbn [negb Z.ltb Z.compare read_counts].
  change (N.land (N.lor FUNCTIONFS_HAS_FS_DESC FUNCTIONFS_HAS_HS_DESC)
            FUNCTIONFS_HAS_FS_DESC =? 0)%N with false.
  change (N.land (N.lor FUNCTIONFS_HAS_FS_DESC FUNCTIONFS_HAS_HS_DESC)
            FUNCTIONFS_HAS_HS_DESC =? 0)%N with false.
  change (N.land (N.lor FUNCTIONFS_HAS_FS_DESC FUNCTIONFS_HAS_HS_DESC)
            FUNCTIONFS_HAS_SS_DESC =? 0)%N with true.
  change (N.land (N.lor FUNCTIONFS_HAS_FS_DESC FUNCTIONFS_HAS_HS_DESC)
            FUNCTIONFS_HAS_MS_OS_DESC =? 0)%N with true.
  cbv iota.
  rewrite blen_le32.
  destruct (N.ltb_spec (4 + blen (le32 hs_count ++ descs)) 4) as [E|_]; [lia|].
  rewrite advance_le32, blen_le32.
  destruct (N.ltb_spec (4 + blen descs) 4) as [E|_]; [lia|].
  rewrite advance_le32.
  rewrite !get_unaligned_le32_le32 by assumption.
  cbn [negb andb].
  destruct (read_descs [fs_count; hs_count; 0%N] descs f)
    as [[ret data1] f1].
  cbn [fst] in Hneg |- *.
  destruct (Z.ltb_spec ret 0) as [_|E]; [reflexivity|lia].
Qed.

(** C10.  A tier that holds fifteen or more endpoint descriptors is
    refused with [-EINVAL], whatever the session holds and whatever else
    is in the tier.  [ffs_do_descs] with the driver's callback returns
    [-EINVAL] for such a tier; the tier loop of [__ffs_data_got_descs]
    returns [-EINVAL] when any of the tiers it is to walk is such a tier;
    [__ffs_data_got_descs] returns [-EINVAL] for every blob in the legacy
    format one of whose tiers is such a tier; and every blob that
    [__ffs_data_got_descs] accepts, in either format, has at most fourteen
    endpoint descriptors in each of the tiers the session keeps. *)
Theorem fifteenth_endpoint_rejected :
  (forall ffs count data,
      (15 <= count_endpoints (N.to_nat count) data)%nat ->
      fst (ffs_do_descs __ffs_data_do_entity count data (mk_helper 0 0, ffs))
      = - EINVAL) /\
  (forall counts data ffs,
      Exists (fun n => (15 <= n)%nat) (tiers_endpoints counts data) ->
      fst (fst (read_descs counts data ffs)) = - EINVAL) /\
  (forall fdget ffs fs_count hs_count descs,
      (16 + blen descs < 2 ^ 32)%N ->
      (fs_count < 2 ^ 32)%N -> (hs_count < 2 ^ 32)%N ->
      Exists (fun n => (15 <= n)%nat)
        (tiers_endpoints [fs_count; hs_count] descs) ->
      fst (__ffs_data_got_descs fdget ffs
             (legacy_descs_blob fs_count hs_count descs))
      = - EINVAL) /\
  (forall fdget ffs blob,
      fst (__ffs_data_got_descs fdget ffs blob) = 0 ->
      let ffs' := snd (__ffs_data_got_descs fdget ffs blob) in
      Forall (fun n => (n <= 14)%nat)
        (tiers_endpoints
           [fs_descs_count ffs'; hs_descs_count ffs'; ss_descs_count ffs']
           (raw_descs ffs'))).
Proof.
  split; [|split; [|split]].
  - intros ffs count data H. apply do_descs_fifteen, H.
  - intros counts data ffs H. apply read_descs_fifteen, H.
  - intros fdget ffs fs_count hs_count descs Hlen Hfs Hhs H.
    assert (H3 : Exists (fun n => (15 <= n)%nat)
                   (tiers_endpoints [fs_count; hs_count; 0%N] descs)).
    { cbn [tiers_endpoints] in *.
      inversion H as [? ? H0|? ? H0]; subst; [left; exact H0|].
      right. inversion H0 as [? ? H1|? ? H1]; subst; [left; exact H1|].
      inversion H1. }
    pose proof (read_descs_fifteen _ descs ffs H3) as Hr.
    rewrite legacy_blob_walk; try assumption.
    rewrite Hr. unfold EINVAL. lia.
  - intros fdget ffs blob H. apply got_descs_tiers, H.
Qed.

Lemma fifteenth_endpoint_rejected_witness :
  fst (ffs_do_descs __ffs_data_do_entity 16
         (interface_desc 0 0 ++ endpoint_descs 15)
         (mk_helper 0 0, ffs_data_new)) = - EINVAL /\
  fst (__ffs_data_got_descs (fun fd => fd) ffs_data_new
         (legacy_descs_blob 16 0 (interface_desc 0 0 ++ endpoint_descs 15)))
  = - EINVAL /\
  Forall (fun n => (n <= 14)%nat)
    (tiers_endpoints [15; 0; 0]%N (interface_desc 0 0 ++ endpoint_descs 14)).
Proof.
  destruct fifteenth_endpoint_rejected as (H1 & _ & H3 & H4).
  split; [|split].
  - apply H1. vm_compute. lia.
  - apply H3; try reflexivity. left. vm_compute. lia.
  - apply (H4 (fun fd => fd) ffs_data_new
             (legacy_descs_blob 15 0 (interface_desc 0 0 ++ endpoint_descs 14))).
    reflexivity.
Defined.
